(* ===== verification/_CoqProject ===== *)
-Q . S2P
Prelude.v
Progress.v
JsString.v
JsValue.v
Effects.v
Base64.v
Fence.v
Hash.v
Voice.v
Retry.v
Images.v
Generate.v
Legacy.v
Endpoints.v
Server3.v
Routes.v
Protocol.v
Contract.v
Browser.v
View.v
Client.v
Session.v
Wire.v
Playback.v
