(* ===== verification/Prelude.v ===== *)
(** * Vocalise-AI: a verification development for the server and the page

    ** The program

    Vocalise-AI turns a spoken product idea into marketing assets.  The
    browser client ([src/frontend/src/App.jsx]) records a transcript and posts
    it to an Express server ([src/backend/server.js]); the server asks a text
    model for a brand identity, asks for two images, asks a speech service for
    a voice-over of the slogan, and answers with one JSON object.  The file
    [src/backend/server3.js] is a cut-down draft of the same server.

    Everything the server computes itself is string repair, dynamic property
    access on parsed JSON, selection from a catalogue, and a nest of
    [try]/[catch] blocks that decides which failure is fatal (a 500 answer) and
    which is absorbed (a 200 answer with a missing part).  The page is a
    React component: a dozen hooks, handlers that set them, timers, one
    interval, and two requests whose answers it shows.  The development
    models both, and what happens when the one talks to the other.

    ** Files, in dependency order

    - [Prelude] (this file): the tactics and the hint databases [js] and
      [js_rw] shared by all files, and generic list scanning
      ([drop_while], [take_while], [drop_while_end], [starts_with],
      [contains]) with their specifications.
    - [Progress]: event systems in general: runs, [unless] and [ensures],
      termination by a measure.
    - [JsString]: the JavaScript string methods the sources call ([trim],
      [toLowerCase], [includes], [endsWith], [replace(/\s/g,'')]) on Rocq
      strings, and the characters of a printed integer.
    - [JsValue]: JavaScript values as parsed JSON gives them ([JsVal]), property
      access and destructuring with their [TypeError] on [null]/[undefined],
      truthiness, template literals ([template], with the [TypeError] of a
      value that does not print, and [to_string], the text of one that
      does), JavaScript errors ([JsErr]) and the HTTP answer ([Response]).
    - [Effects]: the world the handlers run in.  [World] holds one script of
      replies per remote service, the clock, the log of remote calls made and
      the answers sent.  [M A := World -> Outcome A * World] is a state and
      exception monad; [try_catch] is JavaScript's [try]/[catch].
    - [Base64]: [Buffer.from(data).toString('base64')] and the decoding of
      the result, after RFC 4648.
    - [Fence]: the structured-output repair of server.js lines 549-551
      ([trim], then [replace(/```json\s*|\s*```/g, '')], then [trim]).
    - [Hash]: [generateUniqueHash] (server.js 474-483) on 32-bit integers,
      and [generateUniqueSeed] (38-42).
    - [Voice]: the voice stage of the handler: catalogue check, personality
      category, voice selection, the two synthesis requests and the
      classification of the final error.
    - [Retry]: the retry policy of the voice stage as the state machine of
      the specification, and the proof that the stage implements it.
    - [Images]: [generateUniqueImagesWithGemini] (server.js 382-471) and the
      [generateImageWithDallE] it calls (356-379).
    - [Generate]: the handler of [POST /api/generate] (server.js 520-794)
      composed from the stages above, and its theorems.
    - [Legacy]: the earlier pipeline of server.js: the class [AIService]
      (45-126), the handler that takes [{brandName, brandInfo, imageType}]
      (129-172), the test route (175-187), and the second draft of the same
      handler with its helper functions (204-222, 251-333) and the first
      declaration of [generateImageWithDallE] (225-248).
    - [Endpoints]: [GET /health] (486-488), [GET /api/check-elevenlabs]
      (491-517) and [POST /api/generate-visual-concept] (797-870).
    - [Server3]: the class [AIService] of server3.js (29-110, the text of
      server.js 45-126) and its three handlers (113-187).
    - [Routes]: the route tables of server.js and of server3.js in
      registration order and the search Express makes in them, with its
      default comparison of paths.
    - [Protocol]: the order of the remote calls: protocols as finite sets of
      sequences of services, a logic that derives the protocol of a
      computation from its structure, and the protocols of the handlers.
    - [Contract]: the sets of answers the handlers of lines 520 and 797 can
      send, which is what the page may rely on, and the proofs that the
      handlers keep them.
    - [Browser]: the state of the page: the hooks of App.jsx lines 12-54 as
      records with their setters, the storage, and the event loop (clock,
      timers, intervals, requests in flight).
    - [View]: what [App] returns (App.jsx 215-233 and 369-714) as a function
      of the state, with the exceptions a render can throw.
    - [Client]: every handler and effect of App.jsx as a function on the
      state, the events of the page with their enabling conditions, and the
      reachable states.  config.js is [Client.apiUrl].
    - [Session]: the invariants of the reachable states, and the liveness
      and the duration of the loading flag.
    - [Wire]: the page and the server composed through JSON and axios: a
      click on the generate button or on the concept button followed by the
      answer of the server.
    - [Playback]: the audio from the speech service to the audio element of
      the page.

    ** How the model corresponds to the code

    - Strings.  A JavaScript string is a Rocq [string]; a character stands
      for a UTF-16 code unit below 256, so the model covers Latin-1 text.  On
      that domain [\s] and [trim] see exactly the seven characters of
      [JsString.is_space], and [toLowerCase] maps A-Z and the upper-case
      Latin-1 letters.
    - Numbers.  The only numbers the server computes with are HTTP statuses,
      lengths and [Date.now()] readings, all integers; [JNum] holds a [Z] and
      prints in decimal, which is JavaScript's [ToString] for integers below
      [10^21].  Voice settings are literals and are kept as rationals.
    - Remote services.  Each call to a remote service pops the next reply of
      that service's script in the [World] and appends the request to the
      log; an exhausted script behaves as an unreachable service.  Since a
      handler's requests are a function of the replies it has seen, quantifying
      over all scripts covers every behaviour of the services.
    - Library functions the sources only call ([JSON.parse], base64 encoding)
      are fields of the [Platform] record, a section variable of the
      handlers: theorems hold for every implementation of them.
      [Base64.node_platform] fills the base64 field with the encoding of
      RFC 4648, and [Playback] is proved for it.  The digest of
      [generateUniqueSeed] is a variable of its section.
    - Exceptions.  [Outcome] is [Ok] or [Throw]; a [throw], a failed remote
      call, a property access on [undefined], a method call on a value that
      has no such method, a template literal on a value that does not print
      and a reference to an unbound identifier all produce [Throw], and
      only [try_catch] removes it.  The messages are those of V8.
    - Template literals.  A value of parsed JSON prints unless it is, or
      holds in an array, an object with a field [toString] of its own,
      which is not a function: [`${v}`] then throws a [TypeError]
      ([JsValue.printable]).  Every template literal of the sources on a
      value that comes from a request or from a reply is a
      [JsValue.template] or a [JsValue.interpolate], in the position it has
      in the text: server.js lines 48-49, 62, 145-146, 206-207, 220,
      269-270, 390-392, 407-409, 435, 530, 537, 617, 623, 808 and 830-832,
      server3.js lines 32-33, 46 and 152-153, App.jsx lines 290, 345-350
      and 569.  The other template literals print strings and numbers the
      program made itself.
    - Logging.  [console.log] and [console.error] are left out where their
      arguments cannot throw.  The logged template literals above can, and
      are modelled as the guard [JsValue.interpolate]; server.js line 448
      evaluates [i + 1] inside the logged template, and [i] is bound
      nowhere, so that line is modelled as the [ReferenceError] it raises.
    - The page.  A state of the page is a [Browser.Browser]: the values of
      the hooks, the storage and the event loop.  A handler is a function on
      it; the batching of state updates by React is not visible in the
      states between events and is not modelled.  An [async] handler is two
      functions: the part before its [await], which leaves a [Request] in
      [pending], and [Client.settle], the [try] or [catch] block and the
      [finally] block, which runs when the request ends.  A callback given
      to [setTimeout] is a [Browser.Task]; the closure of [setInterval]
      keeps its variable [step] in the entry of the interval.  Time is the
      event [Wait]; a timer or interval may run late, never early.
      [Client.enabled] is read off the render: an event of an element needs
      the element on the page and not disabled.  The numbers of the page
      (the progress in percent, positions) are rationals; on the five values
      the progress takes, floating point computes the same numbers.
    - The transport.  [Wire.jsonify] is the effect of [JSON.stringify]
      followed by [JSON.parse] on a value, [Wire.axios_settle] the rule by
      which axios resolves or rejects on the status, [Routes.dispatch] the
      search of Express for a route.  All three are written from the
      documented behaviour of the libraries, not from code of the
      repository.

    ** Reading of the damaged region of server.js

    server.js is a concatenation of drafts and does not parse as it stands:
    lines 341-353 and 641-662 are tails of statements whose heads are missing.
    The model reads the voice stage as the text that is complete: the request
    of lines 621-640 is the primary synthesis call, it is guarded by the
    [catch (elevenlabsError)] of line 681, and lines 664-679 consume its
    response (the name [elevenlabsResponse] is taken to be that response).
    The identifier [voices] of line 697 has no binding in the file; the model
    is parametric in it ([Voice.ModuleScope]), and [Voice.server_js_scope] is
    the file as it stands (no binding).  Since the file does not parse, Node
    registers none of its routes: what the development calls the behaviour
    of server.js is the behaviour of the file with the two damaged regions
    read in this way, and [Routes.server_js_routes] is the table of the
    seven registrations of that file.

    ** What is proved

    Per component: the functional behaviour on every branch, errors included;
    for each handler: that every run sends exactly one answer, with which
    status, which failures give which status, and that the order of remote
    calls is fixed.  [Effects] carries three small logics that make these
    proofs compositional: [silent]/[settles]/[answers] (how many answers a
    computation sends), [returns] (what it returns or throws) and [preserves]
    (which part of the world it leaves alone).  [Generate.generate_composes]
    ties the stages together: after a parsed identity and the images, the
    handler is the voice stage.  [Voice.select_voice_refines] and
    [Hash.hash_loop_poly] relate the code to a reference definition.
    [Endpoints.check_elevenlabs_cases] compares the check of the speech
    service with its answers written out ([Endpoints.check_spec]).
    [Routes.userPrompt_rejected] shows what the duplicate registrations do:
    the handler of line 129 serves POST /api/generate, the pipeline of line
    520 is not reached.  The theorems about a run that passes a template
    literal assume that the values it prints are printable, which strings,
    numbers and objects without a field [toString] are;
    [Generate.generate_unprintable_prompt] and the [Throw] cases of
    [JsValue.template] are the other case.

    For the retry policy: [Retry.retry_step] is the machine the
    specification describes, [Attempting primary], [Attempting fallback],
    [Degraded], with the phase [Audio] for an attempt that succeeded.  The
    machine is deterministic and stops after at most two transitions (by a
    measure on the phases); [Retry.voice_stage_refines] shows that every run
    of the voice stage is a run of the machine on what the two attempts
    observe, with the answer of the final phase.  With the module scope of
    server.js the second observation is the [ReferenceError] of line 697.

    For the order of the calls: [Protocol.follows] is a fourth logic, on the
    log of remote calls.  Its rules give every handler a protocol, and
    [Protocol.generate_follows_protocol] is the protocol of the pipeline;
    that the text model comes first, that no image is asked for after the
    catalogue and that a request costs at most eight calls is read off the
    protocol by computation.  The protocol is exact
    ([Protocol.generate_protocol_exact]): for each of its sequences
    [Protocol.scenario] builds a request and a world whose run makes these
    calls and no other.

    For the encoding: [Base64.decode_encode] is the round trip of the
    encoding, by induction on the input three bytes at a time and linear
    arithmetic on the groups.

    For the page: [Session.invariant] holds in every reachable state (one
    request in flight exactly when the page loads, intervals owned by that
    request, progress and step within bounds, error and results apart), by
    induction on the events; while the page loads the answer to its request
    can arrive and every arrival lowers the loading flag
    ([Session.loading_ensures_idle], an [ensures] property of [Progress]),
    and as long as none arrives the page keeps loading with the same
    request in flight, whatever else happens and however much time passes
    ([Session.loading_until_answered]); the progress
    interval stops by itself ([Client.progress_interval_stops], by a
    measure) and has a closed form; the theme survives a reload; the visit
    is recorded at the first render, so that the effect which runs again
    when the window scrolls past the threshold schedules no second welcome
    tooltip ([Session.visit_invariant_reachable]); the timer of a
    notification hides whatever notification is shown when it fires
    ([Client.notification_cut_short]).

    For the two together: [Contract.generate_keeps_contract] is the type of
    the server's answers; [Wire.assets_answer_renders] shows that the page
    reads a 200 answer at that type; [Wire.pipeline_session_outcome] is the
    end-to-end behaviour of a click on the generate button with the
    pipeline, [Wire.registered_session_outcome] the same with the routes
    server.js would register ([Wire.server3_session_outcome] with those of
    server3.js), [Wire.download_assets_saved] the text of the file the
    download button saves, [Wire.concept_session_outcome] the click on
    the concept button, and [Wire.concept_answer_shown] says for which
    concepts the page can render the answer (those whose [colorPalette] is
    an array); [Playback.page_plays_what_was_sent] follows the
    audio from the reply of the speech service through base64, JSON and the
    [src] of the audio element.  The groups of theorems are described at the
    top of each file.

    The examples use small platforms ([Voice.test_platform],
    [Generate.sample_platform]) whose [JSON.parse] knows one text and whose
    base64 marks its argument; the theorems quantify over every platform,
    those of [Playback] over every [JSON.parse].

    ** Bounds and fuel

    No definition uses fuel: every loop of the modelled code is a traversal of
    a string or of a two-element array and is written by structural recursion.
    The 32-bit arithmetic of [Hash] is on [Z] with the wrap-around written out.
    The one repetition in time, the progress interval, is a function iterated
    by [Nat.iter]; that six iterations end it is a theorem.  The runs of the
    page are finite lists of events of any length.  The protocols of
    [Protocol] are finite because no handler loops over its input: the
    largest, the one of the pipeline, has the sequences of at most eight
    calls.

    ** Not modelled

    Static markup and style sheets of the page, the footer's year, the
    internals of React, of react-speech-recognition and of axios (modelled by
    their effect on the state only; what React does with a value it is
    given as an attribute, such as the [src] of an image, is among them),
    process start-up, CORS and body-parsing middleware, methods other than
    GET and POST, the error page Express sends with a 404 (its line of text
    is kept), the SHA-256 digest inside [generateUniqueSeed] (a variable of
    the model), and the internals of [JSON.parse], which is a parameter
    ([Effects.Platform]): the values of the model hold integers and Latin-1
    text, and a parser on them would refuse input that [JSON.parse]
    accepts.  A reply that holds a fraction or a character outside Latin-1
    is outside the model. *)

From Stdlib Require Import ZArith Lia List Bool Ascii String.
From stdpp Require Import base tactics option list strings.

(** ** Tactics *)

(** Case analysis on the first [if] or [match] scrutinee of the goal, keeping
    the equation. *)
Ltac case_scrut :=
  match goal with
  | |- context [if ?b then _ else _] => destruct b eqn:?
  | |- context [match ?x with _ => _ end] => destruct x eqn:?
  end.

(** The same, repeated, closing what computation closes. *)
Ltac case_all := repeat (simpl in *; try done; case_scrut); simpl in *; try done.

Create HintDb js discriminated.
Create Rewrite HintDb js_rw.

(** Characters of a string, and back. *)
Abbreviation chars := list_ascii_of_string.
Abbreviation unchars := string_of_list_ascii.

#[export] Hint Rewrite string_of_list_ascii_of_string
  list_ascii_of_string_of_list_ascii : js_rw.

(** The double quote as a string (a string literal of this development never
    holds one). *)
Definition dq : string := String "034" "".

(** ** Boolean tests over a list *)

Lemma forallb_Forall {A} (f : A -> bool) (l : list A) :
  forallb f l = true <-> Forall (fun x => f x = true) l.
Proof.
  induction l as [|x l IH]; simpl; [split; constructor|].
  by rewrite andb_true_iff, Forall_cons, IH.
Qed.

(** ** Scanning a list from either end *)

Section Scan.
Context {A : Type} (p : A -> bool).

(** The list without its longest prefix of elements that satisfy [p]. *)
Fixpoint drop_while (l : list A) : list A :=
  match l with
  | [] => []
  | x :: r => if p x then drop_while r else l
  end.

(** The longest prefix of elements that satisfy [p]. *)
Fixpoint take_while (l : list A) : list A :=
  match l with
  | [] => []
  | x :: r => if p x then x :: take_while r else []
  end.

(** The list without its longest suffix of elements that satisfy [p]. *)
Definition drop_while_end (l : list A) : list A :=
  rev (drop_while (rev l)).

Lemma take_drop_while l : take_while l ++ drop_while l = l.
Proof. induction l as [|x r IH]; simpl; [done|]. destruct (p x); simpl; congruence. Qed.

Lemma take_while_Forall l : Forall (fun x => p x = true) (take_while l).
Proof.
  induction l as [|x r IH]; simpl; [constructor|].
  destruct (p x) eqn:E; constructor; auto.
Qed.

Lemma drop_while_head l x r : drop_while l = x :: r -> p x = false.
Proof.
  induction l as [|y l IH]; simpl; [done|].
  destruct (p y) eqn:E; [auto|]. intros [= -> ->]. done.
Qed.

Lemma drop_while_all l : Forall (fun x => p x = true) l -> drop_while l = [].
Proof. induction 1 as [|x r Hx _ IH]; simpl; [done|]. by rewrite Hx. Qed.

Lemma drop_while_app_all l k :
  Forall (fun x => p x = true) l -> drop_while (l ++ k) = drop_while k.
Proof. induction 1 as [|x r Hx _ IH]; simpl; [done|]. by rewrite Hx. Qed.

Lemma drop_while_stop x r : p x = false -> drop_while (x :: r) = x :: r.
Proof. simpl. by intros ->. Qed.

Lemma drop_while_idemp l : drop_while (drop_while l) = drop_while l.
Proof.
  destruct (drop_while l) as [|x r] eqn:E; [done|].
  apply drop_while_stop. eapply drop_while_head; eauto.
Qed.

Lemma drop_while_suffix l : exists k, l = k ++ drop_while l.
Proof. exists (take_while l). symmetry. apply take_drop_while. Qed.

Lemma drop_while_length l : length (drop_while l) <= length l.
Proof. induction l as [|x r IH]; simpl; [lia|]. destruct (p x); simpl; lia. Qed.

(** Dropping from the front keeps a last element that does not satisfy [p]. *)
Lemma drop_while_snoc_stop l x :
  p x = false -> exists k, drop_while (l ++ [x]) = k ++ [x].
Proof.
  intros Hx. induction l as [|y l IH]; simpl.
  - rewrite Hx. by exists [].
  - destruct (p y); [done|]. by exists (y :: l).
Qed.

Lemma drop_while_end_snoc_stop l x :
  p x = false -> drop_while_end (l ++ [x]) = l ++ [x].
Proof.
  intros Hx. unfold drop_while_end.
  rewrite rev_app_distr. simpl. rewrite Hx. simpl. by rewrite rev_involutive.
Qed.

Lemma drop_while_end_snoc_go l x :
  p x = true -> drop_while_end (l ++ [x]) = drop_while_end l.
Proof.
  intros Hx. unfold drop_while_end.
  rewrite rev_app_distr. simpl. by rewrite Hx.
Qed.

Lemma drop_while_end_nil : drop_while_end [] = [].
Proof. done. Qed.

Lemma drop_while_end_app_all l k :
  Forall (fun x => p x = true) k -> drop_while_end (l ++ k) = drop_while_end l.
Proof.
  intros Hk. unfold drop_while_end. rewrite rev_app_distr.
  rewrite drop_while_app_all; [done|]. by apply Forall_rev.
Qed.

Lemma drop_while_end_idemp l : drop_while_end (drop_while_end l) = drop_while_end l.
Proof.
  unfold drop_while_end. by rewrite rev_involutive, drop_while_idemp.
Qed.

Lemma drop_while_end_length l : length (drop_while_end l) <= length l.
Proof.
  unfold drop_while_end. rewrite length_rev.
  etransitivity; [apply drop_while_length|]. by rewrite length_rev.
Qed.

(** Dropping from the end does not disturb what dropping from the front left:
    the head of the result still fails [p]. *)
Lemma drop_while_end_cons_stop x r :
  p x = false -> exists k, drop_while_end (x :: r) = x :: k.
Proof.
  intros Hx. induction r as [|y r IH] using rev_ind.
  - exists []. apply (drop_while_end_snoc_stop []). done.
  - destruct (p y) eqn:Hy.
    + rewrite app_comm_cons, drop_while_end_snoc_go; done.
    + exists (r ++ [y]). rewrite app_comm_cons. by apply drop_while_end_snoc_stop.
Qed.

(** Dropping from the end stops at the last element that fails [p]. *)
Lemma drop_while_end_app_stop a x b :
  p x = false -> drop_while_end (a ++ x :: b) = a ++ drop_while_end (x :: b).
Proof.
  intros Hx. induction b as [|y b IH] using rev_ind.
  - rewrite (drop_while_end_snoc_stop a x Hx).
    pose proof (drop_while_end_snoc_stop [] x Hx) as H0. simpl in H0. by rewrite H0.
  - destruct (p y) eqn:Hy.
    + rewrite !app_comm_cons, app_assoc, !drop_while_end_snoc_go by done. done.
    + rewrite !app_comm_cons, app_assoc, !drop_while_end_snoc_stop by done.
      by rewrite <- app_assoc.
Qed.

Lemma drop_while_end_all l : Forall (fun x => p x = true) l -> drop_while_end l = [].
Proof.
  intros Hl. unfold drop_while_end. rewrite drop_while_all; [done|]. by apply Forall_rev.
Qed.

(** Either every element satisfies [p], or the list splits at the first one
    that does not. *)
Lemma split_first_stop l :
  Forall (fun x => p x = true) l \/
  exists a x b, l = a ++ x :: b /\ Forall (fun x => p x = true) a /\ p x = false.
Proof.
  induction l as [|y l [IH | (a & x & b & -> & Ha & Hx)]].
  - left. constructor.
  - destruct (p y) eqn:Hy; [left; by constructor|].
    right. exists [], y, l. split_and!; [done|constructor|done].
  - destruct (p y) eqn:Hy.
    + right. exists (y :: a), x, b. split_and!; [done|by constructor|done].
    + right. exists [], y, (a ++ x :: b). split_and!; [done|constructor|done].
Qed.

(** The two ends can be dropped in either order. *)
Lemma drop_while_end_comm l :
  drop_while (drop_while_end l) = drop_while_end (drop_while l).
Proof.
  destruct (split_first_stop l) as [Hl | (a & x & b & -> & Ha & Hx)].
  - by rewrite drop_while_end_all, (drop_while_all l Hl).
  - rewrite drop_while_end_app_stop, !drop_while_app_all by done.
    rewrite (drop_while_stop x b Hx).
    destruct (drop_while_end_cons_stop x b Hx) as [k ->]. by apply drop_while_stop.
Qed.

Lemma take_while_length_drop l : drop (length (take_while l)) l = drop_while l.
Proof.
  induction l as [|x l IH]; simpl; [done|]. destruct (p x); simpl; done.
Qed.

(** An element that fails [p] somewhere in the list protects its head. *)
Lemma drop_while_end_cons x l y :
  p y = false -> y ∈ x :: l -> drop_while_end (x :: l) = x :: drop_while_end l.
Proof.
  intros Hy. induction l as [|z l IH] using rev_ind; intros Hin.
  - apply list_elem_of_singleton in Hin as ->.
    pose proof (drop_while_end_snoc_stop [] x Hy) as H0. by simpl in H0.
  - destruct (p z) eqn:Hz.
    + rewrite app_comm_cons, !drop_while_end_snoc_go by done. apply IH.
      rewrite app_comm_cons in Hin. apply elem_of_app in Hin as [Hin | Hin]; [done|].
      apply list_elem_of_singleton in Hin as ->. congruence.
    + by rewrite app_comm_cons, !drop_while_end_snoc_stop.
Qed.

Lemma drop_while_end_prefix l : exists k, l = drop_while_end l ++ k.
Proof.
  unfold drop_while_end. destruct (drop_while_suffix (rev l)) as [k Hk].
  exists (rev k). apply (f_equal (@rev A)) in Hk.
  by rewrite rev_involutive, rev_app_distr in Hk.
Qed.

Lemma drop_while_drop_while_end l :
  drop_while (drop_while_end (drop_while l)) = drop_while_end (drop_while l).
Proof.
  destruct (drop_while l) as [|x r] eqn:E; [done|].
  apply drop_while_head in E.
  destruct (drop_while_end_cons_stop x r E) as [k ->].
  by apply drop_while_stop.
Qed.

End Scan.

(** ** Prefixes and infixes, as boolean tests *)

Section Infix.
Context {A : Type} `{EqDecision A}.

(** [pre] is a prefix of [l]. *)
Fixpoint starts_with (pre l : list A) : bool :=
  match pre, l with
  | [], _ => true
  | _ :: _, [] => false
  | a :: pre', b :: l' => bool_decide (a = b) && starts_with pre' l'
  end.

(** [sub] occurs in [l] as a contiguous block. *)
Fixpoint contains (sub l : list A) : bool :=
  starts_with sub l ||
  match l with
  | [] => false
  | _ :: r => contains sub r
  end.

(** [suf] is a suffix of [l]. *)
Definition ends_with (suf l : list A) : bool :=
  starts_with (rev suf) (rev l).

Lemma starts_with_spec pre l :
  starts_with pre l = true <-> exists k, l = pre ++ k.
Proof.
  revert l. induction pre as [|a pre IH]; intros l; simpl.
  - split; [by exists l | done].
  - destruct l as [|b l]; [split; [done | by intros [k ?]]|].
    rewrite andb_true_iff, bool_decide_eq_true, IH. split.
    + intros [-> [k ->]]. by exists k.
    + intros [k [= -> ->]]. eauto.
Qed.

Lemma starts_with_app pre k : starts_with pre (pre ++ k) = true.
Proof. apply starts_with_spec. by exists k. Qed.

Lemma starts_with_false_head a pre b l :
  a <> b -> starts_with (a :: pre) (b :: l) = false.
Proof. intros Hne. simpl. by rewrite bool_decide_eq_false_2. Qed.

Lemma contains_spec sub l :
  contains sub l = true <-> exists a b, l = a ++ sub ++ b.
Proof.
  induction l as [|x r IH]; simpl.
  - rewrite orb_false_r, starts_with_spec. split.
    + intros [k Hk]. by exists [], k.
    + intros (a & b & H). symmetry in H.
      apply app_eq_nil in H as [-> H]. apply app_eq_nil in H as [-> ->]. by exists [].
  - rewrite orb_true_iff, starts_with_spec, IH. split.
    + intros [[k ->] | (a & b & ->)]; [by exists [], k | by exists (x :: a), b].
    + intros ([|y a] & b & H); simpl in H.
      * left. by exists b.
      * right. injection H as -> ->. by exists a, b.
Qed.

Lemma contains_nil l : contains [] l = true.
Proof. by destruct l. Qed.

Lemma contains_app_l sub l k : contains sub l = true -> contains sub (l ++ k) = true.
Proof.
  rewrite !contains_spec. intros (a & b & ->).
  exists a, (b ++ k). by rewrite <- !app_assoc.
Qed.

Lemma contains_app_r sub l k : contains sub l = true -> contains sub (k ++ l) = true.
Proof.
  rewrite !contains_spec. intros (a & b & ->).
  exists (k ++ a), b. by rewrite <- !app_assoc.
Qed.

Lemma ends_with_spec suf l :
  ends_with suf l = true <-> exists k, l = k ++ suf.
Proof.
  unfold ends_with. rewrite starts_with_spec. split.
  - intros [k Hk]. exists (rev k).
    apply (f_equal (@rev A)) in Hk. by rewrite rev_involutive, rev_app_distr, rev_involutive in Hk.
  - intros [k ->]. exists (rev k). by rewrite rev_app_distr.
Qed.

End Infix.

#[export] Hint Resolve take_while_Forall starts_with_app contains_nil : js.
#[export] Hint Rewrite @drop_while_idemp @drop_while_end_idemp @take_drop_while : js_rw.
