(* ===== verification/Progress.v ===== *)
(** * Progress: runs, progress and termination of an event system

    A system of events is a test [enabled e s] and a function [handle e s]
    on states.  [run_of] runs a list of events, each of which has to be
    enabled when its turn comes.  [unless] and [ensures] are the two
    relations of UNITY between state predicates: [P] holds until [Q] does,
    and moreover an event that establishes [Q] can happen as long as [P]
    holds.  [ensures_run] reads [ensures] on runs, and [iter_measure] is
    termination of an iterated function by a measure.  The page of
    App.jsx is the system these are used for (Client.v, Session.v). *)

From Stdlib Require Import List Bool Arith Lia.
From stdpp Require Import base tactics option list.

(** ** Progress of an event system *)

Section Ensures.
Context {S E : Type} (enabled : E -> S -> bool) (handle : E -> S -> S).
Context (reach : S -> Prop).

(** [P] holds until [Q] does. *)
Definition unless (P Q : S -> Prop) : Prop :=
  forall e s, reach s -> P s -> enabled e s = true ->
    P (handle e s) \/ Q (handle e s).

(** [P] holds until [Q] does, and while [P] holds an event of [helpful] can
    happen, each of which establishes [Q]: a run in which the helpful events
    are not postponed for ever reaches [Q]. *)
Definition ensures (P Q : S -> Prop) (helpful : S -> E -> Prop) : Prop :=
  unless P Q /\
  forall s, reach s -> P s ->
    (exists e, helpful s e /\ enabled e s = true) /\
    (forall e, helpful s e -> enabled e s = true -> Q (handle e s)).

(** A sequence of events, each enabled when it happens. *)
Fixpoint run_of (events : list E) (s : S) : option S :=
  match events with
  | [] => Some s
  | e :: rest => if enabled e s then run_of rest (handle e s) else None
  end.

End Ensures.

Section EnsuresFacts.
Context {S E : Type} (enabled : E -> S -> bool) (handle : E -> S -> S).
Context (reach : S -> Prop).
Hypothesis reach_step : forall e s, reach s -> enabled e s = true -> reach (handle e s).

Lemma run_of_reach events : forall s s',
  reach s -> run_of enabled handle events s = Some s' -> reach s'.
Proof.
  induction events as [|e rest IH]; intros s s' Hs; simpl; [by intros [= <-]|].
  destruct (enabled e s) eqn:He; [|done]. apply IH. by apply reach_step.
Qed.

(** Along a run from a state of [P], either a state of [Q] is passed, or
    [P] still holds at the end and a helpful event is waiting there. *)
Lemma ensures_run P Q helpful :
  ensures enabled handle reach P Q helpful ->
  forall events s s', reach s -> P s -> run_of enabled handle events s = Some s' ->
    (exists k s'', run_of enabled handle (take k events) s = Some s'' /\ Q s'') \/
    (P s' /\ exists e, helpful s' e /\ enabled e s' = true).
Proof.
  intros [Hu Hh]. induction events as [|e rest IH]; intros s s' Hs HP; simpl.
  - intros [= <-]. right. split; [done|]. by apply Hh.
  - destruct (enabled e s) eqn:He; [|done]. intros Hrun.
    destruct (Hu e s Hs HP He) as [HP'|HQ].
    + destruct (IH _ _ (reach_step _ _ Hs He) HP' Hrun) as [(k & s'' & Hk & HQ)|?];
        [|by right].
      left. exists (Datatypes.S k), s''. simpl. by rewrite He.
    + left. exists 1%nat, (handle e s). simpl. rewrite He. by destruct rest.
Qed.

End EnsuresFacts.


(** ** Termination by a measure *)

(** A function that lowers a measure until it is zero, and keeps it zero,
    brings it to zero in as many applications as the measure counts. *)
Lemma iter_measure {A} (f : A -> A) (m : A -> nat) :
  (forall a, m (f a) < m a \/ (m a = 0 /\ m (f a) = 0)) ->
  forall n a, m a <= n -> m (Nat.iter n f a) = 0.
Proof.
  intros Hf. induction n as [|n IH]; intros a Ha; simpl; [lia|].
  rewrite <- Nat.iter_succ, Nat.iter_succ_r. apply IH.
  destruct (Hf a) as [?|[? ?]]; lia.
Qed.
