(* ===== verification/JsString.v ===== *)
(** * JsString: the JavaScript string methods the server calls

    A JavaScript string is a Rocq [string] whose characters stand for code
    units below 256.  Each method is defined on the list of characters
    ([chars]) and lifted to strings, so that the list lemmas of the prelude
    apply.  The theorems give each method's specification: [trim] removes
    exactly the white space at both ends and is idempotent, [includes] is
    the existence of an occurrence, [toLowerCase] is idempotent and
    distributes over concatenation, [removeSpaces] leaves no white space. *)

From Stdlib Require Import ZArith NArith Lia List Bool Ascii String.
From stdpp Require Import base tactics option list strings pretty.
From S2P Require Import Prelude.

(** ** Characters *)

(** The class [\s] of a JavaScript regular expression, which is also what
    [String.prototype.trim] removes, restricted to code units below 256: tab,
    line feed, vertical tab, form feed, carriage return, space and the
    no-break space. *)
Definition is_space (c : ascii) : bool :=
  match c with
  | "009" | "010" | "011" | "012" | "013" | " " | "160" => true
  | _ => false
  end%char.

(** [toLowerCase] on one code unit: A-Z and the Latin-1 capitals (192-222
    except the multiplication sign 215) move up by 32. *)
Definition lower_char (c : ascii) : ascii :=
  let n := N_of_ascii c in
  if ((65 <=? n) && (n <=? 90) ||
      (192 <=? n) && (n <=? 222) && negb (n =? 215))%N
  then ascii_of_N (n + 32)
  else c.

(** ** Methods *)

(** Lift a function on character lists to strings. *)
Definition on_chars (f : list ascii -> list ascii) (s : string) : string :=
  unchars (f (chars s)).

Definition trim_chars (l : list ascii) : list ascii :=
  drop_while_end is_space (drop_while is_space l).

(** [s.trim()] *)
Definition trim (s : string) : string := on_chars trim_chars s.

(** [s.toLowerCase()] *)
Definition toLowerCase (s : string) : string := on_chars (map lower_char) s.

(** [s.includes(sub)] *)
Definition includes (s sub : string) : bool := contains (chars sub) (chars s).

(** [s.endsWith(suf)] *)
Definition endsWith (s suf : string) : bool := ends_with (chars suf) (chars s).

(** [s.replace(/\s/g, '')] *)
Definition removeSpaces (s : string) : string :=
  on_chars (filter (fun c => is_space c = false)) s.

(** A line feed. *)
Definition newline : string := String "010" "".

(** [n] spaces. *)
Fixpoint spaces_of (n : nat) : string :=
  match n with
  | O => ""
  | S k => String " " (spaces_of k)
  end.

(** A template literal that spans several source lines: the first line as it
    is, every following line after a line feed and the [indent] spaces it has
    in the source file. *)
Definition template_lines (indent : nat) (lines : list string) : string :=
  match lines with
  | [] => ""
  | first :: rest =>
    first +:+ String.concat "" (map (fun l => newline +:+ spaces_of indent +:+ l) rest)
  end.

(** [s] between double quotes. *)
Definition quoted (s : string) : string := dq +:+ s +:+ dq.

(** The string has no white space at either end. *)
Definition trimmed (s : string) : Prop := trim s = s.

(** The characters of a printed integer. *)
Definition is_digit_or_dash (c : ascii) : bool :=
  bool_decide (c ∈ chars "0123456789-").

(** ** Characters and concatenation *)

Lemma app_cons c (a b : string) : String c a +:+ b = String c (a +:+ b).
Proof. reflexivity. Qed.

Lemma chars_app a b : chars (a +:+ b) = chars a ++ chars b.
Proof. induction a as [|c a IH]; [done|]. rewrite app_cons. simpl. by rewrite IH. Qed.

Lemma unchars_app a b : unchars (a ++ b) = unchars a +:+ unchars b.
Proof. induction a as [|c a IH]; simpl; [done|]. by rewrite app_cons, IH. Qed.

Lemma chars_inj a b : chars a = chars b -> a = b.
Proof.
  intros H. apply (f_equal unchars) in H.
  by rewrite !string_of_list_ascii_of_string in H.
Qed.

Lemma chars_length s : length (chars s) = String.length s.
Proof. induction s as [|c s IH]; simpl; [done|]. by rewrite IH. Qed.

Lemma app_empty_r (s : string) : s +:+ "" = s.
Proof. induction s as [|c s IH]; [done|]. by rewrite app_cons, IH. Qed.

Lemma app_assoc_s (a b c : string) : (a +:+ b) +:+ c = a +:+ b +:+ c.
Proof. induction a as [|x a IH]; [done|]. by rewrite !app_cons, IH. Qed.

Lemma string_app_inv_head (a b c : string) : a +:+ b = a +:+ c -> b = c.
Proof.
  intros H%(f_equal chars). rewrite !chars_app in H.
  by apply app_inv_head, chars_inj in H.
Qed.

Lemma string_app_inv_tail (a b c : string) : a +:+ c = b +:+ c -> a = b.
Proof.
  intros H%(f_equal chars). rewrite !chars_app in H.
  by apply app_inv_tail, chars_inj in H.
Qed.

Lemma on_chars_chars f s : chars (on_chars f s) = f (chars s).
Proof. unfold on_chars. by rewrite list_ascii_of_string_of_list_ascii. Qed.

Lemma on_chars_idemp f s :
  (forall l, f (f l) = f l) -> on_chars f (on_chars f s) = on_chars f s.
Proof. intros Hf. unfold on_chars at 1. by rewrite on_chars_chars, Hf. Qed.

#[export] Hint Rewrite chars_app unchars_app on_chars_chars app_empty_r : js_rw.

(** ** trim *)

Lemma trim_chars_idemp l : trim_chars (trim_chars l) = trim_chars l.
Proof.
  unfold trim_chars.
  by rewrite drop_while_drop_while_end, drop_while_end_idemp.
Qed.

Lemma trim_idemp s : trim (trim s) = trim s.
Proof. apply on_chars_idemp, trim_chars_idemp. Qed.

Lemma trim_trimmed s : trimmed (trim s).
Proof. apply trim_idemp. Qed.

(** What [trim] returns neither starts nor ends with white space. *)
Lemma trim_chars_head l c r : trim_chars l = c :: r -> is_space c = false.
Proof.
  unfold trim_chars. intros H.
  destruct (drop_while is_space l) as [|x k] eqn:E; [done|].
  pose proof (drop_while_head _ _ _ _ E) as Hx.
  destruct (drop_while_end_cons_stop is_space x k Hx) as [k' Hk'].
  rewrite Hk' in H. by injection H as <- _.
Qed.

Lemma drop_while_end_last (l r : list ascii) c :
  drop_while_end is_space l = r ++ [c] -> is_space c = false.
Proof.
  unfold drop_while_end. intros H.
  apply (f_equal (@rev ascii)) in H. rewrite rev_involutive, rev_app_distr in H.
  simpl in H. by apply drop_while_head in H.
Qed.

Lemma trim_chars_last l r c : trim_chars l = r ++ [c] -> is_space c = false.
Proof. apply drop_while_end_last. Qed.

(** White space around a string does not change its [trim]. *)
Lemma trim_chars_pad ws1 ws2 l :
  Forall (fun c => is_space c = true) ws1 ->
  Forall (fun c => is_space c = true) ws2 ->
  trim_chars (ws1 ++ l ++ ws2) = trim_chars l.
Proof.
  intros H1 H2. unfold trim_chars. rewrite drop_while_app_all by done.
  destruct (drop_while_suffix is_space l) as [k Hk].
  destruct (drop_while is_space l) as [|x r] eqn:E.
  - rewrite app_nil_r in Hk. subst k.
    assert (Forall (fun c => is_space c = true) l) as Hl.
    { rewrite <- (take_drop_while is_space l), E, app_nil_r. apply take_while_Forall. }
    rewrite drop_while_app_all, drop_while_all by done. done.
  - pose proof (drop_while_head _ _ _ _ E) as Hx.
    assert (Forall (fun c => is_space c = true) k) as Hk'.
    { assert (k = take_while is_space l) as ->; [|apply take_while_Forall].
      pose proof (take_drop_while is_space l) as Ht. rewrite E in Ht.
      rewrite Hk in Ht at 2. by apply app_inv_tail in Ht. }
    rewrite Hk at 1. rewrite <- app_assoc, drop_while_app_all by done.
    simpl. rewrite Hx. by rewrite (app_comm_cons r ws2 x), drop_while_end_app_all.
Qed.

(** A string that neither starts nor ends with white space is its own
    [trim]. *)
Lemma trim_chars_fixed c l d :
  is_space c = false -> is_space d = false ->
  trim_chars (c :: l ++ [d]) = c :: l ++ [d].
Proof.
  intros Hc Hd. unfold trim_chars. rewrite drop_while_stop by done.
  by rewrite app_comm_cons, drop_while_end_snoc_stop.
Qed.

Lemma trim_chars_single c : is_space c = false -> trim_chars [c] = [c].
Proof. intros Hc. unfold trim_chars, drop_while_end. simpl. rewrite Hc. simpl. by rewrite Hc. Qed.

Lemma trim_chars_length l : length (trim_chars l) <= length l.
Proof.
  unfold trim_chars. etransitivity; [apply drop_while_end_length|apply drop_while_length].
Qed.

(** ** includes *)

Lemma includes_spec s sub :
  includes s sub = true <-> exists a b, s = a +:+ sub +:+ b.
Proof.
  unfold includes. rewrite contains_spec. split.
  - intros (a & b & H). exists (unchars a), (unchars b).
    apply chars_inj. rewrite !chars_app, !list_ascii_of_string_of_list_ascii. done.
  - intros (a & b & ->). exists (chars a), (chars b). by rewrite !chars_app.
Qed.

Lemma includes_empty s : includes s "" = true.
Proof. unfold includes. apply contains_nil. Qed.

(** ** toLowerCase *)

Lemma lower_char_idemp c : lower_char (lower_char c) = lower_char c.
Proof. by destruct c as [[] [] [] [] [] [] [] []]. Qed.

Lemma toLowerCase_idemp s : toLowerCase (toLowerCase s) = toLowerCase s.
Proof.
  apply on_chars_idemp. intros l. rewrite map_map. apply map_ext, lower_char_idemp.
Qed.

Lemma toLowerCase_app a b : toLowerCase (a +:+ b) = toLowerCase a +:+ toLowerCase b.
Proof. unfold toLowerCase, on_chars. by rewrite chars_app, map_app, unchars_app. Qed.

Lemma toLowerCase_length s : String.length (toLowerCase s) = String.length s.
Proof.
  rewrite <- !chars_length. unfold toLowerCase. by rewrite on_chars_chars, length_map.
Qed.

(** A lower-case needle that occurs in the text occurs in its lower-casing. *)
Lemma includes_toLowerCase s sub :
  includes s sub = true -> includes (toLowerCase s) (toLowerCase sub) = true.
Proof.
  rewrite !includes_spec. intros (a & b & ->).
  exists (toLowerCase a), (toLowerCase b). by rewrite !toLowerCase_app.
Qed.

(** ** removeSpaces *)

Lemma removeSpaces_no_space s :
  Forall (fun c => is_space c = false) (chars (removeSpaces s)).
Proof.
  unfold removeSpaces. rewrite on_chars_chars. apply Forall_forall.
  intros c Hc. by apply list_elem_of_filter in Hc as [Hc _].
Qed.

Lemma removeSpaces_idemp s : removeSpaces (removeSpaces s) = removeSpaces s.
Proof.
  apply on_chars_idemp. intros l. apply list_filter_filter_l. done.
Qed.

Lemma removeSpaces_length s : String.length (removeSpaces s) <= String.length s.
Proof.
  rewrite <- !chars_length. unfold removeSpaces. rewrite on_chars_chars.
  apply length_filter.
Qed.

#[export] Hint Resolve trim_trimmed includes_empty : js.
#[export] Hint Rewrite trim_idemp toLowerCase_idemp removeSpaces_idemp : js_rw.

(** ** Printed numbers *)

Lemma pretty_N_char_digit x : is_digit_or_dash (pretty_N_char x) = true.
Proof.
  unfold pretty_N_char. by repeat (case_match; try done).
Qed.

Lemma pretty_N_go_digits x : forall s,
  forallb is_digit_or_dash (chars s) = true ->
  forallb is_digit_or_dash (chars (pretty_N_go x s)) = true.
Proof.
  induction (N.lt_wf_0 x) as [x _ IH]. intros s Hs.
  destruct (decide (x = 0)%N) as [->|Hx]; [by rewrite pretty_N_go_0|].
  rewrite pretty_N_go_step by lia. apply IH; [apply N.div_lt; lia|].
  simpl. by rewrite pretty_N_char_digit.
Qed.

Lemma pretty_Z_digits (z : Z) : forallb is_digit_or_dash (chars (pretty z)) = true.
Proof.
  assert (forall n : N, forallb is_digit_or_dash (chars (pretty n)) = true) as HN.
  { intros n. unfold pretty, pretty_N. case_decide; [done|]. by apply pretty_N_go_digits. }
  destruct z as [|p|p]; [done|apply HN|]. unfold pretty, pretty_Z.
  change (chars ("-" +:+ ?s)) with ("-"%char :: chars s). simpl. apply HN.
Qed.

(** A string that holds [sub] holds the first character of [sub]. *)
Lemma contains_head {A} `{EqDecision A} (c : A) sub l :
  contains (c :: sub) l = true -> c ∈ l.
Proof.
  intros (a & b & ->)%contains_spec. rewrite elem_of_app. right. by left.
Qed.

(** A printed integer after a text without [c], for a [c] that is neither a
    digit nor the sign, holds no string that starts with [c]. *)
Lemma includes_number_false text (z : Z) c sub :
  is_digit_or_dash c = false -> c ∉ chars text ->
  includes (text +:+ pretty z) (String c sub) = false.
Proof.
  intros Hc Ht. apply not_true_is_false. unfold includes. simpl.
  intros Hin%contains_head. rewrite chars_app, elem_of_app in Hin.
  destruct Hin as [?|Hin]; [done|].
  pose proof (pretty_Z_digits z) as Hd. rewrite forallb_forall in Hd.
  apply list_elem_of_In, Hd in Hin. congruence.
Qed.
