(* ===== verification/JsValue.v ===== *)
(** * JsValue: JavaScript values, errors and answers

    The handlers of server.js work on values whose shape they do not check:
    the parsed answer of the text model, the catalogue of voices, the body of
    the request.  [JsVal] is what [JSON.parse] can return plus [undefined];
    [get], [index0], [truthy] and [to_string] are property access, [v[0]],
    the test of [if (v)] and the interpolation [`${v}`], each with the
    behaviour JavaScript gives it on every kind of value.  The
    interpolation has no value for an object that owns a property
    [toString]: [printable] tells, [template] is a template literal with
    its substitutions checked, and [to_string] is the text of a value that
    is [printable].

    [get] is specified for the property names the sources use
    ([brandName], [voices], [name], [voice_id], [length], ...): none of them is a
    member of a built-in prototype, so a value that does not own the property
    yields [undefined].

    [JsErr] is the value a [throw] carries, [Outcome] the result of an
    expression that may throw, [Response] what [res.status(s).json(b)]
    sends. *)

From Stdlib Require Import ZArith Lia List Bool Ascii String.
From stdpp Require Import base tactics option list strings pretty.
From S2P Require Import Prelude JsString.

(** ** Values *)

#[warnings="-register-all"]
Inductive JsVal : Type :=
| JUndefined
| JNull
| JBool (b : bool)
| JNum (n : Z)
| JStr (s : string)
| JArr (items : list JsVal)
| JObj (fields : list (string * JsVal)).

(** What [error.response] holds when the server answered with a status
    outside 2xx. *)
Record HttpFailure := { f_status : Z; f_data : JsVal }.

(** The values the modelled code throws or receives as exceptions.
    [AxiosError] is the rejection of an HTTP call: [ax_response] is present
    when the server answered, [ax_request] tells that the request was sent. *)
Inductive JsErr : Type :=
| Error (message : string)
| TypeError (message : string)
| ReferenceError (name : string)
| SyntaxError (message : string)
| AxiosError (message : string) (code : option string)
    (ax_response : option HttpFailure) (ax_request : bool).

(** The result of evaluating an expression. *)
Inductive Outcome (A : Type) : Type :=
| Ok (a : A)
| Throw (e : JsErr).
Arguments Ok {A} a.
Arguments Throw {A} e.

(** What [res.status(status).json(body)] sends. *)
Record Response := { r_status : Z; r_body : JsVal }.

(** ** Objects *)

(** The value of the first field named [k]; [JSON.parse] keeps the last of
    duplicate keys, so a parser lists that one first. *)
Fixpoint lookup_field (k : string) (fs : list (string * JsVal)) : JsVal :=
  match fs with
  | [] => JUndefined
  | (k', v) :: r => if String.eqb k k' then v else lookup_field k r
  end.

(** [v.k] *)
Definition get (v : JsVal) (k : string) : Outcome JsVal :=
  match v with
  | JUndefined =>
    Throw (TypeError ("Cannot read properties of undefined (reading '" +:+ k +:+ "')"))
  | JNull =>
    Throw (TypeError ("Cannot read properties of null (reading '" +:+ k +:+ "')"))
  | JObj fs => Ok (lookup_field k fs)
  | JArr l =>
    Ok (if String.eqb k "length" then JNum (Z.of_nat (length l)) else JUndefined)
  | JStr s =>
    Ok (if String.eqb k "length" then JNum (Z.of_nat (String.length s)) else JUndefined)
  | JBool _ | JNum _ => Ok JUndefined
  end.

(** [v[0]] *)
Definition index0 (v : JsVal) : Outcome JsVal :=
  match v with
  | JUndefined => Throw (TypeError "Cannot read properties of undefined (reading '0')")
  | JNull => Throw (TypeError "Cannot read properties of null (reading '0')")
  | JArr l => Ok (match l with [] => JUndefined | x :: _ => x end)
  | JStr s => Ok (match s with EmptyString => JUndefined | String c _ => JStr (String c "") end)
  | JObj fs => Ok (lookup_field "0" fs)
  | JBool _ | JNum _ => Ok JUndefined
  end.

(** [v?.k]: [undefined] instead of a [TypeError]. *)
Definition get_opt (v : JsVal) (k : string) : JsVal :=
  match get v k with
  | Ok x => x
  | Throw _ => JUndefined
  end.

(** [const { k, ... } = source]: what a pattern of a destructuring
    assignment reads.  A value that is [undefined] or [null] cannot be
    destructured, and the error of V8 names the property and the text
    [source] of the right-hand side. *)
Definition destructure (source : string) (v : JsVal) (k : string) : Outcome JsVal :=
  match v with
  | JUndefined =>
    Throw (TypeError ("Cannot destructure property '" +:+ k +:+ "' of '" +:+ source
                      +:+ "' as it is undefined."))
  | JNull =>
    Throw (TypeError ("Cannot destructure property '" +:+ k +:+ "' of '" +:+ source
                      +:+ "' as it is null."))
  | _ => get v k
  end.

(** ** Conversions *)

(** The test of [if (v)], [!v] and [v || w]. *)
Definition truthy (v : JsVal) : bool :=
  match v with
  | JUndefined | JNull => false
  | JBool b => b
  | JNum n => negb (n =? 0)%Z
  | JStr s => negb (String.eqb s "")
  | JArr _ | JObj _ => true
  end.

(** [v || w] *)
Definition js_or (v w : JsVal) : JsVal := if truthy v then v else w.

(** [`${v}`].  An array prints its elements separated by commas, with
    [null] and [undefined] elements printed as nothing; an object prints as
    [[object Object]]. *)
Fixpoint to_string (v : JsVal) : string :=
  match v with
  | JUndefined => "undefined"
  | JNull => "null"
  | JBool true => "true"
  | JBool false => "false"
  | JNum n => pretty n
  | JStr s => s
  | JArr l =>
    (fix join (l : list JsVal) : string :=
       match l with
       | [] => ""
       | x :: r =>
         (match x with JUndefined | JNull => "" | _ => to_string x end) +:+
         (match r with [] => "" | _ :: _ => "," +:+ join r end)
       end) l
  | JObj _ => "[object Object]"
  end.

(** [v === w] for a string literal [w]. *)
Definition is_string (v : JsVal) (s : string) : bool :=
  match v with
  | JStr s' => String.eqb s' s
  | _ => false
  end.

(** [v === n] for a number literal [n]. *)
Definition is_number (v : JsVal) (n : Z) : bool :=
  match v with
  | JNum n' => (n' =? n)%Z
  | _ => false
  end.

(** [list.includes(v)] for a list of string literals. *)
Definition names_include (names : list string) (v : JsVal) : bool :=
  existsb (is_string v) names.

(** The [TypeError] of a call [receiver.name(...)] on a value [v] that has
    no method [name], in the words of V8 (Node.js and Chrome); [receiver] is
    the text of the expression the method is called on. *)
Definition no_method (receiver name : string) (v : JsVal) : JsErr :=
  match v with
  | JUndefined =>
    TypeError ("Cannot read properties of undefined (reading '" +:+ name +:+ "')")
  | JNull =>
    TypeError ("Cannot read properties of null (reading '" +:+ name +:+ "')")
  | _ => TypeError (receiver +:+ "." +:+ name +:+ " is not a function")
  end.

(** [v.toLowerCase()]: only a string has the method. *)
Definition call_toLowerCase (receiver : string) (v : JsVal) : Outcome string :=
  match v with
  | JStr s => Ok (toLowerCase s)
  | _ => Throw (no_method receiver "toLowerCase" v)
  end.

(** [v.replace(/\s/g, '')]: only a string has the method. *)
Definition call_removeSpaces (receiver : string) (v : JsVal) : Outcome string :=
  match v with
  | JStr s => Ok (removeSpaces s)
  | _ => Throw (no_method receiver "replace" v)
  end.

(** ** Errors *)

(** [error.message] *)
Definition err_message (e : JsErr) : string :=
  match e with
  | Error m | TypeError m | SyntaxError m => m
  | ReferenceError x => x +:+ " is not defined"
  | AxiosError m _ _ _ => m
  end.

(** [error.response && error.response.status]: the status when the server
    answered. *)
Definition err_status (e : JsErr) : option Z :=
  match e with
  | AxiosError _ _ (Some f) _ => Some (f_status f)
  | _ => None
  end.

(** The rejection of a call to a service that cannot be reached. *)
Definition network_error : JsErr :=
  AxiosError "Network Error" (Some "ERR_NETWORK") None true.

(** An object literal with string fields, for answers such as
    [{ error: "..." }]. *)
Definition error_body (message : string) : JsVal :=
  JObj [("error", JStr message)].

(** ** Outcome as a monad *)

#[export] Instance outcome_ret : MRet Outcome := fun A a => Ok a.

#[export] Instance outcome_bind : MBind Outcome := fun A B f o =>
  match o with
  | Ok a => f a
  | Throw e => Throw e
  end.

#[export] Instance outcome_fmap : FMap Outcome := fun A B f o =>
  match o with
  | Ok a => Ok (f a)
  | Throw e => Throw e
  end.

(** ** Template literals *)

(** Whether an object owns the property [k]. *)
Definition has_field (k : string) (fs : list (string * JsVal)) : bool :=
  existsb (fun f => String.eqb k f.1) fs.

(** Whether [`${v}`] has a value.  The conversion of an object to a string
    calls its [toString], then its [valueOf].  No value of JSON is a
    function: an object that owns a property [toString] hides the method of
    [Object.prototype] and has nothing to call, and [valueOf] gives no
    primitive, so the conversion throws.  An array converts its elements,
    which hold no property of their own named [join] or [toString]. *)
Fixpoint printable (v : JsVal) : bool :=
  match v with
  | JObj fs => negb (has_field "toString" fs)
  | JArr l =>
    (fix all (l : list JsVal) : bool :=
       match l with
       | [] => true
       | x :: r => printable x && all r
       end) l
  | _ => true
  end.

(** The evaluation of the substitutions of a template literal, from left to
    right: the [TypeError] of V8 when one of them cannot be converted. *)
Definition interpolate (substitutions : list JsVal) : Outcome unit :=
  if forallb printable substitutions then Ok tt
  else Throw (TypeError "Cannot convert object to primitive value").

(** A template literal with these substitutions whose text, when they can
    all be converted, is [text]. *)
Definition template (substitutions : list JsVal) (text : string) : Outcome string :=
  if forallb printable substitutions then Ok text
  else Throw (TypeError "Cannot convert object to primitive value").

(** ** Decidable equality *)

#[export] Instance JsVal_eq_dec : EqDecision JsVal.
Proof.
  refine (fix go (a b : JsVal) {struct a} : Decision (a = b) :=
    match a, b with
    | JUndefined, JUndefined => left _
    | JNull, JNull => left _
    | JBool x, JBool y => cast_if (decide (x = y))
    | JNum x, JNum y => cast_if (decide (x = y))
    | JStr x, JStr y => cast_if (decide (x = y))
    | JArr x, JArr y => cast_if (@list_eq_dec _ go x y)
    | JObj x, JObj y =>
      cast_if (@list_eq_dec _ (@prod_eq_dec _ _ _ go) x y)
    | _, _ => right _
    end); abstract congruence.
Defined.

#[export] Instance HttpFailure_eq_dec : EqDecision HttpFailure.
Proof. solve_decision. Defined.

#[export] Instance JsErr_eq_dec : EqDecision JsErr.
Proof. solve_decision. Defined.

#[export] Instance Outcome_eq_dec `{EqDecision A} : EqDecision (Outcome A).
Proof. solve_decision. Defined.

#[export] Instance Response_eq_dec : EqDecision Response.
Proof. solve_decision. Defined.

(** ** Properties *)

Lemma lookup_field_here k v fs : lookup_field k ((k, v) :: fs) = v.
Proof. simpl. by rewrite String.eqb_refl. Qed.

Lemma lookup_field_other k k' v fs :
  k <> k' -> lookup_field k ((k', v) :: fs) = lookup_field k fs.
Proof. intros Hne. simpl. by rewrite (proj2 (String.eqb_neq k k') Hne). Qed.

Lemma lookup_field_absent k fs :
  k ∉ fs.*1 -> lookup_field k fs = JUndefined.
Proof.
  induction fs as [|[k' v] fs IH]; [done|]. intros Hk.
  apply not_elem_of_cons in Hk as [Hne Hk]. rewrite lookup_field_other by done. auto.
Qed.

(** Property access throws exactly on [null] and [undefined]. *)
Lemma get_throws v k :
  (exists e, get v k = Throw e) <-> v = JUndefined \/ v = JNull.
Proof.
  split.
  - intros [e He]. destruct v; simpl in He; try discriminate; auto.
  - intros [-> | ->]; simpl; eauto.
Qed.

Lemma get_ok v k : v <> JUndefined -> v <> JNull -> exists x, get v k = Ok x.
Proof. destruct v; simpl; eauto; done. Qed.

Lemma get_truthy v k : truthy v = true -> exists x, get v k = Ok x.
Proof. intros Hv. apply get_ok; intros ->; done. Qed.

Lemma get_opt_ok v k x : get v k = Ok x -> get_opt v k = x.
Proof. unfold get_opt. by intros ->. Qed.

Lemma get_get_opt v k : v <> JUndefined -> v <> JNull -> get v k = Ok (get_opt v k).
Proof. intros H1 H2. destruct (get_ok v k H1 H2) as [x Hx]. by rewrite (get_opt_ok _ _ _ Hx). Qed.

Lemma destructure_get source v k x :
  get v k = Ok x -> destructure source v k = Ok x.
Proof. by destruct v. Qed.

Lemma destructure_throws source v k e :
  destructure source v k = Throw e -> v = JUndefined \/ v = JNull.
Proof. destruct v; simpl; intros ?; simplify_eq; auto. Qed.

Lemma destructure_defined source v k :
  v <> JUndefined -> v <> JNull -> destructure source v k = get v k.
Proof. by destruct v. Qed.

Lemma printable_arr l : printable (JArr l) = forallb printable l.
Proof. induction l as [|x r IH]; [done|]. simpl in *. by rewrite IH. Qed.

Lemma printable_str s : printable (JStr s) = true.
Proof. done. Qed.

Lemma template_printable vs text :
  forallb printable vs = true -> template vs text = Ok text.
Proof. unfold template. by intros ->. Qed.

Lemma template_one v text : printable v = true -> template [v] text = Ok text.
Proof. intros Hv. apply template_printable. simpl. by rewrite Hv. Qed.

Lemma template_unprintable vs text :
  forallb printable vs = false ->
  template vs text = Throw (TypeError "Cannot convert object to primitive value").
Proof. unfold template. by intros ->. Qed.

Lemma interpolate_printable vs :
  forallb printable vs = true -> interpolate vs = Ok tt.
Proof. unfold interpolate. by intros ->. Qed.

Lemma interpolate_ok vs : interpolate vs = Ok tt <-> forallb printable vs = true.
Proof. unfold interpolate. by destruct (forallb _ _). Qed.

Lemma interpolate_one v : printable v = true -> interpolate [v] = Ok tt.
Proof. intros Hv. apply interpolate_ok. simpl. by rewrite Hv. Qed.

Lemma interpolate_cases vs :
  interpolate vs = Ok tt \/
  interpolate vs = Throw (TypeError "Cannot convert object to primitive value").
Proof. unfold interpolate. destruct (forallb _ _); auto. Qed.

Lemma template_cases vs text :
  template vs text = Ok text \/
  template vs text = Throw (TypeError "Cannot convert object to primitive value").
Proof. unfold template. destruct (forallb _ _); auto. Qed.

Lemma truthy_js_or v w : truthy (js_or v w) = truthy v || truthy w.
Proof. unfold js_or. by destruct (truthy v) eqn:E; simpl. Qed.

Lemma js_or_string_default v :
  js_or v (JStr "") = v \/ js_or v (JStr "") = JStr "".
Proof. unfold js_or. destruct (truthy v); auto. Qed.

Lemma is_string_spec v s : is_string v s = true <-> v = JStr s.
Proof.
  destruct v; simpl; try (split; [done | discriminate]).
  rewrite String.eqb_eq. split; [by intros -> | by intros [= ->]].
Qed.

Lemma is_number_spec v n : is_number v n = true <-> v = JNum n.
Proof.
  destruct v; simpl; try (split; [done | discriminate]).
  rewrite Z.eqb_eq. split; [by intros -> | by intros [= ->]].
Qed.

Lemma names_include_spec names v :
  names_include names v = true <-> exists s, s ∈ names /\ v = JStr s.
Proof.
  unfold names_include. rewrite existsb_exists. split.
  - intros (s & Hin & Hs). exists s. split; [by apply list_elem_of_In|by apply is_string_spec].
  - intros (s & Hin & ->). exists s. split; [by apply list_elem_of_In|by apply is_string_spec].
Qed.

Lemma to_string_str s : to_string (JStr s) = s.
Proof. done. Qed.

(** Integers print injectively. *)
Lemma to_string_num_inj n m : to_string (JNum n) = to_string (JNum m) -> n = m.
Proof. simpl. apply pretty_Z_inj. Qed.

Lemma err_status_axios m c f r : err_status (AxiosError m c (Some f) r) = Some (f_status f).
Proof. done. Qed.

Lemma err_status_network : err_status network_error = None.
Proof. done. Qed.

(** Evaluate the template literals whose substitutions are known to be
    printable. *)
Ltac printed :=
  rewrite ?template_printable, ?interpolate_printable
    by (simpl; repeat match goal with H : printable _ = true |- _ => rewrite H end; done).

(** Use what is known of a field of the request body. *)
Ltac known H := first [rewrite (destructure_get _ _ _ _ H) | rewrite H].

#[export] Hint Rewrite lookup_field_here to_string_str : js_rw.
#[export] Hint Resolve get_truthy : js.
