(* ===== verification/Effects.v ===== *)
(** * Effects: the world a handler runs in

    A handler of server.js awaits remote calls one after the other, may throw,
    and answers through [res].  [World] is everything outside the handler:
    one script of replies per remote service, the readings of the clock, the
    log of the calls made so far and the answers sent so far.  A computation
    [M A] takes a world and returns an [Outcome] and the world after it.

    - [generateContent], [post_image], [get_voices], [post_speech],
      [fetch_bytes]: one remote call each; they pop the next reply of their
      script (an exhausted script is an unreachable service) and log the
      request.
    - [date_now]: [Date.now()].
    - [send]: [res.status(s).json(body)].
    - [throw], [try_catch], [lift]: exceptions.
    - [for_each]: a [for ... of] loop over an array literal.

    [Platform] holds the library functions the handlers call and this
    development does not define: [JSON.parse] and base64 encoding.

    The lemmas: the monad laws (pointwise), the equations of [try_catch], and
    four predicates on computations with their closure under [bind],
    [try_catch] and [for_each]:
    - [grows]: no logged call and no sent answer is removed;
    - [silent], [settles], [answers]: the computation sends no answer, one
      answer unless it throws, exactly one answer and does not throw;
    - [returns P E]: its results are in [P] and its exceptions in [E];
    - [preserves f]: the part [f] of the world is left as it was. *)

From Stdlib Require Import ZArith QArith Lia List Bool Ascii String.
From stdpp Require Import base tactics option list strings.
From S2P Require Import Prelude JsString JsValue.

(** ** Library functions *)

(** [json_parse s] is [JSON.parse(s)], [None] standing for its [SyntaxError];
    [base64 b] is [Buffer.from(b).toString('base64')]. *)
Class Platform := {
  json_parse : string -> option JsVal;
  base64 : string -> string
}.

(** ** Requests *)

(** The [voice_settings] object of a synthesis request. *)
Record VoiceSettings := {
  stability : Q;
  similarity_boost : Q;
  style : Q;
  use_speaker_boost : bool
}.

(** A remote call, as logged: the service and what the request carries. *)
Inductive Call : Type :=
| CallText (model prompt : string)
| CallVision (model prompt data mimeType : string)
| CallImage (prompt size : string)
| CallVoices
| CallSpeech (url : string) (text : JsVal) (model_id : string)
    (settings : VoiceSettings)
| CallFetch (url : string).

(** ** The world *)

Record World := {
  w_text : list (Outcome string);
  w_image : list (Outcome JsVal);
  w_voices : list (Outcome JsVal);
  w_speech : list (Outcome string);
  w_fetch : list (Outcome string);
  w_clock : list Z;
  w_calls : list Call;
  w_sent : list Response
}.

(** A world in which nothing has happened yet and no service answers. *)
Definition empty_world : World :=
  {| w_text := []; w_image := []; w_voices := []; w_speech := [];
     w_fetch := []; w_clock := []; w_calls := []; w_sent := [] |}.

Definition log_call (c : Call) (w : World) : World :=
  {| w_text := w_text w; w_image := w_image w; w_voices := w_voices w;
     w_speech := w_speech w; w_fetch := w_fetch w; w_clock := w_clock w;
     w_calls := w_calls w ++ [c]; w_sent := w_sent w |}.

Definition set_text (s : list (Outcome string)) (w : World) : World :=
  {| w_text := s; w_image := w_image w; w_voices := w_voices w;
     w_speech := w_speech w; w_fetch := w_fetch w; w_clock := w_clock w;
     w_calls := w_calls w; w_sent := w_sent w |}.

Definition set_image (s : list (Outcome JsVal)) (w : World) : World :=
  {| w_text := w_text w; w_image := s; w_voices := w_voices w;
     w_speech := w_speech w; w_fetch := w_fetch w; w_clock := w_clock w;
     w_calls := w_calls w; w_sent := w_sent w |}.

Definition set_voices (s : list (Outcome JsVal)) (w : World) : World :=
  {| w_text := w_text w; w_image := w_image w; w_voices := s;
     w_speech := w_speech w; w_fetch := w_fetch w; w_clock := w_clock w;
     w_calls := w_calls w; w_sent := w_sent w |}.

Definition set_speech (s : list (Outcome string)) (w : World) : World :=
  {| w_text := w_text w; w_image := w_image w; w_voices := w_voices w;
     w_speech := s; w_fetch := w_fetch w; w_clock := w_clock w;
     w_calls := w_calls w; w_sent := w_sent w |}.

Definition set_fetch (s : list (Outcome string)) (w : World) : World :=
  {| w_text := w_text w; w_image := w_image w; w_voices := w_voices w;
     w_speech := w_speech w; w_fetch := s; w_clock := w_clock w;
     w_calls := w_calls w; w_sent := w_sent w |}.

Definition set_clock (s : list Z) (w : World) : World :=
  {| w_text := w_text w; w_image := w_image w; w_voices := w_voices w;
     w_speech := w_speech w; w_fetch := w_fetch w; w_clock := s;
     w_calls := w_calls w; w_sent := w_sent w |}.

Definition add_sent (r : Response) (w : World) : World :=
  {| w_text := w_text w; w_image := w_image w; w_voices := w_voices w;
     w_speech := w_speech w; w_fetch := w_fetch w; w_clock := w_clock w;
     w_calls := w_calls w; w_sent := w_sent w ++ [r] |}.

(** The next reply of a script and the rest of it. *)
Definition next {A} (script : list (Outcome A)) : Outcome A * list (Outcome A) :=
  match script with
  | [] => (Throw network_error, [])
  | r :: rest => (r, rest)
  end.

(** ** Computations *)

Definition M (A : Type) : Type := World -> Outcome A * World.

#[export] Instance M_ret : MRet M := fun A a w => (Ok a, w).

#[export] Instance M_bind : MBind M := fun A B f m w =>
  match m w with
  | (Ok a, w') => f a w'
  | (Throw e, w') => (Throw e, w')
  end.

(** [throw e] *)
Definition throw {A} (e : JsErr) : M A := fun w => (Throw e, w).

(** An expression that may throw and touches nothing. *)
Definition lift {A} (o : Outcome A) : M A := fun w => (o, w).

(** [try { body } catch (e) { handler e }] *)
Definition try_catch {A} (body : M A) (handler : JsErr -> M A) : M A := fun w =>
  match body w with
  | (Ok a, w') => (Ok a, w')
  | (Throw e, w') => handler e w'
  end.

(** [for (const x of items) { body x }], threading an accumulator. *)
Fixpoint for_each {A B} (body : B -> A -> M B) (acc : B) (items : list A) : M B :=
  match items with
  | [] => mret acc
  | x :: r => acc' ← body acc x; for_each body acc' r
  end.

(** [await model.generateContent(prompt)] followed by [response.text()]. *)
Definition generateContent (model prompt : string) : M string := fun w =>
  let (r, rest) := next (w_text w) in
  (r, log_call (CallText model prompt) (set_text rest w)).

(** [await model.generateContent([prompt, {inlineData: {data, mimeType}}])]
    followed by [response.text()]: the text model with an image part. *)
Definition generateContentWith (model prompt data mimeType : string) : M string :=
  fun w =>
  let (r, rest) := next (w_text w) in
  (r, log_call (CallVision model prompt data mimeType) (set_text rest w)).

(** The POST to the image endpoint; the result is [response.data]. *)
Definition post_image (prompt size : string) : M JsVal := fun w =>
  let (r, rest) := next (w_image w) in
  (r, log_call (CallImage prompt size) (set_image rest w)).

(** The GET of the voice catalogue; the result is [response.data]. *)
Definition get_voices : M JsVal := fun w =>
  let (r, rest) := next (w_voices w) in
  (r, log_call CallVoices (set_voices rest w)).

(** The POST to a text-to-speech URL; the result is the audio,
    [response.data]. *)
Definition post_speech (url : string) (text : JsVal) (model_id : string)
    (settings : VoiceSettings) : M string := fun w =>
  let (r, rest) := next (w_speech w) in
  (r, log_call (CallSpeech url text model_id settings) (set_speech rest w)).

(** [fetch(url).then(r => r.arrayBuffer())] *)
Definition fetch_bytes (url : string) : M string := fun w =>
  let (r, rest) := next (w_fetch w) in
  (r, log_call (CallFetch url) (set_fetch rest w)).

(** [Date.now()] *)
Definition date_now : M Z := fun w =>
  match w_clock w with
  | [] => (Ok 0%Z, w)
  | t :: rest => (Ok t, set_clock rest w)
  end.

(** [res.status(status).json(body)] *)
Definition send (status : Z) (body : JsVal) : M unit := fun w =>
  (Ok tt, add_sent {| r_status := status; r_body := body |} w).

(** ** What a run leaves behind *)

(** The calls logged and the answers sent by running [m] from [w]. *)
Definition calls_of {A} (m : M A) (w : World) : list Call :=
  drop (length (w_calls w)) (w_calls (m w).2).

Definition sent_of {A} (m : M A) (w : World) : list Response :=
  drop (length (w_sent w)) (w_sent (m w).2).

(** [w'] is [w] after some more calls and answers. *)
Definition extends (w w' : World) : Prop :=
  w_calls w `prefix_of` w_calls w' /\ w_sent w `prefix_of` w_sent w'.

(** No run of [m] removes a logged call or a sent answer. *)
Definition grows {A} (m : M A) : Prop := forall w, extends w (m w).2.

(** [m] never throws. *)
Definition total {A} (m : M A) : Prop := forall w, exists a, (m w).1 = Ok a.

(** [m] sends no answer. *)
Definition silent {A} (m : M A) : Prop := forall w, w_sent (m w).2 = w_sent w.

(** [m] either completes after sending exactly one answer, which satisfies
    [P], or throws before sending any. *)
Definition settles {A} (P : Response -> Prop) (m : M A) : Prop :=
  forall w,
    match m w with
    | (Ok _, w') => exists r, w_sent w' = w_sent w ++ [r] /\ P r
    | (Throw _, w') => w_sent w' = w_sent w
    end.

(** [m] completes after sending exactly one answer, which satisfies [P]. *)
Definition answers {A} (P : Response -> Prop) (m : M A) : Prop :=
  forall w, exists a r,
    (m w).1 = Ok a /\ w_sent (m w).2 = w_sent w ++ [r] /\ P r.

(** Every run of [m] that completes returns a value in [P], and every run
    that throws throws an error in [E]. *)
Definition returns {A} (P : A -> Prop) (E : JsErr -> Prop) (m : M A) : Prop :=
  forall w, match (m w).1 with Ok a => P a | Throw e => E e end.

(** No run of [m] changes the part [f] of the world. *)
Definition preserves {X A} (f : World -> X) (m : M A) : Prop :=
  forall w, f (m w).2 = f w.

(** What the speech service will answer: the scripts of the catalogue and of
    the synthesis. *)
Definition speech_side (w : World) : list (Outcome JsVal) * list (Outcome string) :=
  (w_voices w, w_speech w).

(** Unfold the operations of [M] so that a run on a world whose scripts are
    known computes. *)
Ltac unfold_M :=
  unfold try_catch, lift, send, throw, mbind, M_bind, mret, M_ret,
    post_speech, get_voices, generateContent, generateContentWith, post_image,
    fetch_bytes, date_now in *.

(** ** Decidable equality *)

#[export] Instance Q_eq_dec : EqDecision Q.
Proof. solve_decision. Defined.

#[export] Instance VoiceSettings_eq_dec : EqDecision VoiceSettings.
Proof. solve_decision. Defined.

#[export] Instance Call_eq_dec : EqDecision Call.
Proof. solve_decision. Defined.

(** ** Scripts *)

Lemma next_tail {A} (l : list (Outcome A)) : (next l).2 = tail l.
Proof. by destruct l. Qed.

(** ** Monad laws, pointwise *)

Lemma bind_ret_l {A B} (a : A) (f : A -> M B) w : (mret a ≫= f) w = f a w.
Proof. done. Qed.

Lemma bind_ret_r {A} (m : M A) w : (m ≫= mret) w = m w.
Proof. unfold mbind, M_bind. by destruct (m w) as [[a|e] w']. Qed.

Lemma bind_assoc {A B C} (m : M A) (f : A -> M B) (g : B -> M C) w :
  ((m ≫= f) ≫= g) w = (m ≫= fun a => f a ≫= g) w.
Proof. unfold mbind, M_bind. by destruct (m w) as [[a|e] w']. Qed.

Lemma bind_ok {A B} (m : M A) (f : A -> M B) w a w' :
  m w = (Ok a, w') -> (m ≫= f) w = f a w'.
Proof. unfold mbind, M_bind. by intros ->. Qed.

Lemma bind_throw {A B} (m : M A) (f : A -> M B) w e w' :
  m w = (Throw e, w') -> (m ≫= f) w = (Throw e, w').
Proof. unfold mbind, M_bind. by intros ->. Qed.

(** ** try/catch *)

Lemma try_catch_ok {A} (m : M A) h w a w' :
  m w = (Ok a, w') -> try_catch m h w = (Ok a, w').
Proof. unfold try_catch. by intros ->. Qed.

Lemma try_catch_throw {A} (m : M A) h w e w' :
  m w = (Throw e, w') -> try_catch m h w = h e w'.
Proof. unfold try_catch. by intros ->. Qed.

Lemma try_catch_total {A} (m : M A) h :
  (forall e, total (h e)) -> total (try_catch m h).
Proof.
  intros Hh w. unfold try_catch. destruct (m w) as [[a|e] w']; [by exists a|].
  apply Hh.
Qed.

Lemma total_ret {A} (a : A) : total (mret a : M A).
Proof. intros w. by exists a. Qed.

Lemma total_bind {A B} (m : M A) (f : A -> M B) :
  total m -> (forall a, total (f a)) -> total (m ≫= f).
Proof.
  intros Hm Hf w. destruct (Hm w) as [a Ha].
  unfold mbind, M_bind. destruct (m w) as [[a'|e] w']; [apply Hf|done].
Qed.

Lemma total_send s b : total (send s b).
Proof. intros w. by exists tt. Qed.

Lemma total_date_now : total date_now.
Proof. intros w. unfold date_now. destruct (w_clock w); eauto. Qed.

(** ** Growth of the log and of the answers *)

#[export] Instance extends_refl : Reflexive extends.
Proof. by split. Qed.

#[export] Instance extends_trans : Transitive extends.
Proof. intros w1 w2 w3 [? ?] [? ?]. split; by etransitivity. Qed.

Lemma extends_log c w : extends w (log_call c w).
Proof. split; simpl; [by apply prefix_app_r|done]. Qed.

Lemma extends_sent r w : extends w (add_sent r w).
Proof. split; simpl; [done|by apply prefix_app_r]. Qed.

Lemma grows_ret {A} (a : A) : grows (mret a : M A).
Proof. by intros w. Qed.

Lemma grows_throw {A} e : grows (throw e : M A).
Proof. by intros w. Qed.

Lemma grows_lift {A} (o : Outcome A) : grows (lift o).
Proof. by intros w. Qed.

Lemma grows_bind {A B} (m : M A) (f : A -> M B) :
  grows m -> (forall a, grows (f a)) -> grows (m ≫= f).
Proof.
  intros Hm Hf w. specialize (Hm w). unfold mbind, M_bind.
  destruct (m w) as [[a|e] w']; simpl in *; [|done].
  etransitivity; [exact Hm|apply Hf].
Qed.

Lemma grows_try_catch {A} (m : M A) h :
  grows m -> (forall e, grows (h e)) -> grows (try_catch m h).
Proof.
  intros Hm Hh w. specialize (Hm w). unfold try_catch.
  destruct (m w) as [[a|e] w']; simpl in *; [done|].
  etransitivity; [exact Hm|apply Hh].
Qed.

Lemma grows_for_each {A B} (body : B -> A -> M B) acc items :
  (forall b x, grows (body b x)) -> grows (for_each body acc items).
Proof.
  intros Hb. revert acc. induction items as [|x r IH]; intros acc; simpl.
  - apply grows_ret.
  - apply grows_bind; auto.
Qed.

Lemma grows_script {A} (script : World -> list (Outcome A)) set c :
  (forall s w, w_calls (set s w) = w_calls w /\ w_sent (set s w) = w_sent w) ->
  grows (fun w => let (r, rest) := next (script w) in (r, log_call c (set rest w))).
Proof.
  intros Hset w. destruct (next (script w)) as [r rest]. simpl.
  destruct (Hset rest w) as [Hc Hs]. split; simpl.
  - rewrite Hc. by apply prefix_app_r.
  - by rewrite Hs.
Qed.

Lemma grows_generateContent m p : grows (generateContent m p).
Proof. by apply (grows_script w_text set_text). Qed.

Lemma grows_post_image p s : grows (post_image p s).
Proof. by apply (grows_script w_image set_image). Qed.

Lemma grows_get_voices : grows get_voices.
Proof. by apply (grows_script w_voices set_voices). Qed.

Lemma grows_post_speech u t m s : grows (post_speech u t m s).
Proof. by apply (grows_script w_speech set_speech). Qed.

Lemma grows_fetch_bytes u : grows (fetch_bytes u).
Proof. by apply (grows_script w_fetch set_fetch). Qed.

Lemma grows_date_now : grows date_now.
Proof. intros w. unfold date_now. by destruct (w_clock w). Qed.

Lemma grows_send s b : grows (send s b).
Proof. intros w. apply extends_sent. Qed.

#[export] Hint Resolve grows_ret grows_throw grows_lift grows_bind
  grows_try_catch grows_for_each grows_generateContent grows_post_image
  grows_get_voices grows_post_speech grows_fetch_bytes grows_date_now
  grows_send : js.

#[export] Hint Resolve total_ret total_send total_date_now try_catch_total
  total_bind : js.

(** ** The discipline of answering once *)

Lemma silent_ret {A} (a : A) : silent (mret a : M A).
Proof. by intros w. Qed.

Lemma silent_throw {A} e : silent (throw e : M A).
Proof. by intros w. Qed.

Lemma silent_lift {A} (o : Outcome A) : silent (lift o).
Proof. by intros w. Qed.

Lemma silent_bind {A B} (m : M A) (f : A -> M B) :
  silent m -> (forall a, silent (f a)) -> silent (m ≫= f).
Proof.
  intros Hm Hf w. specialize (Hm w). unfold mbind, M_bind.
  destruct (m w) as [[a|e] w']; simpl in *; [|done]. by rewrite Hf.
Qed.

Lemma silent_try_catch {A} (m : M A) h :
  silent m -> (forall e, silent (h e)) -> silent (try_catch m h).
Proof.
  intros Hm Hh w. specialize (Hm w). unfold try_catch.
  destruct (m w) as [[a|e] w']; simpl in *; [done|]. by rewrite Hh.
Qed.

Lemma silent_for_each {A B} (body : B -> A -> M B) acc items :
  (forall b x, silent (body b x)) -> silent (for_each body acc items).
Proof.
  intros Hb. revert acc. induction items as [|x r IH]; intros acc; simpl.
  - apply silent_ret.
  - apply silent_bind; auto.
Qed.

Lemma silent_script {A} (script : World -> list (Outcome A)) set c :
  (forall s w, w_sent (set s w) = w_sent w) ->
  silent (fun w => let (r, rest) := next (script w) in (r, log_call c (set rest w))).
Proof. intros Hset w. destruct (next (script w)) as [r rest]. simpl. apply Hset. Qed.

Lemma silent_generateContent m p : silent (generateContent m p).
Proof. by apply (silent_script w_text set_text). Qed.

Lemma silent_generateContentWith m p d t : silent (generateContentWith m p d t).
Proof. by apply (silent_script w_text set_text). Qed.

Lemma silent_post_image p s : silent (post_image p s).
Proof. by apply (silent_script w_image set_image). Qed.

Lemma silent_get_voices : silent get_voices.
Proof. by apply (silent_script w_voices set_voices). Qed.

Lemma silent_post_speech u t m s : silent (post_speech u t m s).
Proof. by apply (silent_script w_speech set_speech). Qed.

Lemma silent_fetch_bytes u : silent (fetch_bytes u).
Proof. by apply (silent_script w_fetch set_fetch). Qed.

Lemma silent_date_now : silent date_now.
Proof. intros w. unfold date_now. by destruct (w_clock w). Qed.

Lemma settles_send (P : Response -> Prop) s b :
  P {| r_status := s; r_body := b |} -> settles P (send s b).
Proof. intros HP w. simpl. eauto. Qed.

Lemma settles_throw {A} (P : Response -> Prop) e : settles P (throw e : M A).
Proof. by intros w. Qed.

(** Silent steps before the part that answers. *)
Lemma settles_bind {A B} (P : Response -> Prop) (m : M A) (f : A -> M B) :
  silent m -> (forall a, settles P (f a)) -> settles P (m ≫= f).
Proof.
  intros Hm Hf w. specialize (Hm w). unfold mbind, M_bind.
  destruct (m w) as [[a|e] w']; simpl in *; [|done].
  specialize (Hf a w'). destruct (f a w') as [[b|e] w'']; by rewrite <- Hm.
Qed.

(** A step that cannot fail to hand on the value it evaluates to. *)
Lemma settles_lift {A B} (P : Response -> Prop) (o : Outcome A) (f : A -> M B) :
  (forall a, o = Ok a -> settles P (f a)) -> settles P (lift o ≫= f).
Proof.
  intros Hf w. unfold mbind, M_bind, lift. destruct o as [a|e]; [|done].
  by apply Hf.
Qed.

(** Silent steps whose result is known to be in [Q]. *)
Lemma settles_returns {A B} (P : Response -> Prop) (Q : A -> Prop) E
    (m : M A) (f : A -> M B) :
  silent m -> returns Q E m -> (forall a, Q a -> settles P (f a)) ->
  settles P (m ≫= f).
Proof.
  intros Hs Hr Hf w. specialize (Hs w). specialize (Hr w). unfold mbind, M_bind.
  destruct (m w) as [[a|e] w']; simpl in *; [|done].
  specialize (Hf a Hr w'). destruct (f a w') as [[b|e] w'']; by rewrite <- Hs.
Qed.

Lemma settles_try_catch {A} (P : Response -> Prop) (m : M A) h :
  settles P m -> (forall e, settles P (h e)) -> settles P (try_catch m h).
Proof.
  intros Hm Hh w. specialize (Hm w). unfold try_catch.
  destruct (m w) as [[a|e] w']; [done|].
  specialize (Hh e w'). destruct (h e w') as [[b|e'] w'']; by rewrite <- Hm.
Qed.

Lemma settles_weaken {A} (P Q : Response -> Prop) (m : M A) :
  (forall r, P r -> Q r) -> settles P m -> settles Q m.
Proof.
  intros HPQ Hm w. specialize (Hm w). destruct (m w) as [[a|e] w']; [|done].
  destruct Hm as (r & ? & ?). eauto.
Qed.

(** A [catch] whose handler always answers makes the whole block answer. *)
Lemma answers_try_catch {A} (P : Response -> Prop) (m : M A) h :
  settles P m -> (forall e, answers P (h e)) -> answers P (try_catch m h).
Proof.
  intros Hm Hh w. specialize (Hm w). unfold try_catch.
  destruct (m w) as [[a|e] w']; simpl.
  - destruct Hm as (r & ? & ?). by exists a, r.
  - destruct (Hh e w') as (a & r & ? & Hs & ?). exists a, r. by rewrite Hs, Hm.
Qed.

Lemma answers_send (P : Response -> Prop) s b :
  P {| r_status := s; r_body := b |} -> answers P (send s b).
Proof. intros HP w. exists tt. simpl. eauto. Qed.

Lemma answers_bind {A B} (P : Response -> Prop) (m : M A) (f : A -> M B) :
  silent m -> total m -> (forall a, answers P (f a)) -> answers P (m ≫= f).
Proof.
  intros Hs Ht Hf w. specialize (Hs w). destruct (Ht w) as [a Ha].
  unfold mbind, M_bind. destruct (m w) as [[a'|e] w']; simpl in *; [|done].
  destruct (Hf a' w') as (b & r & ? & Hr & ?). exists b, r. by rewrite Hr, Hs.
Qed.

Lemma answers_weaken {A} (P Q : Response -> Prop) (m : M A) :
  (forall r, P r -> Q r) -> answers P m -> answers Q m.
Proof. intros HPQ Hm w. destruct (Hm w) as (a & r & ? & ? & ?). eauto 6. Qed.

Lemma answers_settles {A} (P : Response -> Prop) (m : M A) :
  answers P m -> settles P m.
Proof.
  intros Hm w. destruct (Hm w) as (a & r & Ha & Hr & HP).
  destruct (m w) as [[a'|e] w']; simpl in *; [eauto|done].
Qed.

#[export] Hint Resolve silent_ret silent_throw silent_lift silent_bind
  silent_try_catch silent_for_each silent_generateContent silent_post_image
  silent_get_voices silent_post_speech silent_fetch_bytes silent_date_now
  silent_generateContentWith settles_send settles_throw settles_bind settles_try_catch
  answers_send answers_settles : js.

(** What a run adds is what separates the two logs. *)
Lemma calls_of_spec {A} (m : M A) w :
  grows m -> w_calls (m w).2 = w_calls w ++ calls_of m w.
Proof.
  intros Hm. destruct (Hm w) as [[k Hk] _]. unfold calls_of.
  by rewrite Hk, drop_app_length.
Qed.

Lemma sent_of_spec {A} (m : M A) w :
  grows m -> w_sent (m w).2 = w_sent w ++ sent_of m w.
Proof.
  intros Hm. destruct (Hm w) as [_ [k Hk]]. unfold sent_of.
  by rewrite Hk, drop_app_length.
Qed.

Lemma answers_total {A} (P : Response -> Prop) (m : M A) : answers P m -> total m.
Proof. intros Hm w. destruct (Hm w) as (a & r & Ha & _). eauto. Qed.

(** A [catch] around a computation that never throws is never entered. *)
Lemma try_catch_never {A} (m : M A) h w : total m -> try_catch m h w = m w.
Proof.
  intros Hm. destruct (Hm w) as [a Ha]. unfold try_catch.
  by destruct (m w) as [[a'|e] w'].
Qed.

(** A computation that answers: every run completes and adds one answer. *)
Lemma answers_run {A} (P : Response -> Prop) (m : M A) w :
  answers P m -> exists a r, (m w).1 = Ok a /\ sent_of m w = [r] /\ P r.
Proof.
  intros Hm. destruct (Hm w) as (a & r & Ha & Hr & HP). exists a, r.
  unfold sent_of. by rewrite Hr, drop_app_length.
Qed.

(** ** What a computation returns or throws *)

Lemma returns_any {A} (m : M A) : returns (fun _ => True) (fun _ => True) m.
Proof. intros w. by destruct (m w).1. Qed.

Lemma returns_ret {A} (P : A -> Prop) E a : P a -> returns P E (mret a).
Proof. by intros HP w. Qed.

Lemma returns_throw {A} (P : A -> Prop) (E : JsErr -> Prop) e :
  E e -> returns P E (throw e).
Proof. by intros HE w. Qed.

Lemma returns_weaken {A} (P P' : A -> Prop) (E E' : JsErr -> Prop) m :
  (forall a, P a -> P' a) -> (forall e, E e -> E' e) ->
  returns P E m -> returns P' E' m.
Proof. intros HP HE Hm w. specialize (Hm w). destruct (m w).1; auto. Qed.

Lemma returns_bind {A B} (Q : A -> Prop) (P : B -> Prop) E (m : M A) f :
  returns Q E m -> (forall a, Q a -> returns P E (f a)) -> returns P E (m ≫= f).
Proof.
  intros Hm Hf w. specialize (Hm w). unfold mbind, M_bind.
  destruct (m w) as [[a|e] w']; simpl in *; [by apply Hf|done].
Qed.

Lemma returns_try_catch {A} (P : A -> Prop) E E' (m : M A) h :
  returns P E' m -> (forall e, E' e -> returns P E (h e)) ->
  returns P E (try_catch m h).
Proof.
  intros Hm Hh w. specialize (Hm w). unfold try_catch.
  destruct (m w) as [[a|e] w']; simpl in *; [done|by apply Hh].
Qed.

(** A loop whose body keeps an invariant [I] that counts the turns. *)
Lemma returns_for_each {A B} (I : nat -> B -> Prop) E (body : B -> A -> M B) items :
  forall n acc,
  (forall k b x, I k b -> returns (I (S k)) E (body b x)) ->
  I n acc -> returns (I (n + length items)) E (for_each body acc items).
Proof.
  induction items as [|x r IH]; intros n acc Hb HI; simpl.
  - rewrite Nat.add_0_r. by apply returns_ret.
  - apply returns_bind with (Q := I (S n)); [by apply Hb|].
    intros a Ha. rewrite <- Nat.add_succ_comm. by apply IH.
Qed.

(** What a run returns when it is known not to throw, and the reverse. *)
Lemma returns_ok {A} (P : A -> Prop) E (m : M A) w a :
  returns P E m -> (m w).1 = Ok a -> P a.
Proof. intros Hm Ha. specialize (Hm w). by rewrite Ha in Hm. Qed.

Lemma returns_total {A} (P : A -> Prop) (m : M A) :
  returns P (fun _ => False) m -> total m.
Proof. intros Hm w. specialize (Hm w). destruct (m w).1; [eauto|done]. Qed.

#[export] Hint Resolve returns_any returns_ret returns_throw : js.

(** ** Frames *)

Section Preserves.
Context {X : Type} (f : World -> X).

Lemma preserves_ret {A} (a : A) : preserves f (mret a).
Proof. done. Qed.

Lemma preserves_throw {A} e : preserves f (throw e : M A).
Proof. done. Qed.

Lemma preserves_lift {A} (o : Outcome A) : preserves f (lift o).
Proof. done. Qed.

Lemma preserves_bind {A B} (m : M A) (k : A -> M B) :
  preserves f m -> (forall a, preserves f (k a)) -> preserves f (m ≫= k).
Proof.
  intros Hm Hk w. specialize (Hm w). unfold mbind, M_bind.
  destruct (m w) as [[a|e] w']; simpl in *; [|done]. by rewrite Hk.
Qed.

Lemma preserves_try_catch {A} (m : M A) h :
  preserves f m -> (forall e, preserves f (h e)) -> preserves f (try_catch m h).
Proof.
  intros Hm Hh w. specialize (Hm w). unfold try_catch.
  destruct (m w) as [[a|e] w']; simpl in *; [done|]. by rewrite Hh.
Qed.

Lemma preserves_for_each {A B} (body : B -> A -> M B) items :
  (forall b x, preserves f (body b x)) -> forall acc, preserves f (for_each body acc items).
Proof.
  intros Hb. induction items as [|x r IH]; intros acc; simpl.
  - apply preserves_ret.
  - apply preserves_bind; auto.
Qed.

End Preserves.

(** The text model, the image service and the clock leave the speech
    service alone. *)
Lemma preserves_generateContent model prompt :
  preserves speech_side (generateContent model prompt).
Proof. intros w. unfold generateContent. by destruct (next (w_text w)). Qed.

Lemma preserves_post_image prompt size : preserves speech_side (post_image prompt size).
Proof. intros w. unfold post_image. by destruct (next (w_image w)). Qed.

Lemma preserves_date_now : preserves speech_side date_now.
Proof. intros w. unfold date_now. by destruct (w_clock w). Qed.

#[export] Hint Resolve preserves_ret preserves_throw preserves_lift preserves_bind
  preserves_try_catch preserves_for_each preserves_generateContent
  preserves_post_image preserves_date_now : js.

(** Structural proofs of [silent] and [preserves], once the definitions of
    the computation are unfolded. *)
Ltac solve_silent :=
  repeat first [ apply silent_try_catch | apply silent_bind | apply silent_for_each
               | solve [auto with js] | intros ? ].

Ltac solve_preserves :=
  repeat first [ apply preserves_try_catch | apply preserves_bind
               | apply preserves_for_each | solve [auto with js] | intros ? ].
