(* ===== verification/Base64.v ===== *)
(** * Base64: the encoding of the audio

    [Buffer.from(data).toString('base64')] (server.js lines 119, 327, 665,
    723 and 816) and what the browser does with the [data:] URL of App.jsx
    line 569, after RFC 4648: three bytes become four characters of the
    alphabet, and a last group of one or two bytes is padded with [=].  A
    byte is a character of the string that holds the audio.

    Theorems: decoding gives back what was encoded; the encoding has four
    characters for every three bytes, rounded up, all of them in the
    alphabet or [=]; it is empty only for the empty input. *)

From Stdlib Require Import NArith Lia List Bool Ascii String.
From stdpp Require Import base tactics option list strings.
From S2P Require Import Prelude JsString JsValue Effects.

Local Open Scope N_scope.

(** ** The alphabet *)

Definition alphabet : list ascii :=
  chars "ABCDEFGHIJKLMNOPQRSTUVWXYZabcdefghijklmnopqrstuvwxyz0123456789+/".

Definition pad : ascii := "="%char.

(** The character of a six-bit value. *)
Definition digit (n : N) : ascii := nth (N.to_nat n) alphabet pad.

(** The six-bit value of a character of the alphabet. *)
Fixpoint index_of (c : ascii) (l : list ascii) : option N :=
  match l with
  | [] => None
  | x :: r => if Ascii.eqb c x then Some 0 else N.succ <$> index_of c r
  end.

Definition value (c : ascii) : option N := index_of c alphabet.

(** ** Encoding *)

(** The twenty-four bits of a group. *)
Definition group (a b c : ascii) : N :=
  N_of_ascii a * 65536 + N_of_ascii b * 256 + N_of_ascii c.

Fixpoint encode_chars (l : list ascii) : list ascii :=
  match l with
  | [] => []
  | [a] =>
    let n := group a zero zero in
    [digit (n / 262144); digit (n / 4096 mod 64); pad; pad]
  | [a; b] =>
    let n := group a b zero in
    [digit (n / 262144); digit (n / 4096 mod 64); digit (n / 64 mod 64); pad]
  | a :: b :: c :: r =>
    let n := group a b c in
    digit (n / 262144) :: digit (n / 4096 mod 64) :: digit (n / 64 mod 64)
      :: digit (n mod 64) :: encode_chars r
  end.

(** [Buffer.from(data).toString('base64')] *)
Definition encode (data : string) : string := on_chars encode_chars data.

(** ** Decoding *)

(** The bytes of a group of four six-bit values. *)
Definition ungroup (v1 v2 v3 v4 : N) : list ascii :=
  let n := v1 * 262144 + v2 * 4096 + v3 * 64 + v4 in
  [ascii_of_N (n / 65536); ascii_of_N (n / 256 mod 256); ascii_of_N (n mod 256)].

Fixpoint decode_chars (l : list ascii) : option (list ascii) :=
  match l with
  | [] => Some []
  | c1 :: c2 :: c3 :: c4 :: r =>
    v1 ← value c1;
    v2 ← value c2;
    if Ascii.eqb c4 pad
    then
      match r with
      | [] =>
        if Ascii.eqb c3 pad then Some (take 1 (ungroup v1 v2 0 0))
        else v3 ← value c3; Some (take 2 (ungroup v1 v2 v3 0))
      | _ => None
      end
    else
      v3 ← value c3;
      v4 ← value c4;
      rest ← decode_chars r;
      Some (ungroup v1 v2 v3 v4 ++ rest)
  | _ => None
  end.

Definition decode (text : string) : option string :=
  unchars <$> decode_chars (chars text).

(** A character of an encoding. *)
Definition is_base64_char (c : ascii) : bool :=
  bool_decide (c ∈ alphabet) || Ascii.eqb c pad.

(** ** The platform *)

(** Node as the server sees it: [JSON.parse] is left open, base64 is the
    encoding above. *)
Definition node_platform (parse : string -> option JsVal) : Platform :=
  {| json_parse := parse; base64 := encode |}.

(** ** The alphabet *)

Lemma nth_index_of l : NoDup l -> forall n c,
  l !! n = Some c -> index_of c l = Some (N.of_nat n).
Proof.
  induction 1 as [|x l Hx _ IH]; intros [|n] c; simpl; try done.
  - intros [= ->]. by rewrite Ascii.eqb_refl.
  - intros Hc. destruct (Ascii.eqb_spec c x) as [->|_].
    + destruct Hx. by eapply list_elem_of_lookup_2.
    + rewrite (IH _ _ Hc). simpl. f_equal. lia.
Qed.

Lemma alphabet_NoDup : NoDup alphabet.
Proof. apply (bool_decide_unpack _). by vm_compute. Qed.

Lemma digit_lookup n : n < 64 -> alphabet !! N.to_nat n = Some (digit n).
Proof.
  intros Hn. unfold digit.
  destruct (lookup_lt_is_Some_2 alphabet (N.to_nat n)) as [c Hc].
  { change (length alphabet) with 64%nat. lia. }
  by rewrite nth_lookup, Hc.
Qed.

Lemma value_digit n : n < 64 -> value (digit n) = Some n.
Proof.
  intros Hn. unfold value.
  rewrite (nth_index_of _ alphabet_NoDup _ _ (digit_lookup n Hn)). f_equal. lia.
Qed.

Lemma digit_not_pad n : n < 64 -> Ascii.eqb (digit n) pad = false.
Proof.
  intros Hn. apply Ascii.eqb_neq. intros Hp.
  pose proof (list_elem_of_lookup_2 _ _ _ (digit_lookup n Hn)) as Hin.
  rewrite Hp in Hin. revert Hin. apply (bool_decide_unpack _). by vm_compute.
Qed.

(** ** Groups *)

(** Linear arithmetic with division by constants. *)
Ltac div_lia := zify; Z.to_euclidean_division_equations; lia.

Lemma group_bound a b c : group a b c < 16777216.
Proof.
  unfold group.
  pose proof (N_ascii_bounded a). pose proof (N_ascii_bounded b).
  pose proof (N_ascii_bounded c). lia.
Qed.

Lemma sextet_bounds n :
  n < 16777216 ->
  n / 262144 < 64 /\ n / 4096 mod 64 < 64 /\ n / 64 mod 64 < 64 /\ n mod 64 < 64.
Proof. intros. div_lia. Qed.

Lemma group_bytes a b c :
  group a b c / 65536 = N_of_ascii a /\
  group a b c / 256 mod 256 = N_of_ascii b /\
  group a b c mod 256 = N_of_ascii c.
Proof.
  unfold group.
  pose proof (N_ascii_bounded a). pose proof (N_ascii_bounded b).
  pose proof (N_ascii_bounded c). div_lia.
Qed.

Lemma digit_base64_char n : n < 64 -> is_base64_char (digit n) = true.
Proof.
  intros Hn. unfold is_base64_char. apply orb_true_iff. left.
  apply bool_decide_eq_true. eapply list_elem_of_lookup_2, digit_lookup, Hn.
Qed.

(** The four six-bit values of a group give back its three bytes. *)
Lemma ungroup_group a b c :
  let n := group a b c in
  ungroup (n / 262144) (n / 4096 mod 64) (n / 64 mod 64) (n mod 64) = [a; b; c].
Proof.
  intros n. unfold ungroup.
  replace (_ + n mod 64) with n by div_lia. subst n.
  destruct (group_bytes a b c) as (-> & -> & ->).
  by rewrite !ascii_N_embedding.
Qed.

(** The bits of a padded group that stand for no byte are zero. *)
Lemma group_padding a b :
  group a b zero mod 64 = 0 /\ group a zero zero / 64 mod 64 = 0.
Proof. unfold group. change (N_of_ascii zero) with 0. split; div_lia. Qed.

(** Induction over a list three elements at a time. *)
Lemma list_ind3 {A} (P : list A -> Prop) :
  P [] -> (forall a, P [a]) -> (forall a b, P [a; b]) ->
  (forall a b c l, P l -> P (a :: b :: c :: l)) ->
  forall l, P l.
Proof.
  intros H0 H1 H2 H3 l.
  cut (P l /\ (forall a, P (a :: l)) /\ (forall a b, P (a :: b :: l))); [tauto|].
  induction l as [|x l (IH0 & IH1 & IH2)]; auto.
Qed.

(** ** Round trip *)

Lemma decode_encode_chars l : decode_chars (encode_chars l) = Some l.
Proof.
  induction l as [|a|a b|a b c l IH] using list_ind3; [done|..];
    cbn [encode_chars decode_chars];
    [destruct (sextet_bounds _ (group_bound a zero zero)) as (H1 & H2 & H3 & H4)
    |destruct (sextet_bounds _ (group_bound a b zero)) as (H1 & H2 & H3 & H4)
    |destruct (sextet_bounds _ (group_bound a b c)) as (H1 & H2 & H3 & H4)];
    rewrite ?value_digit by done; cbn [mbind option_bind].
  - change (Ascii.eqb pad pad) with true. cbv iota.
    rewrite <- (proj2 (group_padding a zero)) at 1.
    rewrite <- (proj1 (group_padding a zero)) at 1.
    by rewrite ungroup_group.
  - change (Ascii.eqb pad pad) with true. cbv iota.
    rewrite digit_not_pad by done. cbn [mbind option_bind].
    rewrite <- (proj1 (group_padding a b)) at 1.
    by rewrite ungroup_group.
  - rewrite digit_not_pad by done. rewrite IH. cbn [mbind option_bind].
    by rewrite ungroup_group.
Qed.

(** Decoding gives back what was encoded. *)
Lemma decode_encode data : decode (encode data) = Some data.
Proof.
  unfold decode, encode, on_chars.
  rewrite list_ascii_of_string_of_list_ascii, decode_encode_chars. simpl.
  by rewrite string_of_list_ascii_of_string.
Qed.

Lemma encode_inj data data' : encode data = encode data' -> data = data'.
Proof.
  intros He. apply (f_equal decode) in He. rewrite !decode_encode in He. by simplify_eq.
Qed.

(** ** Shape *)

(** Four characters for every three bytes, rounded up. *)
Lemma encode_chars_length l :
  length (encode_chars l) = (4 * ((length l + 2) / 3))%nat.
Proof.
  induction l as [|a|a b|a b c l IH] using list_ind3; [done..|].
  cbn [encode_chars length]. rewrite IH.
  replace (S (S (S (length l))) + 2)%nat with (length l + 2 + 1 * 3)%nat by lia.
  rewrite Nat.div_add by done. lia.
Qed.

(** Every character of an encoding is in the alphabet or is the padding:
    none needs escaping in JSON or in a URL. *)
Lemma encode_chars_alphabet l : forallb is_base64_char (encode_chars l) = true.
Proof.
  induction l as [|a|a b|a b c l IH] using list_ind3; [done|..];
    cbn [encode_chars forallb];
    [destruct (sextet_bounds _ (group_bound a zero zero)) as (H1 & H2 & H3 & H4)
    |destruct (sextet_bounds _ (group_bound a b zero)) as (H1 & H2 & H3 & H4)
    |destruct (sextet_bounds _ (group_bound a b c)) as (H1 & H2 & H3 & H4)];
    rewrite ?digit_base64_char, ?IH by done; done.
Qed.

(** Only the empty input has an empty encoding. *)
Lemma encode_empty data : encode data = "" <-> data = "".
Proof.
  split; [|by intros ->]. intros He.
  apply (encode_inj data ""). by rewrite He.
Qed.

(** The examples of RFC 4648, section 10. *)
Example encode_examples :
  encode "" = "" /\ encode "f" = "Zg==" /\ encode "fo" = "Zm8=" /\
  encode "foo" = "Zm9v" /\ encode "foob" = "Zm9vYg==" /\
  encode "fooba" = "Zm9vYmE=" /\ encode "foobar" = "Zm9vYmFy".
Proof. repeat split; vm_compute; reflexivity. Qed.

(** Text that no encoder produced is refused. *)
Example decode_refuses :
  decode "Zg=" = None /\ decode "Zg==Zg==" = None /\ decode "Z g=" = None.
Proof. repeat split; vm_compute; reflexivity. Qed.
