(* ===== verification/Fence.v ===== *)
(** * Fence: the structured-output repair of the text model's answer

    server.js lines 549-551 (and again 844-846) clean the model's answer before
    [JSON.parse]:
<<
    let cleanedResponse = identityResponseText.trim();
    cleanedResponse = cleanedResponse.replace(/```json\s*|\s*```/g, '');
    cleanedResponse = cleanedResponse.trim();
>>
    [match_len] is one attempt of the regular expression at a position,
    [strip_fences] the global replacement, [cleanResponse] the three lines.

    The theorems: the global replacement satisfies the equation of a
    left-to-right scan ([strip_fences_unfold]); an answer wrapped in a fence
    cleans to its trimmed payload ([cleanResponse_fenced],
    [cleanResponse_plain_fence]); an answer without fences is only trimmed
    ([cleanResponse_no_fence]); the result is never longer than the input.
    The examples at the end record what the scan does to fences that are not
    at the ends of the answer. *)

From Stdlib Require Import ZArith Lia List Bool Ascii String.
From stdpp Require Import base tactics option list strings.
From S2P Require Import Prelude JsString.

(** ** The regular expression *)

(** The literal [```json] of the first alternative. *)
Definition fence_open : list ascii := chars "```json".

(** The literal [```] of the second alternative. *)
Definition fence : list ascii := chars "```".

(** The length of the match of [/```json\s*|\s*```/] at the head of [l], or 0
    when it does not match there.  The first alternative is tried first and
    always succeeds after its literal, taking all the white space that
    follows; the second takes all leading white space and then needs the
    literal (giving back white space cannot help: the literal starts with a
    back-tick). *)
Definition match_len (l : list ascii) : nat :=
  if starts_with fence_open l
  then 7 + length (take_while is_space (drop 7 l))
  else
    let n := length (take_while is_space l) in
    if starts_with fence (drop n l) then n + 3 else 0.

(** [replace(re, '')] with the [g] flag: scan from the left; at a position
    where the expression matches, drop the match and go on after it, otherwise
    keep the character.  [skip] counts the characters of the current match
    that are still to be dropped. *)
Fixpoint strip_go (skip : nat) (l : list ascii) : list ascii :=
  match l with
  | [] => []
  | c :: r =>
    match skip with
    | S k => strip_go k r
    | O =>
      match match_len l with
      | O => c :: strip_go 0 r
      | S k => strip_go k r
      end
    end
  end.

Definition strip_fences (l : list ascii) : list ascii := strip_go 0 l.

(** Lines 549-551. *)
Definition cleanResponse (s : string) : string :=
  trim (on_chars strip_fences (trim s)).

(** ** Predicates of the statements, as boolean tests *)

(** Only white space. *)
Definition blank (s : string) : bool := forallb is_space (chars s).

(** No back-tick. *)
Definition no_backtick (s : string) : bool :=
  forallb (fun c => negb (Ascii.eqb c "`")) (chars s).

(** No occurrence of the literal [```]. *)
Definition no_fence (s : string) : bool := negb (contains fence (chars s)).

(** The same on characters, as propositions. *)
Definition plain (l : list ascii) : Prop :=
  Forall (fun c => Ascii.eqb c "`" = false) l.

Definition spaces (l : list ascii) : Prop :=
  Forall (fun c => is_space c = true) l.

(** A line feed, and a JSON payload with double quotes, for the examples. *)
Definition nl : string := String "010" "".

Definition sample_payload : string :=
  "{" +:+ dq +:+ "adSlogan" +:+ dq +:+ ": " +:+ dq +:+ "Fresh" +:+ dq +:+ "}".

(** ** The scan *)

Lemma strip_go_skip k l : strip_go k l = strip_fences (drop k l).
Proof.
  revert k. induction l as [|c r IH]; intros [|k]; try done.
  simpl. apply IH.
Qed.

(** The global replacement is the left-to-right scan. *)
Lemma strip_fences_unfold l :
  strip_fences l =
  match l with
  | [] => []
  | c :: r =>
    match match_len l with
    | O => c :: strip_fences r
    | S k => strip_fences (drop (S k) l)
    end
  end.
Proof.
  destruct l as [|c r]; [done|]. unfold strip_fences at 1. simpl strip_go.
  destruct (match_len (c :: r)) as [|n]; [done|]. exact (strip_go_skip n r).
Qed.

Lemma strip_fences_keep c r :
  match_len (c :: r) = 0 -> strip_fences (c :: r) = c :: strip_fences r.
Proof. intros H. by rewrite strip_fences_unfold, H. Qed.

Lemma strip_fences_drop l n :
  match_len l = S n -> strip_fences l = strip_fences (drop (S n) l).
Proof.
  intros H. rewrite strip_fences_unfold, H. destruct l; [|done].
  by rewrite drop_nil.
Qed.

Lemma strip_go_length k l : length (strip_go k l) <= length l.
Proof.
  revert k. induction l as [|c r IH]; intros k; simpl; [lia|].
  destruct k; [destruct (match_len (c :: r))|]; simpl;
    match goal with |- context [strip_go ?j r] => specialize (IH j) end; lia.
Qed.

(** The scan only deletes: its result is a subsequence of its input. *)
Lemma strip_go_sublist k l : sublist (strip_go k l) l.
Proof.
  revert k. induction l as [|c r IH]; intros k; simpl; [constructor|].
  destruct k; [destruct (match_len (c :: r))|]; by constructor.
Qed.

(** ** Matching at a position *)

Lemma backtick_not_space c : Ascii.eqb c "`" = true -> is_space c = false.
Proof. intros H%Ascii.eqb_eq. by subst. Qed.

Lemma fence_open_head c r : c <> "`"%char -> starts_with fence_open (c :: r) = false.
Proof. intros Hc. by apply starts_with_false_head. Qed.

Lemma fence_head c r : c <> "`"%char -> starts_with fence (c :: r) = false.
Proof. intros Hc. by apply starts_with_false_head. Qed.

Lemma fence_open_split l :
  starts_with fence_open (fence ++ l) = starts_with (chars "json") l.
Proof. reflexivity. Qed.

Lemma space_not_backtick c : is_space c = true -> c <> "`"%char.
Proof. by intros H ->. Qed.

Lemma take_while_spaces ws c r :
  Forall (fun x => is_space x = true) ws -> is_space c = false ->
  take_while is_space (ws ++ c :: r) = ws.
Proof.
  intros Hws Hc. induction Hws as [|x l Hx _ IH]; simpl; [by rewrite Hc|].
  by rewrite Hx, IH.
Qed.

Lemma match_len_head c r :
  Ascii.eqb c "`" = false -> is_space c = false -> match_len (c :: r) = 0.
Proof.
  intros Hc%Ascii.eqb_neq Hs. unfold match_len.
  rewrite fence_open_head by done. simpl take_while. rewrite Hs.
  cbn [length drop]. by rewrite fence_head.
Qed.

(** White space followed by a character that is neither white space nor a
    back-tick: no match at the start of the white space. *)
Lemma match_len_spaces ws c r :
  Forall (fun x => is_space x = true) ws ->
  Ascii.eqb c "`" = false -> is_space c = false ->
  match_len (ws ++ c :: r) = 0.
Proof.
  intros Hws Hc Hs. destruct ws as [|w ws]; [by apply match_len_head|].
  unfold match_len. rewrite take_while_spaces, drop_app_length by done.
  apply Ascii.eqb_neq in Hc. rewrite (fence_head c r Hc).
  inv Hws. by rewrite <- app_comm_cons, fence_open_head by (by apply space_not_backtick).
Qed.

(** White space followed by the closing fence: one match that takes the white
    space and the fence. *)
Lemma match_len_spaces_fence ws r :
  Forall (fun x => is_space x = true) ws ->
  match_len (ws ++ fence ++ r) = length ws + 3 \/
  (ws = [] /\ exists n, match_len (fence ++ r) = 7 + n).
Proof.
  intros Hws. destruct ws as [|w ws].
  - change ([] ++ fence ++ r) with (fence ++ r).
    destruct (starts_with fence_open (fence ++ r)) eqn:E.
    + right. split; [done|]. unfold match_len. rewrite E. eauto.
    + left. unfold match_len. by rewrite E.
  - left. unfold match_len.
    change (fence ++ r) with ("`"%char :: chars "``" ++ r).
    rewrite take_while_spaces, drop_app_length by done.
    change ("`"%char :: chars "``" ++ r) with (fence ++ r).
    rewrite starts_with_app.
    inv Hws. by rewrite <- app_comm_cons, fence_open_head by (by apply space_not_backtick).
Qed.

(** ** Scanning a payload that holds no back-tick *)

Lemma spaces_plain l : spaces l -> plain l.
Proof.
  intros H. eapply Forall_impl; [exact H|]. simpl.
  intros c Hc. destruct (Ascii.eqb c "`") eqn:E; [|done].
  apply backtick_not_space in E. congruence.
Qed.

Lemma blank_spaces s : blank s = true <-> spaces (chars s).
Proof. apply forallb_Forall. Qed.

Lemma no_backtick_plain s : no_backtick s = true <-> plain (chars s).
Proof.
  unfold no_backtick, plain. rewrite forallb_Forall.
  split; intros H; (eapply Forall_impl; [exact H|]); simpl;
    intros c; by destruct (Ascii.eqb c "`").
Qed.

(** White space and then the closing fence at the end of the text: all of it
    is dropped. *)
Lemma strip_fences_spaces_fence ws :
  spaces ws -> strip_fences (ws ++ fence) = [].
Proof.
  intros Hws.
  destruct (match_len_spaces_fence ws [] Hws) as [H | [-> [n H]]];
    rewrite app_nil_r in H.
  - rewrite (strip_fences_drop _ (length ws + 2)) by (rewrite H; lia).
    rewrite drop_ge; [done|]. rewrite length_app. simpl. lia.
  - vm_compute in H. lia.
Qed.

(** A payload without back-ticks, then white space, then the closing fence:
    the scan keeps the payload up to its last character that is not white
    space. *)
Lemma strip_fences_payload m ws :
  plain m -> spaces ws ->
  strip_fences (m ++ ws ++ fence) = drop_while_end is_space m.
Proof.
  intros Hm Hws. induction m as [|x m IH].
  - by apply strip_fences_spaces_fence.
  - destruct (split_first_stop is_space (x :: m)) as [Hall | (a & y & b & E & Ha & Hy)].
    + rewrite app_assoc, strip_fences_spaces_fence, drop_while_end_all; [done..|].
      by apply Forall_app.
    + assert (y ∈ x :: m) as Hin
        by (rewrite E; apply elem_of_app; right; constructor).
      assert (Ascii.eqb y "`" = false) as Hyb
        by apply (proj1 (Forall_forall _ _) Hm _ Hin).
      rewrite (drop_while_end_cons is_space x m y Hy Hin).
      rewrite <- app_comm_cons, strip_fences_keep, IH; [done|by inv Hm|].
      rewrite app_comm_cons, E, <- app_assoc, <- app_comm_cons.
      by apply match_len_spaces.
Qed.

(** After the opening fence has taken the white space that follows it. *)
Lemma strip_fences_after_open q ws :
  plain q -> spaces ws ->
  strip_fences (drop_while is_space (q ++ ws ++ fence)) = trim_chars q.
Proof.
  intros Hq Hws. unfold trim_chars.
  destruct (split_first_stop is_space q) as [Hall | (a & y & b & -> & Ha & Hy)].
  - rewrite (drop_while_all _ q Hall), app_assoc, drop_while_app_all
      by (by apply Forall_app).
    reflexivity.
  - rewrite <- app_assoc, drop_while_app_all by done.
    rewrite (drop_while_app_all _ a (y :: b)) by done.
    rewrite <- app_comm_cons, !drop_while_stop by done.
    rewrite app_comm_cons. apply strip_fences_payload; [|done].
    apply Forall_app in Hq as [_ Hq]. done.
Qed.

Lemma trim_chars_fence_wrapped l :
  trim_chars (fence_open ++ l ++ fence) = fence_open ++ l ++ fence /\
  trim_chars (fence ++ l ++ fence) = fence ++ l ++ fence.
Proof.
  split.
  - change (fence_open ++ l ++ fence)
      with ("`"%char :: (tail fence_open ++ l ++ fence)).
    replace (tail fence_open ++ l ++ fence)
      with ((tail fence_open ++ l ++ chars "``") ++ ["`"%char])
      by (by rewrite <- !app_assoc).
    by apply trim_chars_fixed.
  - change (fence ++ l ++ fence) with ("`"%char :: (chars "``" ++ l ++ fence)).
    replace (chars "``" ++ l ++ fence)
      with ((chars "``" ++ l ++ chars "``") ++ ["`"%char])
      by (by rewrite <- !app_assoc).
    by apply trim_chars_fixed.
Qed.

(** The three lines on characters, for an answer wrapped in
    [```json ... ```]. *)
Lemma clean_chars_fenced ws1 ws2 p ws3 ws4 :
  spaces ws1 -> spaces ws2 -> spaces ws3 -> spaces ws4 -> plain p ->
  trim_chars (strip_fences (trim_chars
    (ws1 ++ fence_open ++ ws2 ++ p ++ ws3 ++ fence ++ ws4))) = trim_chars p.
Proof.
  intros H1 H2 H3 H4 Hp.
  replace (ws1 ++ fence_open ++ ws2 ++ p ++ ws3 ++ fence ++ ws4)
    with (ws1 ++ (fence_open ++ (ws2 ++ p ++ ws3) ++ fence) ++ ws4)
    by (by rewrite <- !app_assoc).
  rewrite trim_chars_pad by done.
  rewrite (proj1 (trim_chars_fence_wrapped _)).
  rewrite (strip_fences_drop _
    (6 + length (take_while is_space ((ws2 ++ p ++ ws3) ++ fence)))).
  2:{ unfold match_len. by rewrite starts_with_app. }
  change (S (6 + ?n)) with (7 + n). rewrite <- drop_drop.
  change (drop 7 (fence_open ++ ?l)) with l.
  rewrite take_while_length_drop.
  replace ((ws2 ++ p ++ ws3) ++ fence) with ((ws2 ++ p) ++ ws3 ++ fence)
    by (by rewrite <- !app_assoc).
  rewrite strip_fences_after_open, trim_chars_idemp;
    [|apply Forall_app; split; [by apply spaces_plain|done]|done].
  rewrite <- (app_nil_r (ws2 ++ p)), <- app_assoc.
  apply trim_chars_pad; [done|constructor].
Qed.

(** The same for an answer wrapped in [``` ... ```] with no language tag. *)
Lemma clean_chars_plain_fence ws1 ws2 p ws3 ws4 :
  spaces ws1 -> spaces ws2 -> spaces ws3 -> spaces ws4 -> plain p ->
  starts_with (chars "json") (ws2 ++ p ++ ws3 ++ fence) = false ->
  trim_chars (strip_fences (trim_chars
    (ws1 ++ fence ++ ws2 ++ p ++ ws3 ++ fence ++ ws4))) = trim_chars p.
Proof.
  intros H1 H2 H3 H4 Hp Hj.
  replace (ws1 ++ fence ++ ws2 ++ p ++ ws3 ++ fence ++ ws4)
    with (ws1 ++ (fence ++ (ws2 ++ p ++ ws3) ++ fence) ++ ws4)
    by (by rewrite <- !app_assoc).
  rewrite trim_chars_pad by done.
  rewrite (proj2 (trim_chars_fence_wrapped _)).
  rewrite (strip_fences_drop _ 2).
  2:{ unfold match_len. by rewrite fence_open_split, <- !app_assoc, Hj. }
  change (drop 3 (fence ++ ?l)) with l.
  replace ((ws2 ++ p ++ ws3) ++ fence) with ((ws2 ++ p) ++ ws3 ++ fence)
    by (by rewrite <- !app_assoc).
  rewrite strip_fences_payload;
    [|apply Forall_app; split; [by apply spaces_plain|done]|done].
  unfold trim_chars at 1. rewrite drop_while_end_comm, drop_while_end_idemp.
  fold (trim_chars (ws2 ++ p)).
  rewrite <- (app_nil_r (ws2 ++ p)), <- app_assoc.
  apply trim_chars_pad; [done|constructor].
Qed.

(** ** Text without fences *)

Lemma match_len_no_fence l : contains fence l = false -> match_len l = 0.
Proof.
  intros Hl. unfold match_len.
  destruct (starts_with fence_open l) eqn:E1.
  - apply starts_with_spec in E1 as [k ->].
    enough (contains fence (fence_open ++ k) = true) by congruence.
    apply contains_spec. exists [], (chars "json" ++ k). done.
  - destruct (starts_with fence (drop _ l)) eqn:E2; [|done].
    enough (contains fence l = true) by congruence.
    rewrite <- (take_drop (length (take_while is_space l)) l).
    apply contains_app_r, contains_spec.
    apply starts_with_spec in E2 as [k Hk]. by exists [], k.
Qed.

Lemma contains_cons_false {A} `{EqDecision A} (sub : list A) x l :
  contains sub (x :: l) = false -> contains sub l = false.
Proof. simpl. by intros [_ ?]%orb_false_iff. Qed.

Lemma strip_fences_no_fence l : contains fence l = false -> strip_fences l = l.
Proof.
  induction l as [|c r IH]; intros Hl; [done|].
  rewrite strip_fences_keep by (by apply match_len_no_fence).
  f_equal. apply IH. by apply contains_cons_false in Hl.
Qed.

Lemma trim_chars_infix l : exists a b, l = a ++ trim_chars l ++ b.
Proof.
  unfold trim_chars. destruct (drop_while_suffix is_space l) as [a Ha].
  destruct (drop_while_end_prefix is_space (drop_while is_space l)) as [b Hb].
  exists a, b. by rewrite <- Hb.
Qed.

Lemma trim_chars_no_fence l :
  contains fence l = false -> contains fence (trim_chars l) = false.
Proof.
  intros Hl. destruct (contains fence (trim_chars l)) eqn:E; [|done].
  destruct (trim_chars_infix l) as (a & b & Hab).
  rewrite Hab in Hl. rewrite contains_app_r in Hl; [done|].
  by apply contains_app_l.
Qed.

(** ** The three lines *)

Lemma cleanResponse_chars s :
  chars (cleanResponse s) = trim_chars (strip_fences (trim_chars (chars s))).
Proof. unfold cleanResponse, trim. by rewrite !on_chars_chars. Qed.

Lemma trim_chars_eq s : chars (trim s) = trim_chars (chars s).
Proof. apply on_chars_chars. Qed.

(** C7.  An answer that the model wrapped in a [```json] fence, with any white
    space around the fences and a payload that holds no back-tick, is cleaned
    to exactly the payload without its surrounding white space: this is the
    text [JSON.parse] receives. *)
Theorem cleanResponse_fenced ws1 ws2 p ws3 ws4 :
  blank ws1 = true -> blank ws2 = true -> blank ws3 = true -> blank ws4 = true ->
  no_backtick p = true ->
  cleanResponse (ws1 +:+ "```json" +:+ ws2 +:+ p +:+ ws3 +:+ "```" +:+ ws4)
  = trim p.
Proof.
  intros H1%blank_spaces H2%blank_spaces H3%blank_spaces H4%blank_spaces
    Hp%no_backtick_plain.
  apply chars_inj. rewrite cleanResponse_chars, trim_chars_eq, !chars_app.
  by apply clean_chars_fenced.
Qed.

Lemma cleanResponse_fenced_witness :
  cleanResponse ("```json" +:+ nl +:+ sample_payload +:+ nl +:+ "```" +:+ nl)
  = sample_payload.
Proof.
  apply (cleanResponse_fenced "" nl sample_payload nl nl); reflexivity.
Defined.

(** The same holds for a fence without the language tag, provided [json]
    does not follow the opening fence directly. *)
Theorem cleanResponse_plain_fence ws1 ws2 p ws3 ws4 :
  blank ws1 = true -> blank ws2 = true -> blank ws3 = true -> blank ws4 = true ->
  no_backtick p = true ->
  starts_with (chars "json") (chars (ws2 +:+ p +:+ ws3 +:+ "```")) = false ->
  cleanResponse (ws1 +:+ "```" +:+ ws2 +:+ p +:+ ws3 +:+ "```" +:+ ws4)
  = trim p.
Proof.
  intros H1%blank_spaces H2%blank_spaces H3%blank_spaces H4%blank_spaces
    Hp%no_backtick_plain Hj.
  apply chars_inj. rewrite cleanResponse_chars, trim_chars_eq, !chars_app.
  rewrite !chars_app in Hj. by apply clean_chars_plain_fence.
Qed.

Lemma cleanResponse_plain_fence_witness :
  cleanResponse (" ```" +:+ nl +:+ sample_payload +:+ nl +:+ "```")
  = sample_payload.
Proof.
  apply (cleanResponse_plain_fence " " nl sample_payload nl ""); reflexivity.
Defined.

(** An answer that holds no fence at all is only trimmed. *)
Theorem cleanResponse_no_fence s :
  no_fence s = true -> cleanResponse s = trim s.
Proof.
  intros Hs%negb_true_iff. apply chars_inj.
  rewrite cleanResponse_chars, trim_chars_eq.
  rewrite strip_fences_no_fence by (by apply trim_chars_no_fence).
  apply trim_chars_idemp.
Qed.

Lemma cleanResponse_no_fence_witness :
  cleanResponse (" " +:+ sample_payload +:+ nl) = sample_payload.
Proof. apply (cleanResponse_no_fence (" " +:+ sample_payload +:+ nl)). reflexivity. Defined.

(** Cleaning only deletes characters: the cleaned text is a subsequence
    of the answer, so it is never longer. *)
Theorem cleanResponse_sublist s :
  sublist (chars (cleanResponse s)) (chars s) /\
  String.length (cleanResponse s) <= String.length s.
Proof.
  assert (sublist (chars (cleanResponse s)) (chars s)) as H.
  { rewrite cleanResponse_chars.
    assert (forall l, sublist (trim_chars l) l) as Ht.
    { intros l. destruct (trim_chars_infix l) as (a & b & Hab).
      rewrite Hab at 2. apply sublist_inserts_l, sublist_inserts_r. done. }
    etransitivity; [apply Ht|]. etransitivity; [apply strip_go_sublist|apply Ht]. }
  split; [done|]. rewrite <- !chars_length. by apply sublist_length.
Qed.

(** ** What the scan does away from the ends *)

(** The language tag is matched case-sensitively: an upper-case tag stays in
    the text handed to [JSON.parse]. *)
Example cleanResponse_upper_tag :
  cleanResponse ("```JSON" +:+ nl +:+ "{}" +:+ nl +:+ "```") = "JSON" +:+ nl +:+ "{}".
Proof. reflexivity. Qed.

(** A fence inside the payload is removed together with the white space
    before it: the replacement is global, not anchored at the ends. *)
Example cleanResponse_inner_fence :
  cleanResponse ("{" +:+ dq +:+ "a" +:+ dq +:+ ": " +:+ dq +:+ "x ``` y" +:+ dq +:+ "}")
  = "{" +:+ dq +:+ "a" +:+ dq +:+ ": " +:+ dq +:+ "x y" +:+ dq +:+ "}".
Proof. reflexivity. Qed.

(** Deleting a match can bring back-ticks together: the cleaned text may
    still hold a fence, and cleaning is not idempotent. *)
Example cleanResponse_not_idempotent :
  cleanResponse "`` ````" = "```" /\ cleanResponse "```" = "".
Proof. split; reflexivity. Qed.
