(* ===== verification/Hash.v ===== *)
(** * Hash: the 32-bit string hash of server.js

    [generateUniqueHash] (server.js lines 474-483) folds the code units of a
    string into a number with [hash = ((hash << 5) - hash) + char] followed by
    [hash = hash & hash], and returns [Math.abs(hash)].  The shift and the
    [&] work on 32-bit two's-complement integers ([to_int32] is JavaScript's
    ToInt32); the subtraction and the addition between them are exact.  The
    string is [text + Date.now() + Math.random()]: the clock reading and the
    rendering of the random number are arguments of the model.

    Theorems: one turn of the loop is [31 * hash + char] wrapped to 32 bits;
    the loop is the base-31 polynomial of the code units wrapped to 32 bits;
    the result is between 0 and 2^31, and 2^31 itself, which is not a 32-bit
    integer, is reached.  No function of the file calls
    [generateUniqueHash].

    [generateUniqueSeed] (lines 38-42 and again 197-201) keeps the first ten
    characters of a SHA-256 digest in hexadecimal; the digest is a variable
    of the section.  No function of the file calls it either. *)

From Stdlib Require Import ZArith Lia List Bool Ascii String.
From stdpp Require Import base tactics option list strings pretty.
From S2P Require Import Prelude JsString.

Local Open Scope Z_scope.

(** ** 32-bit integers *)

(** ToInt32: the integer congruent to [z] modulo 2^32 in [-2^31, 2^31). *)
Definition to_int32 (z : Z) : Z := (z + 2 ^ 31) mod 2 ^ 32 - 2 ^ 31.

Definition int32 (z : Z) : Prop := - 2 ^ 31 <= z < 2 ^ 31.

(** [str.charCodeAt(i)] *)
Definition charCode (c : ascii) : Z := Z.of_N (N_of_ascii c).

(** ** The hash *)

(** Lines 478-480: one turn of the loop. *)
Definition hash_step (hash char : Z) : Z :=
  let hash := to_int32 (Z.shiftl (to_int32 hash) 5) - hash + char in
  Z.land (to_int32 hash) (to_int32 hash).

(** Lines 477-481: the loop over the code units. *)
Definition hash_loop (hash : Z) (str : list ascii) : Z :=
  fold_left (fun h c => hash_step h (charCode c)) str hash.

(** Lines 474-483. *)
Definition generateUniqueHash (text : string) (now : Z) (random : string) : Z :=
  Z.abs (hash_loop 0 (chars (text +:+ pretty now +:+ random))).

(** ** The seed *)

Section Seed.
(** [crypto.createHash('sha256')], [update] and [digest('hex')]: the digest
    of a string in hexadecimal. *)
Variable sha256_hex : string -> string.

(** Lines 38-42, declared again with the same text at lines 197-201: the
    first ten characters of the digest. *)
Definition generateUniqueSeed (input : string) (now : Z) (random : string) : string :=
  String.substring 0 10 (sha256_hex (input +:+ pretty now +:+ random)).

End Seed.

(** ** Specification *)

(** The base-31 polynomial of the code units, without wrap-around. *)
Definition poly31 (h : Z) (str : list ascii) : Z :=
  fold_left (fun h c => 31 * h + charCode c) str h.

(** ** ToInt32 *)

Lemma to_int32_range z : int32 (to_int32 z).
Proof. unfold int32, to_int32. pose proof (Z.mod_pos_bound (z + 2 ^ 31) (2 ^ 32)). lia. Qed.

Lemma to_int32_id z : int32 z -> to_int32 z = z.
Proof. unfold int32, to_int32. intros Hz. rewrite Z.mod_small; lia. Qed.

Lemma to_int32_mod z : to_int32 z mod 2 ^ 32 = z mod 2 ^ 32.
Proof. unfold to_int32. rewrite Zminus_mod_idemp_l. f_equal. lia. Qed.

Lemma to_int32_congr a b : a mod 2 ^ 32 = b mod 2 ^ 32 -> to_int32 a = to_int32 b.
Proof.
  intros Hab. unfold to_int32. f_equal.
  rewrite (Z.add_mod a), (Z.add_mod b), Hab by lia. done.
Qed.

Lemma to_int32_idemp z : to_int32 (to_int32 z) = to_int32 z.
Proof. apply to_int32_id, to_int32_range. Qed.

#[export] Hint Resolve to_int32_range : js.
#[export] Hint Rewrite to_int32_idemp to_int32_mod : js_rw.

(** ** The loop *)

(** One turn multiplies by 31 and adds the code unit, modulo 2^32. *)
Lemma hash_step_spec h c : hash_step h c = to_int32 (31 * h + c).
Proof.
  unfold hash_step. rewrite Z.land_diag. apply to_int32_congr.
  rewrite Z.shiftl_mul_pow2 by lia.
  rewrite <- Zplus_mod_idemp_l, <- Zminus_mod_idemp_l, to_int32_mod.
  rewrite <- Zmult_mod_idemp_l, to_int32_mod, Zmult_mod_idemp_l.
  rewrite Zminus_mod_idemp_l, Zplus_mod_idemp_l. f_equal. lia.
Qed.

Lemma hash_step_int32 h c : int32 (hash_step h c).
Proof. rewrite hash_step_spec. apply to_int32_range. Qed.

Lemma hash_loop_int32 h l : int32 h -> int32 (hash_loop h l).
Proof.
  revert h. induction l as [|c l IH]; intros h Hh; simpl; [done|].
  apply IH, hash_step_int32.
Qed.

Lemma poly31_congr l : forall a b,
  a mod 2 ^ 32 = b mod 2 ^ 32 -> poly31 a l mod 2 ^ 32 = poly31 b l mod 2 ^ 32.
Proof.
  induction l as [|c l IH]; intros a b Hab; simpl; [done|].
  apply IH. rewrite (Z.add_mod (31 * a)), (Z.add_mod (31 * b)) by lia.
  by rewrite (Z.mul_mod 31 a), (Z.mul_mod 31 b), Hab by lia.
Qed.

(** C37.  The loop of lines 477-481, with its shift, its subtraction and its
    [&], computes the base-31 polynomial of the code units wrapped to 32
    bits. *)
Theorem hash_loop_poly h l : int32 h -> hash_loop h l = to_int32 (poly31 h l).
Proof.
  revert h. induction l as [|c l IH]; intros h Hh; simpl.
  - by rewrite to_int32_id.
  - rewrite IH by apply hash_step_int32. apply to_int32_congr, poly31_congr.
    rewrite hash_step_spec. apply to_int32_mod.
Qed.

Lemma hash_loop_poly_witness :
  hash_loop 0 (chars "ab") = to_int32 (poly31 0 (chars "ab")).
Proof. apply (hash_loop_poly 0 (chars "ab")). unfold int32. lia. Defined.

(** The result of [generateUniqueHash] is between 0 and 2^31, both
    included, whatever the text, the clock and the random number are. *)
Theorem generateUniqueHash_bounds text now random :
  0 <= generateUniqueHash text now random <= 2 ^ 31.
Proof.
  unfold generateUniqueHash.
  pose proof (hash_loop_int32 0 (chars (text +:+ pretty now +:+ random))) as Hi.
  unfold int32 in Hi. lia.
Qed.

(** The upper bound is reached: the loop can end on -2^31, whose
    absolute value, 2^31, is not a 32-bit integer. *)
Example hash_loop_min :
  hash_loop 0 (chars "polygenelubricants") = - 2 ^ 31 /\
  Z.abs (hash_loop 0 (chars "polygenelubricants")) = 2 ^ 31.
Proof. split; vm_compute; reflexivity. Qed.

(** ** The seed *)

Lemma substring_0_length n s :
  String.length (String.substring 0 n s) = Nat.min n (String.length s).
Proof. revert s. induction n as [|n IH]; intros [|c s]; simpl; auto. Qed.

(** The seed has at most ten characters, and exactly ten when the digest has
    the sixty-four of a SHA-256 digest in hexadecimal. *)
Lemma generateUniqueSeed_length sha256_hex input now random :
  (String.length (generateUniqueSeed sha256_hex input now random) <= 10)%nat /\
  (String.length (sha256_hex (input +:+ pretty now +:+ random)) = 64%nat ->
   String.length (generateUniqueSeed sha256_hex input now random) = 10%nat).
Proof. unfold generateUniqueSeed. rewrite substring_0_length. lia. Qed.
