(* ===== verification/Voice.v ===== *)
(** * Voice: the voice-over stage of [POST /api/generate]

    server.js lines 566-780.  The stage fetches the catalogue of voices,
    checks it, derives a category from [brandIdentity.brandPersonality], picks
    a voice, asks for the synthesis of the slogan and answers the request.
    It is the last stage of the handler: every path through it ends with one
    call of [res.json].

    - [check_catalog] (577-579), [personality_of] (594), [classify] (592-601),
      [voiceCategories] (582-587), [find_voice] and [select_voice] (604-615).
    - [primary_attempt] (621-640 and 664-679), [fallback_attempt]
      (695-735) and [degrade] (736-770), composed by [synthesize] (the
      [catch] blocks of lines 680 and 736): the primary request, the retry
      with the fall-back voice, and the answer without audio, with
      [error_message] (750-755) choosing its text.  Lines 641-662 are the
      tails of two statements whose heads are missing and are not read.
    - [voice_stage] (566-619 and 776-780): the [try] up to the synthesis,
      whose [catch] answers 500.
    - The template literals of lines 617 and 623 print the name and the
      identifier of the selected voice; a value that does not print
      ([JsValue.printable]) makes them throw.

    The identifier [voices] of line 697 is free in server.js.  [ModuleScope]
    says what the module scope binds it to; [server_js_scope] binds nothing,
    as the file does, and then the retry stops at the [ReferenceError] before
    any request is made.

    Theorems: the category is decided by the six keywords in the order of
    the [if] chain; the selected voice is the first of the catalogue whose
    name is in the category's list, else the first of the catalogue; the stage
    never throws and sends exactly one answer, with status 200 or 500; when
    both synthesis attempts fail the answer is 200 with [audioBase64: null]
    and one of three messages. *)

From Stdlib Require Import ZArith QArith Lia List Bool Ascii String.
From stdpp Require Import base tactics option list strings.
From S2P Require Import Prelude JsString JsValue Effects.

(** ** Categories and selection *)

Inductive Category : Type := professional | friendly | energetic | warm.

(** Lines 582-587. *)
Definition voiceCategories (c : Category) : list string :=
  match c with
  | professional => ["Rachel"; "Adam"; "Christina"]
  | friendly => ["Bella"; "Antoni"; "Josh"]
  | energetic => ["Sam"; "Ella"; "Thomas"]
  | warm => ["Grace"; "Daniel"; "Charlotte"]
  end.

(** Lines 592 and 595-601, on the lower-cased personality. *)
Definition classify (personality : string) : Category :=
  if includes personality "friendly" || includes personality "casual"
  then friendly
  else if includes personality "energetic" || includes personality "dynamic"
  then energetic
  else if includes personality "warm" || includes personality "welcoming"
  then warm
  else professional.

(** Line 594: [(brandIdentity.brandPersonality || '').toLowerCase()]. *)
Definition personality_of (brandIdentity : JsVal) : Outcome string :=
  p ← get brandIdentity "brandPersonality";
  call_toLowerCase ("(brandIdentity.brandPersonality || " +:+ quoted "" +:+ ")")
    (js_or p (JStr "")).

(** Lines 577-579 and 590: the catalogue, or the [Error] thrown when the reply
    has none. *)
Definition check_catalog (data : JsVal) : Outcome JsVal :=
  if negb (truthy data)
  then Throw (Error "No voices available from ElevenLabs API")
  else
    voices ← get data "voices";
    if negb (truthy voices)
    then Throw (Error "No voices available from ElevenLabs API")
    else Ok voices.

(** Lines 604-606: [find] with the predicate
    [voice => voiceCategories[category].includes(voice.name)]. *)
Fixpoint find_voice (names : list string) (l : list JsVal) : Outcome JsVal :=
  match l with
  | [] => Ok JUndefined
  | voice :: r =>
    n ← get voice "name";
    if names_include names n then Ok voice else find_voice names r
  end.

(** Lines 604-615.  Only an array has [find]. *)
Definition select_voice (category : Category) (availableVoices : JsVal)
    : Outcome JsVal :=
  match availableVoices with
  | JArr l =>
    found ← find_voice (voiceCategories category) l;
    let selected :=
      if negb (truthy found) && (0 <? length l)%nat
      then match l with [] => JUndefined | v :: _ => v end
      else found in
    if negb (truthy selected)
    then Throw (Error "No suitable voice found in ElevenLabs")
    else Ok selected
  | _ => Throw (TypeError "availableVoices.find is not a function")
  end.

(** ** Requests *)

(** Lines 627-632. *)
Definition primary_settings : VoiceSettings :=
  {| stability := 0.75; similarity_boost := 0.75; style := 1.0;
     use_speaker_boost := true |}.

(** Lines 705-710. *)
Definition fallback_settings : VoiceSettings :=
  {| stability := 0.7; similarity_boost := 0.7; style := 0.3;
     use_speaker_boost := true |}.

(** Line 623. *)
Definition primary_url (voice_id : JsVal) : string :=
  "https://api.elevenlabs.io/v1/text-to-speech/" +:+ to_string voice_id +:+ "/stream".

(** Line 701. *)
Definition fallback_url (fallbackVoice : string) : string :=
  "https://api.elevenlabs.io/v1/text-to-speech/" +:+ fallbackVoice.

(** What the module scope binds the free identifier [voices] to: the value of
    [voices.rachel], if any. *)
Record ModuleScope := { voices_rachel : option string }.

(** server.js as it stands: [voices] is not declared. *)
Definition server_js_scope : ModuleScope := {| voices_rachel := None |}.

(** Line 697: [const fallbackVoice = voices.rachel]. *)
Definition lookup_fallback_voice (scope : ModuleScope) : Outcome string :=
  match voices_rachel scope with
  | Some v => Ok v
  | None => Throw (ReferenceError "voices")
  end.

(** ** Answers *)

Definition auth_message : string :=
  "ElevenLabs API authentication failed. Please check your API key.".

Definition rate_message : string :=
  "ElevenLabs API rate limit exceeded. Please try again later.".

Definition generic_message : string :=
  "ElevenLabs API error. Please try again.".

(** Lines 750-755. *)
Definition error_message (retryError : JsErr) : string :=
  match err_status retryError with
  | Some 401%Z => auth_message
  | Some 429%Z => rate_message
  | _ => generic_message
  end.

(** Lines 668-675 and 725-732: the answer with audio. *)
Definition success_body (imageUrls brandIdentity : JsVal) (audioBase64 : string)
    : Outcome JsVal :=
  adSlogan ← get brandIdentity "adSlogan";
  mascotDescription ← get brandIdentity "mascotDescription";
  visualStyle ← get brandIdentity "visualStyle";
  Ok (JObj [("imageUrls", imageUrls);
            ("audioBase64", JStr audioBase64);
            ("adSlogan", adSlogan);
            ("mascotDescription", mascotDescription);
            ("visualStyle", visualStyle);
            ("useElevenLabs", JBool true)]).

(** Lines 758-765: the answer without audio. *)
Definition degraded_body (imageUrls brandIdentity : JsVal) (errorMessage : string)
    : Outcome JsVal :=
  adSlogan ← get brandIdentity "adSlogan";
  mascotDescription ← get brandIdentity "mascotDescription";
  visualStyle ← get brandIdentity "visualStyle";
  Ok (JObj [("imageUrls", imageUrls);
            ("audioBase64", JNull);
            ("adSlogan", adSlogan);
            ("mascotDescription", mascotDescription);
            ("visualStyle", visualStyle);
            ("elevenlabsError", JStr errorMessage)]).

(** ** The stage *)

Section Stage.
Context `{Platform} (scope : ModuleScope).

(** Lines 621-640 and 664-679: the primary synthesis and its answer.  The
    URL of line 623 is a template literal. *)
Definition primary_attempt (brandIdentity imageUrls selectedVoice : JsVal)
    : M unit :=
  voice_id ← lift (get selectedVoice "voice_id");
  url ← lift (template [voice_id] (primary_url voice_id));
  text ← lift (get brandIdentity "adSlogan");
  audio ← post_speech url text "eleven_multilingual_v2" primary_settings;
  body ← lift (success_body imageUrls brandIdentity (base64 audio));
  send 200 body.

(** Lines 695-735: the retry with the fall-back voice and its answer. *)
Definition fallback_attempt (brandIdentity imageUrls : JsVal) : M unit :=
  fallbackVoice ← lift (lookup_fallback_voice scope);
  text ← lift (get brandIdentity "adSlogan");
  audio ← post_speech (fallback_url fallbackVoice) text "eleven_monolingual_v1"
            fallback_settings;
  body ← lift (success_body imageUrls brandIdentity (base64 audio));
  send 200 body.

(** Lines 736-770: both attempts failed; answer 200 without audio. *)
Definition degrade (brandIdentity imageUrls : JsVal) (retryError : JsErr)
    : M unit :=
  body ← lift (degraded_body imageUrls brandIdentity (error_message retryError));
  send 200 body.

(** Lines 680-697 and 736: the two [catch] blocks around the attempts. *)
Definition synthesize (brandIdentity imageUrls selectedVoice : JsVal) : M unit :=
  try_catch (primary_attempt brandIdentity imageUrls selectedVoice)
    (fun elevenlabsError =>
       try_catch (fallback_attempt brandIdentity imageUrls)
         (fun retryError => degrade brandIdentity imageUrls retryError)).

(** Lines 566-619 and 776-780: the [try] up to the synthesis, and its
    [catch].  Line 617 logs the name and the identifier of the selected
    voice with a template literal. *)
Definition voice_stage (brandIdentity imageUrls : JsVal) : M unit :=
  try_catch
    (data ← get_voices;
     availableVoices ← lift (check_catalog data);
     personality ← lift (personality_of brandIdentity);
     selectedVoice ← lift (select_voice (classify personality) availableVoices);
     name ← lift (get selectedVoice "name");
     voice_id ← lift (get selectedVoice "voice_id");
     _ ← lift (interpolate [name; voice_id]);
     synthesize brandIdentity imageUrls selectedVoice)
    (fun audioError =>
       send 500 (error_body "Failed to generate voiceover. Please try again.")).

End Stage.

(** ** Specifications *)

(** [kw] occurs in [p]. *)
Definition mentions (p kw : string) : Prop := exists a b, p = a +:+ kw +:+ b.

(** The voice's name is one of [names]. *)
Definition named_in (names : list string) (v : JsVal) : bool :=
  names_include names (get_opt v "name").

(** The selection as the specification words it: the first voice of the
    catalogue whose name is in the category's list, else the first voice of
    the catalogue, else none. *)
Definition select_voice_ref (category : Category) (l : list JsVal) : option JsVal :=
  head (List.filter (named_in (voiceCategories category)) l ++ l).

Definition is_object (v : JsVal) : Prop := exists fs, v = JObj fs.

(** The answer's status is one of [codes]. *)
Definition status_in (codes : list Z) (r : Response) : Prop := In (r_status r) codes.

(** The request of the primary synthesis, as logged. *)
Definition primary_call (brandIdentity selectedVoice : JsVal) : Call :=
  CallSpeech (primary_url (get_opt selectedVoice "voice_id"))
    (get_opt brandIdentity "adSlogan") "eleven_multilingual_v2" primary_settings.

(** The request of the retry, as logged. *)
Definition fallback_call (brandIdentity : JsVal) (fallbackVoice : string) : Call :=
  CallSpeech (fallback_url fallbackVoice) (get_opt brandIdentity "adSlogan")
    "eleven_monolingual_v1" fallback_settings.

(** ** Sample data for the examples *)

Definition voice (name voice_id : string) : JsVal :=
  JObj [("voice_id", JStr voice_id); ("name", JStr name)].

Definition sample_catalog : JsVal :=
  JObj [("voices", JArr [voice "Zed" "v0"; voice "Bella" "v1"; voice "Rachel" "v2"])].

Definition sample_identity : JsVal :=
  JObj [("mascotDescription", JStr "A cheerful fox");
        ("visualStyle", JStr "Modern");
        ("adSlogan", JStr "Fresh");
        ("brandPersonality", JStr "Friendly and Casual")].

(** A platform for the examples: base64 is marked, not computed. *)
Definition test_platform : Platform :=
  {| json_parse := fun _ => None; base64 := fun b => "b64:" +:+ b |}.

Definition sample_voice : JsVal := voice "Bella" "v1".

(** A world whose speech service fails twice. *)
Definition failing_speech_world : World :=
  set_speech [Throw network_error;
              Throw (AxiosError "Request failed with status code 429" None
                       (Some {| f_status := 429; f_data := JNull |}) true)]
    empty_world.

Definition healthy_speech_world : World := set_speech [Ok "mp3"] empty_world.

Definition with_rachel : ModuleScope := {| voices_rachel := Some "21m00Tcm4TlvDq8ikWAM" |}.

#[export] Instance Category_eq_dec : EqDecision Category.
Proof. solve_decision. Defined.

(** ** The category *)

Lemma mentions_includes p kw : includes p kw = true <-> mentions p kw.
Proof. apply includes_spec. Qed.

(** C25.  The category follows the six keywords in the order of the [if]
    chain of lines 595-601: [friendly] or [casual] wins over [energetic] or
    [dynamic], which wins over [warm] or [welcoming]; without any keyword
    the category is [professional]. *)
Theorem classify_priority p :
  (mentions p "friendly" \/ mentions p "casual" -> classify p = friendly) /\
  (~ mentions p "friendly" -> ~ mentions p "casual" ->
   mentions p "energetic" \/ mentions p "dynamic" -> classify p = energetic) /\
  (~ mentions p "friendly" -> ~ mentions p "casual" ->
   ~ mentions p "energetic" -> ~ mentions p "dynamic" ->
   mentions p "warm" \/ mentions p "welcoming" -> classify p = warm) /\
  (~ mentions p "friendly" -> ~ mentions p "casual" ->
   ~ mentions p "energetic" -> ~ mentions p "dynamic" ->
   ~ mentions p "warm" -> ~ mentions p "welcoming" -> classify p = professional).
Proof.
  unfold classify. rewrite <- !mentions_includes, !not_true_iff_false.
  repeat split; intros;
    repeat match goal with
    | H : _ \/ _ |- _ => destruct H
    | H : includes _ _ = _ |- _ => rewrite H
    end; simpl; rewrite ?orb_true_r; done.
Qed.

Lemma classify_priority_witness :
  classify "bold and energetic" = energetic.
Proof.
  apply (proj1 (proj2 (classify_priority "bold and energetic")));
    rewrite <- ?mentions_includes, ?not_true_iff_false; auto.
Defined.

(** The examples of the specification, through the lower-casing of line 594. *)
Example classify_examples :
  (classify <$> personality_of (JObj [("brandPersonality", JStr "Friendly and Casual")])) = Ok friendly /\
  (classify <$> personality_of (JObj [("brandPersonality", JStr "bold and ENERGETIC")])) = Ok energetic /\
  (classify <$> personality_of (JObj [("brandPersonality", JStr "warm, welcoming")])) = Ok warm /\
  (classify <$> personality_of (JObj [("brandPersonality", JStr "")])) = Ok professional /\
  (classify <$> personality_of (JObj [])) = Ok professional.
Proof. repeat split. Qed.

(** A personality that is not a string has no [toLowerCase]. *)
Example personality_not_a_string :
  personality_of (JObj [("brandPersonality", JNum 7)])
  = Throw (TypeError ("(brandIdentity.brandPersonality || " +:+ quoted ""
                      +:+ ").toLowerCase is not a function")).
Proof. reflexivity. Qed.

(** ** The selection *)

Lemma find_voice_objects names l :
  Forall is_object l ->
  find_voice names l =
  Ok (default JUndefined (head (List.filter (named_in names) l))).
Proof.
  induction 1 as [|v l [fs ->] _ IH]; [done|].
  cbn [find_voice List.filter]. unfold named_in at 1.
  change (get (JObj fs) "name") with (Ok (lookup_field "name" fs)).
  change (get_opt (JObj fs) "name") with (lookup_field "name" fs).
  cbn [mbind outcome_bind]. by destruct (names_include names _).
Qed.

Lemma named_in_truthy names v : named_in names v = true -> truthy v = true.
Proof.
  unfold named_in. intros (s & _ & Hs)%names_include_spec.
  destruct v; try done; unfold get_opt in Hs; simpl in Hs; try discriminate.
  all: by destruct (String.eqb _ _).
Qed.

(** C24.  On a catalogue of objects the selection of lines 604-615 is the
    specification's: the first voice whose name is in the category's list,
    else the first voice, and the [Error] of line 614 exactly when the
    catalogue is empty. *)
Theorem select_voice_refines category l :
  Forall is_object l ->
  select_voice category (JArr l) =
  match select_voice_ref category l with
  | Some v => Ok v
  | None => Throw (Error "No suitable voice found in ElevenLabs")
  end.
Proof.
  intros Hl. unfold select_voice, select_voice_ref.
  rewrite find_voice_objects by done. cbn [mbind outcome_bind].
  destruct (List.filter _ l) as [|v k] eqn:E; simpl.
  - destruct Hl as [|v l [fs ->] _]; simpl; done.
  - assert (In v (List.filter (named_in (voiceCategories category)) l)) as Hin
      by (rewrite E; by left).
    apply filter_In in Hin as [_ Hv%named_in_truthy].
    rewrite Hv. simpl. by rewrite Hv.
Qed.

Lemma select_voice_refines_witness :
  select_voice friendly (JArr [voice "Zed" "v0"; voice "Bella" "v1"; voice "Rachel" "v2"])
  = Ok (voice "Bella" "v1").
Proof.
  apply (select_voice_refines friendly
           [voice "Zed" "v0"; voice "Bella" "v1"; voice "Rachel" "v2"]).
  repeat constructor; eexists; reflexivity.
Defined.

Lemma find_voice_member names l v :
  find_voice names l = Ok v -> v = JUndefined \/ (v ∈ l /\ named_in names v = true).
Proof.
  induction l as [|x l IH]; simpl; [intros [= <-]; by left|].
  destruct (get x "name") as [n|e] eqn:En; [|done]. cbn [mbind outcome_bind].
  destruct (names_include names n) eqn:E.
  - intros [= <-]. right. split; [left|]. unfold named_in. by rewrite (get_opt_ok _ _ _ En).
  - intros [Hv | [Hv ?]]%IH; [by left|right]. split; [by right|done].
Qed.

(** Whatever the catalogue holds, a voice that is selected is an element
    of the catalogue and is not a falsy value, so that reading its
    [voice_id] cannot throw. *)
Theorem select_voice_member category v x :
  select_voice category v = Ok x ->
  exists l, v = JArr l /\ x ∈ l /\ truthy x = true.
Proof.
  unfold select_voice. destruct v as [| | | | |l|]; try done.
  destruct (find_voice _ l) as [found|e] eqn:Ef; [|done]. cbn [mbind outcome_bind].
  apply find_voice_member in Ef.
  destruct (negb (truthy found) && (0 <? length l)%nat) eqn:Eb.
  - destruct l as [|y l]; [done|]. destruct (truthy y) eqn:Ey; [|done].
    intros [= <-]. exists (y :: l). split_and!; [done|left|done].
  - destruct (truthy found) eqn:Et; [|done]. intros [= <-].
    destruct Ef as [-> | [Hin _]]; [done|]. by exists l.
Qed.

Lemma select_voice_member_witness :
  exists l, JArr [JNum 0; JBool false; voice "Sam" "v3"] = JArr l /\
            voice "Sam" "v3" ∈ l /\ truthy (voice "Sam" "v3") = true.
Proof.
  apply (select_voice_member energetic (JArr [JNum 0; JBool false; voice "Sam" "v3"])).
  reflexivity.
Defined.

(** A catalogue whose first element is falsy and that has no voice of the
    category: the selection falls back on the first element and then throws,
    although the catalogue holds a usable voice. *)
Example select_voice_falsy_first :
  select_voice energetic (JArr [JNum 0; voice "Zed" "v0"])
  = Throw (Error "No suitable voice found in ElevenLabs").
Proof. reflexivity. Qed.

(** ** The final error message *)

(** The message of the answer without audio is decided by the status of
    the retry's error alone: 401 gives the authentication message, 429 the
    rate-limit message, anything else, an error without a response
    included, the generic message. *)
Theorem error_message_cases e :
  (err_status e = Some 401%Z /\ error_message e = auth_message) \/
  (err_status e = Some 429%Z /\ error_message e = rate_message) \/
  (err_status e <> Some 401%Z /\ err_status e <> Some 429%Z /\
   error_message e = generic_message).
Proof.
  unfold error_message. destruct (err_status e) as [z|]; [|by right; right].
  destruct (decide (z = 401%Z)) as [->|]; [by left|].
  destruct (decide (z = 429%Z)) as [->|]; [by right; left|].
  right; right. split_and!; [congruence..|].
  destruct z as [|p|p]; try done.
  repeat (destruct p as [p|p|]; try done).
Qed.

(** ** The stage answers once *)

Section StageFacts.
Context `{Platform} (scope : ModuleScope).

Lemma settles_primary bi urls sv :
  settles (status_in [200%Z]) (primary_attempt bi urls sv).
Proof.
  unfold primary_attempt.
  repeat (apply settles_bind; [auto with js|intros ?]).
  apply settles_send. by left.
Qed.

Lemma settles_synthesize bi urls sv :
  settles (status_in [200%Z]) (synthesize scope bi urls sv).
Proof.
  unfold synthesize, fallback_attempt, degrade.
  repeat first [ apply settles_try_catch | intros ?
               | apply settles_bind; [auto with js|]
               | apply settles_primary
               | apply settles_send; by left ].
Qed.

Lemma answers_voice_stage bi urls :
  answers (status_in [200%Z; 500%Z]) (voice_stage scope bi urls).
Proof.
  unfold voice_stage. apply answers_try_catch.
  - repeat (apply settles_bind; [auto with js|intros ?]).
    eapply settles_weaken; [|apply settles_synthesize].
    intros r Hr. unfold status_in in *. simpl in *. tauto.
  - intros e. apply answers_send. unfold status_in. simpl. tauto.
Qed.

(** C4.  The voice stage never throws and sends exactly one answer, whose
    status is 200 or 500, whatever the brand identity, the catalogue and the
    replies of the speech service are. *)
Theorem voice_stage_answers bi urls w :
  exists r, (voice_stage scope bi urls w).1 = Ok tt /\
            sent_of (voice_stage scope bi urls) w = [r] /\
            (r_status r = 200 \/ r_status r = 500)%Z.
Proof.
  destruct (answers_run _ _ w (answers_voice_stage bi urls)) as ([] & r & ? & ? & Hr).
  exists r. split_and!; [done..|]. destruct Hr as [<-|[<-|[]]]; auto.
Qed.

(** When the catalogue cannot be fetched, or the reply holds no catalogue, the
    stage answers 500 after its one request. *)
Lemma voice_stage_no_catalog bi urls reply rest w :
  w_voices w = reply :: rest ->
  (reply ≫= check_catalog) = Throw (Error "No voices available from ElevenLabs API") \/
  (exists e, reply = Throw e) ->
  voice_stage scope bi urls w
  = (Ok tt, add_sent {| r_status := 500;
                        r_body := error_body "Failed to generate voiceover. Please try again." |}
              (log_call CallVoices (set_voices rest w))).
Proof.
  intros Hw Hr. unfold voice_stage. unfold_M. rewrite Hw. simpl.
  destruct Hr as [Hr | [e ->]]; [|done].
  destruct reply as [data|e]; [|done]. simpl in Hr. by rewrite Hr.
Qed.

(** ** The runs of the synthesis *)

(** C5.  For a selected voice whose identifier prints in the URL of line
    623: when the primary synthesis succeeds the answer is 200 and carries
    the base64 of the audio together with the image URLs and the three
    fields of the identity; one request was made, to the selected voice's
    streaming URL with the primary settings. *)
Theorem synthesize_success fs urls sv audio rest w :
  truthy sv = true -> printable (get_opt sv "voice_id") = true ->
  w_speech w = Ok audio :: rest ->
  exists body,
    success_body urls (JObj fs) (base64 audio) = Ok body /\
    synthesize scope (JObj fs) urls sv w =
      (Ok tt, add_sent {| r_status := 200; r_body := body |}
                (log_call (primary_call (JObj fs) sv) (set_speech rest w))).
Proof.
  intros Hsv Hp Hw. eexists. split; [reflexivity|].
  destruct (get_truthy sv "voice_id" Hsv) as [vid Hvid].
  rewrite (get_opt_ok _ _ _ Hvid) in Hp.
  unfold synthesize, primary_attempt, primary_call. unfold_M.
  rewrite Hvid, (get_opt_ok _ _ _ Hvid), (template_one _ _ Hp), Hw. reflexivity.
Qed.

(** C6.  In a module scope that binds [voices.rachel], which is what the
    retry of lines 695-735 is written for and what server.js as it stands
    does not do ([synthesize_as_written] is the file as it stands), and
    for a selected voice whose identifier prints: when both synthesis
    attempts fail the answer is still 200, with
    [audioBase64: null] and the message chosen from the retry's error; two
    requests were made, the second to the fall-back voice with the fall-back
    settings. *)
Theorem synthesize_both_fail fs urls sv fv e1 e2 rest w :
  voices_rachel scope = Some fv ->
  truthy sv = true -> printable (get_opt sv "voice_id") = true ->
  w_speech w = Throw e1 :: Throw e2 :: rest ->
  exists body,
    degraded_body urls (JObj fs) (error_message e2) = Ok body /\
    synthesize scope (JObj fs) urls sv w =
      (Ok tt, add_sent {| r_status := 200; r_body := body |}
                (log_call (fallback_call (JObj fs) fv)
                  (set_speech rest
                    (log_call (primary_call (JObj fs) sv)
                      (set_speech (Throw e2 :: rest) w))))).
Proof.
  intros Hsc Hsv Hp Hw. eexists. split; [reflexivity|].
  destruct (get_truthy sv "voice_id" Hsv) as [vid Hvid].
  rewrite (get_opt_ok _ _ _ Hvid) in Hp.
  unfold synthesize, primary_attempt, fallback_attempt, degrade, primary_call,
    fallback_call, lookup_fallback_voice. unfold_M.
  rewrite Hvid, (get_opt_ok _ _ _ Hvid), (template_one _ _ Hp), Hsc, Hw. reflexivity.
Qed.

End StageFacts.

Lemma synthesize_success_witness :
  sent_of (synthesize (H := test_platform) with_rachel sample_identity (JArr [])
             sample_voice) healthy_speech_world
  = [{| r_status := 200;
        r_body := JObj [("imageUrls", JArr []); ("audioBase64", JStr "b64:mp3");
                        ("adSlogan", JStr "Fresh");
                        ("mascotDescription", JStr "A cheerful fox");
                        ("visualStyle", JStr "Modern");
                        ("useElevenLabs", JBool true)] |}].
Proof.
  destruct (synthesize_success (H := test_platform) with_rachel
              [("mascotDescription", JStr "A cheerful fox");
               ("visualStyle", JStr "Modern"); ("adSlogan", JStr "Fresh");
               ("brandPersonality", JStr "Friendly and Casual")]
              (JArr []) sample_voice "mp3" [] healthy_speech_world
              eq_refl eq_refl eq_refl) as (body & Hb & Hrun).
  unfold sent_of, sample_identity. rewrite Hrun. injection Hb as <-. reflexivity.
Defined.

Lemma synthesize_both_fail_witness :
  sent_of (synthesize (H := test_platform) with_rachel sample_identity (JArr [])
             sample_voice) failing_speech_world
  = [{| r_status := 200;
        r_body := JObj [("imageUrls", JArr []); ("audioBase64", JNull);
                        ("adSlogan", JStr "Fresh");
                        ("mascotDescription", JStr "A cheerful fox");
                        ("visualStyle", JStr "Modern");
                        ("elevenlabsError", JStr rate_message)] |}].
Proof.
  destruct (synthesize_both_fail (H := test_platform) with_rachel
              [("mascotDescription", JStr "A cheerful fox");
               ("visualStyle", JStr "Modern"); ("adSlogan", JStr "Fresh");
               ("brandPersonality", JStr "Friendly and Casual")]
              (JArr []) sample_voice "21m00Tcm4TlvDq8ikWAM" _ _ []
              failing_speech_world eq_refl eq_refl eq_refl eq_refl) as (body & Hb & Hrun).
  unfold sent_of, sample_identity. rewrite Hrun. injection Hb as <-. reflexivity.
Defined.

(** ** server.js as it stands *)

(** C26.  With the module scope of server.js, where [voices] is not declared,
    and a selected voice whose identifier prints, a failure of the primary
    synthesis is never retried: the [ReferenceError] of line 697 goes to the
    last [catch], exactly one request was made, and the message is the
    generic one whatever the service answered. *)
Theorem synthesize_as_written `{Platform} fs urls sv e1 rest w :
  truthy sv = true -> printable (get_opt sv "voice_id") = true ->
  w_speech w = Throw e1 :: rest ->
  exists body,
    degraded_body urls (JObj fs) generic_message = Ok body /\
    synthesize server_js_scope (JObj fs) urls sv w =
      (Ok tt, add_sent {| r_status := 200; r_body := body |}
                (log_call (primary_call (JObj fs) sv) (set_speech rest w))).
Proof.
  intros Hsv Hp Hw. eexists. split; [reflexivity|].
  destruct (get_truthy sv "voice_id" Hsv) as [vid Hvid].
  rewrite (get_opt_ok _ _ _ Hvid) in Hp.
  unfold synthesize, primary_attempt, fallback_attempt, degrade, primary_call,
    lookup_fallback_voice. unfold_M.
  rewrite Hvid, (get_opt_ok _ _ _ Hvid), (template_one _ _ Hp), Hw. reflexivity.
Qed.

Lemma synthesize_as_written_witness :
  calls_of (synthesize (H := test_platform) server_js_scope sample_identity
              (JArr []) sample_voice) failing_speech_world
  = [primary_call sample_identity sample_voice].
Proof.
  destruct (synthesize_as_written (H := test_platform)
              [("mascotDescription", JStr "A cheerful fox");
               ("visualStyle", JStr "Modern"); ("adSlogan", JStr "Fresh");
               ("brandPersonality", JStr "Friendly and Casual")]
              (JArr []) sample_voice _ _ failing_speech_world
              eq_refl eq_refl eq_refl) as (body & Hb & Hrun).
  unfold calls_of, sample_identity. rewrite Hrun. reflexivity.
Defined.

(** The fall-back settings are announced as more stable (line 706), but
    their [stability] is below the primary one. *)
Example fallback_is_less_stable :
  (stability fallback_settings < stability primary_settings)%Q.
Proof. reflexivity. Qed.
