(* ===== verification/Retry.v ===== *)
(** * Retry: the retry policy of the voice-over as a state machine

    The specification asks for the nest of [catch] blocks of server.js lines
    621-640 and 680-771 to behave as a small machine,
    [Attempting primary -> Attempting fallback -> Degraded], which leaves
    [Attempting] for good as soon as an attempt gives audio.  [retry_step] is
    that machine, [advance] and [feed] run it, and [observed] is what the
    two attempts of the code end with in a world: the replies of the speech
    service, or the [ReferenceError] of line 697 where the module binds no
    [voices].

    Theorems: the machine is deterministic, stops after at most two steps and
    degrades only after two failures; [Voice.synthesize] implements it: the
    answer it sends is the answer of the phase the machine ends in, and its
    requests are the requests of the attempts the machine went through. *)

From Stdlib Require Import ZArith QArith Lia List Bool Ascii String.
From stdpp Require Import base tactics option list strings.
From S2P Require Import Prelude JsString JsValue Effects Voice.

(** ** The machine *)

Inductive Attempt : Type := Primary | Fallback.

Inductive Phase : Type :=
| Attempting (a : Attempt)
| Audio (a : Attempt) (audio : string)
| Degraded (retryError : JsErr).

(** One transition, labelled with what the attempt ended with. *)
Inductive retry_step : Phase -> Outcome string -> Phase -> Prop :=
| step_audio a audio : retry_step (Attempting a) (Ok audio) (Audio a audio)
| step_retry e : retry_step (Attempting Primary) (Throw e) (Attempting Fallback)
| step_degrade e : retry_step (Attempting Fallback) (Throw e) (Degraded e).

(** A run: the labels of the transitions taken, in order. *)
Inductive retry_run : Phase -> list (Outcome string) -> Phase -> Prop :=
| run_nil p : retry_run p [] p
| run_cons p r q rs s : retry_step p r q -> retry_run q rs s -> retry_run p (r :: rs) s.

Definition final (p : Phase) : bool :=
  match p with Attempting _ => false | _ => true end.

(** The machine as a function: a final phase ignores what it is fed. *)
Definition advance (p : Phase) (r : Outcome string) : Phase :=
  match p, r with
  | Attempting a, Ok audio => Audio a audio
  | Attempting Primary, Throw _ => Attempting Fallback
  | Attempting Fallback, Throw e => Degraded e
  | _, _ => p
  end.

Definition feed (p : Phase) (rs : list (Outcome string)) : Phase :=
  fold_left advance rs p.

(** The attempts a run to [p] went through. *)
Definition attempts (p : Phase) : list Attempt :=
  match p with
  | Attempting Primary => []
  | Attempting Fallback | Audio Primary _ => [Primary]
  | Audio Fallback _ | Degraded _ => [Primary; Fallback]
  end.

(** The distance to the end: the number of attempts left. *)
Definition attempts_left (p : Phase) : nat :=
  match p with
  | Attempting Primary => 2
  | Attempting Fallback => 1
  | _ => 0
  end.

(** ** The code seen from the machine *)

Section Code.
Context `{Platform} (scope : ModuleScope).

(** What the attempts of [Voice.synthesize] end with when the speech service
    has [replies] in store: the first reply, and after a failure what the
    retry ends with, which is the next reply when [voices.rachel] is bound
    and the [ReferenceError] of line 697 when it is not. *)
Definition observed (replies : list (Outcome string)) : list (Outcome string) :=
  let (first, rest) := next replies in
  match first with
  | Ok _ => [first]
  | Throw _ => [first; match lookup_fallback_voice scope with
                       | Ok _ => (next rest).1
                       | Throw e => Throw e
                       end]
  end.

(** The request of an attempt, when it makes one. *)
Definition request_of (brandIdentity selectedVoice : JsVal) (a : Attempt)
    : option Call :=
  match a with
  | Primary => Some (primary_call brandIdentity selectedVoice)
  | Fallback => fallback_call brandIdentity <$> voices_rachel scope
  end.

(** The answer of a final phase. *)
Definition answer_of (brandIdentity imageUrls : JsVal) (p : Phase) : option Response :=
  match p with
  | Attempting _ => None
  | Audio _ audio =>
    Some {| r_status := 200;
            r_body := JObj [("imageUrls", imageUrls);
                            ("audioBase64", JStr (base64 audio));
                            ("adSlogan", get_opt brandIdentity "adSlogan");
                            ("mascotDescription", get_opt brandIdentity "mascotDescription");
                            ("visualStyle", get_opt brandIdentity "visualStyle");
                            ("useElevenLabs", JBool true)] |}
  | Degraded retryError =>
    Some {| r_status := 200;
            r_body := JObj [("imageUrls", imageUrls);
                            ("audioBase64", JNull);
                            ("adSlogan", get_opt brandIdentity "adSlogan");
                            ("mascotDescription", get_opt brandIdentity "mascotDescription");
                            ("visualStyle", get_opt brandIdentity "visualStyle");
                            ("elevenlabsError", JStr (error_message retryError))] |}
  end.

(** The requests of the attempts a run to [p] went through. *)
Definition requests (brandIdentity selectedVoice : JsVal) (p : Phase) : list Call :=
  omap (request_of brandIdentity selectedVoice) (attempts p).

End Code.

(** The world after the requests [calls] to the speech service. *)
Definition after_requests (calls : list Call) (w : World) : World :=
  fold_left (fun w c => log_call c (set_speech (tail (w_speech w)) w)) calls w.

(** The answer of the stage when it does not reach the synthesis. *)
Definition voiceover_failure : Response :=
  {| r_status := 500;
     r_body := error_body "Failed to generate voiceover. Please try again." |}.


#[export] Instance Attempt_eq_dec : EqDecision Attempt.
Proof. solve_decision. Defined.

(** ** The machine alone *)

#[export] Hint Constructors retry_step retry_run : js.

Lemma advance_step p r : final p = false -> retry_step p r (advance p r).
Proof. destruct p as [[]| |], r; simpl; intros; try done; constructor. Qed.

Lemma step_advance p r q : retry_step p r q -> q = advance p r /\ final p = false.
Proof. by destruct 1 as [[]| |]. Qed.

(** The machine is deterministic. *)
Lemma retry_step_deterministic p r q q' :
  retry_step p r q -> retry_step p r q' -> q = q'.
Proof. intros [-> _]%step_advance [-> _]%step_advance. done. Qed.

(** A final phase has no transition. *)
Lemma final_irreducible p r q : final p = true -> ~ retry_step p r q.
Proof. intros Hp [_ Hq]%step_advance. congruence. Qed.

Lemma retry_run_feed p rs q : retry_run p rs q -> q = feed p rs.
Proof.
  induction 1 as [|p r q rs s [-> _]%step_advance _ IH]; [done|]. by rewrite IH.
Qed.

Lemma retry_run_snoc p rs q r s :
  retry_run p rs q -> retry_step q r s -> retry_run p (rs ++ [r]) s.
Proof. induction 1; simpl; eauto with js. Qed.

Lemma retry_step_decreases p r q : retry_step p r q -> attempts_left q < attempts_left p.
Proof. destruct 1 as [[]| |]; simpl; lia. Qed.

Lemma retry_run_length p rs q :
  retry_run p rs q -> length rs + attempts_left q <= attempts_left p.
Proof.
  induction 1 as [|p r q rs s Hs%retry_step_decreases _ IH]; simpl; lia.
Qed.

(** Every run ends: from the first attempt at most two transitions are
    taken, and two observations are enough to reach a final phase. *)
Lemma retry_terminates :
  (forall rs p, retry_run (Attempting Primary) rs p -> length rs <= 2) /\
  (forall r1 r2 rs, final (feed (Attempting Primary) (r1 :: r2 :: rs)) = true).
Proof.
  split.
  - intros rs p Hr%retry_run_length. simpl in Hr. lia.
  - intros [?|?] [?|?] rs; unfold feed; simpl; by induction rs.
Qed.

(** The machine degrades only after two failures, and keeps the error of
    the second. *)
Lemma degraded_two_failures rs e :
  retry_run (Attempting Primary) rs (Degraded e) -> exists e1, rs = [Throw e1; Throw e].
Proof.
  intros Hr. pose proof (retry_run_length _ _ _ Hr) as Hl. apply retry_run_feed in Hr.
  destruct rs as [|[?|?] [|[?|?] [|? ?]]]; simpl in *; try done; try lia.
  injection Hr as ->. eauto.
Qed.

Section Refinement.
Context `{Platform} (scope : ModuleScope).

Lemma requests_length bi sv p : length (requests scope bi sv p) <= 2.
Proof.
  unfold requests. destruct p as [[]|[]|]; simpl; destruct (voices_rachel scope);
    simpl; lia.
Qed.

Lemma synthesize_machine bi urls sv w :
  bi <> JUndefined -> bi <> JNull -> truthy sv = true ->
  printable (get_opt sv "voice_id") = true ->
  let p := feed (Attempting Primary) (observed scope (w_speech w)) in
  exists r, answer_of bi urls p = Some r /\
    synthesize scope bi urls sv w
    = (Ok tt, add_sent r (after_requests (requests scope bi sv p) w)).
Proof.
  intros Hu Hn Hsv Hp.
  assert (Hsv' : sv <> JUndefined /\ sv <> JNull) by (split; intros ->; done).
  destruct Hsv' as [Hsu Hsn].
  unfold synthesize, primary_attempt, fallback_attempt, degrade, success_body,
    degraded_body, observed, requests, request_of, primary_call, fallback_call,
    lookup_fallback_voice.
  unfold_M. rewrite !(get_get_opt bi), (get_get_opt sv), (template_one _ _ Hp) by done.
  cbn [mbind outcome_bind].
  pose proof (next_tail (w_speech w)) as Ht.
  destruct (next (w_speech w)) as [[audio|e1] rest]; simpl in Ht; subst rest.
  { eexists. split; reflexivity. }
  destruct (voices_rachel scope) as [fv|]; simpl; [|eexists; split; reflexivity].
  pose proof (next_tail (tail (w_speech w))) as Ht.
  destruct (next (tail (w_speech w))) as [[audio|e2] rest]; simpl in Ht; subst rest;
    eexists; split; reflexivity.
Qed.

Lemma sent_after_requests calls w : w_sent (after_requests calls w) = w_sent w.
Proof. revert w. induction calls as [|c calls IH]; intros w; simpl; [done|by rewrite IH]. Qed.

Lemma calls_after_requests calls w :
  w_calls (after_requests calls w) = w_calls w ++ calls.
Proof.
  revert w. induction calls as [|c calls IH]; intros w; simpl.
  - by rewrite app_nil_r.
  - rewrite IH. simpl. by rewrite <- app_assoc.
Qed.

Lemma speech_after_requests calls w :
  w_speech (after_requests calls w) = drop (length calls) (w_speech w).
Proof.
  revert w. induction calls as [|c calls IH]; intros w; simpl; [done|].
  rewrite IH. simpl. destruct (w_speech w); simpl; [by rewrite drop_nil|done].
Qed.

(** What the code observes is a complete run of the machine. *)
Lemma observed_run replies :
  let p := feed (Attempting Primary) (observed scope replies) in
  retry_run (Attempting Primary) (observed scope replies) p /\ final p = true.
Proof.
  unfold observed. destruct (next replies) as [[audio|e1] rest]; simpl.
  { split; [|done]. eauto with js. }
  destruct (lookup_fallback_voice scope) as [fv|e]; [destruct (next rest).1|];
    simpl; (split; [eauto with js|done]).
Qed.

(** [Voice.synthesize] implements the machine: it completes, its one answer
    is the answer of the phase the machine ends in, and its requests are the
    requests of the attempts made. *)
Lemma synthesize_implements bi urls sv w :
  bi <> JUndefined -> bi <> JNull -> truthy sv = true ->
  printable (get_opt sv "voice_id") = true ->
  let p := feed (Attempting Primary) (observed scope (w_speech w)) in
  (synthesize scope bi urls sv w).1 = Ok tt /\
  Some <$> sent_of (synthesize scope bi urls sv) w = [answer_of bi urls p] /\
  calls_of (synthesize scope bi urls sv) w = requests scope bi sv p /\
  w_speech (synthesize scope bi urls sv w).2
  = drop (length (requests scope bi sv p)) (w_speech w).
Proof.
  intros Hu Hn Hsv Hp p.
  destruct (synthesize_machine bi urls sv w Hu Hn Hsv Hp) as (r & Hr & Hrun).
  fold p in Hr, Hrun. unfold sent_of, calls_of. rewrite Hrun, Hr. simpl.
  rewrite sent_after_requests, calls_after_requests, speech_after_requests.
  by rewrite !drop_app_length.
Qed.

Lemma personality_of_ok bi p :
  personality_of bi = Ok p -> bi <> JUndefined /\ bi <> JNull.
Proof. by destruct bi. Qed.

Lemma select_voice_truthy category v x : select_voice category v = Ok x -> truthy x = true.
Proof.
  unfold select_voice. destruct v; try done.
  destruct (find_voice _ _); [|done]. cbn [mbind outcome_bind].
  intros Hx. case_match; simplify_eq. by apply negb_false_iff.
Qed.

(** The two ways through the stage: it fails before the synthesis, or it
    runs the machine on what the attempts observe. *)
Lemma voice_stage_cases bi urls w :
  (sent_of (voice_stage scope bi urls) w = [voiceover_failure] /\
   calls_of (voice_stage scope bi urls) w = [CallVoices]) \/
  (exists sv,
     let p := feed (Attempting Primary) (observed scope (w_speech w)) in
     Some <$> sent_of (voice_stage scope bi urls) w = [answer_of bi urls p] /\
     calls_of (voice_stage scope bi urls) w = CallVoices :: requests scope bi sv p).
Proof.
  unfold sent_of, calls_of, voice_stage. unfold_M.
  destruct (next (w_voices w)) as [[data|e] rest]; simpl;
    [|left; by rewrite !drop_app_length].
  destruct (check_catalog data) as [av|e]; simpl; [|left; by rewrite !drop_app_length].
  destruct (personality_of bi) as [pe|e] eqn:Ep; simpl;
    [|left; by rewrite !drop_app_length].
  destruct (select_voice _ av) as [sv|e] eqn:Es; simpl;
    [|left; by rewrite !drop_app_length].
  pose proof (select_voice_truthy _ _ _ Es) as Hsv.
  assert (Hsv' : sv <> JUndefined /\ sv <> JNull) by (split; intros ->; done).
  rewrite !(get_get_opt sv) by tauto. simpl.
  destruct (interpolate _) as [[]|e] eqn:Ei; simpl; [|left; by rewrite !drop_app_length].
  apply interpolate_ok in Ei. simpl in Ei. rewrite andb_true_r in Ei.
  apply andb_prop in Ei as [_ Hp].
  right. exists sv. destruct (personality_of_ok _ _ Ep) as [Hu Hn].
  destruct (synthesize_machine bi urls sv (log_call CallVoices (set_voices rest w))
              Hu Hn Hsv Hp) as (r & Hr & ->).
  simpl in Hr. cbv zeta. rewrite Hr. simpl.
  rewrite sent_after_requests, calls_after_requests. simpl.
  by rewrite <- app_assoc, !drop_app_length.
Qed.

(** C19.  The voice stage implements the machine of the specification.
    Whatever the identity, the catalogue and the services are, the stage
    either fails before the synthesis (no catalogue, no voice, or a voice
    whose name or identifier line 617 cannot print), having made the
    catalogue request only, and answers 500; or it selects a voice and runs
    the machine to a
    final phase on what the attempts observe: its one answer is the answer
    of that phase, and its requests after the catalogue request are those of
    the attempts the machine went through, never more than two. *)
Theorem voice_stage_refines bi urls w :
  (sent_of (voice_stage scope bi urls) w = [voiceover_failure] /\
   calls_of (voice_stage scope bi urls) w = [CallVoices]) \/
  (exists sv p,
     retry_run (Attempting Primary) (observed scope (w_speech w)) p /\
     final p = true /\
     Some <$> sent_of (voice_stage scope bi urls) w = [answer_of bi urls p] /\
     calls_of (voice_stage scope bi urls) w = CallVoices :: requests scope bi sv p /\
     length (requests scope bi sv p) <= 2).
Proof.
  destruct (voice_stage_cases bi urls w) as [?|(sv & Hs & Hc)]; [by left|right].
  destruct (observed_run (w_speech w)) as [Hrun Hf].
  exists sv, (feed (Attempting Primary) (observed scope (w_speech w))).
  split_and!; [done..|apply requests_length].
Qed.

End Refinement.

(** ** The machine of server.js as it stands *)

(** Audio in the final phase is a reply of the speech service, one of the
    first two. *)
Lemma audio_was_sent scope replies a audio :
  feed (Attempting Primary) (observed scope replies) = Audio a audio ->
  Ok audio ∈ take 2 replies.
Proof.
  unfold observed. destruct replies as [|[x|e1] rest]; simpl.
  - by destruct (lookup_fallback_voice scope).
  - intros ?; simplify_eq. left.
  - destruct (lookup_fallback_voice scope); [|done].
    destruct rest as [|[y|e2] rest]; simpl; try done.
    intros ?; simplify_eq. right. left.
Qed.

(** The message of a degraded answer is never empty. *)
Lemma error_message_nonempty e : error_message e <> "".
Proof.
  unfold error_message.
  destruct (err_status e) as [z|]; [|done].
  destruct (decide (z = 401%Z)) as [->|]; [done|].
  destruct (decide (z = 429%Z)) as [->|]; [done|].
  destruct z as [|p|p]; try done.
  repeat (destruct p as [p|p|]; try done).
Qed.

(** A retry that gives audio needs a binding of [voices]. *)
Lemma fallback_audio_needs_binding scope replies audio :
  feed (Attempting Primary) (observed scope replies) = Audio Fallback audio ->
  exists fallbackVoice, voices_rachel scope = Some fallbackVoice.
Proof.
  unfold observed, lookup_fallback_voice.
  destruct (next replies) as [[a|e1] rest]; [done|].
  destruct (voices_rachel scope); [eauto|done].
Qed.

(** Without a binding the transition to [Degraded] is taken on an error that
    no service sent: the machine of server.js is
    [Attempting primary -> Degraded], and the message of the answer is the
    generic one whatever the service said. *)
Lemma as_written_skips_retry e1 rest :
  feed (Attempting Primary) (observed server_js_scope (Throw e1 :: rest))
  = Degraded (ReferenceError "voices") /\
  error_message (ReferenceError "voices") = generic_message.
Proof. done. Qed.

(** A run of the stage with a binding of [voices], on a service that fails
    twice: two attempts, then the answer without audio. *)
Example voice_stage_degraded_run :
  let w := set_voices [Ok sample_catalog] failing_speech_world in
  exists e,
    feed (Attempting Primary) (observed with_rachel (w_speech w)) = Degraded e /\
    Some <$> sent_of (voice_stage (H := test_platform) with_rachel sample_identity
                        (JArr []))  w
    = [answer_of (H := test_platform) sample_identity (JArr []) (Degraded e)] /\
    length (calls_of (voice_stage (H := test_platform) with_rachel sample_identity
                        (JArr [])) w) = 3.
Proof. eexists. split_and!; vm_compute; reflexivity. Qed.
