(* ===== verification/Images.v ===== *)
(** * Images: the two marketing images

    [generateUniqueImagesWithGemini] (server.js lines 382-471) asks the text
    model for a description of a social-media image and of a banner, asks the
    image service for each of them, and returns the two URLs.  It calls the
    last [generateImageWithDallE] of the file (lines 356-379), which rethrows
    what it catches.

    The loop body is wrapped in a [try] whose [catch] (lines 447-456) begins by
    logging a template that evaluates [i + 1].  No [i] is in scope, in the
    function or in the module, so the [catch] throws a [ReferenceError] before
    it does anything else; the model is that [throw].  The error leaves the
    loop and reaches the outer [catch] (lines 462-470), which returns two
    placeholder URLs built from [brandName.replace(/\s/g, '')] and
    [Date.now()].

    Theorems: with a brand name that is a string the function never throws
    and returns exactly two URLs, either both from the image service (after
    four remote calls in a fixed order) or both placeholders; one failed call
    discards an image that was already generated; with a brand name that is
    not a string a failed call makes the function throw; the two placeholders
    of one call differ, and placeholders of different clock readings
    differ. *)

From Stdlib Require Import ZArith Lia List Bool Ascii String.
From stdpp Require Import base tactics option list strings pretty.
From S2P Require Import Prelude JsString JsValue Effects.

(** ** Prompts *)

(** Lines 390-403. *)
Definition social_prompt (brandName userPrompt brandStory : JsVal) : string :=
  template_lines 16
    ["Create a detailed visual prompt for an AI image generator to create a social media post image for "
       +:+ quoted (to_string brandName) +:+ ".";
     "Context: " +:+ to_string userPrompt;
     "Brand story: " +:+ to_string brandStory;
     "";
     "Create a professional, detailed description that covers:";
     "1. Main subject and focal point";
     "2. Specific visual elements unique to this brand";
     "3. Color palette and lighting";
     "4. Composition and layout";
     "5. Mood and atmosphere";
     "6. Texture and materials";
     "7. Background elements";
     "";
     "Make it photorealistic and highly detailed. Format the response as a clear, comma-separated list of descriptive elements."].

(** Lines 407-420. *)
Definition banner_prompt (brandName userPrompt brandStory : JsVal) : string :=
  template_lines 16
    ["Create a detailed visual prompt for an AI image generator to create a website banner image for "
       +:+ quoted (to_string brandName) +:+ ".";
     "Context: " +:+ to_string userPrompt;
     "Brand story: " +:+ to_string brandStory;
     "";
     "Create a professional, detailed description that covers:";
     "1. Wide format composition (16:9 ratio)";
     "2. Focal point and visual hierarchy";
     "3. Brand-specific visual elements";
     "4. Professional color scheme";
     "5. Lighting and atmosphere";
     "6. Texture and depth";
     "7. Space for text overlay";
     "";
     "Make it photorealistic and highly detailed. Format the response as a clear, comma-separated list of descriptive elements."].

(** Lines 387-422: the array literal [imagePrompts], as pairs of [type] and
    [prompt]. *)
Definition imagePrompts (brandName userPrompt brandStory : JsVal)
    : list (string * string) :=
  [("social", social_prompt brandName userPrompt brandStory);
   ("banner", banner_prompt brandName userPrompt brandStory)].

(** Line 435. *)
Definition finalPrompt (type : string) (brandName : JsVal)
    (imageDescription : string) : string :=
  "Create a professional " +:+
  (if String.eqb type "social" then "square social media post" else "wide banner") +:+
  " image for " +:+ to_string brandName +:+ ". " +:+ imageDescription +:+
  ". Make it photorealistic, highly detailed, and suitable for commercial use. Ensure it matches the brand's identity and story.".

(** Lines 467-468: the placeholder URLs of the outer [catch]. *)
Definition placeholder_url (name : string) (seed : Z) : string :=
  "https://picsum.photos/seed/" +:+ name +:+ "-" +:+ pretty seed +:+ "/800/600".

Definition placeholders (name : string) (timestamp : Z) : JsVal :=
  JArr [JStr (placeholder_url name timestamp);
        JStr (placeholder_url name (timestamp + 1))].

(** ** The image service *)

(** An element of [imageResults] (lines 439-443). *)
Record ImageResult := { url : JsVal; concept : string; type_ : string }.

(** Lines 356-379: the request, [response.data.data[0].url], and a [catch]
    that logs and rethrows. *)
Definition generateImageWithDallE (prompt : string) : M JsVal :=
  try_catch
    (data ← post_image prompt "1024x1024";
     images ← lift (get data "data");
     first ← lift (index0 images);
     lift (get first "url"))
    (fun error => throw error).

(** Lines 427-445: the [try] of the loop body: the description, the
    template literal of line 435, the image, and the [push]. *)
Definition image_attempt (brandName : JsVal) (imageResults : list ImageResult)
    (type prompt : string) : M (list ImageResult) :=
  imageDescription ← generateContent "gemini-pro" prompt;
  final ← lift (template [brandName] (finalPrompt type brandName imageDescription));
  imageUrl ← generateImageWithDallE final;
  mret (imageResults ++
        [{| url := imageUrl; concept := imageDescription; type_ := type |}]).

(** Lines 426-457: one turn of the loop.  The [catch] throws at its first
    statement. *)
Definition image_step (brandName : JsVal) (imageResults : list ImageResult)
    (item : string * string) : M (list ImageResult) :=
  try_catch (image_attempt brandName imageResults item.1 item.2)
    (fun error => throw (ReferenceError "i")).

(** Lines 383-460: the [try] of the function: the template literals of the
    two prompts (lines 390-392 and 407-409), the loop and the URLs of its
    results. *)
Definition images_body (brandName userPrompt brandStory : JsVal) : M JsVal :=
  _ ← lift (interpolate [brandName; userPrompt; brandStory;
                         brandName; userPrompt; brandStory]);
  imageResults ← for_each (image_step brandName) []
                    (imagePrompts brandName userPrompt brandStory);
  mret (JArr (map url imageResults)).

(** Lines 462-470: the outer [catch]. *)
Definition images_fallback (brandName : JsVal) : M JsVal :=
  timestamp ← date_now;
  name ← lift (call_removeSpaces "brandName" brandName);
  mret (placeholders name timestamp).

(** Lines 382-471. *)
Definition generateUniqueImagesWithGemini (brandName userPrompt brandStory : JsVal)
    : M JsVal :=
  try_catch (images_body brandName userPrompt brandStory)
    (fun error => images_fallback brandName).

(** ** Specifications *)

(** The four requests of a run in which every call succeeds. *)
Definition healthy_calls (brandName userPrompt brandStory : JsVal)
    (d1 d2 : string) : list Call :=
  [CallText "gemini-pro" (social_prompt brandName userPrompt brandStory);
   CallImage (finalPrompt "social" brandName d1) "1024x1024";
   CallText "gemini-pro" (banner_prompt brandName userPrompt brandStory);
   CallImage (finalPrompt "banner" brandName d2) "1024x1024"].

(** A reply of the image service that holds the URL [u]. *)
Definition image_reply (u : string) : JsVal :=
  JObj [("data", JArr [JObj [("url", JStr u)]])].

(** ** Sample worlds for the examples *)

Definition healthy_image_world : World :=
  set_text [Ok "a fox, warm light"; Ok "a wide field, dawn"]
    (set_image [Ok (image_reply "https://img/1.png"); Ok (image_reply "https://img/2.png")]
       (set_clock [1700000000000%Z] empty_world)).

(** The second description fails after the first image was generated. *)
Definition half_failed_world : World :=
  set_text [Ok "a fox, warm light"; Throw (Error "quota exceeded")]
    (set_image [Ok (image_reply "https://img/1.png")]
       (set_clock [1700000000000%Z] empty_world)).

(** The function returns an array of exactly two elements. *)
Definition two_urls (v : JsVal) : Prop := exists a b, v = JArr [a; b].

(** ** Placeholders *)

Lemma placeholder_url_inj name t1 t2 :
  placeholder_url name t1 = placeholder_url name t2 -> t1 = t2.
Proof.
  unfold placeholder_url. intros H.
  do 3 apply string_app_inv_head in H.
  apply string_app_inv_tail in H. by apply pretty_Z_inj in H.
Qed.

(** The placeholder pairs of two different clock readings differ, and
    the two placeholders of one call differ from each other. *)
Theorem placeholders_distinct name t1 t2 :
  t1 <> t2 ->
  placeholders name t1 <> placeholders name t2 /\
  placeholder_url name t1 <> placeholder_url name (t1 + 1).
Proof.
  intros Hne. split.
  - intros H. apply Hne, (placeholder_url_inj name). unfold placeholders in H. congruence.
  - intros H%placeholder_url_inj. lia.
Qed.

Lemma placeholders_distinct_witness :
  placeholders "Fox" 5 <> placeholders "Fox" 6 /\
  placeholder_url "Fox" 5 <> placeholder_url "Fox" (5 + 1).
Proof. apply (placeholders_distinct "Fox" 5 6). lia. Defined.

(** The second placeholder of one millisecond is the first of the next: two
    failed requests one millisecond apart share a URL. *)
Example placeholders_overlap name t :
  exists a u b, placeholders name t = JArr [a; u] /\ placeholders name (t + 1) = JArr [u; b].
Proof. by eexists _, _, _. Qed.

(** ** What the function returns *)

Lemma returns_image_attempt bn acc t p :
  returns (fun r => exists x, r = acc ++ [x]) (fun _ => True) (image_attempt bn acc t p).
Proof.
  unfold image_attempt.
  do 3 (eapply returns_bind; [apply returns_any|]; intros ? _).
  apply returns_ret. eauto.
Qed.

(** A turn of the loop either appends one result or throws the
    [ReferenceError] of its [catch]: the per-image fallback of lines 449-455
    never runs. *)
Lemma returns_image_step bn acc item :
  returns (fun r => exists x, r = acc ++ [x]) (fun e => e = ReferenceError "i")
    (image_step bn acc item).
Proof.
  eapply returns_try_catch; [apply returns_image_attempt|].
  intros e _. by apply returns_throw.
Qed.

Lemma returns_images_body bn up bs :
  returns two_urls (fun _ => True) (images_body bn up bs).
Proof.
  unfold images_body.
  eapply returns_bind; [apply returns_any|]; intros _ _. eapply returns_bind.
  - apply (returns_for_each (fun n l => length l = n) _ _ _ 0 []); [|done].
    intros k b x Hb. eapply returns_weaken; [| |apply returns_image_step]; [|done].
    intros a [y ->]. rewrite length_app. simpl. lia.
  - intros l Hl. apply returns_ret.
    destruct l as [|r1 [|r2 [|]]]; try done. by exists (url r1), (url r2).
Qed.

Lemma returns_images_fallback s :
  returns two_urls (fun _ => False) (images_fallback (JStr s)).
Proof.
  intros w. unfold images_fallback, date_now. unfold_M.
  destruct (w_clock w); simpl; unfold placeholders, two_urls; eauto.
Qed.

Lemma returns_images s up bs :
  returns two_urls (fun _ => False) (generateUniqueImagesWithGemini (JStr s) up bs).
Proof.
  eapply returns_try_catch; [apply returns_images_body|].
  intros e _. apply returns_images_fallback.
Qed.

(** C8.  When [brandName] is a string, [generateUniqueImagesWithGemini] never
    throws and returns an array of exactly two elements, whatever the text
    model and the image service answer. *)
Theorem images_two_urls s up bs w :
  exists a b, (generateUniqueImagesWithGemini (JStr s) up bs w).1 = Ok (JArr [a; b]).
Proof.
  pose proof (returns_images s up bs w) as Hr.
  destruct (generateUniqueImagesWithGemini _ _ _ w).1 as [v|e]; [|done].
  destruct Hr as (a & b & ->). eauto.
Qed.

(** The function sends no answer and leaves the scripts of the speech
    service as they are. *)
Lemma silent_images bn up bs : silent (generateUniqueImagesWithGemini bn up bs).
Proof.
  unfold generateUniqueImagesWithGemini, images_body, images_fallback, image_step,
    image_attempt, generateImageWithDallE.
  solve_silent.
Qed.

Lemma preserves_images bn up bs :
  preserves speech_side (generateUniqueImagesWithGemini bn up bs).
Proof.
  unfold generateUniqueImagesWithGemini, images_body, images_fallback, image_step,
    image_attempt, generateImageWithDallE.
  solve_preserves.
Qed.

(** ** Runs *)

Lemma interpolate_twice vs :
  forallb printable vs = true -> interpolate (vs ++ vs) = Ok tt.
Proof. intros Hp. apply interpolate_ok. by rewrite forallb_app, Hp. Qed.

Ltac run_images :=
  unfold calls_of, generateUniqueImagesWithGemini, images_body, imagePrompts,
    image_step, image_attempt, images_fallback, generateImageWithDallE;
  cbn [for_each fst snd]; unfold_M.

(** When the text model answers twice and the image service answers
    twice with a URL, the function returns the two URLs in the order social,
    banner, after exactly four calls: description, image, description,
    image. *)
Theorem images_healthy bn up bs d1 d2 u1 u2 trest irest w :
  forallb printable [bn; up; bs] = true ->
  w_text w = Ok d1 :: Ok d2 :: trest ->
  w_image w = Ok (image_reply u1) :: Ok (image_reply u2) :: irest ->
  (generateUniqueImagesWithGemini bn up bs w).1 = Ok (JArr [JStr u1; JStr u2]) /\
  calls_of (generateUniqueImagesWithGemini bn up bs) w = healthy_calls bn up bs d1 d2.
Proof.
  intros Hp Ht Hi. run_images.
  assert (Hb : printable bn = true) by (simpl in Hp; by destruct (printable bn)).
  rewrite (interpolate_twice [bn; up; bs] Hp : interpolate [bn; up; bs; bn; up; bs] = _).
  repeat (first [rewrite Ht | rewrite Hi | rewrite (template_one bn) by done]; simpl).
  split; [done|]. rewrite <- !app_assoc. by rewrite drop_app_length.
Qed.

Lemma images_healthy_witness :
  (generateUniqueImagesWithGemini (JStr "Fox") (JStr "tea") (JStr "story")
     healthy_image_world).1
  = Ok (JArr [JStr "https://img/1.png"; JStr "https://img/2.png"]) /\
  calls_of (generateUniqueImagesWithGemini (JStr "Fox") (JStr "tea") (JStr "story"))
    healthy_image_world
  = healthy_calls (JStr "Fox") (JStr "tea") (JStr "story")
      "a fox, warm light" "a wide field, dawn".
Proof. by eapply (images_healthy _ _ _ _ _ _ _ [] []). Defined.

(** C27.  When the second description fails after the first image was
    generated, the generated image is discarded: the function returns the two
    placeholders of the clock reading. *)
Theorem images_discard_first s up bs d1 e u1 rest irest t crest w :
  w_text w = Ok d1 :: Throw e :: rest ->
  w_image w = Ok (image_reply u1) :: irest ->
  w_clock w = t :: crest ->
  (generateUniqueImagesWithGemini (JStr s) up bs w).1
  = Ok (placeholders (removeSpaces s) t).
Proof.
  intros Ht Hi Hc. run_images.
  destruct (interpolate _); simpl; [|by rewrite Hc].
  rewrite Ht. simpl. rewrite Hi. simpl. rewrite Hc. reflexivity.
Qed.

Lemma images_discard_first_witness :
  (generateUniqueImagesWithGemini (JStr "Red Fox") (JStr "tea") (JStr "story")
     half_failed_world).1
  = Ok (placeholders (removeSpaces "Red Fox") 1700000000000).
Proof. by eapply images_discard_first. Defined.

(** When [brandName] is not a string and the first description fails, the
    outer [catch] itself throws a [TypeError] ([brandName.replace] is not a
    function): the function throws. *)
Lemma images_throw_without_name bn up bs e rest w :
  (forall s, bn <> JStr s) -> w_text w = Throw e :: rest ->
  exists m, (generateUniqueImagesWithGemini bn up bs w).1 = Throw (TypeError m).
Proof.
  intros Hbn Hw. run_images.
  destruct (interpolate _); simpl; [rewrite Hw; simpl|];
    destruct (w_clock w); destruct bn; simpl; eauto; by destruct (Hbn s).
Qed.

Example images_throw_undefined_name :
  exists m, (generateUniqueImagesWithGemini JUndefined (JStr "tea") JUndefined
               (set_text [Throw (Error "quota exceeded")] empty_world)).1
            = Throw (TypeError m).
Proof. by eapply (images_throw_without_name JUndefined). Qed.
