(* ===== verification/Generate.v ===== *)
(** * Generate: the handler of POST /api/generate

    The handler of server.js lines 520-794 is four nested [try] blocks:

    - the outer one ([generate], 520-531 with its [catch] 790-793) reads
      [userPrompt] from the body, which throws when there is no body,
      answers 400 when it is missing or falsy, and prints it (line 530);
    - [identity_stage] (533-546, [catch] 786-789) asks the text model for
      the brand identity;
    - [assets_stage] (549-563, [catch] 781-785) cleans and parses the
      reply, generates the two images
      ([Images.generateUniqueImagesWithGemini]) and runs the voice stage
      ([Voice.voice_stage]);
    - the voice stage has its own [try] (566-780).

    Each [catch] answers 500 with its own message.  The prompt is printed
    by the template literals of lines 530 and 537; the theorems about
    a run past line 530 are stated for a prompt that prints
    ([JsValue.printable]), which every string does, and
    [generate_unprintable_prompt] is the other case: the answer 500 of the
    outer [catch], before any call.

    The theorems: every request is answered exactly once, with 200, 400 or
    500, and the handler never throws; each early exit leaves the answer
    and the call log it should; once the identity is parsed and the images
    are generated the handler is the voice stage; an error raised by the
    image function is answered as a parse failure. *)

From Stdlib Require Import ZArith QArith Lia List Bool Ascii String.
From stdpp Require Import base tactics option list strings.
From S2P Require Import Prelude JsString JsValue Effects Fence Images Voice.

Local Open Scope Z_scope.

(** ** The prompt and the messages *)

(** Lines 537-539. *)
Definition identityPrompt (userPrompt : JsVal) : string :=
  template_lines 12
    ["Based on the product idea " +:+ quoted (to_string userPrompt)
       +:+ ", create a detailed brand identity. ";
     "Respond with ONLY a valid JSON object with keys: " +:+ quoted "mascotDescription"
       +:+ ", " +:+ quoted "visualStyle" +:+ ", and " +:+ quoted "adSlogan"
       +:+ ". Example: ";
     "{" +:+ quoted "mascotDescription" +:+ ": " +:+ quoted "A cheerful fox with glasses"
       +:+ ", " +:+ quoted "visualStyle" +:+ ": " +:+ quoted "Modern and minimal"
       +:+ ", " +:+ quoted "adSlogan" +:+ ": " +:+ quoted "Smart choices, bright future"
       +:+ "}"].

(** Line 528. *)
Definition required_message : string := "userPrompt is required".

(** Line 784. *)
Definition parse_message : string := "Failed to parse AI response. Please try again.".

(** Line 788. *)
Definition identity_message : string :=
  "Failed to generate brand identity. Please try again.".

(** Line 792. *)
Definition unexpected_message : string :=
  "An unexpected error occurred. Please try again.".

(** Line 779. *)
Definition voiceover_message : string :=
  "Failed to generate voiceover. Please try again.".

(** ** The handler *)

Section Handler.
Context `{Platform} (scope : ModuleScope).

(** Lines 549-556: the cleaning and [JSON.parse]. *)
Definition parse_identity (identityResponseText : string) : Outcome JsVal :=
  match json_parse (cleanResponse identityResponseText) with
  | Some brandIdentity => Ok brandIdentity
  | None => Throw (SyntaxError "Unexpected token in JSON")
  end.

(** Lines 555-563 and 781-785: parse, images, voice, and the
    [catch (jsonError)]. *)
Definition assets_stage (userPrompt : JsVal) (identityResponseText : string) : M unit :=
  try_catch
    (brandIdentity ← lift (parse_identity identityResponseText);
     brandName ← lift (get brandIdentity "brandName");
     brandStory ← lift (get brandIdentity "brandStory");
     imageUrls ← generateUniqueImagesWithGemini brandName userPrompt brandStory;
     voice_stage scope brandIdentity imageUrls)
    (fun jsonError => send 500 (error_body parse_message)).

(** Lines 533-546 and 786-789: the template literal of the prompt, the
    identity request, and the [catch (geminiError)]. *)
Definition identity_stage (userPrompt : JsVal) : M unit :=
  try_catch
    (prompt ← lift (template [userPrompt] (identityPrompt userPrompt));
     identityResponseText ← generateContent "gemini-1.5-flash" prompt;
     assets_stage userPrompt identityResponseText)
    (fun geminiError => send 500 (error_body identity_message)).

(** Lines 520-531 and 790-793: the handler; [body] is [req.body].  Line
    530 logs the prompt with a template literal. *)
Definition generate (body : JsVal) : M unit :=
  try_catch
    (userPrompt ← lift (destructure "req.body" body "userPrompt");
     if negb (truthy userPrompt) then send 400 (error_body required_message)
     else
       _ ← lift (interpolate [userPrompt]);
       identity_stage userPrompt)
    (fun error => send 500 (error_body unexpected_message)).

End Handler.

(** ** Specifications *)

(** The answer [{ error: message }] with a status. *)
Definition answer (status : Z) (message : string) : Response :=
  {| r_status := status; r_body := error_body message |}.

(** The world after the identity request was made and its reply consumed. *)
Definition after_identity (userPrompt : JsVal) (rest : list (Outcome string))
    (w : World) : World :=
  log_call (CallText "gemini-1.5-flash" (identityPrompt userPrompt)) (set_text rest w).

(** ** Sample data for the examples *)

Definition sample_json : string :=
  "{" +:+ quoted "mascotDescription" +:+ ": " +:+ quoted "A cheerful fox" +:+ ", "
      +:+ quoted "visualStyle" +:+ ": " +:+ quoted "Modern" +:+ ", "
      +:+ quoted "adSlogan" +:+ ": " +:+ quoted "Fresh" +:+ ", "
      +:+ quoted "brandPersonality" +:+ ": " +:+ quoted "Friendly and Casual" +:+ "}".

(** The reply of the model: the object inside a fence. *)
Definition sample_reply : string :=
  "```json" +:+ newline +:+ sample_json +:+ newline +:+ "```" +:+ newline.

(** A platform that parses [sample_json] and nothing else, and marks base64
    instead of computing it. *)
Definition sample_platform : Platform :=
  {| json_parse := fun s => if String.eqb s sample_json then Some sample_identity else None;
     base64 := fun b => "b64:" +:+ b |}.

Definition sample_request : JsVal := JObj [("userPrompt", JStr "herbal tea")].

(** Every service answers. *)
Definition healthy_world : World :=
  set_text [Ok sample_reply; Ok "a fox, warm light"; Ok "a wide field, dawn"]
    (set_image [Ok (image_reply "https://img/1.png"); Ok (image_reply "https://img/2.png")]
       (set_voices [Ok sample_catalog] (set_speech [Ok "mp3"] empty_world))).

(** The speech service lists its voices and then cannot be reached. *)
Definition mute_world : World :=
  set_text [Ok sample_reply; Ok "a fox, warm light"; Ok "a wide field, dawn"]
    (set_image [Ok (image_reply "https://img/1.png"); Ok (image_reply "https://img/2.png")]
       (set_voices [Ok sample_catalog] empty_world)).

(** The model answers the identity and then fails. *)
Definition text_fails_world : World :=
  set_text [Ok sample_reply; Throw (Error "quota exceeded")] empty_world.

(** ** Every request is answered once *)

Section HandlerFacts.
Context `{Platform} (scope : ModuleScope).

Lemma answers_assets up t :
  answers (status_in [200; 500]) (assets_stage scope up t).
Proof.
  unfold assets_stage. apply answers_try_catch.
  - repeat (apply settles_bind; [auto using silent_images with js|intros ?]).
    apply answers_settles, answers_voice_stage.
  - intros e. apply answers_send. unfold status_in. simpl. tauto.
Qed.

Lemma answers_identity up :
  answers (status_in [200; 500]) (identity_stage scope up).
Proof.
  unfold identity_stage. apply answers_try_catch.
  - do 2 (apply settles_bind; [auto with js|intros ?]).
    apply answers_settles, answers_assets.
  - intros e. apply answers_send. unfold status_in. simpl. tauto.
Qed.

Lemma answers_generate body :
  answers (status_in [200; 400; 500]) (generate scope body).
Proof.
  unfold generate. apply answers_try_catch.
  - apply settles_bind; [auto with js|intros up]. destruct (negb (truthy up)).
    + apply settles_send. unfold status_in. simpl. tauto.
    + apply settles_bind; [auto with js|intros _].
      eapply settles_weaken; [|apply answers_settles, answers_identity].
      intros r Hr. unfold status_in in *. simpl in *. tauto.
  - intros e. apply answers_send. unfold status_in. simpl. tauto.
Qed.

(** C1.  Whatever the request body holds and whatever the remote services
    answer, the handler of POST /api/generate does not throw and sends
    exactly one answer, whose status is 200, 400 or 500. *)
Theorem generate_answers body w :
  exists r, (generate scope body w).1 = Ok tt /\
            sent_of (generate scope body) w = [r] /\
            (r_status r = 200 \/ r_status r = 400 \/ r_status r = 500).
Proof.
  destruct (answers_run _ _ w (answers_generate body)) as ([] & r & ? & ? & Hr).
  exists r. split_and!; [done..|]. destruct Hr as [<-|[<-|[<-|[]]]]; auto.
Qed.

(** ** The early exits *)

(** C2.  A request whose [userPrompt] is missing or falsy is answered 400
    with the message of line 528, and nothing else happens: no remote call
    is made and no script is consumed. *)
Theorem generate_missing_prompt body up w :
  get body "userPrompt" = Ok up -> truthy up = false ->
  generate scope body w = (Ok tt, add_sent (answer 400 required_message) w).
Proof.
  intros Hb Hup. unfold generate. unfold_M.
  by rewrite (destructure_get _ _ _ _ Hb), Hup.
Qed.

(** When [req.body] is [undefined] or [null], the destructuring of line 525
    throws; the outer [catch] answers 500 with the message of line 792, and
    no remote call is made. *)
Theorem generate_no_body body w :
  body = JUndefined \/ body = JNull ->
  generate scope body w = (Ok tt, add_sent (answer 500 unexpected_message) w).
Proof. by intros [->| ->]. Qed.

(** A prompt that line 530 cannot print is answered 500 with the message
    of line 792, and no remote call is made: the [TypeError] of the template
    literal is thrown outside the inner [try] blocks. *)
Theorem generate_unprintable_prompt body up w :
  get body "userPrompt" = Ok up -> truthy up = true -> printable up = false ->
  generate scope body w = (Ok tt, add_sent (answer 500 unexpected_message) w).
Proof.
  intros Hb Hup Hp. unfold generate, interpolate. unfold_M.
  rewrite (destructure_get _ _ _ _ Hb), Hup. simpl. by rewrite Hp.
Qed.

(** With a prompt, the handler is the identity stage. *)
Lemma generate_prompted body up w :
  get body "userPrompt" = Ok up -> truthy up = true -> printable up = true ->
  generate scope body w = identity_stage scope up w.
Proof.
  intros Hb Hup Hp. unfold generate. unfold mbind, M_bind, lift.
  rewrite (destructure_get _ _ _ _ Hb), Hup, (interpolate_one _ Hp).
  apply try_catch_never, (answers_total _ _ (answers_identity up)).
Qed.

(** With a reply of the model, the identity stage is the assets stage. *)
Lemma identity_stage_replied up t rest w :
  printable up = true -> w_text w = Ok t :: rest ->
  identity_stage scope up w = assets_stage scope up t (after_identity up rest w).
Proof.
  intros Hp Hw. unfold identity_stage, after_identity, try_catch, mbind, M_bind,
    generateContent, lift. rewrite (template_one _ _ Hp), Hw. simpl.
  destruct (answers_assets up t (log_call (CallText "gemini-1.5-flash" (identityPrompt up))
                                  (set_text rest w))) as ([] & r & Ha & _).
  by destruct (assets_stage _ _ _ _) as [[[]|e] w'].
Qed.

(** C9.  For a prompt that prints: when the identity request fails, the
    answer is 500 with the message of line 788; the identity request is the
    only call made. *)
Theorem generate_text_failure body up e rest w :
  get body "userPrompt" = Ok up -> truthy up = true -> printable up = true ->
  w_text w = Throw e :: rest ->
  generate scope body w
  = (Ok tt, add_sent (answer 500 identity_message) (after_identity up rest w)).
Proof.
  intros Hb Hup Hpr Hw. rewrite (generate_prompted _ _ _ Hb Hup Hpr).
  unfold identity_stage. unfold_M. by rewrite (template_one _ _ Hpr), Hw.
Qed.

(** C10.  For a prompt that prints: when the cleaned reply of the model is
    not JSON, the answer is 500 with the message of line 784; the identity
    request is the only call made. *)
Theorem generate_parse_failure body up t rest w :
  get body "userPrompt" = Ok up -> truthy up = true -> printable up = true ->
  w_text w = Ok t :: rest ->
  json_parse (cleanResponse t) = None ->
  generate scope body w
  = (Ok tt, add_sent (answer 500 parse_message) (after_identity up rest w)).
Proof.
  intros Hb Hup Hpr Hw Hp. rewrite (generate_prompted _ _ _ Hb Hup Hpr).
  rewrite (identity_stage_replied _ _ _ _ Hpr Hw).
  unfold assets_stage, parse_identity. unfold_M. by rewrite Hp.
Qed.

(** A reply that parses to [null] is answered as a parse failure: the
    [TypeError] of reading [brandIdentity.brandName] is caught by the
    [catch] of line 781. *)
Theorem generate_null_identity body up t rest w :
  get body "userPrompt" = Ok up -> truthy up = true -> printable up = true ->
  w_text w = Ok t :: rest -> json_parse (cleanResponse t) = Some JNull ->
  generate scope body w
  = (Ok tt, add_sent (answer 500 parse_message) (after_identity up rest w)).
Proof.
  intros Hb Hup Hpr Hw Hp. rewrite (generate_prompted _ _ _ Hb Hup Hpr).
  rewrite (identity_stage_replied _ _ _ _ Hpr Hw).
  unfold assets_stage, parse_identity. unfold_M. by rewrite Hp.
Qed.

(** ** After the identity *)

(** The identity is parsed: what is left is the images and the voice. *)
Lemma assets_stage_parsed up t bi bn bs w :
  json_parse (cleanResponse t) = Some bi ->
  get bi "brandName" = Ok bn -> get bi "brandStory" = Ok bs ->
  assets_stage scope up t w =
  match generateUniqueImagesWithGemini bn up bs w with
  | (Ok imageUrls, w') => voice_stage scope bi imageUrls w'
  | (Throw e, w') => (Ok tt, add_sent (answer 500 parse_message) w')
  end.
Proof.
  intros Hp Hn Hs. unfold assets_stage, parse_identity, try_catch, mbind, M_bind, lift.
  rewrite Hp, Hn, Hs.
  destruct (generateUniqueImagesWithGemini bn up bs w) as [[urls|e] w']; [|done].
  destruct (answers_voice_stage scope bi urls w') as ([] & r & Ha & _).
  by destruct (voice_stage scope bi urls w') as [[[]|e] w''].
Qed.

(** C3.  Once the prompt is there and prints (lines 530 and 537), the
    model's reply parses and the image function returns, the handler is the voice stage run on the parsed
    identity and the image URLs, in the world the image function left: the
    three stages run in the order identity, images, voice, and no [catch] of
    the handler interferes with the voice stage's answer. *)
Theorem generate_composes body up t rest bi bn bs urls w w' :
  get body "userPrompt" = Ok up -> truthy up = true -> printable up = true ->
  w_text w = Ok t :: rest -> json_parse (cleanResponse t) = Some bi ->
  get bi "brandName" = Ok bn -> get bi "brandStory" = Ok bs ->
  generateUniqueImagesWithGemini bn up bs (after_identity up rest w) = (Ok urls, w') ->
  generate scope body w = voice_stage scope bi urls w'.
Proof.
  intros Hb Hup Hpr Hw Hp Hn Hs Hi. rewrite (generate_prompted _ _ _ Hb Hup Hpr).
  rewrite (identity_stage_replied _ _ _ _ Hpr Hw).
  by rewrite (assets_stage_parsed _ _ _ _ _ _ Hp Hn Hs), Hi.
Qed.

(** C28.  For a prompt that prints: when the parsed identity has no string
    [brandName] and the first image description fails, the image function throws and the handler
    answers 500 with the parse message of line 784, although the reply was
    parsed. *)
Theorem generate_images_throw body up t fs e trest w :
  get body "userPrompt" = Ok up -> truthy up = true -> printable up = true ->
  w_text w = Ok t :: Throw e :: trest ->
  json_parse (cleanResponse t) = Some (JObj fs) ->
  (forall s, lookup_field "brandName" fs <> JStr s) ->
  sent_of (generate scope body) w = [answer 500 parse_message].
Proof.
  intros Hb Hup Hpr Hw Hp Hn. unfold sent_of. rewrite (generate_prompted _ _ _ Hb Hup Hpr).
  rewrite (identity_stage_replied _ _ _ _ Hpr Hw).
  rewrite (assets_stage_parsed _ _ (JObj fs) _ _ _ Hp eq_refl eq_refl).
  set (w1 := after_identity up (Throw e :: trest) w).
  destruct (images_throw_without_name (lookup_field "brandName" fs) up
              (lookup_field "brandStory" fs) e trest w1 Hn eq_refl) as [m Hm].
  pose proof (silent_images (lookup_field "brandName" fs) up
                (lookup_field "brandStory" fs) w1) as Hs.
  destruct (generateUniqueImagesWithGemini _ _ _ w1) as [[urls|e'] w']; [done|].
  simpl in *. rewrite Hs. simpl. by rewrite drop_app_length.
Qed.

(** C23.  For a prompt that prints and an identity whose brand name is a
    string: when the voice catalogue cannot be fetched, the answer is 500
    with the message of line 779, although the identity and the images were
    generated. *)
Theorem generate_catalog_failure body up t rest fs s e vrest w :
  get body "userPrompt" = Ok up -> truthy up = true -> printable up = true ->
  w_text w = Ok t :: rest -> json_parse (cleanResponse t) = Some (JObj fs) ->
  lookup_field "brandName" fs = JStr s ->
  w_voices w = Throw e :: vrest ->
  sent_of (generate scope body) w = [answer 500 voiceover_message].
Proof.
  intros Hb Hup Hpr Hw Hp Hn Hv. unfold sent_of. rewrite (generate_prompted _ _ _ Hb Hup Hpr).
  rewrite (identity_stage_replied _ _ _ _ Hpr Hw).
  rewrite (assets_stage_parsed _ _ (JObj fs) _ _ _ Hp eq_refl eq_refl), Hn.
  set (w1 := after_identity up rest w).
  pose proof (returns_images s up (lookup_field "brandStory" fs) w1) as Hr.
  pose proof (silent_images (JStr s) up (lookup_field "brandStory" fs) w1) as Hs.
  pose proof (preserves_images (JStr s) up (lookup_field "brandStory" fs) w1) as Hk.
  destruct (generateUniqueImagesWithGemini _ _ _ w1) as [[urls|e'] w']; [|done].
  simpl in Hs, Hk. injection Hk as Hk _.
  rewrite (voice_stage_no_catalog scope _ _ (Throw e) vrest) by (by rewrite ?Hk; eauto).
  simpl. rewrite Hs. simpl. by rewrite drop_app_length.
Qed.

End HandlerFacts.

(** ** Witnesses and runs *)

Lemma generate_missing_prompt_witness :
  generate (H := sample_platform) server_js_scope (JObj [("userPrompt", JStr "")])
    healthy_world
  = (Ok tt, add_sent (answer 400 required_message) healthy_world).
Proof. by apply (generate_missing_prompt server_js_scope _ (JStr "")). Defined.

Lemma generate_no_body_witness :
  generate (H := sample_platform) server_js_scope JUndefined healthy_world
  = (Ok tt, add_sent (answer 500 unexpected_message) healthy_world).
Proof. apply (generate_no_body server_js_scope JUndefined). by left. Defined.

Lemma generate_unprintable_prompt_witness :
  generate (H := sample_platform) server_js_scope
    (JObj [("userPrompt", JObj [("toString", JNum 1)])]) healthy_world
  = (Ok tt, add_sent (answer 500 unexpected_message) healthy_world).
Proof.
  by apply (generate_unprintable_prompt server_js_scope _ (JObj [("toString", JNum 1)])).
Defined.

Lemma generate_text_failure_witness :
  generate (H := sample_platform) server_js_scope sample_request
    (set_text [Throw network_error] empty_world)
  = (Ok tt, add_sent (answer 500 identity_message)
              (after_identity (JStr "herbal tea") [] (set_text [Throw network_error] empty_world))).
Proof.
  apply (generate_text_failure (H := sample_platform) server_js_scope sample_request
           (JStr "herbal tea") network_error []
           (set_text [Throw network_error] empty_world)); reflexivity.
Defined.

Lemma generate_parse_failure_witness :
  generate (H := sample_platform) server_js_scope sample_request
    (set_text [Ok "Sorry, I cannot help with that."] empty_world)
  = (Ok tt, add_sent (answer 500 parse_message)
              (after_identity (JStr "herbal tea") []
                 (set_text [Ok "Sorry, I cannot help with that."] empty_world))).
Proof.
  apply (generate_parse_failure (H := sample_platform) server_js_scope sample_request
           (JStr "herbal tea") "Sorry, I cannot help with that." []); reflexivity.
Defined.

Lemma generate_null_identity_witness :
  generate (H := {| json_parse := fun _ => Some JNull; base64 := fun b => b |})
    server_js_scope sample_request (set_text [Ok "null"] empty_world)
  = (Ok tt, add_sent (answer 500 parse_message)
              (after_identity (JStr "herbal tea") [] (set_text [Ok "null"] empty_world))).
Proof.
  apply (generate_null_identity (H := {| json_parse := fun _ => Some JNull; base64 := fun b => b |})
           server_js_scope sample_request (JStr "herbal tea") "null" []); reflexivity.
Defined.

Lemma generate_composes_witness :
  generate (H := sample_platform) server_js_scope sample_request healthy_world
  = voice_stage (H := sample_platform) server_js_scope sample_identity
      (JArr [JStr "https://img/1.png"; JStr "https://img/2.png"])
      (generateUniqueImagesWithGemini JUndefined (JStr "herbal tea") JUndefined
         (after_identity (JStr "herbal tea")
            [Ok "a fox, warm light"; Ok "a wide field, dawn"] healthy_world)).2.
Proof.
  eapply (generate_composes (H := sample_platform) server_js_scope sample_request
            (JStr "herbal tea") sample_reply).
  all: vm_compute; reflexivity.
Defined.

Lemma generate_images_throw_witness :
  sent_of (generate (H := sample_platform) server_js_scope sample_request) text_fails_world
  = [answer 500 parse_message].
Proof.
  eapply (generate_images_throw (H := sample_platform) server_js_scope sample_request
            (JStr "herbal tea") sample_reply).
  all: try (vm_compute; reflexivity).
  intros s. vm_compute. discriminate.
Defined.

Lemma generate_catalog_failure_witness :
  sent_of (generate (H := {| json_parse := fun _ => Some (JObj [("brandName", JStr "Fox")]);
                             base64 := fun b => b |})
             server_js_scope sample_request)
    (set_text [Ok "{}"] (set_voices [Throw network_error] empty_world))
  = [answer 500 voiceover_message].
Proof.
  eapply (generate_catalog_failure
            (H := {| json_parse := fun _ => Some (JObj [("brandName", JStr "Fox")]);
                     base64 := fun b => b |})
            server_js_scope sample_request (JStr "herbal tea") "{}").
  all: vm_compute; reflexivity.
Defined.

(** A run in which every service answers: the answer of the success path and
    the seven calls in their order. *)
Example generate_healthy_run :
  sent_of (generate (H := sample_platform) server_js_scope sample_request) healthy_world
  = [{| r_status := 200;
        r_body := JObj [("imageUrls", JArr [JStr "https://img/1.png"; JStr "https://img/2.png"]);
                        ("audioBase64", JStr "b64:mp3");
                        ("adSlogan", JStr "Fresh");
                        ("mascotDescription", JStr "A cheerful fox");
                        ("visualStyle", JStr "Modern");
                        ("useElevenLabs", JBool true)] |}] /\
  calls_of (generate (H := sample_platform) server_js_scope sample_request) healthy_world
  = CallText "gemini-1.5-flash" (identityPrompt (JStr "herbal tea"))
    :: healthy_calls JUndefined (JStr "herbal tea") JUndefined
         "a fox, warm light" "a wide field, dawn"
    ++ [CallVoices; primary_call sample_identity (voice "Bella" "v1")].
Proof. split; vm_compute; reflexivity. Qed.

(** A run in which the synthesis cannot be reached: with server.js as it
    stands the answer is 200 without audio and with the generic message. *)
Example generate_mute_run :
  sent_of (generate (H := sample_platform) server_js_scope sample_request) mute_world
  = [{| r_status := 200;
        r_body := JObj [("imageUrls", JArr [JStr "https://img/1.png"; JStr "https://img/2.png"]);
                        ("audioBase64", JNull);
                        ("adSlogan", JStr "Fresh");
                        ("mascotDescription", JStr "A cheerful fox");
                        ("visualStyle", JStr "Modern");
                        ("elevenlabsError", JStr generic_message)] |}].
Proof. vm_compute; reflexivity. Qed.

