(* ===== verification/Legacy.v ===== *)
(** * Legacy: the first pipeline of server.js

    Lines 45-187 of server.js hold an earlier pipeline: the class [AIService]
    with three static methods, a handler for POST /api/generate that takes
    [{brandName, brandInfo, imageType}], and a test route for the speech
    service.  Both routes are registered before the handlers of lines 491 and
    520 for the same paths.

    - [AIService.generateImagePrompt] (46-64) absorbs a failure of the text
      model: it returns a fixed prompt, and throws only when that prompt, a
      template literal, cannot print the type or the name of the brand.
    - [AIService.generateImage] (66-92) and [AIService.generateVoice]
      (94-125) replace whatever they catch by an [Error] with a fixed
      message.
    - [generate_legacy] (129-172) runs prompt, image, description and voice
      in this order and answers 200; any error is answered 500 with the
      error's message as [details].
    - [generate_draft] (251-297) is a second draft of the same handler, on
      the functions [generateImagePromptWithGemini] (204-222),
      [generateImageWithDallE] (the declaration of line 356, modelled in
      [Images]) and [generateVoiceWithElevenLabs] (300-333).
    - [generateImageWithDallE_first] (225-248) is the declaration that the
      one of line 356 replaces: it throws a fixed message where the later
      one rethrows.

    Theorems: the handler answers exactly once with 200, 400 or 500; the
    success path and its four calls; a failure of the text model at the
    first step is absorbed, the image being requested with the fixed
    prompt. *)

From Stdlib Require Import ZArith QArith Lia List Bool Ascii String.
From stdpp Require Import base tactics option list strings.
From S2P Require Import Prelude JsString JsValue Effects Voice Images.

Local Open Scope Z_scope.

(** ** The service class *)

Module AIService.

(** Lines 48-56. *)
Definition image_prompt (brandName type context : JsVal) : string :=
  template_lines 12
    ["Create a detailed prompt for DALL-E to generate a " +:+ to_string type
       +:+ " image for the brand " +:+ quoted (to_string brandName) +:+ ".";
     "Context: " +:+ to_string context;
     "Include specific details about:";
     "1. Main subject and composition";
     "2. Colors and lighting";
     "3. Style and mood";
     "4. Key visual elements";
     "5. Background elements";
     "Make it photorealistic and suitable for commercial use."].

(** Line 62. *)
Definition fallback_prompt (brandName type : JsVal) : string :=
  "Professional " +:+ to_string type +:+ " image for " +:+ to_string brandName
  +:+ " with modern design, clear composition, and brand-appropriate elements.".

(** Lines 46-64.  Both the prompt and the text returned by the [catch] are
    template literals. *)
Definition generateImagePrompt (brandName type context : JsVal) : M string :=
  try_catch
    (prompt ← lift (template [type; brandName; context]
                      (image_prompt brandName type context));
     text ← generateContent "gemini-pro" prompt;
     mret (trim text))
    (fun error => lift (template [type; brandName] (fallback_prompt brandName type))).

(** Line 66: the default of [size]. *)
Definition default_size : string := "1024x1024".

(** Lines 66-92. *)
Definition generateImage (prompt size : string) : M JsVal :=
  try_catch
    (data ← post_image prompt size;
     images ← lift (get data "data");
     first ← lift (index0 images);
     lift (get first "url"))
    (fun error => throw (Error "Image generation failed")).

(** Line 94: the defaults of [voiceId] and [modelId]. *)
Definition default_voiceId : string := "ThT5KcBeYPX3keUQqHPh".

Definition default_modelId : string := "eleven_monolingual_v1".

(** Lines 109-114. *)
Definition voice_settings : VoiceSettings :=
  {| stability := 0.5; similarity_boost := 0.75; style := 0.5;
     use_speaker_boost := true |}.

(** Line 100. *)
Definition voice_url (voiceId : string) : string :=
  "https://api.elevenlabs.io/v1/text-to-speech/" +:+ voiceId.

(** Lines 94-125. *)
Definition generateVoice `{Platform} (text voiceId modelId : string) : M string :=
  try_catch
    (audio ← post_speech (voice_url voiceId) (JStr text) modelId voice_settings;
     mret ("data:audio/mpeg;base64," +:+ base64 audio))
    (fun error => throw (Error "Voice generation failed")).

End AIService.

(** ** The handlers *)

(** Lines 145-148. *)
Definition descriptionPrompt (brandName brandInfo : JsVal) : string :=
  template_lines 8
    ["Create a professional and engaging brand description for "
       +:+ quoted (to_string brandName) +:+ ". ";
     "Use this context: " +:+ to_string brandInfo;
     "Make it sound natural and compelling, highlighting key brand values and unique selling points.";
     "Keep it concise but impactful, around 2-3 sentences."].

(** Lines 167-170 and 182-185: [{ error, details: error.message }]. *)
Definition failure_body (message : string) (error : JsErr) : JsVal :=
  JObj [("error", JStr message); ("details", JStr (err_message error))].

(** Line 177. *)
Definition testText : string :=
  "Hello! This is a test of the ElevenLabs voice synthesis.".

Section Handlers.
Context `{Platform}.

(** Lines 129-172: the first handler registered for POST /api/generate. *)
Definition generate_legacy (body : JsVal) : M unit :=
  try_catch
    (brandName ← lift (destructure "req.body" body "brandName");
     brandInfo ← lift (destructure "req.body" body "brandInfo");
     imageType ← lift (destructure "req.body" body "imageType");
     if negb (truthy brandName) || negb (truthy brandInfo) || negb (truthy imageType)
     then send 400 (error_body "Missing required fields")
     else
       imagePrompt ← AIService.generateImagePrompt brandName imageType brandInfo;
       imageUrl ← AIService.generateImage imagePrompt AIService.default_size;
       descriptionPrompt ← lift (template [brandName; brandInfo]
                                   (descriptionPrompt brandName brandInfo));
       description ← generateContent "gemini-pro" descriptionPrompt;
       let brandDescription := trim description in
       audioData ← AIService.generateVoice brandDescription AIService.default_voiceId
                     AIService.default_modelId;
       send 200 (JObj [("success", JBool true);
                       ("imageUrl", imageUrl);
                       ("description", JStr brandDescription);
                       ("audioData", JStr audioData)]))
    (fun error => send 500 (failure_body "Generation failed" error)).

(** Lines 175-187: the first handler registered for GET
    /api/check-elevenlabs. *)
Definition check_legacy : M unit :=
  try_catch
    (audioData ← AIService.generateVoice testText AIService.default_voiceId
                   AIService.default_modelId;
     send 200 (JObj [("success", JBool true); ("audioData", JStr audioData)]))
    (fun error => send 500 (failure_body "ElevenLabs test failed" error)).

End Handlers.

(** ** The second draft *)

(** Lines 206-214: the prompt of lines 48-56 at another indentation. *)
Definition image_prompt2 (brandName type context : JsVal) : string :=
  template_lines 8
    ["Create a detailed prompt for DALL-E to generate a " +:+ to_string type
       +:+ " image for the brand " +:+ quoted (to_string brandName) +:+ ".";
     "Context: " +:+ to_string context;
     "Include specific details about:";
     "1. Main subject and composition";
     "2. Colors and lighting";
     "3. Style and mood";
     "4. Key visual elements";
     "5. Background elements";
     "Make it photorealistic and suitable for commercial use."].

(** Lines 204-222. *)
Definition generateImagePromptWithGemini (brandName type context : JsVal) : M string :=
  try_catch
    (prompt ← lift (template [type; brandName; context]
                      (image_prompt2 brandName type context));
     text ← generateContent "gemini-pro" prompt;
     mret (trim text))
    (fun error =>
       lift (template [type; brandName] (AIService.fallback_prompt brandName type))).

(** Lines 225-248: the first declaration of [generateImageWithDallE].  The
    declaration of line 356 replaces it before any statement of the file
    runs, so no call reaches it; [prompt.substring] of line 226 is applied to
    a string.  It throws a fixed message where the later one rethrows. *)
Definition generateImageWithDallE_first (prompt size : string) : M JsVal :=
  try_catch
    (data ← post_image prompt size;
     images ← lift (get data "data");
     first ← lift (index0 images);
     lift (get first "url"))
    (fun error => throw (Error "Image generation failed")).

Section Draft.
Context `{Platform}.

(** Lines 300-333. *)
Definition generateVoiceWithElevenLabs (text voiceId modelId : string) : M string :=
  try_catch
    (audio ← post_speech (AIService.voice_url voiceId) (JStr text) modelId
               AIService.voice_settings;
     mret ("data:audio/mpeg;base64," +:+ base64 audio))
    (fun error => throw (Error "Voice generation failed")).

(** Lines 251-297: the second handler registered for POST /api/generate.
    The name [generateImageWithDallE] is declared at lines 225 and 356; a
    later function declaration replaces an earlier one, so the call of line
    265 runs the function of line 356, which rethrows what it catches. *)
Definition generate_draft (body : JsVal) : M unit :=
  try_catch
    (brandName ← lift (destructure "req.body" body "brandName");
     brandInfo ← lift (destructure "req.body" body "brandInfo");
     imageType ← lift (destructure "req.body" body "imageType");
     if negb (truthy brandName) || negb (truthy brandInfo) || negb (truthy imageType)
     then send 400 (error_body "Missing required fields")
     else
       imagePrompt ← generateImagePromptWithGemini brandName imageType brandInfo;
       imageUrl ← generateImageWithDallE imagePrompt;
       descriptionPrompt ← lift (template [brandName; brandInfo]
                                   (descriptionPrompt brandName brandInfo));
       description ← generateContent "gemini-pro" descriptionPrompt;
       let brandDescription := trim description in
       audioData ← generateVoiceWithElevenLabs brandDescription AIService.default_voiceId
                     AIService.default_modelId;
       send 200 (JObj [("success", JBool true);
                       ("imageUrl", imageUrl);
                       ("description", JStr brandDescription);
                       ("audioData", JStr audioData)]))
    (fun error => send 500 (failure_body "Generation failed" error)).

End Draft.

(** ** Specifications *)

(** The four requests of a run in which every call succeeds; [p] and [d] are
    the replies of the text model. *)
Definition legacy_calls (brandName brandInfo imageType : JsVal) (p d : string)
    : list Call :=
  [CallText "gemini-pro" (AIService.image_prompt brandName imageType brandInfo);
   CallImage (trim p) AIService.default_size;
   CallText "gemini-pro" (descriptionPrompt brandName brandInfo);
   CallSpeech (AIService.voice_url AIService.default_voiceId) (JStr (trim d))
     AIService.default_modelId AIService.voice_settings].

(** The audio as the answer carries it. *)
Definition data_url `{Platform} (audio : string) : string :=
  "data:audio/mpeg;base64," +:+ base64 audio.

(** The answer of the test route for a reply of the speech service. *)
Definition check_legacy_answer `{Platform} (reply : Outcome string) : Response :=
  match reply with
  | Ok audio =>
    {| r_status := 200;
       r_body := JObj [("success", JBool true); ("audioData", JStr (data_url audio))] |}
  | Throw _ =>
    {| r_status := 500;
       r_body := JObj [("error", JStr "ElevenLabs test failed");
                       ("details", JStr "Voice generation failed")] |}
  end.

(** ** Sample data for the examples *)

Definition legacy_request : JsVal :=
  JObj [("brandName", JStr "Fox Tea"); ("brandInfo", JStr "herbal tea");
        ("imageType", JStr "banner")].

Definition legacy_world : World :=
  set_text [Ok " a fox in a field "; Ok "Fox Tea is calm. "]
    (set_image [Ok (JObj [("data", JArr [JObj [("url", JStr "https://img/1.png")]])])]
       (set_speech [Ok "mp3"] empty_world)).

(** The image service rejects the key. *)
Definition unauthorized_image : JsErr :=
  AxiosError "Request failed with status code 401" (Some "ERR_BAD_REQUEST")
    (Some {| f_status := 401; f_data := JNull |}) true.

(** Neither the text model nor the image service answers. *)
Definition legacy_down_world : World :=
  set_text [Throw (Error "quota exceeded")]
    (set_image [Throw network_error] empty_world).

(** ** The methods *)

Section Facts.
Context `{Platform}.

Lemma silent_generateImagePrompt bn t c : silent (AIService.generateImagePrompt bn t c).
Proof. unfold AIService.generateImagePrompt. solve_silent. Qed.

(** The prompt method never throws when the type and the name of the brand
    can be printed. *)
Lemma total_generateImagePrompt bn t c :
  printable t = true -> printable bn = true ->
  total (AIService.generateImagePrompt bn t c).
Proof.
  intros Pt Pn. apply try_catch_total. intros e w. unfold lift. printed. eauto.
Qed.

(** With a brand name that cannot be printed, it throws: the [catch]
    evaluates a template literal of its own. *)
Lemma generateImagePrompt_throws bn t c w :
  printable bn = false ->
  AIService.generateImagePrompt bn t c w
  = (Throw (TypeError "Cannot convert object to primitive value"), w).
Proof.
  intros Pn. unfold AIService.generateImagePrompt. unfold_M.
  rewrite !template_unprintable; [done|..]; simpl; rewrite Pn;
    by rewrite ?andb_false_r.
Qed.

Lemma silent_generateImage p s : silent (AIService.generateImage p s).
Proof. unfold AIService.generateImage. solve_silent. Qed.

Lemma silent_generateVoice t v m : silent (AIService.generateVoice t v m).
Proof. unfold AIService.generateVoice. solve_silent. Qed.

(** Whatever goes wrong in [generateImage], the caller sees one [Error]. *)
Lemma returns_generateImage p s :
  returns (fun _ => True) (fun e => e = Error "Image generation failed")
    (AIService.generateImage p s).
Proof.
  eapply returns_try_catch; [apply returns_any|]. intros e _. by apply returns_throw.
Qed.

Lemma returns_generateVoice t v m :
  returns (fun a => exists audio, a = data_url audio)
    (fun e => e = Error "Voice generation failed") (AIService.generateVoice t v m).
Proof.
  eapply returns_try_catch with (E' := fun _ => True).
  - eapply returns_bind; [apply returns_any|]. intros a _. apply returns_ret. eauto.
  - intros e _. by apply returns_throw.
Qed.

(** ** The handler answers once *)

Lemma answers_generate_legacy body :
  answers (status_in [200; 400; 500]) (generate_legacy body).
Proof.
  unfold generate_legacy. apply answers_try_catch.
  - do 3 (apply settles_bind; [auto with js|intros ?]).
    destruct (_ || _).
    + apply settles_send. unfold status_in. simpl. tauto.
    + repeat (apply settles_bind;
        [auto using silent_generateImagePrompt, silent_generateImage, silent_generateVoice
           with js|intros ?]).
      apply settles_send. unfold status_in. simpl. tauto.
  - intros e. apply answers_send. unfold status_in. simpl. tauto.
Qed.

(** The handler of lines 129-172 does not throw and sends exactly one
    answer, whose status is 200, 400 or 500, whatever the body and the
    services are. *)
Theorem generate_legacy_answers body w :
  exists r, (generate_legacy body w).1 = Ok tt /\
            sent_of (generate_legacy body) w = [r] /\
            (r_status r = 200 \/ r_status r = 400 \/ r_status r = 500).
Proof.
  destruct (answers_run _ _ w (answers_generate_legacy body)) as ([] & r & ? & ? & Hr).
  exists r. split_and!; [done..|]. destruct Hr as [<-|[<-|[<-|[]]]]; auto.
Qed.

(** A request that lacks one of the three fields is answered 400 and nothing
    else happens. *)
Lemma generate_legacy_missing body bn bi it w :
  get body "brandName" = Ok bn -> get body "brandInfo" = Ok bi ->
  get body "imageType" = Ok it ->
  truthy bn && truthy bi && truthy it = false ->
  generate_legacy body w
  = (Ok tt, add_sent {| r_status := 400; r_body := error_body "Missing required fields" |} w).
Proof.
  intros Hn Hi Ht Hf. unfold generate_legacy. unfold_M. known Hn. known Hi. known Ht.
  destruct (truthy bn), (truthy bi), (truthy it); done.
Qed.

(** Without a body the destructuring of line 131 throws, and the answer
    carries the words of the engine as details. *)
Example generate_legacy_no_body w :
  generate_legacy JUndefined w
  = (Ok tt, add_sent {| r_status := 500;
                        r_body := JObj [("error", JStr "Generation failed");
                                        ("details", JStr "Cannot destructure property 'brandName' of 'req.body' as it is undefined.")] |} w).
Proof. reflexivity. Qed.

(** A brand name that cannot be printed is answered 500 before any call:
    the [catch] of the prompt method throws in its turn. *)
Example generate_legacy_unprintable w :
  generate_legacy (JObj [("brandName", JObj [("toString", JNum 1)]);
                         ("brandInfo", JStr "herbal tea"); ("imageType", JStr "banner")]) w
  = (Ok tt, add_sent {| r_status := 500;
                        r_body := JObj [("error", JStr "Generation failed");
                                        ("details", JStr "Cannot convert object to primitive value")] |} w).
Proof. reflexivity. Qed.

(** ** Runs *)

Ltac run_legacy :=
  unfold sent_of, calls_of, generate_legacy, AIService.generateImagePrompt,
    AIService.generateImage, AIService.generateVoice, data_url; unfold_M.

(** When the three fields are there and every service answers, the
    handler answers 200 with the image URL, the trimmed description and the
    audio as a data URL, after four calls: image prompt, image, description,
    voice. *)
Theorem generate_legacy_healthy body bn bi it p u d audio trest irest srest w :
  get body "brandName" = Ok bn -> get body "brandInfo" = Ok bi ->
  get body "imageType" = Ok it ->
  truthy bn = true -> truthy bi = true -> truthy it = true ->
  printable bn = true -> printable bi = true -> printable it = true ->
  w_text w = Ok p :: Ok d :: trest ->
  w_image w = Ok (JObj [("data", JArr [JObj [("url", u)]])]) :: irest ->
  w_speech w = Ok audio :: srest ->
  sent_of (generate_legacy body) w
  = [{| r_status := 200;
        r_body := JObj [("success", JBool true); ("imageUrl", u);
                        ("description", JStr (trim d));
                        ("audioData", JStr (data_url audio))] |}] /\
  calls_of (generate_legacy body) w = legacy_calls bn bi it p d.
Proof.
  intros Hn Hi Ht Tn Ti Tt Pn Pi Pt Hw Him Hs. run_legacy.
  known Hn. known Hi. known Ht. rewrite Tn, Ti, Tt. cbn [negb orb]. cbv beta.
  printed. rewrite Hw. simpl. rewrite Him. simpl. printed. rewrite Hs. simpl.
  split; [by rewrite drop_app_length|].
  rewrite <- !app_assoc. by rewrite drop_app_length.
Qed.

(** When the text model fails at the first step the failure is
    absorbed: the image is requested with the fixed prompt of line 62.  When
    the image service fails too, the answer is 500 with the fixed message of
    [generateImage] as details. *)
Theorem generate_legacy_prompt_fallback body bn bi it e e' trest irest w :
  get body "brandName" = Ok bn -> get body "brandInfo" = Ok bi ->
  get body "imageType" = Ok it ->
  truthy bn = true -> truthy bi = true -> truthy it = true ->
  printable bn = true -> printable bi = true -> printable it = true ->
  w_text w = Throw e :: trest ->
  w_image w = Throw e' :: irest ->
  sent_of (generate_legacy body) w
  = [{| r_status := 500;
        r_body := JObj [("error", JStr "Generation failed");
                        ("details", JStr "Image generation failed")] |}] /\
  calls_of (generate_legacy body) w
  = [CallText "gemini-pro" (AIService.image_prompt bn it bi);
     CallImage (AIService.fallback_prompt bn it) AIService.default_size].
Proof.
  intros Hn Hi Ht Tn Ti Tt Pn Pi Pt Hw Him. run_legacy.
  known Hn. known Hi. known Ht. rewrite Tn, Ti, Tt. cbn [negb orb]. cbv beta.
  printed. rewrite Hw. simpl. printed. rewrite Him. simpl.
  split; [by rewrite drop_app_length|].
  rewrite <- !app_assoc. by rewrite drop_app_length.
Qed.

(** ** The second draft *)

(** The voice function of line 300 is the method of line 94. *)
Lemma generateVoiceWithElevenLabs_eq t v m :
  generateVoiceWithElevenLabs t v m = AIService.generateVoice t v m.
Proof. reflexivity. Qed.

Lemma silent_generateImagePromptWithGemini bn t c :
  silent (generateImagePromptWithGemini bn t c).
Proof. unfold generateImagePromptWithGemini. solve_silent. Qed.

Lemma silent_generateImageWithDallE p : silent (generateImageWithDallE p).
Proof. unfold generateImageWithDallE. solve_silent. Qed.

(** The first declaration is the method of line 66: on every world it gives
    the image's address, or throws the fixed message. *)
Lemma generateImageWithDallE_first_eq p size :
  generateImageWithDallE_first p size = AIService.generateImage p size.
Proof. reflexivity. Qed.

(** The two declarations agree when the request succeeds and differ in what
    they throw: the first hides the provider's error, the one in force
    passes it on. *)

Lemma generateImageWithDallE_declarations p w :
  match generateImageWithDallE p w with
  | (Ok url, w') => generateImageWithDallE_first p "1024x1024" w = (Ok url, w')
  | (Throw e, w') =>
      generateImageWithDallE_first p "1024x1024" w
      = (Throw (Error "Image generation failed"), w')
  end.
Proof.
  unfold generateImageWithDallE, generateImageWithDallE_first. unfold_M.
  destruct (next (w_image w)) as [[d|e] rest]; simpl; [|done].
  destruct (get d "data") as [i|e]; simpl; [|done].
  destruct (index0 i) as [f|e]; simpl; [|done].
  by destruct (get f "url").
Qed.

Lemma answers_generate_draft body :
  answers (status_in [200; 400; 500]) (generate_draft body).
Proof.
  unfold generate_draft. apply answers_try_catch.
  - do 3 (apply settles_bind; [auto with js|intros ?]).
    destruct (_ || _).
    + apply settles_send. unfold status_in. simpl. tauto.
    + repeat (apply settles_bind;
        [auto using silent_generateImagePromptWithGemini, silent_generateImageWithDallE,
           silent_generateVoice with js|intros ?]).
      apply settles_send. unfold status_in. simpl. tauto.
  - intros e. apply answers_send. unfold status_in. simpl. tauto.
Qed.

(** In the second draft a failure of the image service is answered
    500 with the provider's own message as details, not with the fixed
    message of line 246: the call of line 265 reaches the function declared
    last, at line 356. *)
Theorem generate_draft_image_failure body bn bi it p e trest irest w :
  get body "brandName" = Ok bn -> get body "brandInfo" = Ok bi ->
  get body "imageType" = Ok it ->
  truthy bn = true -> truthy bi = true -> truthy it = true ->
  printable bn = true -> printable bi = true -> printable it = true ->
  w_text w = Ok p :: trest ->
  w_image w = Throw e :: irest ->
  sent_of (generate_draft body) w
  = [{| r_status := 500; r_body := failure_body "Generation failed" e |}] /\
  calls_of (generate_draft body) w
  = [CallText "gemini-pro" (image_prompt2 bn it bi); CallImage (trim p) "1024x1024"].
Proof.
  intros Hn Hi Ht Tn Ti Tt Pn Pi Pt Hw Him.
  unfold sent_of, calls_of, generate_draft, generateImagePromptWithGemini,
    generateImageWithDallE. unfold_M.
  known Hn. known Hi. known Ht. rewrite Tn, Ti, Tt. cbn [negb orb]. cbv beta.
  printed. rewrite Hw. simpl. rewrite Him. simpl.
  split; [by rewrite drop_app_length|].
  rewrite <- !app_assoc. by rewrite drop_app_length.
Qed.

(** ** The test route *)

Lemma answers_check_legacy : answers (status_in [200; 500]) check_legacy.
Proof.
  unfold check_legacy. apply answers_try_catch.
  - apply settles_bind; [apply silent_generateVoice|intros a].
    apply settles_send. unfold status_in. simpl. tauto.
  - intros e. apply answers_send. unfold status_in. simpl. tauto.
Qed.

(** The test route of lines 175-187 makes one synthesis request and
    answers 200 with the audio, or 500 with the fixed message of
    [generateVoice]: the provider's status and message are not passed on. *)
Theorem check_legacy_cases reply rest w :
  w_speech w = reply :: rest ->
  sent_of check_legacy w = [check_legacy_answer reply] /\
  calls_of check_legacy w
  = [CallSpeech (AIService.voice_url AIService.default_voiceId) (JStr testText)
       AIService.default_modelId AIService.voice_settings].
Proof.
  intros Hw. unfold sent_of, calls_of, check_legacy, AIService.generateVoice. unfold_M.
  rewrite Hw. destruct reply; simpl; by rewrite !drop_app_length.
Qed.

End Facts.

(** ** Witnesses *)

Lemma generate_legacy_healthy_witness :
  sent_of (generate_legacy (H := test_platform) legacy_request) legacy_world
  = [{| r_status := 200;
        r_body := JObj [("success", JBool true); ("imageUrl", JStr "https://img/1.png");
                        ("description", JStr (trim "Fox Tea is calm. "));
                        ("audioData", JStr (data_url (H := test_platform) "mp3"))] |}] /\
  calls_of (generate_legacy (H := test_platform) legacy_request) legacy_world
  = legacy_calls (JStr "Fox Tea") (JStr "herbal tea") (JStr "banner")
      " a fox in a field " "Fox Tea is calm. ".
Proof.
  apply (generate_legacy_healthy (H := test_platform) legacy_request
           (JStr "Fox Tea") (JStr "herbal tea") (JStr "banner") " a fox in a field "
           (JStr "https://img/1.png") "Fox Tea is calm. " "mp3" [] [] [] legacy_world).
  all: vm_compute; reflexivity.
Defined.

Lemma generate_legacy_prompt_fallback_witness :
  sent_of (generate_legacy (H := test_platform) legacy_request) legacy_down_world
  = [{| r_status := 500;
        r_body := JObj [("error", JStr "Generation failed");
                        ("details", JStr "Image generation failed")] |}] /\
  calls_of (generate_legacy (H := test_platform) legacy_request) legacy_down_world
  = [CallText "gemini-pro"
       (AIService.image_prompt (JStr "Fox Tea") (JStr "banner") (JStr "herbal tea"));
     CallImage (AIService.fallback_prompt (JStr "Fox Tea") (JStr "banner"))
       AIService.default_size].
Proof.
  apply (generate_legacy_prompt_fallback (H := test_platform) legacy_request
           (JStr "Fox Tea") (JStr "herbal tea") (JStr "banner") (Error "quota exceeded")
           network_error [] [] legacy_down_world).
  all: vm_compute; reflexivity.
Defined.

Lemma generate_draft_image_failure_witness :
  sent_of (generate_draft (H := test_platform) legacy_request)
    (set_text [Ok "a fox"] (set_image [Throw unauthorized_image] empty_world))
  = [{| r_status := 500;
        r_body := failure_body "Generation failed" unauthorized_image |}] /\
  calls_of (generate_draft (H := test_platform) legacy_request)
    (set_text [Ok "a fox"] (set_image [Throw unauthorized_image] empty_world))
  = [CallText "gemini-pro"
       (image_prompt2 (JStr "Fox Tea") (JStr "banner") (JStr "herbal tea"));
     CallImage (trim "a fox") "1024x1024"].
Proof.
  apply (generate_draft_image_failure (H := test_platform) legacy_request
           (JStr "Fox Tea") (JStr "herbal tea") (JStr "banner") "a fox" unauthorized_image
           [] [] (set_text [Ok "a fox"] (set_image [Throw unauthorized_image] empty_world))).
  all: vm_compute; reflexivity.
Defined.

Lemma check_legacy_cases_witness :
  sent_of (check_legacy (H := test_platform))
    (set_speech [Throw network_error] empty_world)
  = [check_legacy_answer (H := test_platform) (Throw network_error)] /\
  calls_of (check_legacy (H := test_platform))
    (set_speech [Throw network_error] empty_world)
  = [CallSpeech (AIService.voice_url AIService.default_voiceId) (JStr testText)
       AIService.default_modelId AIService.voice_settings].
Proof.
  apply (check_legacy_cases (H := test_platform) (Throw network_error) []
           (set_speech [Throw network_error] empty_world)).
  reflexivity.
Defined.
