(* ===== verification/Endpoints.v ===== *)
(** * Endpoints: health, the speech-service check, the visual concept

    - [health] (server.js lines 486-488): GET /health.
    - [check_elevenlabs] (491-517): GET /api/check-elevenlabs fetches the
      voice catalogue and answers with the number of voices, or with the
      provider's status and detail.
    - [generate_visual_concept] (797-870): POST /api/generate-visual-concept
      fetches the reference image, sends it with a prompt to the multimodal
      model, cleans and parses the reply.  It has the same three nested
      [try] blocks as the main handler.

    Theorems: each handler answers exactly once; the answer of the check
    for the replies of the catalogue request, against the answers written
    out in [check_spec]; the success path of the visual
    concept and its two calls; a reference URL that is not a string is
    answered as a failure of the model. *)

From Stdlib Require Import ZArith QArith Lia List Bool Ascii String.
From stdpp Require Import base tactics option list strings.
From S2P Require Import Prelude JsString JsValue Effects Fence Voice.

Local Open Scope Z_scope.

(** ** Expressions *)

(** [v.endsWith(suf)]: only a string has the method. *)
Definition call_endsWith (receiver : string) (v : JsVal) (suf : string) : Outcome bool :=
  match v with
  | JStr s => Ok (endsWith s suf)
  | _ => Throw (no_method receiver "endsWith" v)
  end.

(** Line 504: [response.data.voices?.length || 0]. *)
Definition voiceCount (data : JsVal) : Outcome JsVal :=
  voices ← get data "voices";
  Ok (js_or (get_opt voices "length") (JNum 0)).

(** Line 512: [error.response?.status || 500]. *)
Definition status_or_500 (error : JsErr) : Z :=
  match err_status error with
  | Some s => if s =? 0 then 500 else s
  | None => 500
  end.

(** Line 514: [error.response?.data?.detail || error.message]. *)
Definition detail_or_message (error : JsErr) : JsVal :=
  js_or (match error with
         | AxiosError _ _ (Some f) _ => get_opt (f_data f) "detail"
         | _ => JUndefined
         end)
        (JStr (err_message error)).

(** ** The check of the speech service *)

(** Lines 501-505. *)
Definition check_ok_body (count : JsVal) : JsVal :=
  JObj [("status", JStr "OK");
        ("message", JStr "ElevenLabs API key is valid");
        ("voiceCount", count)].

(** Lines 512-515. *)
Definition check_error_body (error : JsErr) : JsVal :=
  JObj [("status", JStr "Error"); ("message", detail_or_message error)].

(** Lines 491-517: GET /api/check-elevenlabs. *)
Definition check_elevenlabs : M unit :=
  try_catch
    (data ← get_voices;
     count ← lift (voiceCount data);
     send 200 (check_ok_body count))
    (fun error => send (status_or_500 error) (check_error_body error)).

(** ** Health *)

Section Health.
Variable toISOString : Z -> string.

(** Lines 486-488: GET /health; [toISOString] renders the clock reading. *)
Definition health : M unit :=
  now ← date_now;
  send 200 (JObj [("status", JStr "OK"); ("timestamp", JStr (toISOString now))]).

End Health.

(** ** The visual concept *)

(** Lines 829-836. *)
Definition textPrompt (mascotDescription visualStyle adSlogan : JsVal) : string :=
  template_lines 12
    ["Based on this reference image and the following brand identity:";
     "- Mascot: " +:+ to_string mascotDescription;
     "- Visual Style: " +:+ to_string visualStyle;
     "- Slogan: " +:+ to_string adSlogan;
     "";
     "Please provide a detailed description of how to adapt this image to match the brand identity.";
     "Also include a color palette (with hex codes) that would work well with this brand.";
     "Respond in JSON format with keys: " +:+ quoted "conceptDescription" +:+ ", "
       +:+ quoted "colorPalette" +:+ ", " +:+ quoted "designElements" +:+ ", and "
       +:+ quoted "visualInspiration" +:+ "."].

(** Line 805. *)
Definition required_fields_message : string :=
  "brandIdentity and referenceImageUrl are required".

(** Line 859. *)
Definition concept_parse_message : string := "Failed to parse visual concept response.".

(** Line 864. *)
Definition concept_message : string :=
  "Failed to generate visual concept. Please try again.".

(** Line 868. *)
Definition concept_unexpected_message : string :=
  "An unexpected error occurred. Please try again.".

Section VisualConcept.
Context `{Platform}.

(** Lines 844-860: the cleaning, [JSON.parse] and the answer. *)
Definition concept_answer (referenceImageUrl : JsVal) (responseText : string) : M unit :=
  try_catch
    (match json_parse (cleanResponse responseText) with
     | Some visualConcept =>
       send 200 (JObj [("visualConcept", visualConcept);
                       ("referenceImageUrl", referenceImageUrl)])
     | None => throw (SyntaxError "Unexpected token in JSON")
     end)
    (fun jsonError => send 500 (error_body concept_parse_message)).

(** Lines 810-841 and 862-865: the image, the prompt (a template literal),
    the multimodal request, and the [catch (geminiError)]. *)
Definition concept_stage (brandIdentity referenceImageUrl : JsVal) : M unit :=
  try_catch
    (imageData ← fetch_bytes (to_string referenceImageUrl);
     let imageBase64 := base64 imageData in
     png ← lift (call_endsWith "referenceImageUrl" referenceImageUrl ".png");
     let mimeType := if png : bool then "image/png" else "image/jpeg" in
     mascotDescription ← lift (get brandIdentity "mascotDescription");
     visualStyle ← lift (get brandIdentity "visualStyle");
     adSlogan ← lift (get brandIdentity "adSlogan");
     textPrompt ← lift (template [mascotDescription; visualStyle; adSlogan]
                          (textPrompt mascotDescription visualStyle adSlogan));
     responseText ← generateContentWith "gemini-1.5-pro" textPrompt imageBase64 mimeType;
     concept_answer referenceImageUrl responseText)
    (fun geminiError => send 500 (error_body concept_message)).

(** Lines 797-809 and 866-869: POST /api/generate-visual-concept.  Line
    808 logs the reference URL with a template literal. *)
Definition generate_visual_concept (body : JsVal) : M unit :=
  try_catch
    (brandIdentity ← lift (destructure "req.body" body "brandIdentity");
     referenceImageUrl ← lift (destructure "req.body" body "referenceImageUrl");
     if negb (truthy brandIdentity) || negb (truthy referenceImageUrl)
     then send 400 (error_body required_fields_message)
     else
       _ ← lift (interpolate [referenceImageUrl]);
       concept_stage brandIdentity referenceImageUrl)
    (fun error => send 500 (error_body concept_unexpected_message)).

End VisualConcept.

(** ** Specifications *)

(** The multimodal request, as logged. *)
Definition concept_call `{Platform} (brandIdentity : JsVal) (url image : string) : Call :=
  CallVision "gemini-1.5-pro"
    (textPrompt (get_opt brandIdentity "mascotDescription")
       (get_opt brandIdentity "visualStyle") (get_opt brandIdentity "adSlogan"))
    (base64 image) (if endsWith url ".png" then "image/png" else "image/jpeg").

(** What the check answers for a reply of the catalogue request, case by
    case, with the answers written out: the number of the voices listed; 0
    when no voices are listed; the error of reading [voices] when the reply
    has no data; the provider's status with the provider's detail, or with
    the message of the error when there is no detail; and 500 with the
    message of the error when the provider did not answer. *)
Inductive check_spec : Outcome JsVal -> Response -> Prop :=
| check_listed fs l :
    lookup_field "voices" fs = JArr l ->
    check_spec (Ok (JObj fs))
      {| r_status := 200;
         r_body := JObj [("status", JStr "OK");
                         ("message", JStr "ElevenLabs API key is valid");
                         ("voiceCount", JNum (Z.of_nat (length l)))] |}
| check_not_listed fs :
    lookup_field "voices" fs = JUndefined \/ lookup_field "voices" fs = JNull ->
    check_spec (Ok (JObj fs))
      {| r_status := 200;
         r_body := JObj [("status", JStr "OK");
                         ("message", JStr "ElevenLabs API key is valid");
                         ("voiceCount", JNum 0)] |}
| check_no_data :
    check_spec (Ok JUndefined)
      {| r_status := 500;
         r_body := JObj [("status", JStr "Error");
                         ("message",
                          JStr "Cannot read properties of undefined (reading 'voices')")] |}
| check_refused message code status fs detail sent :
    status <> 0 -> lookup_field "detail" fs = JStr detail -> detail <> "" ->
    check_spec (Throw (AxiosError message code
                         (Some {| f_status := status; f_data := JObj fs |}) sent))
      {| r_status := status;
         r_body := JObj [("status", JStr "Error"); ("message", JStr detail)] |}
| check_refused_plain message code status fs sent :
    status <> 0 -> lookup_field "detail" fs = JUndefined ->
    check_spec (Throw (AxiosError message code
                         (Some {| f_status := status; f_data := JObj fs |}) sent))
      {| r_status := status;
         r_body := JObj [("status", JStr "Error"); ("message", JStr message)] |}
| check_unreachable message code sent :
    check_spec (Throw (AxiosError message code None sent))
      {| r_status := 500;
         r_body := JObj [("status", JStr "Error"); ("message", JStr message)] |}.

(** ** Sample data for the examples *)

Definition unauthorized : JsErr :=
  AxiosError "Request failed with status code 401" (Some "ERR_BAD_REQUEST")
    (Some {| f_status := 401;
             f_data := JObj [("detail", JStr "Invalid API key")] |}) true.

Definition concept_request : JsVal :=
  JObj [("brandIdentity", sample_identity);
        ("referenceImageUrl", JStr "https://img/ref.png")].

Definition concept_platform : Platform :=
  {| json_parse := fun s => if String.eqb s "{}" then Some (JObj []) else None;
     base64 := fun b => "b64:" +:+ b |}.

Definition concept_world : World :=
  set_fetch [Ok "png-bytes"] (set_text [Ok "```json {} ```"] empty_world).

(** ** The check *)

(** C38.  GET /api/check-elevenlabs makes one request, for the catalogue,
    and answers it as [check_spec] says: 200 with the number of voices
    listed, 0 when none are listed; the provider's status with the
    provider's detail when the provider refused, with the message of the
    error when it gave no detail; 500 with the message of the error when the
    provider could not be reached or sent no data. *)
Theorem check_elevenlabs_cases reply answer rest w :
  w_voices w = reply :: rest -> check_spec reply answer ->
  sent_of check_elevenlabs w = [answer] /\
  calls_of check_elevenlabs w = [CallVoices].
Proof.
  intros Hw Hs.
  unfold sent_of, calls_of, check_elevenlabs, voiceCount, status_or_500,
    check_error_body, check_ok_body, detail_or_message, js_or, get_opt.
  unfold_M. rewrite Hw.
  destruct Hs as [fs l Hl|fs [Hl|Hl]|
                  |m c s fs d r Hs Hd Hne|m c s fs r Hs Hd|m c r]; simpl;
    rewrite ?Hl, ?Hd, ?(proj2 (Z.eqb_neq s 0) Hs) by done;
    simpl; rewrite ?drop_app_length; try done.
  - by destruct l.
  - by rewrite (proj2 (String.eqb_neq d "") Hne).
Qed.

Lemma check_elevenlabs_cases_witness :
  sent_of check_elevenlabs (set_voices [Throw unauthorized] empty_world)
  = [{| r_status := 401;
        r_body := JObj [("status", JStr "Error"); ("message", JStr "Invalid API key")] |}] /\
  calls_of check_elevenlabs (set_voices [Throw unauthorized] empty_world) = [CallVoices].
Proof.
  apply (check_elevenlabs_cases (Throw unauthorized) _ []
           (set_voices [Throw unauthorized] empty_world) eq_refl).
  by apply (check_refused _ _ 401 [("detail", JStr "Invalid API key")] "Invalid API key").
Defined.

(** The answers of the check on sample replies. *)
Example check_elevenlabs_examples :
  sent_of check_elevenlabs (set_voices [Ok sample_catalog] empty_world)
  = [{| r_status := 200; r_body := check_ok_body (JNum 3) |}] /\
  sent_of check_elevenlabs (set_voices [Ok (JObj [])] empty_world)
  = [{| r_status := 200; r_body := check_ok_body (JNum 0) |}] /\
  sent_of check_elevenlabs (set_voices [Throw network_error] empty_world)
  = [{| r_status := 500;
        r_body := JObj [("status", JStr "Error"); ("message", JStr "Network Error")] |}].
Proof. repeat split. Qed.

(** The status of the error answer is 500 unless the provider answered with
    a status other than 0, which is then passed on. *)
Lemma status_or_500_cases e :
  status_or_500 e = 500 \/
  exists m c f r, e = AxiosError m c (Some f) r /\
                  status_or_500 e = f_status f /\ f_status f <> 0.
Proof.
  unfold status_or_500. destruct e as [| | | |m c [f|] r]; simpl; auto.
  destruct (Z.eqb_spec (f_status f) 0); [auto|]. right. by exists m, c, f, r.
Qed.

Lemma answers_check_elevenlabs : answers (fun _ => True) check_elevenlabs.
Proof.
  unfold check_elevenlabs. apply answers_try_catch.
  - repeat (apply settles_bind; [auto with js|intros ?]). by apply settles_send.
  - intros e. by apply answers_send.
Qed.

Lemma answers_health iso : answers (status_in [200]) (health iso).
Proof.
  unfold health. apply answers_bind; [auto with js..|].
  intros now. apply answers_send. by left.
Qed.

(** ** The visual concept *)

Section ConceptFacts.
Context `{Platform}.

Lemma answers_concept_answer u t : answers (status_in [200; 500]) (concept_answer u t).
Proof.
  unfold concept_answer. apply answers_try_catch.
  - destruct (json_parse _); [|apply settles_throw].
    apply settles_send. unfold status_in. simpl. tauto.
  - intros e. apply answers_send. unfold status_in. simpl. tauto.
Qed.

Lemma answers_concept_stage bi u : answers (status_in [200; 500]) (concept_stage bi u).
Proof.
  unfold concept_stage. apply answers_try_catch.
  - repeat (apply settles_bind; [auto with js|intros ?]).
    apply answers_settles, answers_concept_answer.
  - intros e. apply answers_send. unfold status_in. simpl. tauto.
Qed.

Lemma answers_visual_concept body :
  answers (status_in [200; 400; 500]) (generate_visual_concept body).
Proof.
  unfold generate_visual_concept. apply answers_try_catch.
  - do 2 (apply settles_bind; [auto with js|intros ?]). destruct (_ || _).
    + apply settles_send. unfold status_in. simpl. tauto.
    + apply settles_bind; [auto with js|intros _].
      eapply settles_weaken; [|apply answers_settles, answers_concept_stage].
      intros r Hr. unfold status_in in *. simpl in *. tauto.
  - intros e. apply answers_send. unfold status_in. simpl. tauto.
Qed.

(** C39.  The handler of POST /api/generate-visual-concept does not throw
    and sends exactly one answer, whose status is 200, 400 or 500, whatever
    the body and the services are. *)
Theorem visual_concept_answers body w :
  exists r, (generate_visual_concept body w).1 = Ok tt /\
            sent_of (generate_visual_concept body) w = [r] /\
            (r_status r = 200 \/ r_status r = 400 \/ r_status r = 500).
Proof.
  destruct (answers_run _ _ w (answers_visual_concept body)) as ([] & r & ? & ? & Hr).
  exists r. split_and!; [done..|]. destruct Hr as [<-|[<-|[<-|[]]]]; auto.
Qed.

Ltac run_concept :=
  unfold sent_of, calls_of, generate_visual_concept, concept_stage, concept_answer;
  unfold_M.

(** With an identity object and a reference URL, when the image is
    fetched and the model's cleaned reply parses, the answer is 200 with the
    parsed concept and the URL, after two calls: the fetch of the image and
    the multimodal request that carries its base64 and a MIME type chosen by
    the URL's suffix. *)
Theorem visual_concept_success body fs url image t vc frest trest w :
  get body "brandIdentity" = Ok (JObj fs) ->
  get body "referenceImageUrl" = Ok (JStr url) -> truthy (JStr url) = true ->
  forallb printable [lookup_field "mascotDescription" fs; lookup_field "visualStyle" fs;
                     lookup_field "adSlogan" fs] = true ->
  w_fetch w = Ok image :: frest -> w_text w = Ok t :: trest ->
  json_parse (cleanResponse t) = Some vc ->
  sent_of (generate_visual_concept body) w
  = [{| r_status := 200;
        r_body := JObj [("visualConcept", vc); ("referenceImageUrl", JStr url)] |}] /\
  calls_of (generate_visual_concept body) w
  = [CallFetch url; concept_call (JObj fs) url image].
Proof.
  intros Hb Hu Tu Pr Hf Ht Hp. run_concept. known Hb. known Hu. rewrite Tu.
  cbn [truthy negb orb]. cbv beta. simpl. rewrite Hf. simpl.
  rewrite (template_printable _ _ Pr), Ht. simpl. rewrite Hp. simpl.
  split; [by rewrite drop_app_length|].
  rewrite <- !app_assoc. by rewrite drop_app_length.
Qed.

(** A reference URL that is truthy but not a string, which the
    validation of line 803 lets through, makes [endsWith] throw after the
    image was fetched: the answer is 500 with the message of line 864. *)
Theorem visual_concept_url_not_string body bi u image frest w :
  get body "brandIdentity" = Ok bi -> get body "referenceImageUrl" = Ok u ->
  truthy bi = true -> truthy u = true -> printable u = true ->
  (forall s, u <> JStr s) ->
  w_fetch w = Ok image :: frest ->
  sent_of (generate_visual_concept body) w
  = [{| r_status := 500; r_body := error_body concept_message |}].
Proof.
  intros Hb Hu Tb Tu Pu Hs Hf. run_concept. known Hb. known Hu. rewrite Tb, Tu.
  cbn [negb orb]. cbv beta. rewrite (interpolate_one _ Pu), Hf. simpl.
  destruct u; try done; simpl; try by rewrite drop_app_length.
  by destruct (Hs s).
Qed.

End ConceptFacts.

(** ** Witnesses *)

Lemma visual_concept_success_witness :
  sent_of (generate_visual_concept (H := concept_platform) concept_request) concept_world
  = [{| r_status := 200;
        r_body := JObj [("visualConcept", JObj []);
                        ("referenceImageUrl", JStr "https://img/ref.png")] |}] /\
  calls_of (generate_visual_concept (H := concept_platform) concept_request) concept_world
  = [CallFetch "https://img/ref.png";
     concept_call (H := concept_platform) sample_identity "https://img/ref.png" "png-bytes"].
Proof.
  apply (visual_concept_success (H := concept_platform) concept_request
           [("mascotDescription", JStr "A cheerful fox");
            ("visualStyle", JStr "Modern"); ("adSlogan", JStr "Fresh");
            ("brandPersonality", JStr "Friendly and Casual")]
           "https://img/ref.png" "png-bytes" "```json {} ```" (JObj []) [] []
           concept_world).
  all: vm_compute; reflexivity.
Defined.

Lemma visual_concept_url_not_string_witness :
  sent_of (generate_visual_concept (H := concept_platform)
             (JObj [("brandIdentity", sample_identity); ("referenceImageUrl", JNum 7)]))
    concept_world
  = [{| r_status := 500; r_body := error_body concept_message |}].
Proof.
  apply (visual_concept_url_not_string (H := concept_platform)
           (JObj [("brandIdentity", sample_identity); ("referenceImageUrl", JNum 7)])
           sample_identity (JNum 7) "png-bytes" [] concept_world).
  all: try (vm_compute; reflexivity).
  intros s. discriminate.
Defined.
