(* ===== verification/Server3.v ===== *)
(** * Server3: the voice-only server of server3.js

    server3.js declares the class [AIService] of server.js again, character
    for character (lines 29-110 are the text of server.js lines 45-126): its
    three methods are defined here as the ones of [Legacy.AIService].  It has
    three handlers of its own:

    - [check_elevenlabs3] (113-141) fetches the voice catalogue, then runs
      one test synthesis, and answers with the audio and the number of
      voices;
    - [generate3] (144-178) generates the description and the voice, no
      image;
    - [health3] (181-187).

    Theorems: both handlers answer exactly once; when the catalogue request
    fails no synthesis is attempted; [imageType] is still required although
    no image is generated. *)

From Stdlib Require Import ZArith QArith Lia List Bool Ascii String.
From stdpp Require Import base tactics option list strings.
From S2P Require Import Prelude JsString JsValue Effects Voice Legacy Endpoints.

Local Open Scope Z_scope.

(** ** The class AIService of server3.js *)

(** server3.js lines 30-48. *)
Definition generateImagePrompt3 (brandName type context : JsVal) : M string :=
  AIService.generateImagePrompt brandName type context.

(** server3.js lines 50-76. *)
Definition generateImage3 (prompt size : string) : M JsVal :=
  AIService.generateImage prompt size.

(** server3.js lines 78-109. *)
Definition generateVoice3 `{Platform} (text voiceId modelId : string) : M string :=
  AIService.generateVoice text voiceId modelId.

(** ** The handlers *)

Section Handlers.
Context `{Platform}.

(** server3.js lines 113-141: GET /api/check-elevenlabs. *)
Definition check_elevenlabs3 : M unit :=
  try_catch
    (data ← get_voices;
     audioData ← generateVoice3 testText AIService.default_voiceId
                   AIService.default_modelId;
     count ← lift (voiceCount data);
     send 200 (JObj [("success", JBool true);
                     ("audioData", JStr audioData);
                     ("voiceCount", count)]))
    (fun error => send 500 (failure_body "ElevenLabs test failed" error)).

(** server3.js lines 144-178: POST /api/generate. *)
Definition generate3 (body : JsVal) : M unit :=
  try_catch
    (brandName ← lift (destructure "req.body" body "brandName");
     brandInfo ← lift (destructure "req.body" body "brandInfo");
     imageType ← lift (destructure "req.body" body "imageType");
     if negb (truthy brandName) || negb (truthy brandInfo) || negb (truthy imageType)
     then send 400 (error_body "Missing required fields")
     else
       descriptionPrompt ← lift (template [brandName; brandInfo]
                                   (descriptionPrompt brandName brandInfo));
       description ← generateContent "gemini-pro" descriptionPrompt;
       let brandDescription := trim description in
       audioData ← generateVoice3 brandDescription AIService.default_voiceId
                     AIService.default_modelId;
       send 200 (JObj [("success", JBool true);
                       ("description", JStr brandDescription);
                       ("audioData", JStr audioData)]))
    (fun error => send 500 (failure_body "Generation failed" error)).

End Handlers.

Section Health3.
Variable toISOString : Z -> string.

(** server3.js lines 181-187: GET /health. *)
Definition health3 : M unit :=
  now ← date_now;
  send 200 (JObj [("status", JStr "OK");
                  ("timestamp", JStr (toISOString now));
                  ("elevenlabs", JStr "configured")]).

End Health3.

Section Facts.
Context `{Platform}.

Lemma silent_generateVoice3 t v m : silent (generateVoice3 t v m).
Proof. apply silent_generateVoice. Qed.

Lemma answers_generate3 body : answers (status_in [200; 400; 500]) (generate3 body).
Proof.
  unfold generate3. apply answers_try_catch.
  - do 3 (apply settles_bind; [auto with js|intros ?]).
    destruct (_ || _).
    + apply settles_send. unfold status_in. simpl. tauto.
    + repeat (apply settles_bind; [auto using silent_generateVoice3 with js|intros ?]).
      apply settles_send. unfold status_in. simpl. tauto.
  - intros e. apply answers_send. unfold status_in. simpl. tauto.
Qed.

Lemma answers_check_elevenlabs3 : answers (status_in [200; 500]) check_elevenlabs3.
Proof.
  unfold check_elevenlabs3. apply answers_try_catch.
  - repeat (apply settles_bind; [auto using silent_generateVoice3 with js|intros ?]).
    apply settles_send. unfold status_in. simpl. tauto.
  - intros e. apply answers_send. unfold status_in. simpl. tauto.
Qed.

(** [imageType] is required although no image is generated. *)
Lemma generate3_image_type_required body bn bi w :
  get body "brandName" = Ok bn -> get body "brandInfo" = Ok bi ->
  get body "imageType" = Ok JUndefined ->
  generate3 body w
  = (Ok tt, add_sent {| r_status := 400; r_body := error_body "Missing required fields" |} w).
Proof.
  intros Hn Hi Ht. unfold generate3. unfold_M. known Hn. known Hi. known Ht. simpl.
  by rewrite !orb_true_r.
Qed.

(** When the catalogue request of the check fails, no synthesis is
    attempted: the one call is the catalogue request, and the answer is 500
    with the error's message as details. *)
Theorem check_elevenlabs3_catalog_failure e rest w :
  w_voices w = Throw e :: rest ->
  sent_of check_elevenlabs3 w
  = [{| r_status := 500; r_body := failure_body "ElevenLabs test failed" e |}] /\
  calls_of check_elevenlabs3 w = [CallVoices].
Proof.
  intros Hw. unfold sent_of, calls_of, check_elevenlabs3, generateVoice3. unfold_M.
  rewrite Hw. simpl.
  by rewrite !drop_app_length.
Qed.

(** Without a body the destructuring of line 146 throws, and the answer
    carries the words of the engine as details. *)
Example generate3_no_body w :
  generate3 JUndefined w
  = (Ok tt, add_sent {| r_status := 500;
                        r_body := JObj [("error", JStr "Generation failed");
                                        ("details", JStr "Cannot destructure property 'brandName' of 'req.body' as it is undefined.")] |} w).
Proof. reflexivity. Qed.

End Facts.

Lemma check_elevenlabs3_catalog_failure_witness :
  sent_of (check_elevenlabs3 (H := test_platform))
    (set_voices [Throw unauthorized] empty_world)
  = [{| r_status := 500; r_body := failure_body "ElevenLabs test failed" unauthorized |}] /\
  calls_of (check_elevenlabs3 (H := test_platform))
    (set_voices [Throw unauthorized] empty_world)
  = [CallVoices].
Proof.
  apply (check_elevenlabs3_catalog_failure (H := test_platform) unauthorized []
           (set_voices [Throw unauthorized] empty_world)).
  reflexivity.
Defined.
