(* ===== verification/Routes.v ===== *)
(** * Routes: the route tables of server.js and server3.js

    server.js registers seven handlers, three of them for POST /api/generate
    (lines 129, 251 and 520) and two for GET /api/check-elevenlabs (lines 175
    and 491).  Express tries the routes in the order of registration, and a
    handler that answers without calling [next] ends the search; none of the
    handlers takes [next].  [dispatch] is that search, written from the
    documented behaviour of Express with its default settings: the path of
    the request, without its query, is compared with the path of the route
    without regard to the case of letters and with one trailing slash
    allowed; a request that no route matches is answered 404, and the body
    of that answer is here the line of text the error page of Express
    holds, not the page.  The methods are the two the sources register.

    server.js does not parse as it stands (see the header of the
    development), so that it registers nothing: [server_js_routes] is the
    table it would register once the two damaged regions are read as the
    header says.

    Theorems: every request is answered exactly once; POST /api/generate is
    served by the handler of line 129, so that a body that holds only
    [userPrompt] is answered 400 and the pipeline of line 520 is not
    reached.  server3.js registers three handlers, one for each path
    ([server3_js_routes]); its handler for POST /api/generate asks for the
    same three fields. *)

From Stdlib Require Import ZArith QArith Lia List Bool Ascii String.
From stdpp Require Import base tactics option list strings.
From S2P Require Import Prelude JsString JsValue Effects Voice Generate Legacy Endpoints.
From S2P Require Import Server3.

Local Open Scope Z_scope.

Inductive Method : Type := GET | POST.

Record Route := {
  route_method : Method;
  route_path : string;
  route_handler : JsVal -> M unit
}.

#[export] Instance Method_eq_dec : EqDecision Method.
Proof. solve_decision. Defined.

Definition method_name (m : Method) : string :=
  match m with GET => "GET" | POST => "POST" end.

(** The path of a request against the path of a route, which is in lower
    case in both sources. *)
Definition path_matches (route p : string) : bool :=
  String.eqb (toLowerCase p) route || String.eqb (toLowerCase p) (route +:+ "/").

Definition route_matches (m : Method) (p : string) (r : Route) : bool :=
  bool_decide (route_method r = m) && path_matches (route_path r) p.

(** The first route that matches serves the request. *)
Definition dispatch (routes : list Route) (m : Method) (p : string) (body : JsVal)
    : M unit :=
  match List.find (route_matches m p) routes with
  | Some r => route_handler r body
  | None => send 404 (JStr ("Cannot " +:+ method_name m +:+ " " +:+ p))
  end.

Section Table.
Context `{Platform} (scope : ModuleScope) (toISOString : Z -> string).

(** The registrations of server.js in the order of the file: lines 129, 175,
    251, 486, 491, 520 and 797, as they would be made if the file parsed. *)
Definition server_js_routes : list Route :=
  [{| route_method := POST; route_path := "/api/generate";
      route_handler := generate_legacy |};
   {| route_method := GET; route_path := "/api/check-elevenlabs";
      route_handler := fun _ => check_legacy |};
   {| route_method := POST; route_path := "/api/generate";
      route_handler := generate_draft |};
   {| route_method := GET; route_path := "/health";
      route_handler := fun _ => health toISOString |};
   {| route_method := GET; route_path := "/api/check-elevenlabs";
      route_handler := fun _ => check_elevenlabs |};
   {| route_method := POST; route_path := "/api/generate";
      route_handler := generate scope |};
   {| route_method := POST; route_path := "/api/generate-visual-concept";
      route_handler := generate_visual_concept |}].

(** The registrations of server3.js in the order of the file: lines 113, 144
    and 181. *)
Definition server3_js_routes : list Route :=
  [{| route_method := GET; route_path := "/api/check-elevenlabs";
      route_handler := fun _ => check_elevenlabs3 |};
   {| route_method := POST; route_path := "/api/generate";
      route_handler := generate3 |};
   {| route_method := GET; route_path := "/health";
      route_handler := fun _ => health3 toISOString |}].

(** The handler answers every request exactly once. *)
Definition answers_once (h : JsVal -> M unit) : Prop :=
  forall body, answers (fun _ => True) (h body).

Lemma answers_any {A} P (m : M A) : answers P m -> answers (fun _ => True) m.
Proof. by apply answers_weaken. Qed.

Lemma routes_answer : Forall (fun r => answers_once (route_handler r)) server_js_routes.
Proof.
  repeat constructor; intros body; simpl;
    eauto using answers_any, answers_generate_legacy, answers_check_legacy,
      answers_generate_draft, answers_health, answers_check_elevenlabs, answers_generate,
      answers_visual_concept.
Qed.

Lemma dispatch_answers_once routes m p body :
  Forall (fun r => answers_once (route_handler r)) routes ->
  answers (fun _ => True) (dispatch routes m p body).
Proof.
  intros Hr. unfold dispatch. destruct (List.find _ routes) as [r|] eqn:E.
  - apply find_some in E as [Hin _]. rewrite Forall_forall in Hr.
    apply Hr. by apply list_elem_of_In.
  - by apply answers_send.
Qed.

(** C40.  Whatever the method, the path, the body and the services are, the
    server sends exactly one answer to a request and no handler throws. *)
Theorem dispatch_answers m p body w :
  exists r, (dispatch server_js_routes m p body w).1 = Ok tt /\
            sent_of (dispatch server_js_routes m p body) w = [r].
Proof.
  destruct (answers_run _ _ w (dispatch_answers_once _ m p body routes_answer))
    as ([] & r & ? & ? & _). eauto.
Qed.

(** POST /api/generate is served by the handler registered first. *)
Lemma generate_shadowed body :
  dispatch server_js_routes POST "/api/generate" body = generate_legacy body.
Proof. reflexivity. Qed.

(** A request to POST /api/generate whose body holds [userPrompt] and
    nothing else is answered 400 with the message of line 133: the handler
    of line 129 serves it, and the pipeline of line 520 is not reached. *)
Theorem userPrompt_rejected up w :
  dispatch server_js_routes POST "/api/generate" (JObj [("userPrompt", up)]) w
  = (Ok tt, add_sent {| r_status := 400; r_body := error_body "Missing required fields" |} w).
Proof.
  rewrite generate_shadowed.
  apply (generate_legacy_missing _ JUndefined JUndefined JUndefined); done.
Qed.

(** The check of line 491 is shadowed in the same way. *)
Example check_shadowed body :
  dispatch server_js_routes GET "/api/check-elevenlabs" body = check_legacy.
Proof. reflexivity. Qed.

(** The path is matched as Express matches it. *)
Example dispatch_paths body :
  dispatch server_js_routes POST "/API/Generate/" body = generate_legacy body /\
  dispatch server_js_routes GET "/api/generate" body
  = send 404 (JStr "Cannot GET /api/generate") /\
  dispatch server_js_routes POST "/api/generate/x" body
  = send 404 (JStr "Cannot POST /api/generate/x").
Proof. by split_and!. Qed.

(** ** server3.js *)

Lemma answers_health3 : answers (fun _ => True) (health3 toISOString).
Proof.
  unfold health3. apply answers_bind; [auto with js..|].
  intros now. by apply answers_send.
Qed.

Lemma routes3_answer : Forall (fun r => answers_once (route_handler r)) server3_js_routes.
Proof.
  repeat constructor; intros body; simpl;
    eauto using answers_any, answers_check_elevenlabs3, answers_generate3, answers_health3.
Qed.

(** server3.js sends exactly one answer to every request. *)
Theorem dispatch3_answers m p body w :
  exists r, (dispatch server3_js_routes m p body w).1 = Ok tt /\
            sent_of (dispatch server3_js_routes m p body) w = [r].
Proof.
  destruct (answers_run _ _ w (dispatch_answers_once _ m p body routes3_answer))
    as ([] & r & ? & ? & _). eauto.
Qed.

(** The request of the page is rejected by server3.js as well: its handler
    asks for [brandName], [brandInfo] and [imageType]. *)
Theorem userPrompt_rejected3 up w :
  dispatch server3_js_routes POST "/api/generate" (JObj [("userPrompt", up)]) w
  = (Ok tt, add_sent {| r_status := 400; r_body := error_body "Missing required fields" |} w).
Proof.
  change (dispatch _ _ _ _) with (generate3 (JObj [("userPrompt", up)])).
  by apply (generate3_image_type_required _ JUndefined JUndefined).
Qed.

End Table.
