(* ===== verification/Protocol.v ===== *)
(** * Protocol: the order of the remote calls

    A handler talks to five services: the text model, the image service,
    the voice catalogue, the speech synthesis and the host of a reference
    image.  [service] forgets what a logged call carries and keeps whom it
    was made to; a [Protocol] is a finite set of sequences of services,
    built with [then_] and [or_stop]; [follows P E m] says that every run of
    [m] adds to the log a sequence of calls whose services are in [P] when
    the run completes and in [E] when it throws.  The rules follow the
    structure of a computation: a bind runs its second part after a first
    part that completed, a [catch] runs its handler after a body that threw.
    [derive_protocol] applies them, and a protocol written by hand is
    compared with the derived one by computation.

    Theorems: the handlers of server.js and server3.js follow the protocols
    written out in this file and never throw, whatever the request and the
    services are; hence, in the pipeline, the text model is asked first, the
    image service is never called after the voice catalogue was fetched, no
    synthesis is asked for before the catalogue, and a request costs at most
    eight calls.  The protocol of the pipeline is exact: [scenario] gives,
    for each of its sequences, a request and a world whose run makes exactly
    these calls. *)

From Stdlib Require Import ZArith QArith Lia List Bool Ascii String.
From stdpp Require Import base tactics option list strings.
From S2P Require Import Prelude JsString JsValue Effects Voice Images Generate Legacy.
From S2P Require Import Endpoints Server3 Routes.

(** ** Services and protocols *)

Inductive Service : Type :=
| TextModel | ImageService | VoiceCatalogue | SpeechService | Download.

Definition service (c : Call) : Service :=
  match c with
  | CallText _ _ | CallVision _ _ _ _ => TextModel
  | CallImage _ _ => ImageService
  | CallVoices => VoiceCatalogue
  | CallSpeech _ _ _ _ => SpeechService
  | CallFetch _ => Download
  end.

(** A finite set of sequences of services. *)
Definition Protocol : Type := list (list Service).

Definition nothing : Protocol := [[]].

Definition call (s : Service) : Protocol := [[s]].

(** A sequence of [P] followed by a sequence of [Q]. *)
Definition then_ (P Q : Protocol) : Protocol :=
  a ← P; (fun b => a ++ b) <$> Q.

(** A sequence of [P], or nothing at all. *)
Definition or_stop (P : Protocol) : Protocol := [] :: P.

(** Every run of [m] adds to the log calls whose services are a sequence of
    [P] when the run completes and of [E] when it throws, and removes
    nothing from the log. *)
Definition follows {A} (P E : Protocol) (m : M A) : Prop :=
  forall w, exists t,
    w_calls (m w).2 = w_calls w ++ t /\
    service <$> t ∈ match (m w).1 with Ok _ => P | Throw _ => E end.

#[export] Instance Service_eq_dec : EqDecision Service.
Proof. solve_decision. Defined.

(** ** The protocols of server.js *)

(** Lines 387-457: nothing when a prompt cannot be printed; else, twice, a
    description, then an image. *)
Definition images_protocol : Protocol :=
  or_stop (then_ (call TextModel)
    (or_stop (then_ (call ImageService)
       (or_stop (then_ (call TextModel) (or_stop (call ImageService))))))).

(** Lines 621-771: at most the primary synthesis, and the retry when the
    module binds [voices]. *)
Definition synthesis_protocol (scope : ModuleScope) : Protocol :=
  or_stop (then_ (call SpeechService)
    (match voices_rachel scope with
     | Some _ => or_stop (call SpeechService)
     | None => nothing
     end)).

(** Lines 566-780: the catalogue, then the synthesis. *)
Definition voice_protocol (scope : ModuleScope) : Protocol :=
  then_ (call VoiceCatalogue) (or_stop (synthesis_protocol scope)).

(** Lines 520-794: the identity, the images, the voice. *)
Definition generate_protocol (scope : ModuleScope) : Protocol :=
  or_stop (then_ (call TextModel)
    (or_stop (then_ images_protocol (or_stop (voice_protocol scope))))).

(** Lines 129-172: the prompt (not asked for when it cannot be printed),
    the image, the description, the voice. *)
Definition legacy_protocol : Protocol :=
  then_ (or_stop (call TextModel))
    (or_stop (then_ (call ImageService)
       (or_stop (then_ (call TextModel) (or_stop (call SpeechService)))))).

(** Lines 797-870: the reference image, then the model. *)
Definition concept_protocol : Protocol :=
  or_stop (then_ (call Download) (or_stop (call TextModel))).

(** server3.js lines 144-178: the description, then the voice. *)
Definition generate3_protocol : Protocol :=
  or_stop (then_ (call TextModel) (or_stop (call SpeechService))).

(** server3.js lines 113-141: the catalogue, then one test synthesis. *)
Definition check3_protocol : Protocol :=
  then_ (call VoiceCatalogue) (or_stop (call SpeechService)).

(** A request to server3.js, whatever its method and path. *)
Definition server3_protocol : Protocol := generate3_protocol ++ check3_protocol.

(** Lines 175-187 and 491-517: one test synthesis, or the catalogue. *)
Definition check_protocol : Protocol :=
  or_stop (call SpeechService ++ call VoiceCatalogue).

(** A request to server.js, whatever its method and path: the handlers of
    the route table. *)
Definition server_protocol (scope : ModuleScope) : Protocol :=
  generate_protocol scope ++ legacy_protocol ++ concept_protocol ++ check_protocol.

(** The order of the pipeline: first the text model and the image service,
    then the catalogue, then the synthesis. *)
Definition rank (s : Service) : nat :=
  match s with
  | TextModel | ImageService | Download => 0
  | VoiceCatalogue => 1
  | SpeechService => 2
  end.

Fixpoint ascending (t : list Service) : bool :=
  match t with
  | a :: (b :: _) as r => (rank a <=? rank b)%nat && ascending r
  | _ => true
  end.

Definition count (s : Service) (t : list Service) : nat :=
  length (filter (fun x => x = s) t).

(** What the pipeline keeps to, run by run. *)
Definition pipeline_order (t : list Service) : bool :=
  ascending t && bool_decide (head t ∈ [None; Some TextModel])
  && (count TextModel t <=? 3)%nat && (count ImageService t <=? 2)%nat
  && (count VoiceCatalogue t <=? 1)%nat && (count SpeechService t <=? 2)%nat.

(** ** Scenarios *)

(** An identity with a brand name, which the placeholders of the image
    function need. *)
Definition named_identity : JsVal :=
  JObj [("brandName", JStr "Fox Tea"); ("adSlogan", JStr "Fresh");
        ("brandPersonality", JStr "warm")].

(** An identity whose story cannot be printed: the prompts of the images
    are template literals that hold it. *)
Definition storyless_identity : JsVal :=
  JObj [("brandName", JStr "Fox Tea"); ("adSlogan", JStr "Fresh");
        ("brandStory", JObj [("toString", JNum 1)])].

(** A platform whose [JSON.parse] knows three texts: an identity with a
    brand name, one without, and one whose story cannot be printed. *)
Definition scenario_platform : Platform :=
  {| json_parse := fun s =>
       if String.eqb s "named" then Some named_identity
       else if String.eqb s "unnamed" then Some sample_identity
       else if String.eqb s "storyless" then Some storyless_identity else None;
     base64 := fun b => b |}.

(** The calls of a sequence after the first that go to the text model or
    the image service, and the calls that go to the speech service. *)
Definition rounds (t : list Service) : nat :=
  length (filter (fun s => rank s = 0) (tail t)).

Definition voice_part (t : list Service) : list Service :=
  filter (fun s => rank s <> 0) t.

(** A request and a world that take the pipeline through the sequence [t]:
    each service answers until the sequence asks it to fail, the identity
    has a brand name exactly when the sequence goes on after the images, and
    a story that cannot be printed when it goes on without any. *)
Definition scenario (t : list Service) : JsVal * World :=
  let identity :=
    if voice_part t is [] then "unnamed"
    else if rounds t is O then "storyless" else "named" in
  let texts :=
    match t with
    | [] => []
    | [_] => [Throw network_error]
    | _ =>
      Ok identity ::
      match rounds t with
      | 1 => [Throw network_error]
      | 2 | 3 => [Ok "a fox"; Throw network_error]
      | _ => [Ok "a fox"; Ok "a field"]
      end
    end in
  let images :=
    match rounds t with
    | 3 => [Ok (image_reply "https://img/1.png")]
    | 4 => if voice_part t is [] then [Ok (image_reply "https://img/1.png")]
           else [Ok (image_reply "https://img/1.png");
                 Ok (image_reply "https://img/2.png")]
    | _ => []
    end in
  let voices := if voice_part t is [_] then [] else [Ok sample_catalog] in
  let speech :=
    if voice_part t is [_; _] then [Ok "mp3"] else [Throw network_error; Ok "mp3"] in
  (if t is [] then JObj [] else sample_request,
   set_text texts (set_image images (set_voices voices (set_speech speech empty_world)))).

(** The services called in the scenario of [t]. *)
Definition scenario_trace (scope : ModuleScope) (t : list Service) : list Service :=
  service <$> calls_of (generate (H := scenario_platform) scope (scenario t).1) (scenario t).2.

(** ** Protocols as sets *)

Lemma elem_of_then t P Q :
  t ∈ then_ P Q <-> exists a b, t = a ++ b /\ a ∈ P /\ b ∈ Q.
Proof.
  unfold then_. rewrite list_elem_of_bind. split.
  - intros (a & (b & -> & Hb)%list_elem_of_fmap & Ha). eauto.
  - intros (a & b & -> & Ha & Hb). exists a. split; [|done].
    apply list_elem_of_fmap. eauto.
Qed.

(** ** The rules *)

Lemma follows_weaken {A} (P P' E E' : Protocol) (m : M A) :
  follows P E m -> P ⊆ P' /\ E ⊆ E' -> follows P' E' m.
Proof.
  intros Hm [HP HE] w. destruct (Hm w) as (t & Ht & Hin). exists t. split; [done|].
  destruct (m w).1; auto.
Qed.

Lemma follows_ret {A} (a : A) : follows nothing [] (mret a : M A).
Proof. intros w. exists []. simpl. rewrite app_nil_r. split; [done|by left]. Qed.

Lemma follows_throw {A} e : follows [] nothing (throw e : M A).
Proof. intros w. exists []. simpl. rewrite app_nil_r. split; [done|by left]. Qed.

Lemma follows_lift {A} (o : Outcome A) : follows nothing nothing (lift o).
Proof.
  intros w. exists []. simpl. rewrite app_nil_r. split; [done|]. destruct o; by left.
Qed.

Lemma follows_lift_throw {A} e : follows [] nothing (lift (Throw e : Outcome A)).
Proof. apply follows_throw. Qed.

Lemma follows_send s b : follows nothing [] (send s b).
Proof. intros w. exists []. simpl. rewrite app_nil_r. split; [done|by left]. Qed.

Lemma follows_date_now : follows nothing [] date_now.
Proof.
  intros w. exists []. unfold date_now. rewrite app_nil_r.
  destruct (w_clock w); (split; [done|by left]).
Qed.

(** A request to a service. *)
Lemma follows_script {A} (script : World -> list (Outcome A)) set c :
  (forall rest w, w_calls (set rest w) = w_calls w) ->
  follows (call (service c)) (call (service c))
    (fun w => let (r, rest) := next (script w) in (r, log_call c (set rest w))).
Proof.
  intros Hset w. exists [c]. destruct (next (script w)) as [r rest]. simpl.
  rewrite Hset. split; [done|]. destruct r; by left.
Qed.

Lemma follows_generateContent m p :
  follows (call TextModel) (call TextModel) (generateContent m p).
Proof. by apply (follows_script w_text set_text (CallText m p)). Qed.

Lemma follows_generateContentWith m p d t :
  follows (call TextModel) (call TextModel) (generateContentWith m p d t).
Proof. by apply (follows_script w_text set_text (CallVision m p d t)). Qed.

Lemma follows_post_image p s :
  follows (call ImageService) (call ImageService) (post_image p s).
Proof. by apply (follows_script w_image set_image (CallImage p s)). Qed.

Lemma follows_get_voices : follows (call VoiceCatalogue) (call VoiceCatalogue) get_voices.
Proof. by apply (follows_script w_voices set_voices CallVoices). Qed.

Lemma follows_post_speech u t m s :
  follows (call SpeechService) (call SpeechService) (post_speech u t m s).
Proof. by apply (follows_script w_speech set_speech (CallSpeech u t m s)). Qed.

Lemma follows_fetch_bytes u : follows (call Download) (call Download) (fetch_bytes u).
Proof. by apply (follows_script w_fetch set_fetch (CallFetch u)). Qed.

(** A bind runs its second part when the first completes. *)
Lemma follows_bind {A B} (P E Q F : Protocol) (m : M A) (f : A -> M B) :
  follows P E m -> (forall a, follows Q F (f a)) ->
  follows (then_ P Q) (E ++ then_ P F) (m ≫= f).
Proof.
  intros Hm Hf w. unfold mbind, M_bind. destruct (Hm w) as (t & Ht & HP).
  destruct (m w) as [[a|e] w']; simpl in *.
  - destruct (Hf a w') as (t' & Ht' & HQ). exists (t ++ t').
    rewrite Ht', Ht, app_assoc, fmap_app. split; [done|].
    destruct (f a w').1; [|apply elem_of_app; right]; apply elem_of_then; eauto.
  - exists t. split; [done|]. apply elem_of_app. by left.
Qed.

(** A [catch] runs its handler when the body throws. *)
Lemma follows_try_catch {A} (P E Q F : Protocol) (m : M A) h :
  follows P E m -> (forall e, follows Q F (h e)) ->
  follows (P ++ then_ E Q) (then_ E F) (try_catch m h).
Proof.
  intros Hm Hh w. unfold try_catch. destruct (Hm w) as (t & Ht & HP).
  destruct (m w) as [[a|e] w']; simpl in *.
  - exists t. split; [done|]. apply elem_of_app. by left.
  - destruct (Hh e w') as (t' & Ht' & HQ). exists (t ++ t').
    rewrite Ht', Ht, app_assoc, fmap_app. split; [done|].
    destruct (h e w').1; [apply elem_of_app; right|]; apply elem_of_then; eauto.
Qed.

Lemma follows_option {A B} (P E Q F : Protocol) (o : option B) (f : B -> M A) m :
  (forall b, follows P E (f b)) -> follows Q F m ->
  follows (P ++ Q) (E ++ F) (match o with Some b => f b | None => m end).
Proof.
  intros Hf Hm. destruct o; (eapply follows_weaken; [done|]);
    split; intros t Ht; apply elem_of_app; auto.
Qed.

Lemma follows_if {A} (P E Q F : Protocol) (c : bool) (m m' : M A) :
  follows P E m -> follows Q F m' -> follows (P ++ Q) (E ++ F) (if c then m else m').
Proof.
  intros Hm Hm'. destruct c; (eapply follows_weaken; [done|]);
    split; intros t Ht; apply elem_of_app; auto.
Qed.

(** What a run logs is a sequence of the protocol. *)
Lemma follows_calls_of {A} (P : Protocol) (m : M A) w :
  follows P [] m -> (exists a, (m w).1 = Ok a) /\ service <$> calls_of m w ∈ P.
Proof.
  intros Hm. destruct (Hm w) as (t & Ht & HP). unfold calls_of.
  rewrite Ht, drop_app_length. destruct (m w).1; [eauto|]. by apply elem_of_nil in HP.
Qed.

Create HintDb protocol.

(** Derive a protocol along the structure of a computation; the protocols
    of the parts already treated are hints of [protocol]. *)
Ltac derive_protocol :=
  repeat lazymatch goal with
  | |- follows _ _ (_ ≫= _) => apply follows_bind; [|intros ?]
  | |- follows _ _ (try_catch _ _) => apply follows_try_catch; [|intros ?]
  | |- follows _ _ (if _ then _ else _) => apply follows_if
  | |- follows _ _ (match _ with Some _ => _ | None => _ end) =>
      apply follows_option; [intros ?|]
  | |- follows _ _ (let _ := _ in _) => cbv zeta
  | |- follows _ _ (mret _) => apply follows_ret
  | |- follows _ _ (throw _) => apply follows_throw
  | |- follows _ _ (lift (Throw _)) => apply follows_lift_throw
  | |- follows _ _ (lift _) => apply follows_lift
  | |- follows _ _ (send _ _) => apply follows_send
  | |- follows _ _ date_now => apply follows_date_now
  | |- follows _ _ (generateContent _ _) => apply follows_generateContent
  | |- follows _ _ (generateContentWith _ _ _ _) => apply follows_generateContentWith
  | |- follows _ _ (post_image _ _) => apply follows_post_image
  | |- follows _ _ get_voices => apply follows_get_voices
  | |- follows _ _ (post_speech _ _ _ _) => apply follows_post_speech
  | |- follows _ _ (fetch_bytes _) => apply follows_fetch_bytes
  | |- follows _ _ _ => solve [eauto with protocol]
  end.

(** Prove that a run follows [P]: derive a protocol, then compare. *)
Ltac solve_follows :=
  eapply follows_weaken;
    [derive_protocol|split; apply (bool_decide_unpack _); by vm_compute].

(** ** The handlers *)

Lemma follows_images brandName userPrompt brandStory :
  follows images_protocol images_protocol
    (generateUniqueImagesWithGemini brandName userPrompt brandStory).
Proof.
  unfold generateUniqueImagesWithGemini, images_body, images_fallback, imagePrompts,
    image_step, image_attempt, generateImageWithDallE. cbn [for_each].
  solve_follows.
Qed.

Section Handlers.
Context `{Platform} (scope : ModuleScope).

Lemma follows_synthesize bi urls sv :
  follows (synthesis_protocol scope) (synthesis_protocol scope)
    (synthesize scope bi urls sv).
Proof.
  unfold synthesis_protocol, synthesize, primary_attempt, fallback_attempt, degrade,
    lookup_fallback_voice.
  destruct (voices_rachel scope); simpl; solve_follows.
Qed.
End Handlers.

#[export] Hint Resolve follows_images follows_synthesize : protocol.

Section MoreHandlers.
Context `{Platform} (scope : ModuleScope).

Lemma follows_voice_stage bi urls :
  follows (voice_protocol scope) [] (voice_stage scope bi urls).
Proof. unfold voice_stage. destruct scope as [[fv|]]; solve_follows. Qed.

End MoreHandlers.

#[export] Hint Resolve follows_voice_stage : protocol.

Section Server.
Context `{Platform} (scope : ModuleScope).

Lemma follows_generate body : follows (generate_protocol scope) [] (generate scope body).
Proof.
  unfold generate, identity_stage, assets_stage.
  destruct scope as [[fv|]]; solve_follows.
Qed.

Lemma follows_generate_legacy body : follows legacy_protocol [] (generate_legacy body).
Proof.
  unfold generate_legacy, AIService.generateImagePrompt, AIService.generateImage,
    AIService.generateVoice.
  solve_follows.
Qed.

Lemma follows_generate_draft body : follows legacy_protocol [] (generate_draft body).
Proof.
  unfold generate_draft, generateImagePromptWithGemini, generateImageWithDallE,
    generateVoiceWithElevenLabs.
  solve_follows.
Qed.

Lemma follows_check_legacy : follows check_protocol [] check_legacy.
Proof. unfold check_legacy, AIService.generateVoice. solve_follows. Qed.

Lemma follows_check_elevenlabs : follows check_protocol [] check_elevenlabs.
Proof. unfold check_elevenlabs. solve_follows. Qed.

Lemma follows_visual_concept body :
  follows concept_protocol [] (generate_visual_concept body).
Proof. unfold generate_visual_concept, concept_stage, concept_answer. solve_follows. Qed.

Lemma follows_generate3 body : follows generate3_protocol [] (generate3 body).
Proof.
  unfold generate3, generateVoice3, AIService.generateVoice. solve_follows.
Qed.

Lemma follows_check_elevenlabs3 : follows check3_protocol [] check_elevenlabs3.
Proof.
  unfold check_elevenlabs3, generateVoice3, AIService.generateVoice. solve_follows.
Qed.

End Server.

(** ** The pipeline *)

Section Pipeline.
Context `{Platform} (scope : ModuleScope).

(** C21.  The remote calls of the pipeline come in a fixed order.  Whatever
    the request and the services are, the services called by a run of the
    handler of POST /api/generate are one of the sequences of
    [generate_protocol]: nothing; or the text model for the identity, then
    up to two rounds of description and image (none when a prompt of the
    images cannot be printed), then the voice catalogue,
    then at most two syntheses (one when the module binds no [voices]),
    the run stopping after any of these calls. *)
Theorem generate_follows_protocol body w :
  service <$> calls_of (generate scope body) w ∈ generate_protocol scope.
Proof. apply follows_calls_of, follows_generate. Qed.

Lemma generate_protocol_order :
  forallb pipeline_order (generate_protocol scope) = true /\
  forallb (fun t => length t <=? 8)%nat (generate_protocol scope) = true.
Proof. destruct scope as [[fv|]]; split; vm_compute; reflexivity. Qed.

(** What the protocol implies for every run: the text model is asked first,
    no image is asked for once the catalogue was fetched, no synthesis
    before the catalogue, and a request costs at most eight calls, of which
    at most three go to the text model, two to the image service, one to
    the catalogue and two to the synthesis. *)
Corollary generate_call_order body w :
  let t := service <$> calls_of (generate scope body) w in
  pipeline_order t = true /\ length t <= 8.
Proof.
  intros t. destruct generate_protocol_order as [Ho Hl].
  rewrite forallb_forall in Ho, Hl.
  pose proof (generate_follows_protocol body w) as Ht%list_elem_of_In.
  split; [by apply Ho|]. apply Nat.leb_le. by apply (Hl t).
Qed.

End Pipeline.

(** The scenario of a sequence of the protocol makes the calls of the
    sequence. *)
Lemma scenario_trace_protocol scope :
  forallb (fun t => bool_decide (scenario_trace scope t = t)) (generate_protocol scope)
  = true.
Proof. destruct scope as [[fv|]]; vm_compute; reflexivity. Qed.

(** C22.  The protocol of the pipeline is exact.  A sequence of services is
    in [generate_protocol] if and only if it is the sequence of the remote
    calls of a run of the handler of POST /api/generate, for some request
    and some replies of the services: the protocol allows nothing that the
    handler cannot do.  The platform is one whose [JSON.parse] can give an
    identity with a brand name, one without, and one whose story cannot be
    printed. *)
Theorem generate_protocol_exact scope t :
  t ∈ generate_protocol scope <->
  exists body w, service <$> calls_of (generate (H := scenario_platform) scope body) w = t.
Proof.
  split.
  - intros Ht%list_elem_of_In. pose proof (scenario_trace_protocol scope) as Hs.
    rewrite forallb_forall in Hs. apply Hs, bool_decide_eq_true in Ht.
    by exists (scenario t).1, (scenario t).2.
  - intros (body & w & <-). apply follows_calls_of, follows_generate.
Qed.

(** ** The server *)

Section Table.
Context `{Platform} (scope : ModuleScope) (toISOString : Z -> string).

Lemma follows_health : follows check_protocol [] (health toISOString).
Proof. unfold health. solve_follows. Qed.

Lemma follows_dispatch (P : Protocol) routes m p body :
  [] ∈ P -> Forall (fun r => forall body, follows P [] (route_handler r body)) routes ->
  follows P [] (dispatch routes m p body).
Proof.
  intros HP Hr. unfold dispatch. destruct (List.find _ routes) as [r|] eqn:E.
  - apply find_some in E as [Hin%list_elem_of_In _]. rewrite Forall_forall in Hr. by apply Hr.
  - eapply follows_weaken; [apply follows_send|]. split; [|done].
    by intros t ->%list_elem_of_singleton.
Qed.

Lemma follows_routes :
  Forall (fun r => forall body, follows (server_protocol scope) [] (route_handler r body))
    (server_js_routes scope toISOString).
Proof.
  assert (Hsub : forall P, P ⊆ server_protocol scope -> P ⊆ server_protocol scope /\
                           ([] : Protocol) ⊆ []) by done.
  pose proof follows_generate_legacy. pose proof follows_check_legacy.
  pose proof follows_generate_draft. pose proof follows_health.
  pose proof follows_check_elevenlabs. pose proof (follows_generate scope).
  pose proof follows_visual_concept.
  repeat (apply List.Forall_cons;
    [intros body; cbn [route_handler]; eapply follows_weaken; [done|];
     apply Hsub; intros t Ht; unfold server_protocol; rewrite !elem_of_app; tauto|]).
  apply List.Forall_nil.
Qed.

(** Every request to server.js, whatever its method and path, is served
    within the protocol of one of the handlers. *)
Theorem server_follows_protocol m p body w :
  service <$> calls_of (dispatch (server_js_routes scope toISOString) m p body) w
  ∈ server_protocol scope.
Proof.
  apply follows_calls_of, follows_dispatch, follows_routes.
  unfold server_protocol, generate_protocol, or_stop. by left.
Qed.

Lemma follows_health3 : follows generate3_protocol [] (health3 toISOString).
Proof. unfold health3. solve_follows. Qed.

(** Every request to server3.js is served within the protocol of one of its
    handlers. *)
Theorem server3_follows_protocol m p body w :
  service <$> calls_of (dispatch (server3_js_routes toISOString) m p body) w
  ∈ server3_protocol.
Proof.
  assert (Hsub : forall P, P ⊆ server3_protocol -> P ⊆ server3_protocol /\
                           ([] : Protocol) ⊆ []) by done.
  pose proof follows_check_elevenlabs3. pose proof follows_generate3.
  pose proof follows_health3.
  apply follows_calls_of, follows_dispatch; [by left|].
  repeat (apply List.Forall_cons;
    [intros body'; cbn [route_handler]; eapply follows_weaken; [done|];
     apply Hsub; intros t Ht; unfold server3_protocol; rewrite !elem_of_app; tauto|]).
  apply List.Forall_nil.
Qed.

End Table.

(** The longest run: every image is generated, the first synthesis fails and
    the retry is made. *)
Example longest_run :
  service <$> calls_of (generate (H := sample_platform) with_rachel sample_request)
                (set_speech [Throw network_error; Ok "mp3"] healthy_world)
  = [TextModel; TextModel; ImageService; TextModel; ImageService;
     VoiceCatalogue; SpeechService; SpeechService].
Proof. vm_compute. reflexivity. Qed.
