(* ===== verification/Contract.v ===== *)
(** * Contract: what POST /api/generate promises to the page

    [generate_contract] is the set of answers the handler of line 520 can
    send: the object with the six fields of lines 668-675, 725-732 and
    758-765 under status 200, the message of line 528 under status 400, and
    one of four messages under status 500.  It is what the page needs to
    know of the server, and Wire.v proves the page's theorems from it.  The
    handler keeps the contract whatever the request and the services are
    (a request without a body, or with a prompt that does not print, is
    answered with the last of the four messages);
    the proof follows the structure of the handler with the answer logic of
    Effects.v.  [concept_contract] is the same for the handler of line 797:
    the parsed reply of the model with the reference under status 200, or
    one of three messages under status 500. *)

From Stdlib Require Import ZArith Lia List Bool Ascii String.
From stdpp Require Import base tactics option list strings.
From S2P Require Import Prelude JsString JsValue Effects Fence Voice Images Generate Endpoints.

Local Open Scope Z_scope.

(** ** What POST /api/generate promises *)

(** The object of lines 668-675, 725-732 and 758-765: the fields the page
    reads, and the last field, which tells the two shapes apart. *)
Definition assets_body (imageUrls brandIdentity audioBase64 : JsVal)
    (last : string * JsVal) : JsVal :=
  JObj [("imageUrls", imageUrls);
        ("audioBase64", audioBase64);
        ("adSlogan", get_opt brandIdentity "adSlogan");
        ("mascotDescription", get_opt brandIdentity "mascotDescription");
        ("visualStyle", get_opt brandIdentity "visualStyle");
        last].

(** The bodies of the answers with status 200. *)
Inductive assets_answer : JsVal -> Prop :=
| with_audio imageUrls brandIdentity audio :
    two_urls imageUrls ->
    assets_answer (assets_body imageUrls brandIdentity (JStr audio)
                     ("useElevenLabs", JBool true))
| without_audio imageUrls brandIdentity message :
    two_urls imageUrls ->
    assets_answer (assets_body imageUrls brandIdentity JNull
                     ("elevenlabsError", JStr message)).

(** The messages of the answers with status 500. *)
Definition failure_messages : list string :=
  [identity_message; parse_message; voiceover_message; unexpected_message].

(** The answers to a request that holds a prompt. *)
Inductive assets_contract : Response -> Prop :=
| contract_assets body :
    assets_answer body -> assets_contract {| r_status := 200; r_body := body |}
| contract_failure message :
    message ∈ failure_messages -> assets_contract (answer 500 message).

(** The answers of the handler. *)
Definition generate_contract (r : Response) : Prop :=
  assets_contract r \/ r = answer 400 required_message.

(** ** What POST /api/generate-visual-concept promises *)

(** The messages of the answers with status 500 of the concept endpoint. *)
Definition concept_failure_messages : list string :=
  [concept_parse_message; concept_message; concept_unexpected_message].

(** The answers to a request that holds an identity and a reference. *)
Inductive concept_contract (referenceImageUrl : JsVal) : Response -> Prop :=
| contract_concept visualConcept :
    concept_contract referenceImageUrl
      {| r_status := 200;
         r_body := JObj [("visualConcept", visualConcept);
                         ("referenceImageUrl", referenceImageUrl)] |}
| contract_concept_failure message :
    message ∈ concept_failure_messages ->
    concept_contract referenceImageUrl (answer 500 message).

Ltac solve_member :=
  unfold failure_messages; repeat first [by left | right].

(** ** The bodies *)

Lemma success_body_shape imageUrls brandIdentity audio body :
  success_body imageUrls brandIdentity audio = Ok body ->
  body = assets_body imageUrls brandIdentity (JStr audio) ("useElevenLabs", JBool true).
Proof.
  unfold success_body, assets_body, get_opt.
  destruct (get brandIdentity "adSlogan"); [|done].
  destruct (get brandIdentity "mascotDescription"); [|done].
  destruct (get brandIdentity "visualStyle"); [|done]. by intros [= <-].
Qed.

Lemma degraded_body_shape imageUrls brandIdentity message body :
  degraded_body imageUrls brandIdentity message = Ok body ->
  body = assets_body imageUrls brandIdentity JNull ("elevenlabsError", JStr message).
Proof.
  unfold degraded_body, assets_body, get_opt.
  destruct (get brandIdentity "adSlogan"); [|done].
  destruct (get brandIdentity "mascotDescription"); [|done].
  destruct (get brandIdentity "visualStyle"); [|done]. by intros [= <-].
Qed.

(** ** The image function, whatever the name is *)

Lemma returns_images_any bn up bs :
  returns two_urls (fun _ => True) (generateUniqueImagesWithGemini bn up bs).
Proof.
  eapply returns_try_catch; [apply returns_images_body|].
  intros e _ w. unfold images_fallback, date_now. unfold_M.
  destruct (w_clock w); destruct (call_removeSpaces _ bn); simpl;
    unfold placeholders, two_urls; eauto.
Qed.

(** ** The handler keeps the contract *)

Section Contract.
Context `{Platform} (scope : ModuleScope).

Lemma failure_answer message :
  message ∈ failure_messages ->
  answers assets_contract (send 500 (error_body message)).
Proof. intros Hm. apply answers_send. by apply contract_failure. Qed.

Lemma contract_success bi urls audio :
  two_urls urls ->
  settles assets_contract
    (body ← lift (success_body urls bi audio); send 200 body).
Proof.
  intros Hu. apply settles_lift. intros body ->%success_body_shape.
  apply settles_send, contract_assets. by constructor.
Qed.

Lemma contract_synthesize bi urls sv :
  two_urls urls -> settles assets_contract (synthesize scope bi urls sv).
Proof.
  intros Hu. unfold synthesize, primary_attempt, fallback_attempt, degrade.
  apply settles_try_catch; [|intros e1; apply settles_try_catch; [|intros e2]].
  - do 4 (apply settles_bind; [auto with js|intros ?]). by apply contract_success.
  - do 3 (apply settles_bind; [auto with js|intros ?]). by apply contract_success.
  - apply settles_lift. intros body ->%degraded_body_shape.
    apply settles_send, contract_assets. by constructor.
Qed.

Lemma contract_voice_stage bi urls :
  two_urls urls -> answers assets_contract (voice_stage scope bi urls).
Proof.
  intros Hu. unfold voice_stage. apply answers_try_catch.
  - repeat (apply settles_bind; [auto with js|intros ?]).
    by apply contract_synthesize.
  - intros e. apply failure_answer. solve_member.
Qed.

Lemma contract_assets_stage up t :
  answers assets_contract (assets_stage scope up t).
Proof.
  unfold assets_stage. apply answers_try_catch.
  - do 3 (apply settles_bind; [auto with js|intros ?]).
    eapply settles_returns; [apply silent_images|apply returns_images_any|].
    intros urls Hu. by apply answers_settles, contract_voice_stage.
  - intros e. apply failure_answer. solve_member.
Qed.

Lemma contract_identity_stage up :
  answers assets_contract (identity_stage scope up).
Proof.
  unfold identity_stage. apply answers_try_catch.
  - do 2 (apply settles_bind; [auto with js|intros ?]).
    apply answers_settles, contract_assets_stage.
  - intros e. apply failure_answer. solve_member.
Qed.

Lemma contract_generate body : answers generate_contract (generate scope body).
Proof.
  unfold generate. apply answers_try_catch.
  - apply settles_bind; [auto with js|intros up]. destruct (negb (truthy up)).
    + apply settles_send. by right.
    + apply settles_bind; [auto with js|intros _].
      eapply settles_weaken; [|apply answers_settles, contract_identity_stage].
      intros r Hr. by left.
  - intros e. eapply answers_weaken; [|apply failure_answer]; [by left|solve_member].
Qed.

(** C14.  Every answer of the handler of POST /api/generate has one of
    three shapes, whatever the request and the services are: status 200 and
    the object of six fields, with an array of two image URLs, with the
    audio as a string or [null], and with the three identity fields as the
    model gave them; status 400 and the message of line 528; status 500 and
    one of the four messages of lines 779, 784, 788 and 792.  The handler
    sends exactly one answer and does not throw. *)
Theorem generate_keeps_contract body w :
  exists r, (generate scope body w).1 = Ok tt /\
            sent_of (generate scope body) w = [r] /\ generate_contract r.
Proof.
  destruct (answers_run _ _ w (contract_generate body)) as ([] & r & ? & ? & ?).
  eauto.
Qed.

(** A request that holds a prompt is never answered 400. *)
Lemma contract_prompted body up :
  get body "userPrompt" = Ok up -> truthy up = true ->
  answers assets_contract (generate scope body).
Proof.
  intros Hb Hup w. destruct (printable up) eqn:Hp.
  - rewrite (generate_prompted scope _ _ _ Hb Hup Hp). apply contract_identity_stage.
  - rewrite (generate_unprintable_prompt scope _ _ _ Hb Hup Hp).
    eexists tt, _. split_and!; [done..|]. apply contract_failure. solve_member.
Qed.

End Contract.

(** ** The concept endpoint keeps its contract *)

Section ConceptContract.
Context `{Platform}.

Lemma contract_concept_answer u t : answers (concept_contract u) (concept_answer u t).
Proof.
  unfold concept_answer. apply answers_try_catch.
  - destruct (json_parse _); [|apply settles_throw].
    apply settles_send. constructor.
  - intros e. apply answers_send, contract_concept_failure. by left.
Qed.

Lemma contract_concept_stage bi u : answers (concept_contract u) (concept_stage bi u).
Proof.
  unfold concept_stage. apply answers_try_catch.
  - repeat (apply settles_bind; [auto with js|intros ?]).
    apply answers_settles, contract_concept_answer.
  - intros e. apply answers_send, contract_concept_failure. right. by left.
Qed.

(** A request that holds both fields is never answered 400. *)
Lemma contract_concept_request body bi u :
  get body "brandIdentity" = Ok bi -> get body "referenceImageUrl" = Ok u ->
  truthy bi = true -> truthy u = true ->
  answers (concept_contract u) (generate_visual_concept body).
Proof.
  intros Hb Hu Tb Tu. unfold generate_visual_concept. apply answers_try_catch.
  - unfold mbind at 1 2, M_bind at 1 2, lift at 1 2. intros w.
    rewrite (destructure_get _ _ _ _ Hb), (destructure_get _ _ _ _ Hu), Tb, Tu. simpl.
    revert w. apply settles_bind; [auto with js|intros _].
    apply answers_settles, contract_concept_stage.
  - intros e. apply answers_send, contract_concept_failure. right. right. by left.
Qed.

End ConceptContract.
