(* ===== verification/Browser.v ===== *)
(** * Browser: the state of the page of App.jsx

    The component [App] (src/frontend/src/App.jsx) keeps its state in hooks
    (lines 12-36 and 49-54) and in the browser: the storage, the theme
    attribute of the document, the timers, the intervals and the requests
    that are awaited.  This file holds that state as records, one for each
    group of hooks, with a setter for each field the code sets, and the
    data the handlers exchange: the end of a request ([Settled]), the code
    that waits for it ([Continuation]) and the callbacks given to
    [setTimeout] ([Task]).

    - [Generation]: [isLoading], [error], [results], [progress],
      [currentStep] (lines 12-18).
    - [Tooltip], [Notification]: lines 19-24.
    - [Concept]: the state of the visual concept (lines 33-36).
    - [Speech]: what [useSpeechRecognition] returns (lines 49-54).
    - [Page]: [localStorage], the [data-theme] attribute, [window.scrollY],
      and what the page did to the outside: alerts, downloads, opened
      links, elements scrolled into view.
    - [Loop]: the clock in milliseconds, the pending timers as pairs of due
      time and task in the order of their creation, the intervals by
      identifier with their due time and the [step] of their closure
      (line 187), and the requests in flight.

    Numbers that the code computes with ([progress], positions, the scroll
    offset) are rationals. *)

From Stdlib Require Import ZArith QArith Lia List Bool Ascii String.
From stdpp Require Import base tactics option list strings gmap.
From S2P Require Import Prelude JsString JsValue.

Local Open Scope Z_scope.

(** ** What the page awaits *)

(** [err.response] of a rejected request (App.jsx lines 287-291). *)
Record AxiosResponse := {
  resp_status : Z;
  resp_statusText : string;
  resp_data : JsVal
}.

(** The error a rejected [axios.post] carries: [err.code], [err.message],
    [err.response], and whether [err.request] is set (lines 284-298). *)
Record AxiosErr := {
  err_code : option string;
  err_text : string;
  err_response : option AxiosResponse;
  err_request : bool
}.

(** How an awaited request ends; [Resolved data] carries [response.data]. *)
Inductive Settled : Type :=
| Resolved (data : JsVal)
| Rejected (err : AxiosErr).

(** What runs when the request ends: the rest of [handleGenerate], which
    holds the identifier of its progress interval (line 245), or the rest of
    [handleGenerateVisualConcept]. *)
Inductive Continuation : Type :=
| AfterGenerate (progressInterval : nat)
| AfterConcept.

(** A request in flight. *)
Record Request := {
  req_url : string;
  req_body : JsVal;
  req_then : Continuation
}.

(** The callbacks the page hands to [setTimeout]. *)
Inductive Task : Type :=
| HideTooltip
| HideNotification
| WelcomeTooltip
| ScrollToResults
| DownloadTooltip
| StopTooltip
| GenerateTooltip
| OpenSubscription
| DispatchSpeech (value : JsVal).

(** [element.getBoundingClientRect()] *)
Record Rect := {
  rect_top : Q;
  rect_bottom : Q;
  rect_left : Q;
  rect_right : Q;
  rect_width : Q;
  rect_height : Q
}.

(** ** State *)

(** The hooks of lines 12-18 that a generation writes. *)
Record Generation := {
  isLoading : bool;
  error : option string;
  results : JsVal;
  progress : Q;
  currentStep : nat
}.

(** Lines 19-21. *)
Record Tooltip := {
  showTooltip : bool;
  tooltipContent : string;
  tooltipPosition : Q * Q
}.

(** Lines 22-24. *)
Record Notification := {
  showNotification : bool;
  notificationMessage : string;
  notificationType : string
}.

(** Lines 33-36. *)
Record Concept := {
  selectedReferenceImage : option string;
  visualConcept : JsVal;
  isGeneratingConcept : bool;
  visualConceptError : JsVal
}.

(** What [useSpeechRecognition] returns (lines 49-54). *)
Record Speech := {
  transcript : string;
  listening : bool;
  browserSupportsSpeechRecognition : bool
}.

(** The document and the window: [localStorage], the [data-theme] attribute
    of the body, the scroll position, and what the page has shown, saved,
    opened and scrolled to. *)
Record Page := {
  localStorage : gmap string string;
  theme : option string;
  scrollY : Q;
  alerts : list string;
  downloads : list (string * string);
  opened : list string;
  scrolledIntoView : list string
}.

(** The event loop: the clock in milliseconds, the pending timeouts with
    their due time, the intervals with their next due time and the value of
    the variable [step] of their callback (line 187), and the requests in
    flight. *)
Record Loop := {
  now : Z;
  timeouts : list (Z * Task);
  intervals : gmap nat (Z * nat);
  nextInterval : nat;
  pending : list Request
}.

(** The component and the browser around it. *)
Record Browser := {
  gen : Generation;
  tip : Tooltip;
  note : Notification;
  visual : Concept;
  darkMode : bool;
  scrolled : bool;
  recognition : Speech;
  page : Page;
  loop : Loop
}.

(** ** Updates *)

Definition set_isLoading (v : bool) (g : Generation) : Generation :=
  {| isLoading := v; error := error g; results := results g; progress := progress g;
     currentStep := currentStep g |}.

Definition set_error (v : option string) (g : Generation) : Generation :=
  {| isLoading := isLoading g; error := v; results := results g;
     progress := progress g; currentStep := currentStep g |}.

Definition set_results (v : JsVal) (g : Generation) : Generation :=
  {| isLoading := isLoading g; error := error g; results := v;
     progress := progress g; currentStep := currentStep g |}.

Definition set_progress (v : Q) (g : Generation) : Generation :=
  {| isLoading := isLoading g; error := error g; results := results g; progress := v;
     currentStep := currentStep g |}.

Definition set_currentStep (v : nat) (g : Generation) : Generation :=
  {| isLoading := isLoading g; error := error g; results := results g;
     progress := progress g; currentStep := v |}.

Definition set_showTooltip (v : bool) (t : Tooltip) : Tooltip :=
  {| showTooltip := v; tooltipContent := tooltipContent t;
     tooltipPosition := tooltipPosition t |}.

Definition set_showNotification (v : bool) (n : Notification) : Notification :=
  {| showNotification := v; notificationMessage := notificationMessage n;
     notificationType := notificationType n |}.

Definition set_selectedReferenceImage (v : option string) (c : Concept) : Concept :=
  {| selectedReferenceImage := v; visualConcept := visualConcept c;
     isGeneratingConcept := isGeneratingConcept c;
     visualConceptError := visualConceptError c |}.

Definition set_visualConcept (v : JsVal) (c : Concept) : Concept :=
  {| selectedReferenceImage := selectedReferenceImage c; visualConcept := v;
     isGeneratingConcept := isGeneratingConcept c;
     visualConceptError := visualConceptError c |}.

Definition set_isGeneratingConcept (v : bool) (c : Concept) : Concept :=
  {| selectedReferenceImage := selectedReferenceImage c;
     visualConcept := visualConcept c; isGeneratingConcept := v;
     visualConceptError := visualConceptError c |}.

Definition set_visualConceptError (v : JsVal) (c : Concept) : Concept :=
  {| selectedReferenceImage := selectedReferenceImage c;
     visualConcept := visualConcept c; isGeneratingConcept := isGeneratingConcept c;
     visualConceptError := v |}.

Definition set_transcript (v : string) (s : Speech) : Speech :=
  {| transcript := v; listening := listening s;
     browserSupportsSpeechRecognition := browserSupportsSpeechRecognition s |}.

Definition set_listening (v : bool) (s : Speech) : Speech :=
  {| transcript := transcript s; listening := v;
     browserSupportsSpeechRecognition := browserSupportsSpeechRecognition s |}.

Definition set_localStorage (v : gmap string string) (p : Page) : Page :=
  {| localStorage := v; theme := theme p; scrollY := scrollY p; alerts := alerts p;
     downloads := downloads p; opened := opened p;
     scrolledIntoView := scrolledIntoView p |}.

Definition set_theme (v : option string) (p : Page) : Page :=
  {| localStorage := localStorage p; theme := v; scrollY := scrollY p;
     alerts := alerts p; downloads := downloads p; opened := opened p;
     scrolledIntoView := scrolledIntoView p |}.

Definition set_scrollY (v : Q) (p : Page) : Page :=
  {| localStorage := localStorage p; theme := theme p; scrollY := v;
     alerts := alerts p; downloads := downloads p; opened := opened p;
     scrolledIntoView := scrolledIntoView p |}.

Definition set_alerts (v : list string) (p : Page) : Page :=
  {| localStorage := localStorage p; theme := theme p; scrollY := scrollY p;
     alerts := v; downloads := downloads p; opened := opened p;
     scrolledIntoView := scrolledIntoView p |}.

Definition set_downloads (v : list (string * string)) (p : Page) : Page :=
  {| localStorage := localStorage p; theme := theme p; scrollY := scrollY p;
     alerts := alerts p; downloads := v; opened := opened p;
     scrolledIntoView := scrolledIntoView p |}.

Definition set_opened (v : list string) (p : Page) : Page :=
  {| localStorage := localStorage p; theme := theme p; scrollY := scrollY p;
     alerts := alerts p; downloads := downloads p; opened := v;
     scrolledIntoView := scrolledIntoView p |}.

Definition set_scrolledIntoView (v : list string) (p : Page) : Page :=
  {| localStorage := localStorage p; theme := theme p; scrollY := scrollY p;
     alerts := alerts p; downloads := downloads p; opened := opened p;
     scrolledIntoView := v |}.

Definition set_now (v : Z) (l : Loop) : Loop :=
  {| now := v; timeouts := timeouts l; intervals := intervals l;
     nextInterval := nextInterval l; pending := pending l |}.

Definition set_timeouts (v : list (Z * Task)) (l : Loop) : Loop :=
  {| now := now l; timeouts := v; intervals := intervals l;
     nextInterval := nextInterval l; pending := pending l |}.

Definition set_intervals (v : gmap nat (Z * nat)) (l : Loop) : Loop :=
  {| now := now l; timeouts := timeouts l; intervals := v;
     nextInterval := nextInterval l; pending := pending l |}.

Definition set_nextInterval (v : nat) (l : Loop) : Loop :=
  {| now := now l; timeouts := timeouts l; intervals := intervals l;
     nextInterval := v; pending := pending l |}.

Definition set_pending (v : list Request) (l : Loop) : Loop :=
  {| now := now l; timeouts := timeouts l; intervals := intervals l;
     nextInterval := nextInterval l; pending := v |}.

Definition set_gen (v : Generation) (b : Browser) : Browser :=
  {| gen := v; tip := tip b; note := note b; visual := visual b;
     darkMode := darkMode b; scrolled := scrolled b; recognition := recognition b;
     page := page b; loop := loop b |}.

Definition set_tip (v : Tooltip) (b : Browser) : Browser :=
  {| gen := gen b; tip := v; note := note b; visual := visual b;
     darkMode := darkMode b; scrolled := scrolled b; recognition := recognition b;
     page := page b; loop := loop b |}.

Definition set_note (v : Notification) (b : Browser) : Browser :=
  {| gen := gen b; tip := tip b; note := v; visual := visual b;
     darkMode := darkMode b; scrolled := scrolled b; recognition := recognition b;
     page := page b; loop := loop b |}.

Definition set_visual (v : Concept) (b : Browser) : Browser :=
  {| gen := gen b; tip := tip b; note := note b; visual := v;
     darkMode := darkMode b; scrolled := scrolled b; recognition := recognition b;
     page := page b; loop := loop b |}.

Definition set_darkMode (v : bool) (b : Browser) : Browser :=
  {| gen := gen b; tip := tip b; note := note b; visual := visual b; darkMode := v;
     scrolled := scrolled b; recognition := recognition b; page := page b; loop := loop b |}.

Definition set_scrolled (v : bool) (b : Browser) : Browser :=
  {| gen := gen b; tip := tip b; note := note b; visual := visual b;
     darkMode := darkMode b; scrolled := v; recognition := recognition b; page := page b;
     loop := loop b |}.

Definition set_recognition (v : Speech) (b : Browser) : Browser :=
  {| gen := gen b; tip := tip b; note := note b; visual := visual b;
     darkMode := darkMode b; scrolled := scrolled b; recognition := v; page := page b;
     loop := loop b |}.

Definition set_page (v : Page) (b : Browser) : Browser :=
  {| gen := gen b; tip := tip b; note := note b; visual := visual b;
     darkMode := darkMode b; scrolled := scrolled b; recognition := recognition b; page := v;
     loop := loop b |}.

Definition set_loop (v : Loop) (b : Browser) : Browser :=
  {| gen := gen b; tip := tip b; note := note b; visual := visual b;
     darkMode := darkMode b; scrolled := scrolled b; recognition := recognition b;
     page := page b; loop := v |}.

Definition on_gen (f : Generation -> Generation) (b : Browser) : Browser :=
  set_gen (f (gen b)) b.

Definition on_visual (f : Concept -> Concept) (b : Browser) : Browser :=
  set_visual (f (visual b)) b.

Definition on_recognition (f : Speech -> Speech) (b : Browser) : Browser :=
  set_recognition (f (recognition b)) b.

Definition on_page (f : Page -> Page) (b : Browser) : Browser :=
  set_page (f (page b)) b.

Definition on_loop (f : Loop -> Loop) (b : Browser) : Browser :=
  set_loop (f (loop b)) b.

(** ** Constants of the component *)

(** Lines 27-32. *)
Definition visualReferenceImages : list string :=
  ["https://images.unsplash.com/photo-1559329007-40df8a9345d8?q=80&w=1080&h=1080&fit=crop";
   "https://images.unsplash.com/photo-1607853202273-797f1c22a38e?q=80&w=1080&h=1080&fit=crop";
   "https://images.unsplash.com/photo-1552664730-d307ca884978?q=80&w=1080&h=1080&fit=crop";
   "https://images.unsplash.com/photo-1581235720704-06d3acfcb36f?q=80&w=1080&h=1080&fit=crop"].

(** Lines 38-44. *)
Definition generationSteps : list string :=
  ["Analyzing your request";
   "Creating brand identity";
   "Generating marketing assets";
   "Crafting audio content";
   "Finalizing results"].

(** ** Decidable equality *)

#[export] Instance AxiosResponse_eq_dec : EqDecision AxiosResponse.
Proof. solve_decision. Defined.

#[export] Instance AxiosErr_eq_dec : EqDecision AxiosErr.
Proof. solve_decision. Defined.

#[export] Instance Settled_eq_dec : EqDecision Settled.
Proof. solve_decision. Defined.

#[export] Instance Continuation_eq_dec : EqDecision Continuation.
Proof. solve_decision. Defined.

#[export] Instance Request_eq_dec : EqDecision Request.
Proof. solve_decision. Defined.

#[export] Instance Task_eq_dec : EqDecision Task.
Proof. solve_decision. Defined.
