(* ===== verification/View.v ===== *)
(** * View: what App.jsx renders

    [render] is the value [App] returns for a state (lines 215-233 and
    369-714), as records of the parts that depend on the state: classes,
    texts, [disabled] attributes, the loading block, the error banner, the
    results block, the tooltip and the notification.  It is an [Outcome]: a
    property read on [undefined], [map] on a value that is not an array, or
    the template literal of line 569 on audio that does not print, throws
    while [App] runs, and React throws once [App] has returned when a value
    handed to it as text is an object ([reconcile]).  A page whose render
    throws shows nothing; no error boundary is installed.  What React does
    with a value it is given as an attribute (the [src] of lines 550 and
    637) is not modelled: the view keeps the value.

    [rendered] tells whether the element of a selector exists, which is what
    [document.querySelector] of the timers asks (lines 102, 205, 261, 267,
    415, 437). *)

From Stdlib Require Import ZArith QArith Lia List Bool Ascii String.
From stdpp Require Import base tactics option list strings gmap.
From S2P Require Import Prelude JsString JsValue Browser.

Local Open Scope Z_scope.

(** ** What React accepts *)

(** A value between braces in JSX: strings and numbers print, [null],
    [undefined] and booleans print nothing, an array prints its elements, and
    an object makes React throw. *)
Fixpoint valid_child (v : JsVal) : bool :=
  match v with
  | JObj _ => false
  | JArr l =>
    (fix all (l : list JsVal) : bool :=
       match l with
       | [] => true
       | x :: r => valid_child x && all r
       end) l
  | _ => true
  end.

(** [v.map(f)] for an [f] that does not throw: the elements, or the
    [TypeError] of a receiver that is not an array; [receiver] is the text
    of the expression [v] is the value of. *)
Definition call_map (receiver : string) (v : JsVal) : Outcome (list JsVal) :=
  match v with
  | JArr l => Ok l
  | _ => Throw (no_method receiver "map" v)
  end.

(** ** Pieces of the page *)

(** Line 486. *)
Definition generate_disabled (b : Browser) : bool :=
  isLoading (gen b) || negb (truthy (JStr (transcript (recognition b)))).

(** Line 425. *)
Definition mic_disabled (b : Browser) : bool := listening (recognition b).

(** Line 447. *)
Definition stop_disabled (b : Browser) : bool := negb (listening (recognition b)).

(** Line 455. *)
Definition reset_disabled (b : Browser) : bool :=
  negb (truthy (JStr (transcript (recognition b)))).

(** [selectedReferenceImage] as a value: [null] or the URL. *)
Definition selected_image (c : Concept) : JsVal :=
  match selectedReferenceImage c with
  | Some image => JStr image
  | None => JNull
  end.

(** Line 620. *)
Definition concept_disabled (c : Concept) : bool :=
  negb (truthy (selected_image c)) || isGeneratingConcept c.

(** Lines 607-616: the reference images with their class. *)
Definition reference_images (c : Concept) : list (string * string) :=
  map (fun image =>
         (image,
          "reference-image " +:+
          (if bool_decide (selected_image c = JStr image) then "selected" else "")))
    visualReferenceImages.

(** Line 622. *)
Definition concept_label (c : Concept) : string :=
  if isGeneratingConcept c then "Generating..." else "Generate Visual Concept".

(** Lines 510-511: the class of the marker of step [index]. *)
Definition progress_status (index currentStep : nat) : string :=
  if (index <? currentStep)%nat then "done"
  else if (index =? currentStep)%nat then "active"
  else "".

(** Line 552. *)
Definition image_caption (index : nat) : string :=
  if (index =? 0)%nat then "Instagram Post" else "Website Banner".

(** Lines 686-688; the three marks are the cross, the warning sign and the
    information sign, anything else is the check mark. *)
Inductive Icon : Type := Cross | Warning | Information | CheckMark.

Definition notification_icon (notificationType : string) : Icon :=
  if String.eqb notificationType "error" then Cross
  else if String.eqb notificationType "warning" then Warning
  else if String.eqb notificationType "info" then Information
  else CheckMark.

(** Lines 564-595: the player, or the message that replaces it.  The
    address of the player is the template literal of line 569, which throws
    for a value that does not print. *)
Inductive AudioView : Type :=
| Player (src : string)
| Unavailable (message : JsVal).

Definition audio_fallback : string :=
  "ElevenLabs API error. Please check your API key and account limits.".

Definition audio_view (results : JsVal) : Outcome AudioView :=
  audioBase64 ← get results "audioBase64";
  if truthy audioBase64
  then
    src ← template [audioBase64] ("data:audio/mpeg;base64," +:+ to_string audioBase64);
    Ok (Player src)
  else
    elevenlabsError ← get results "elevenlabsError";
    Ok (Unavailable (js_or elevenlabsError (JStr audio_fallback))).

(** Lines 632-663. *)
Record ConceptView := {
  cv_reference : JsVal;
  cv_description : JsVal;
  cv_palette : list JsVal;
  cv_elements : JsVal;
  cv_inspiration : JsVal
}.

Definition concept_view (visualConcept : JsVal) : Outcome (option ConceptView) :=
  if negb (truthy visualConcept) then Ok None
  else
    reference ← get visualConcept "referenceImageUrl";
    inner ← get visualConcept "visualConcept";
    description ← get inner "conceptDescription";
    colorPalette ← get inner "colorPalette";
    palette ← call_map "visualConcept.visualConcept.colorPalette" colorPalette;
    elements ← get inner "designElements";
    inspiration ← get inner "visualInspiration";
    Ok (Some {| cv_reference := reference; cv_description := description;
                cv_palette := palette; cv_elements := elements;
                cv_inspiration := inspiration |}).

(** Lines 527-667: the expressions between braces, evaluated in the order of
    the text. *)
Record ResultsView := {
  rv_mascot : JsVal;
  rv_style : JsVal;
  rv_slogan : JsVal;
  rv_images : list (JsVal * string);
  rv_audio : AudioView;
  rv_references : list (string * string);
  rv_concept_button : bool * string;
  rv_conceptError : JsVal;
  rv_concept : option ConceptView
}.

Fixpoint captions (index : nat) (urls : list JsVal) : list (JsVal * string) :=
  match urls with
  | [] => []
  | url :: r => (url, image_caption index) :: captions (S index) r
  end.

Definition results_view (results : JsVal) (c : Concept) : Outcome ResultsView :=
  mascot ← get results "mascotDescription";
  style ← get results "visualStyle";
  slogan ← get results "adSlogan";
  imageUrls ← get results "imageUrls";
  urls ← call_map "results.imageUrls" imageUrls;
  audio ← audio_view results;
  concept ← concept_view (visualConcept c);
  Ok {| rv_mascot := mascot; rv_style := style; rv_slogan := slogan;
        rv_images := captions 0 urls; rv_audio := audio;
        rv_references := reference_images c;
        rv_concept_button := (concept_disabled c, concept_label c);
        rv_conceptError := visualConceptError c; rv_concept := concept |}.

(** The values the results block hands to React as text (lines 540-542, 561,
    577, 628, 641, 656, 659). *)
Definition children (v : ResultsView) : list JsVal :=
  [rv_mascot v; rv_style v; rv_slogan v; rv_slogan v]
  ++ match rv_audio v with Player _ => [] | Unavailable message => [message] end
  ++ [rv_conceptError v]
  ++ match rv_concept v with
     | None => []
     | Some cv => [cv_description cv; cv_elements cv; cv_inspiration cv]
     end.

(** React builds the page after [App] has returned: an object among the
    children makes it throw then. *)
Definition reconcile (v : ResultsView) : Outcome ResultsView :=
  if forallb valid_child (children v) then Ok v
  else Throw (Error "Objects are not valid as a React child").

(** Lines 219-224 and 372-377: the icon of the theme button and its
    alternative text. *)
Definition theme_icon (darkMode : bool) : string * string :=
  (if darkMode then "/light-mode-icon.svg" else "/dark-mode-icon.svg",
   if darkMode then "Switch to light mode" else "Switch to dark mode").

(** Lines 388-389: the class of the status dot and the status text. *)
Definition status_indicator (listening : bool) : string * string :=
  ("status-dot " +:+ (if listening then "active" else ""),
   if listening then "Recording..." else "Ready to record").

(** Lines 501-519: the width of the progress bar, in percent, and the steps
    with the class of their marker. *)
Record LoadingView := {
  lv_width : Q;
  lv_steps : list (string * string)
}.

Definition loading_view (g : Generation) : LoadingView :=
  {| lv_width := progress g;
     lv_steps := imap (fun index step => (progress_status index (currentStep g), step))
                   generationSteps |}.

(** Lines 671-681. *)
Record TooltipView := {
  tv_class : string;
  tv_top : Q;
  tv_left : Q;
  tv_content : string
}.

Definition tooltip_view (t : Tooltip) : TooltipView :=
  {| tv_class := "tooltip " +:+ (if showTooltip t then "visible" else "");
     tv_top := (tooltipPosition t).1;
     tv_left := (tooltipPosition t).2;
     tv_content := tooltipContent t |}.

(** Lines 684-691. *)
Record NotificationView := {
  nv_class : string;
  nv_type : string;
  nv_icon : Icon;
  nv_message : string
}.

Definition notification_view (n : Notification) : NotificationView :=
  {| nv_class := "success-notification " +:+ (if showNotification n then "visible" else "");
     nv_type := notificationType n;
     nv_icon := notification_icon (notificationType n);
     nv_message := notificationMessage n |}.

(** Lines 369-714: the main view. *)
Record MainView := {
  mv_theme : string * string;
  mv_status : string * string;
  mv_recording : bool;
  mv_mic_disabled : bool;
  mv_stop_disabled : bool;
  mv_reset_disabled : bool;
  mv_transcript : string;
  mv_generate_disabled : bool;
  mv_generating : bool;
  mv_loading : option LoadingView;
  mv_error : option string;
  mv_results : option ResultsView;
  mv_tooltip : TooltipView;
  mv_notification : NotificationView
}.

(** What [App] returns: the view of lines 215-233 for a browser without
    speech recognition, the main view otherwise. *)
Inductive View : Type :=
| Unsupported (theme : string * string)
| Main (v : MainView).

(** Lines 215-233 and 369-714.  The expressions are evaluated in the order
    of the text; the values handed to React as text are checked once [App]
    has returned. *)
Definition render (b : Browser) : Outcome View :=
  if negb (browserSupportsSpeechRecognition (recognition b))
  then Ok (Unsupported (theme_icon (darkMode b)))
  else
    shown ← (if truthy (results (gen b))
             then Some <$> results_view (results (gen b)) (visual b)
             else Ok None);
    shown ← (match shown with
             | Some v => Some <$> reconcile v
             | None => Ok None
             end);
    Ok (Main {| mv_theme := theme_icon (darkMode b);
                mv_status := status_indicator (listening (recognition b));
                mv_recording := listening (recognition b);
                mv_mic_disabled := mic_disabled b;
                mv_stop_disabled := stop_disabled b;
                mv_reset_disabled := reset_disabled b;
                mv_transcript := transcript (recognition b);
                mv_generate_disabled := generate_disabled b;
                mv_generating := isLoading (gen b);
                mv_loading := if isLoading (gen b) then Some (loading_view (gen b))
                              else None;
                mv_error := match error (gen b) with
                            | Some message =>
                              if truthy (JStr message) then Some message else None
                            | None => None
                            end;
                mv_results := shown;
                mv_tooltip := tooltip_view (tip b);
                mv_notification := notification_view (note b) |}).

(** The results block of the page, when the page shows one. *)
Definition results_shown (b : Browser) : option ResultsView :=
  match render b with
  | Ok (Main v) => mv_results v
  | _ => None
  end.

(** The main view is on the page. *)
Definition main_shown (b : Browser) : bool :=
  match render b with
  | Ok (Main _) => true
  | _ => false
  end.

(** The selectors the page looks up (lines 102, 205, 261, 267, 415, 437):
    whether the element exists in what is rendered. *)
Definition rendered (b : Browser) (selector : string) : bool :=
  if String.eqb selector ".mic-button" || String.eqb selector ".stop-button"
     || String.eqb selector ".generate-button"
  then main_shown b
  else if String.eqb selector ".results-container"
          || String.eqb selector ".download-button"
  then bool_decide (is_Some (results_shown b))
  else false.
