(* ===== verification/Client.v ===== *)
(** * Client: the handlers of App.jsx as an event system

    Each handler of the component is a function on [Browser]:
    [toggleTheme], [showTooltipForElement], [showSuccessNotification],
    [simulateProgress] and the callback of its interval ([tick]),
    [startGuidedTour], the effects of lines 57-119 ([mount],
    [theme_effect], [handleScroll], [handleManualEdit]), the click handlers
    of the buttons, and [downloadAssets].  An [async] handler is cut at its
    [await]: [handleGenerate] and [handleGenerateVisualConcept] run up to the
    request, which they leave in [pending] with the interval they hold, and
    [settle] runs the rest, the [try] or the [catch] block followed by
    [finally], when the request ends.  A timer is a [Task] that [fire] runs.

    [Event] lists what can happen to the page, [enabled] tells when, from
    what is rendered and from the [disabled] attributes, and [handle] is the
    handler.  [reachable] is the set of states of the page: those of [start]
    closed under enabled events.  Time passes by [Wait]; a timer may fire
    late but not early.  The layout of the page, which only the position of
    tooltips depends on, is a parameter.

    A handler can throw: the template literals of lines 290 and 341-353
    for a value that does not print ([JsValue.template]), and the
    assignment of line 473 to [event.target], which has no setter
    ([assign]).

    Theorems of this file: the progress interval stops by itself after at
    most six calls, its closed form, that the timer of a notification hides
    whichever notification is shown when it fires, that the edit of the
    text area stops at line 473, and that the URL of the request ignores
    config.js. *)

From Stdlib Require Import ZArith QArith Lia List Bool Ascii String.
From stdpp Require Import base tactics option list strings gmap pretty.
From S2P Require Import Prelude Progress JsString JsValue Browser View.

Local Open Scope Z_scope.

(** ** Constants of the component *)

(** config.js lines 2-6; [NODE_ENV] is [process.env.NODE_ENV]. *)
Definition apiUrl (NODE_ENV : JsVal) : string :=
  if is_string NODE_ENV "production"
  then "https://vocalise-ai-backend.onrender.com"
  else "http://localhost:3001".

(** Lines 248 and 318. *)
Definition generate_url : string := "http://localhost:3001/api/generate".

Definition concept_url : string := "http://localhost:3001/api/generate-visual-concept".

(** Lines 12-36: the values the hooks start with, for a browser whose
    storage is [storage]. *)
Definition initial (supported : bool) (storage : gmap string string) : Browser :=
  {| gen := {| isLoading := false; error := None; results := JNull;
               progress := 0; currentStep := 0 |};
     tip := {| showTooltip := false; tooltipContent := "";
               tooltipPosition := (0%Q, 0%Q) |};
     note := {| showNotification := false; notificationMessage := "";
                notificationType := "success" |};
     visual := {| selectedReferenceImage := None; visualConcept := JNull;
                   isGeneratingConcept := false; visualConceptError := JNull |};
     darkMode := false;
     scrolled := false;
     recognition := {| transcript := ""; listening := false;
                       browserSupportsSpeechRecognition := supported |};
     page := {| localStorage := storage; theme := None; scrollY := 0;
                alerts := []; downloads := []; opened := [];
                scrolledIntoView := [] |};
     loop := {| now := 0; timeouts := []; intervals := ∅; nextInterval := 0;
                pending := [] |} |}.

(** ** Timers and requests *)

(** [setTimeout(task, delay)] *)
Definition setTimeout (task : Task) (delay : Z) (b : Browser) : Browser :=
  on_loop (fun l => set_timeouts (timeouts l ++ [(now l + delay, task)]) l) b.

(** [clearInterval(id)] *)
Definition clearInterval (id : nat) (b : Browser) : Browser :=
  on_loop (fun l => set_intervals (delete id (intervals l)) l) b.

(** [await axios.post(url, body)]: the request leaves, and [continuation]
    runs when it ends. *)
Definition post (url : string) (body : JsVal) (continuation : Continuation)
    (b : Browser) : Browser :=
  on_loop (fun l =>
    set_pending (pending l ++ [{| req_url := url; req_body := body;
                                  req_then := continuation |}]) l) b.

(** [document.querySelector(selector)]: the rectangle of the element when the
    page shows it. *)
Section Layout.
Variable layout : string -> Rect.

Definition querySelector (b : Browser) (selector : string) : option Rect :=
  if rendered b selector then Some (layout selector) else None.

(** ** Tooltips and notifications *)

(** Lines 139-157: where the tooltip goes, as [(top, left)]. *)
Definition tooltip_position (rect : Rect) (position : string) : Q * Q :=
  if String.eqb position "bottom"
  then (rect_bottom rect + 10, rect_left rect + rect_width rect / 2)%Q
  else if String.eqb position "left"
  then (rect_top rect + rect_height rect / 2, rect_left rect - 10)%Q
  else if String.eqb position "right"
  then (rect_top rect + rect_height rect / 2, rect_right rect + 10)%Q
  else (rect_top rect - 10, rect_left rect + rect_width rect / 2)%Q.

(** Lines 132-167. *)
Definition showTooltipForElement (element : option Rect) (content position : string)
    (b : Browser) : Browser :=
  match element with
  | None => b
  | Some rect =>
    setTimeout HideTooltip 5000
      (set_tip {| showTooltip := true; tooltipContent := content;
                  tooltipPosition := tooltip_position rect position |} b)
  end.

(** Lines 170-179. *)
Definition showSuccessNotification (message type : string) (b : Browser) : Browser :=
  setTimeout HideNotification 4000
    (set_note {| showNotification := true; notificationMessage := message;
                 notificationType := type |} b).

(** ** The progress animation *)

(** Line 192: [(step / totalSteps) * 100], in lowest terms. *)
Definition progress_of (step totalSteps : nat) : Q :=
  Qred (inject_Z (Z.of_nat step) / inject_Z (Z.of_nat totalSteps) * 100).

(** Lines 182-200: the identifier of the interval, and the page with the
    interval registered; the interval's [step] starts at 0. *)
Definition simulateProgress (b : Browser) : nat * Browser :=
  let b := on_gen (fun g => set_currentStep 0 (set_progress 0 g)) b in
  let interval := nextInterval (loop b) in
  (interval,
   on_loop (fun l =>
     set_nextInterval (S interval)
       (set_intervals (<[interval := (now l + 1500, 0%nat)]> (intervals l)) l)) b).

(** Lines 189-197: one call of the interval's callback. *)
Definition tick (interval : nat) (b : Browser) : Browser :=
  match intervals (loop b) !! interval with
  | None => b
  | Some (due, step) =>
    let totalSteps := length generationSteps in
    if (step <? totalSteps)%nat
    then on_loop (fun l =>
           set_intervals (<[interval := (due + 1500, S step)]> (intervals l)) l)
           (on_gen (fun g =>
              set_progress (progress_of step totalSteps) (set_currentStep step g)) b)
    else clearInterval interval b
  end.

(** ** Theme, scrolling and the first visit *)

(** Lines 82-119: the effect that runs after the first render and after
    every render in which [scrolled] has changed. *)
Definition theme_effect (b : Browser) : Browser :=
  let storage := localStorage (page b) in
  let b := if bool_decide (storage !! "darkMode" = Some "true")
           then on_page (set_theme (Some "dark")) (set_darkMode true b)
           else b in
  if bool_decide (storage !! "firstVisit" = Some "false") then b
  else on_page (fun p => set_localStorage (<["firstVisit" := "false"]> (localStorage p)) p)
         (setTimeout WelcomeTooltip 2000 b).

(** Lines 57-119: the two effects of the first render. *)
Definition mount (b : Browser) : Browser :=
  theme_effect (on_recognition (set_transcript "") b).

(** Lines 90-95, and the effect its state change triggers. *)
Definition handleScroll (y : Q) (b : Browser) : Browser :=
  let b := on_page (set_scrollY y) b in
  let isScrolled := negb (Qle_bool y 10) in
  if bool_decide (isScrolled = scrolled b) then b
  else theme_effect (set_scrolled isScrolled b).

(** Lines 121-129. *)
Definition toggleTheme (b : Browser) : Browser :=
  let newMode := negb (darkMode b) in
  showSuccessNotification
    (if newMode then "Dark mode enabled" else "Light mode enabled") "success"
    (on_page (fun p =>
       set_theme (Some (if newMode then "dark" else "light"))
         (set_localStorage
            (<["darkMode" := if newMode then "true" else "false"]> (localStorage p)) p))
       (set_darkMode newMode b)).

(** Lines 203-213. *)
Definition startGuidedTour (b : Browser) : Browser :=
  showTooltipForElement (querySelector b ".mic-button")
    "Step 1: Click here to start recording your voice prompt. Will record until you click stop."
    "bottom" b.

(** ** Recording *)

(** Lines 407-424. *)
Definition startRecording (b : Browser) : Browser :=
  setTimeout StopTooltip 1000 (on_recognition (set_listening true) b).

(** Lines 432-446. *)
Definition stopRecording (b : Browser) : Browser :=
  setTimeout GenerateTooltip 1000
    (showSuccessNotification "Recording complete! Click 'Generate' to continue" "success"
       (on_recognition (set_listening false) b)).

(** Line 454. *)
Definition resetTranscript (b : Browser) : Browser :=
  on_recognition (set_transcript "") b.

(** The recognition library delivers what it heard while it listens.  The
    library is not part of the sources: this is its documented effect on
    [transcript], the one value of it the page reads. *)
Definition hear (text : string) (b : Browser) : Browser :=
  if listening (recognition b) then on_recognition (set_transcript text) b else b.

(** Lines 61-73: the listener of [manualTranscriptEdit]; [target] is
    [event.target].  Nothing listens to the event the timer dispatches. *)
Definition handleManualEdit (target : JsVal) (b : Browser) : Browser :=
  if truthy target && negb (bool_decide (get_opt target "value" = JUndefined))
  then setTimeout (DispatchSpeech (get_opt target "value")) 100
         (on_recognition (fun s => set_transcript "" (set_listening false s)) b)
  else b.

(** A property of an object of the platform: a value that can be assigned,
    or an accessor with a getter and no setter. *)
Inductive Property : Type :=
| Data (v : JsVal)
| Getter (v : JsVal).

Definition property_value (p : Property) : JsVal :=
  match p with Data v | Getter v => v end.

(** [object.name = v] in strict code, which a module is: assigning to an
    accessor without a setter throws; [object] is how the error names the
    object. *)
Definition assign (object name : string) (p : Property) (v : JsVal) : Outcome Property :=
  match p with
  | Data _ => Ok (Data v)
  | Getter _ =>
    Throw (TypeError ("Cannot set property " +:+ name +:+ " of " +:+ object
                      +:+ " which has only a getter"))
  end.

(** [new Event(type)]: [target] is an accessor of [Event.prototype], [null]
    until the event is dispatched. *)
Definition new_event_target : Property := Getter JNull.

(** Lines 470-475, the [onChange] of the text area: the event is created,
    its [target] assigned (line 473), and the event dispatched to the
    listener the effect of line 74 registered. *)
Definition editTranscript (value : string) (b : Browser) : Outcome Browser :=
  match assign "#<Event>" "target" new_event_target (JObj [("value", JStr value)]) with
  | Ok target => Ok (handleManualEdit (property_value target) b)
  | Throw e => Throw e
  end.

(** ** Generating the assets *)

(** Lines 251-277. *)
Definition generate_resolved (data : JsVal) (b : Browser) : Browser :=
  setTimeout ScrollToResults 100
    (showSuccessNotification "Marketing assets generated successfully!" "success"
       (on_gen (fun g =>
          set_currentStep (length generationSteps - 1)
            (set_progress 100 (set_results data g))) b)).

(** Lines 284-300: the text of the error banner and of the notification.
    The banner of an answered request is the template literal of line 290,
    which throws when the [error] of the answer does not print. *)
Definition error_report (err : AxiosErr) : Outcome (string * string) :=
  if bool_decide (err_code err = Some "ECONNREFUSED") || includes (err_text err) "Network Error"
  then Ok ("Cannot connect to backend server. Please make sure the backend is running.",
           "Error: Backend server connection failed")
  else match err_response err with
       | Some response =>
         let reason := js_or (get_opt (resp_data response) "error")
                         (JStr (resp_statusText response)) in
         message ← template [reason] ("Server error: " +:+ to_string reason);
         Ok (message,
             "Error: " +:+ pretty (resp_status response) +:+ " " +:+ resp_statusText response)
       | None =>
         if err_request err
         then Ok ("No response from server. Check your network connection.",
                  "Error: No response from server")
         else Ok ("An unexpected error occurred: " +:+ err_text err,
                  "Error: Something went wrong")
       end.

(** Lines 278-301: the progress is reset (lines 280-281), then the banner
    and the notification are set; when line 290 throws, neither is, and the
    error leaves the [catch] block for [finally]. *)
Definition generate_rejected (err : AxiosErr) (b : Browser) : Browser :=
  let b := on_gen (fun g => set_currentStep 0 (set_progress 0 g)) b in
  match error_report err with
  | Ok (message, notification) =>
    showSuccessNotification notification "error" (on_gen (set_error (Some message)) b)
  | Throw _ => b
  end.

(** Lines 302-305. *)
Definition generate_finally (progressInterval : nat) (b : Browser) : Browser :=
  on_gen (set_isLoading false) (clearInterval progressInterval b).

(** Lines 235-250: up to the [await]. *)
Definition handleGenerate (b : Browser) : Browser :=
  let transcript := transcript (recognition b) in
  if negb (truthy (JStr transcript))
  then on_page (fun p => set_alerts (alerts p ++ ["Please record a prompt first!"]) p) b
  else
    let b := on_gen (fun g => set_results JNull (set_error None (set_isLoading true g))) b in
    let (progressInterval, b) := simulateProgress b in
    post generate_url (JObj [("userPrompt", JStr transcript)])
      (AfterGenerate progressInterval) b.

(** ** The visual concept *)

(** Lines 327-328. *)
Definition concept_resolved (data : JsVal) (b : Browser) : Browser :=
  showSuccessNotification "Visual concept generated successfully!" "success"
    (on_visual (set_visualConcept data) b).

(** Line 332: [err.response?.data?.error || '...']. *)
Definition concept_error (err : AxiosErr) : JsVal :=
  js_or (match err_response err with
         | Some response => get_opt (resp_data response) "error"
         | None => JUndefined
         end)
        (JStr "Failed to generate visual concept").

(** Lines 330-333. *)
Definition concept_rejected (err : AxiosErr) (b : Browser) : Browser :=
  showSuccessNotification "Error generating visual concept" "error"
    (on_visual (set_visualConceptError (concept_error err)) b).

(** Lines 334-336. *)
Definition concept_finally (b : Browser) : Browser :=
  on_visual (set_isGeneratingConcept false) b.

(** Lines 309-325: up to the [await]. *)
Definition handleGenerateVisualConcept (b : Browser) : Browser :=
  let results := results (gen b) in
  if negb (truthy (selected_image (visual b))) || negb (truthy results) then b
  else
    post concept_url
      (JObj [("brandIdentity",
              JObj [("mascotDescription", get_opt results "mascotDescription");
                    ("visualStyle", get_opt results "visualStyle");
                    ("adSlogan", get_opt results "adSlogan")]);
             ("referenceImageUrl", selected_image (visual b))])
      AfterConcept
      (on_visual (fun c => set_visualConceptError JNull (set_isGeneratingConcept true c)) b).

(** Line 611. *)
Definition selectReferenceImage (index : nat) (b : Browser) : Browser :=
  match visualReferenceImages !! index with
  | Some image => on_visual (set_selectedReferenceImage (Some image)) b
  | None => b
  end.

(** ** The end of a request *)

(** The code after the [await] of the request at position [i]: the [try]
    block or the [catch] block, then [finally]. *)
Definition settle (i : nat) (outcome : Settled) (b : Browser) : Browser :=
  match pending (loop b) !! i with
  | None => b
  | Some request =>
    let b := on_loop (fun l => set_pending (delete i (pending l)) l) b in
    match req_then request, outcome with
    | AfterGenerate progressInterval, Resolved data =>
      generate_finally progressInterval (generate_resolved data b)
    | AfterGenerate progressInterval, Rejected err =>
      generate_finally progressInterval (generate_rejected err b)
    | AfterConcept, Resolved data => concept_finally (concept_resolved data b)
    | AfterConcept, Rejected err => concept_finally (concept_rejected err b)
    end
  end.

(** ** The download *)

(** [v.join(separator)]: the elements as text, [null] and [undefined] as
    the empty text; an element that does not print throws.  [receiver] is
    the text of the expression [v] is the value of. *)
Definition call_join (receiver : string) (v : JsVal) (separator : string) : Outcome string :=
  match v with
  | JArr l =>
    template l
      (String.concat separator
         (map (fun x => match x with JUndefined | JNull => "" | _ => to_string x end) l))
  | _ => Throw (no_method receiver "join" v)
  end.

(** Lines 341-353, a template literal: each expression is evaluated and
    printed in the order of the text; [date] is
    [new Date().toLocaleString()]. *)
Definition download_content (results : JsVal) (date : string) : Outcome string :=
  mascotDescription ← get results "mascotDescription";
  _ ← interpolate [mascotDescription];
  visualStyle ← get results "visualStyle";
  _ ← interpolate [visualStyle];
  adSlogan ← get results "adSlogan";
  _ ← interpolate [adSlogan];
  imageUrls ← get results "imageUrls";
  urls ← call_join "results.imageUrls" imageUrls newline;
  Ok (template_lines 8
        [""; "# Marketing Assets Generated by Vocalize AI"; "";
         "## Brand Identity";
         "Mascot: " +:+ to_string mascotDescription;
         "Visual Style: " +:+ to_string visualStyle;
         "Slogan: " +:+ to_string adSlogan;
         "";
         "## Image URLs";
         urls;
         "";
         "Generated on: " +:+ date;
         ""]).

(** Lines 339-367. *)
Definition downloadAssets (date : string) (b : Browser) : Outcome Browser :=
  content ← download_content (results (gen b)) date;
  Ok (showSuccessNotification "Marketing assets downloaded successfully!" "success"
        (on_page (fun p =>
           set_downloads (downloads p ++ [("vocalize-ai-marketing-assets.txt", content)]) p) b)).

(** Lines 581-590. *)
Definition retryAudio (b : Browser) : Browser :=
  setTimeout OpenSubscription 500
    (showSuccessNotification "Retrying audio generation..." "info" b).

(** ** Timer callbacks *)

Definition run_task (task : Task) (b : Browser) : Browser :=
  match task with
  | HideTooltip => set_tip (set_showTooltip false (tip b)) b
  | HideNotification => set_note (set_showNotification false (note b)) b
  | WelcomeTooltip =>
    showTooltipForElement (querySelector b ".mic-button")
      "Click here to start recording. Your voice will be recorded until you click stop."
      "bottom" b
  | ScrollToResults =>
    match querySelector b ".results-container" with
    | Some _ =>
      setTimeout DownloadTooltip 2000
        (on_page (fun p =>
           set_scrolledIntoView (scrolledIntoView p ++ [".results-container"]) p) b)
    | None => b
    end
  | DownloadTooltip =>
    showTooltipForElement (querySelector b ".download-button")
      "Click here to download your marketing assets" "left" b
  | StopTooltip =>
    showTooltipForElement (querySelector b ".stop-button")
      "Click here when you're done recording" "bottom" b
  | GenerateTooltip =>
    showTooltipForElement (querySelector b ".generate-button")
      "Click here to generate marketing assets from your prompt" "top" b
  | OpenSubscription =>
    showSuccessNotification "You can get a free API key at ElevenLabs.io" "info"
      (on_page (fun p => set_opened (opened p ++ ["https://elevenlabs.io/subscription"]) p) b)
  | DispatchSpeech _ => b
  end.

(** The timer at position [i] fires. *)
Definition fire (i : nat) (b : Browser) : Browser :=
  match timeouts (loop b) !! i with
  | None => b
  | Some (due, task) =>
    run_task task (on_loop (fun l => set_timeouts (delete i (timeouts l)) l) b)
  end.

(** ** Events *)

Inductive Event : Type :=
| ClickTheme
| ClickMic
| ClickStop
| ClickReset
| Hear (text : string)
| EditTranscript (value : string)
| ClickGenerate
| ClickDownload (date : string)
| ClickRetry
| ClickImage (index : nat)
| ClickConcept
| ClickHelp
| EnterHelp
| LeaveHelp
| Scroll (y : Q)
| Wait (dt : Z)
| Fire (i : nat)
| Tick (interval : nat)
| Settle (i : nat) (outcome : Settled).

(** Whether the event can happen: the element is on the page and is not
    disabled, the timer is due, the request is in flight. *)
Definition enabled (e : Event) (b : Browser) : bool :=
  match e with
  | ClickTheme => match render b with Ok _ => true | Throw _ => false end
  | ClickMic => main_shown b && negb (mic_disabled b)
  | ClickStop => main_shown b && negb (stop_disabled b)
  | ClickReset => main_shown b && negb (reset_disabled b)
  | Hear _ => listening (recognition b)
  | EditTranscript _ => main_shown b
  | ClickGenerate => main_shown b && negb (generate_disabled b)
  | ClickDownload _ => bool_decide (is_Some (results_shown b))
  | ClickRetry =>
    match results_shown b with
    | Some v => match rv_audio v with Unavailable _ => true | Player _ => false end
    | None => false
    end
  | ClickImage index =>
    bool_decide (is_Some (results_shown b))
    && bool_decide (index < length visualReferenceImages)%nat
  | ClickConcept => bool_decide (is_Some (results_shown b)) && negb (concept_disabled (visual b))
  | ClickHelp | EnterHelp | LeaveHelp => main_shown b
  | Scroll _ => true
  | Wait dt => bool_decide (0 <= dt)
  | Fire i =>
    match timeouts (loop b) !! i with
    | Some (due, _) => bool_decide (due <= now (loop b))
    | None => false
    end
  | Tick interval =>
    match intervals (loop b) !! interval with
    | Some (due, _) => bool_decide (due <= now (loop b))
    | None => false
    end
  | Settle i _ => bool_decide (is_Some (pending (loop b) !! i))
  end.

(** A handler that throws leaves the state as it was: the error is reported
    and the page stays. *)
Definition or_unchanged (b : Browser) (o : Outcome Browser) : Browser :=
  match o with
  | Ok b' => b'
  | Throw _ => b
  end.

(** What the event does. *)
Definition handle (e : Event) (b : Browser) : Browser :=
  match e with
  | ClickTheme => toggleTheme b
  | ClickMic => startRecording b
  | ClickStop => stopRecording b
  | ClickReset => resetTranscript b
  | Hear text => hear text b
  | EditTranscript value => or_unchanged b (editTranscript value b)
  | ClickGenerate => handleGenerate b
  | ClickDownload date => or_unchanged b (downloadAssets date b)
  | ClickRetry => retryAudio b
  | ClickImage index => selectReferenceImage index b
  | ClickConcept => handleGenerateVisualConcept b
  | ClickHelp => startGuidedTour b
  | EnterHelp =>
    showTooltipForElement (Some (layout ".help-button")) "Click for guided tour" "top" b
  | LeaveHelp => set_tip (set_showTooltip false (tip b)) b
  | Scroll y => handleScroll y b
  | Wait dt => on_loop (fun l => set_now (now l + dt) l) b
  | Fire i => fire i b
  | Tick interval => tick interval b
  | Settle i outcome => settle i outcome b
  end.

(** A sequence of events, each enabled when it happens. *)
Definition run (events : list Event) (b : Browser) : option Browser :=
  run_of enabled handle events b.

(** The calls the interval has left: one for each step it has not shown yet
    and the one that clears it. *)
Definition ticks_left (interval : nat) (b : Browser) : nat :=
  match intervals (loop b) !! interval with
  | Some (_, step) => S (length generationSteps - step)
  | None => 0
  end.

(** The page after its first render. *)
Definition start (supported : bool) (storage : gmap string string) : Browser :=
  mount (initial supported storage).

(** The states the page can be in. *)
Inductive reachable : Browser -> Prop :=
| reachable_start supported storage : reachable (start supported storage)
| reachable_step e b :
    reachable b -> enabled e b = true -> reachable (handle e b).

End Layout.

(** ** Sample data for the examples *)

(** Every element at the same place. *)
Definition flat (selector : string) : Rect :=
  {| rect_top := 0; rect_bottom := 40; rect_left := 0; rect_right := 100;
     rect_width := 100; rect_height := 40 |}.

(** The page after a prompt was recorded. *)
Definition recorded_page : Browser :=
  handle flat ClickStop
    (handle flat (Hear "herbal tea") (handle flat ClickMic (start true ∅))).

(** The page after the click on the generate button. *)
Definition loading_page : Browser := handle flat ClickGenerate recorded_page.

(** The page three seconds after the theme was switched: the notification
    is shown and its timer is pending. *)
Definition once_toggled : Browser :=
  handle flat (Wait 3000) (handle flat ClickTheme (start true ∅)).

(** The page a moment after the theme was switched twice, three seconds
    apart, when the timer of the first notification fires. *)
Definition twice_toggled : option Browser :=
  run flat [ClickTheme; Wait 3000; ClickTheme; Wait 1000; Fire 1] (start true ∅).

(** ** Runs *)

Lemma run_reachable layout events b b' :
  reachable layout b -> run layout events b = Some b' -> reachable layout b'.
Proof. apply run_of_reach. intros e s. apply reachable_step. Qed.

Lemma recorded_page_reachable : reachable flat recorded_page.
Proof.
  apply (run_reachable flat [ClickMic; Hear "herbal tea"; ClickStop] (start true ∅));
    [apply reachable_start|by vm_compute].
Qed.

Lemma loading_page_reachable : reachable flat loading_page.
Proof.
  apply (run_reachable flat [ClickGenerate] recorded_page);
    [apply recorded_page_reachable|by vm_compute].
Qed.

(** ** The download *)

Lemma downloadAssets_cases date b :
  or_unchanged b (downloadAssets date b)
  = match download_content (results (gen b)) date with
    | Ok content =>
      showSuccessNotification "Marketing assets downloaded successfully!" "success"
        (on_page (fun p =>
           set_downloads (downloads p ++ [("vocalize-ai-marketing-assets.txt", content)]) p) b)
    | Throw _ => b
    end.
Proof. unfold downloadAssets. by destruct (download_content _ _). Qed.

(** ** The progress animation *)

Lemma ticks_left_cleared interval b :
  ticks_left interval b = 0%nat <-> intervals (loop b) !! interval = None.
Proof. unfold ticks_left. by repeat case_match. Qed.

Lemma tick_decreases interval b :
  (ticks_left interval (tick interval b) < ticks_left interval b)%nat \/
  (ticks_left interval b = 0%nat /\ ticks_left interval (tick interval b) = 0%nat).
Proof.
  unfold ticks_left, tick.
  destruct (intervals (loop b) !! interval) as [[due step]|] eqn:Hi.
  - left. destruct (step <? length generationSteps)%nat eqn:Hlt; simpl.
    + apply Nat.ltb_lt in Hlt. simpl in Hlt. rewrite lookup_insert_eq. simpl. lia.
    + rewrite lookup_delete_eq. lia.
  - right. by rewrite Hi.
Qed.

(** A call that shows a step. *)
Lemma tick_shows interval b due step :
  intervals (loop b) !! interval = Some (due, step) ->
  (step < length generationSteps)%nat ->
  tick interval b
  = on_loop (fun l =>
      set_intervals (<[interval := (due + 1500, S step)]> (intervals l)) l)
      (on_gen (fun g =>
         set_progress (progress_of step (length generationSteps))
           (set_currentStep step g)) b).
Proof.
  intros Hi Hlt. unfold tick. rewrite Hi.
  by apply Nat.ltb_lt in Hlt as ->.
Qed.

(** The interval after [n] calls that each showed a step. *)
Lemma tick_steps interval n : forall b due step,
  intervals (loop b) !! interval = Some (due, step) ->
  (step + n <= length generationSteps)%nat ->
  intervals (loop (Nat.iter n (tick interval) b)) !! interval
  = Some (due + 1500 * Z.of_nat n, (step + n)%nat) /\
  ((0 < n)%nat ->
   currentStep (gen (Nat.iter n (tick interval) b)) = (step + n - 1)%nat /\
   progress (gen (Nat.iter n (tick interval) b))
   = progress_of (step + n - 1) (length generationSteps)).
Proof.
  induction n as [|n IH]; intros b due step Hi Hn.
  - simpl. rewrite Hi. split; [do 2 f_equal; lia|lia].
  - destruct (IH b due step Hi) as [Hi' _]; [lia|]. rewrite Nat.iter_succ.
    rewrite (tick_shows _ _ _ _ Hi') by lia. cbn -[progress_of generationSteps].
    rewrite lookup_insert_eq. split; [do 2 f_equal; lia|]. intros _.
    by replace (step + S n - 1)%nat with (step + n)%nat by lia.
Qed.

(** Unfold the handlers and split on their tests. *)
Ltac run_handler :=
  rewrite ?downloadAssets_cases;
  unfold handleScroll, hear, startGuidedTour, fire,
    run_task, showTooltipForElement, selectReferenceImage,
    handleGenerateVisualConcept, handleGenerate, simulateProgress, tick, settle,
    generate_rejected;
  simpl; repeat (case_match; simpl).

(** ** The transcript *)

(** Only the recognition library and the reset button change the
    transcript. *)
Lemma transcript_handle layout e b :
  transcript (recognition (handle layout e b)) <> transcript (recognition b) ->
  (exists text, e = Hear text) \/ e = ClickReset.
Proof.
  destruct e; simpl; eauto; intros Hne; exfalso; apply Hne; clear Hne; try done.
  all: run_handler; try done.
  all: unfold theme_effect; by repeat case_bool_decide.
Qed.

(** The edit of the text area stops at line 473: the listener of line 74
    is not called, and the handler leaves the page as it was. *)
Lemma editTranscript_throws value b :
  editTranscript value b
  = Throw (TypeError "Cannot set property target of #<Event> which has only a getter").
Proof. reflexivity. Qed.

(** ** The progress animation, continued *)

(** C17.  The progress interval ends by itself: its callback runs at most
    six times, once for each of the five steps and once to clear the
    interval, whatever the state of the page is, and after that many calls
    the interval is no longer registered. *)
Theorem progress_interval_stops interval b :
  (ticks_left interval b <= S (length generationSteps))%nat /\
  intervals (loop (Nat.iter (ticks_left interval b) (tick interval) b)) !! interval = None.
Proof.
  split.
  - unfold ticks_left. repeat case_match; lia.
  - apply ticks_left_cleared, iter_measure; [apply tick_decreases|done].
Qed.

(** C31.  The animation in closed form: [n] calls of the callback of an
    interval that has shown [step] steps, when [step + n] is at most five,
    leave it at step [step + n] and due 1500 ms after each call, and the
    page shows step [step + n - 1] of five, at that share of 100. *)
Theorem tick_closed_form interval n b due step :
  intervals (loop b) !! interval = Some (due, step) ->
  (step + n <= length generationSteps)%nat ->
  intervals (loop (Nat.iter n (tick interval) b)) !! interval
  = Some (due + 1500 * Z.of_nat n, (step + n)%nat) /\
  ((0 < n)%nat ->
   currentStep (gen (Nat.iter n (tick interval) b)) = (step + n - 1)%nat /\
   progress (gen (Nat.iter n (tick interval) b))
   = progress_of (step + n - 1) (length generationSteps)).
Proof. apply tick_steps. Qed.

Lemma tick_closed_form_witness :
  intervals (loop (Nat.iter 3 (tick 0) loading_page)) !! 0%nat
  = Some (1500 + 1500 * Z.of_nat 3, (0 + 3)%nat) /\
  ((0 < 3)%nat ->
   currentStep (gen (Nat.iter 3 (tick 0) loading_page)) = (0 + 3 - 1)%nat /\
   progress (gen (Nat.iter 3 (tick 0) loading_page))
   = progress_of (0 + 3 - 1) (length generationSteps)).
Proof. apply (tick_closed_form 0 3 loading_page 1500 0); [by vm_compute|simpl; lia]. Defined.

(** The values the progress bar passes through. *)
Example progress_values :
  map (fun step => progress_of step (length generationSteps)) (seq 0 5)
  = [0; 20; 40; 60; 80]%Q.
Proof. by vm_compute. Qed.

(** ** Notifications *)

Lemma delete_app_lt {A} (l k : list A) i :
  (i < length l)%nat -> delete i (l ++ k) = delete i l ++ k.
Proof.
  revert i. induction l as [|x l IH]; intros [|i] Hi; simpl in *; try lia; [done|].
  f_equal. apply IH. lia.
Qed.

(** C34.  A notification can disappear early.  Each call of
    [showSuccessNotification] starts a timer that hides whatever
    notification is shown four seconds later, and none is cancelled: when a
    timer of an earlier notification is pending, the new notification is
    shown, the earlier timer stays and can fire as soon as it is due, it
    hides the new notification when it does, and the timer of the new one
    is still pending afterwards. *)
Theorem notification_cut_short layout b i due message type :
  timeouts (loop b) !! i = Some (due, HideNotification) ->
  let shown := showSuccessNotification message type b in
  note shown = {| showNotification := true; notificationMessage := message;
                  notificationType := type |} /\
  enabled (Fire i) shown = bool_decide (due <= now (loop b)) /\
  note (fire layout i shown)
  = {| showNotification := false; notificationMessage := message;
       notificationType := type |} /\
  last (timeouts (loop (fire layout i shown)))
  = Some (now (loop b) + 4000, HideNotification).
Proof.
  intros Hi. pose proof (lookup_lt_Some _ _ _ Hi) as Hlt. cbv zeta.
  assert (Hl : timeouts (loop (showSuccessNotification message type b)) !! i
               = Some (due, HideNotification)).
  { simpl. by rewrite lookup_app_l. }
  unfold enabled, fire. rewrite Hl. simpl.
  rewrite delete_app_lt by done. by rewrite last_snoc.
Qed.

Lemma notification_cut_short_witness :
  let shown := showSuccessNotification "Light mode enabled" "success" once_toggled in
  note shown = {| showNotification := true; notificationMessage := "Light mode enabled";
                  notificationType := "success" |} /\
  enabled (Fire 1) shown = bool_decide (4000 <= now (loop once_toggled)) /\
  note (fire flat 1 shown)
  = {| showNotification := false; notificationMessage := "Light mode enabled";
       notificationType := "success" |} /\
  last (timeouts (loop (fire flat 1 shown)))
  = Some (now (loop once_toggled) + 4000, HideNotification).
Proof. apply (notification_cut_short flat once_toggled 1 4000). reflexivity. Defined.

(** A run: the theme is switched at 0 and at 3000 ms; at 4000 ms the timer
    of the first notification hides the second one, which has been shown
    for one second, and the timer of the second is still pending. *)
Example notification_cut_short_run :
  exists b, twice_toggled = Some b /\
    note b = {| showNotification := false;
                notificationMessage := "Light mode enabled";
                notificationType := "success" |} /\
    timeouts (loop b) = [(2000, WelcomeTooltip); (7000, HideNotification)].
Proof. eexists. split; [by vm_compute|]. by split. Qed.

(** ** Configuration *)

(** The URL of the request does not come from config.js: in production the
    page still posts to the local address. *)
Example generate_url_ignores_config :
  generate_url = apiUrl JUndefined +:+ "/api/generate" /\
  generate_url <> apiUrl (JStr "production") +:+ "/api/generate".
Proof. by split. Qed.
