(* ===== verification/Session.v ===== *)
(** * Session: invariants and liveness of the page

    What holds in every state of [Client.reachable], proved by induction on
    the events.  [invariant] ties the loading flag to the request in flight
    and the progress interval to that request, bounds the progress bar and
    the step, and keeps error and results apart.  Most events do not touch
    the part of the state it speaks of ([core]); for those, [same_core] and
    the [Proper] instances carry the invariant over.

    The liveness of the loading flag is the [ensures] of Progress.v: the
    page loads until it is idle, and while it loads the answer to its
    request can arrive and every arrival makes it idle
    ([loading_ensures_idle]).  Nothing else does
    ([loading_until_answered]): along a sequence of events none of which is
    that arrival the page still loads and the same request is still in
    flight, whatever time passes; the request has no timeout, so a server
    that does not answer leaves the page loading for ever.

    The theme is kept in step with the storage, so that it survives a
    reload.  [visit_invariant] is what the effect of
    the first render establishes: the visit is recorded, the [scrolled] flag
    follows the window, and no second welcome tooltip is scheduled. *)

From Stdlib Require Import ZArith QArith Lia List Bool Ascii String.
From stdpp Require Import base tactics option list strings gmap pretty.
From S2P Require Import Prelude Progress JsString JsValue Browser View Client.

Local Open Scope Z_scope.

(** ** The generation protocol *)

(** The requests of [handleGenerate] and of [handleGenerateVisualConcept]. *)
Definition is_generate (r : Request) : bool :=
  match req_then r with
  | AfterGenerate _ => true
  | AfterConcept => false
  end.

Definition in_flight (b : Browser) : list Request :=
  filter (fun r => is_generate r = true) (pending (loop b)).

Definition concepts_in_flight (b : Browser) : list Request :=
  filter (fun r => is_generate r = false) (pending (loop b)).

(** The part of the page the two requests and the progress animation live
    in. *)
Definition core (b : Browser)
    : Generation * Concept * gmap nat (Z * nat) * list Request :=
  (gen b, visual b, intervals (loop b), pending (loop b)).

(** Two states that agree on it. *)
Definition same_core (b b' : Browser) : Prop := core b = core b'.

(** The events that leave [core] alone. *)
Definition quiet (e : Event) : bool :=
  match e with
  | ClickGenerate | ClickImage _ | ClickConcept | Tick _ | Settle _ _ => false
  | _ => true
  end.

(** What holds of every state of the page. *)
Record invariant (b : Browser) : Prop := {
  inv_flight :
    length (in_flight b) = if isLoading (gen b) then 1%nat else 0%nat;
  inv_concept :
    length (concepts_in_flight b)
    = if isGeneratingConcept (visual b) then 1%nat else 0%nat;
  inv_intervals : forall id due step,
    intervals (loop b) !! id = Some (due, step) ->
    (step <= length generationSteps)%nat /\
    exists r, r ∈ pending (loop b) /\ req_then r = AfterGenerate id;
  inv_progress : (0 <= progress (gen b) <= 100)%Q;
  inv_step : (currentStep (gen b) < length generationSteps)%nat;
  inv_loading :
    isLoading (gen b) = true -> error (gen b) = None /\ results (gen b) = JNull;
  inv_exclusive : error (gen b) = None \/ results (gen b) = JNull
}.

(** The page is loading; the page is idle, with no interval left. *)
Definition loading (b : Browser) : Prop := isLoading (gen b) = true.

Definition idle (b : Browser) : Prop :=
  isLoading (gen b) = false /\ intervals (loop b) = ∅.

(** The answer to the request of [handleGenerate] arrives. *)
Definition answer_arrives (b : Browser) (e : Event) : Prop :=
  exists i outcome r,
    e = Settle i outcome /\ pending (loop b) !! i = Some r /\ is_generate r = true.

(** The same, as a test. *)
Definition arrives (e : Event) (b : Browser) : bool :=
  match e with
  | Settle i _ =>
    match pending (loop b) !! i with
    | Some r => is_generate r
    | None => false
    end
  | _ => false
  end.

(** No event of the sequence is the arrival of that answer: the server has
    not answered, and the connection has not failed. *)
Fixpoint unanswered (layout : string -> Rect) (events : list Event) (b : Browser) : bool :=
  match events with
  | [] => true
  | e :: rest => negb (arrives e b) && unanswered layout rest (handle layout e b)
  end.

(** An hour passes, the interval runs twice and the page is scrolled. *)
Definition an_hour : list Event := [Wait 3600000; Tick 0; Tick 0; Scroll 20].

(** The step the loading block marks as active (App.jsx line 510). *)
Definition shown_step (b : Browser) : option string :=
  generationSteps !! currentStep (gen b).

(** The theme the storage holds. *)
Definition stored_dark (b : Browser) : bool :=
  bool_decide (localStorage (page b) !! "darkMode" = Some "true").

(** ** The first visit *)

Definition is_welcome (t : Z * Task) : Prop := t.2 = WelcomeTooltip.

#[export] Instance is_welcome_dec t : Decision (is_welcome t).
Proof. unfold is_welcome. destruct t as [d []]; simpl; (by left) || (by right). Defined.

(** The welcome tooltips that are scheduled. *)
Definition welcomes (b : Browser) : nat :=
  length (filter is_welcome (timeouts (loop b))).

(** What the effect of App.jsx lines 82-119 keeps: the [scrolled] flag is
    the position of the window against the threshold of line 91, the visit
    is recorded in the storage, and at most one welcome tooltip waits. *)
Record visit_invariant (b : Browser) : Prop := {
  inv_scrolled : scrolled b = negb (Qle_bool (scrollY (page b)) 10);
  inv_visited : localStorage (page b) !! "firstVisit" = Some "false";
  inv_welcome : (welcomes b <= 1)%nat
}.

(** ** Generic facts *)

Lemma filter_delete_length {A} (P : A -> Prop) `{!forall x, Decision (P x)}
    (l : list A) i x :
  l !! i = Some x ->
  length (filter P l)
  = (length (filter P (delete i l)) + if decide (P x) then 1 else 0)%nat.
Proof.
  intros Hi. rewrite <- (take_drop_middle l i x Hi) at 1.
  rewrite delete_take_drop, !filter_app, filter_cons, !length_app.
  destruct (decide (P x)); simpl; lia.
Qed.

Lemma filter_delete_other {A} (P : A -> Prop) `{!forall x, Decision (P x)}
    (l : list A) i x :
  l !! i = Some x -> ~ P x -> filter P (delete i l) = filter P l.
Proof.
  intros Hi Hx. rewrite <- (take_drop_middle l i x Hi) at 2.
  rewrite delete_take_drop, !filter_app, filter_cons. by rewrite decide_False.
Qed.

Lemma elem_of_delete_ne {A} (l : list A) i x y :
  l !! i = Some x -> y ∈ l -> y <> x -> y ∈ delete i l.
Proof.
  intros Hi Hy Hne. rewrite <- (take_drop_middle l i x Hi) in Hy.
  rewrite delete_take_drop. rewrite elem_of_app, elem_of_cons in Hy.
  rewrite elem_of_app. destruct Hy as [?|[?|?]]; [by left|done|by right].
Qed.

(** ** Frames *)

Section Facts.
Context (layout : string -> Rect).

Lemma core_run_task t b : core (run_task layout t b) = core b.
Proof.
  destruct t; simpl; try done; unfold showTooltipForElement; by repeat case_match.
Qed.

Lemma core_theme_effect b : core (theme_effect b) = core b.
Proof. unfold theme_effect. by repeat case_bool_decide. Qed.

Lemma core_quiet e b : quiet e = true -> core (handle layout e b) = core b.
Proof.
  destruct e; simpl; try done; intros _.
  - unfold hear. by case_match.
  - rewrite downloadAssets_cases. by case_match.
  - unfold startGuidedTour, showTooltipForElement. by case_match.
  - unfold handleScroll. case_bool_decide; [done|]. by rewrite core_theme_effect.
  - unfold fire. repeat case_match; [|done]. by rewrite core_run_task.
Qed.

Lemma invariant_core b b' : core b' = core b -> invariant b -> invariant b'.
Proof.
  unfold core. intros [= Hg Hc Hi Hp] [].
  constructor; unfold in_flight, concepts_in_flight in *; by rewrite ?Hg, ?Hc, ?Hi, ?Hp.
Qed.

#[export] Instance same_core_equivalence : Equivalence same_core.
Proof.
  unfold same_core. split; [by intros b|by intros b b'|].
  intros b b' b'' Hb Hb'. by rewrite Hb.
Qed.

#[export] Instance invariant_proper : Proper (same_core ==> iff) invariant.
Proof. intros b b' Hb. split; apply invariant_core; by rewrite Hb. Qed.

#[export] Instance loading_proper : Proper (same_core ==> iff) loading.
Proof. unfold same_core, core, loading. by intros b b' [= -> _ _ _]. Qed.

Lemma same_core_quiet e b : quiet e = true -> same_core (handle layout e b) b.
Proof. apply core_quiet. Qed.

(** ** The invariant *)

Lemma progress_of_bounds step :
  (step < length generationSteps)%nat ->
  (0 <= progress_of step (length generationSteps) <= 100)%Q.
Proof.
  simpl. intros Hs.
  do 5 (destruct step as [|step]; [by vm_compute|]). lia.
Qed.

Lemma invariant_start supported storage : invariant (start supported storage).
Proof.
  apply (invariant_core (initial supported storage)).
  - unfold start, mount. by rewrite core_theme_effect.
  - constructor; simpl; try done; [lia|by left].
Qed.

Lemma invariant_handleGenerate b :
  generate_disabled b = false -> invariant b -> invariant (handleGenerate b).
Proof.
  unfold generate_disabled, handleGenerate. intros [Hl Ht]%orb_false_elim Hb.
  rewrite Ht. destruct Hb. rewrite Hl in *.
  constructor; unfold in_flight, concepts_in_flight in *; simpl; try done.
  - rewrite filter_app, length_app. simpl. unfold in_flight in *. simpl. lia.
  - by rewrite filter_app, length_app, Nat.add_0_r.
  - intros id due step Hid. destruct (decide (nextInterval (loop b) = id)) as [<-|Hne].
    + rewrite lookup_insert_eq in Hid. injection Hid as _ <-. split; [lia|].
      eexists. split; [apply elem_of_app; right; constructor|done].
    + rewrite lookup_insert_ne in Hid by done.
      destruct (inv_intervals0 _ _ _ Hid) as (? & r & ? & ?).
      split; [done|]. exists r. split; [apply elem_of_app|]; auto.
  - lia.
  - by left.
Qed.

Lemma invariant_tick id b : invariant b -> invariant (tick id b).
Proof.
  intros Hb. unfold tick.
  destruct (intervals (loop b) !! id) as [[due step]|] eqn:Hid; [|done].
  destruct (step <? length generationSteps)%nat eqn:Hlt; destruct Hb.
  - apply Nat.ltb_lt in Hlt.
    constructor; simpl; try done; [|by apply progress_of_bounds].
    intros id' due' step' Hid'. destruct (decide (id = id')) as [<-|Hne].
    + rewrite lookup_insert_eq in Hid'. injection Hid' as _ <-.
      split; [simpl in Hlt; simpl; lia|]. by eapply inv_intervals0.
    + rewrite lookup_insert_ne in Hid' by done. by eapply inv_intervals0.
  - constructor; simpl; try done.
    intros id' due' step' [_ Hid']%lookup_delete_Some. by eapply inv_intervals0.
Qed.

Lemma invariant_selectReferenceImage index b :
  invariant b -> invariant (selectReferenceImage index b).
Proof.
  intros Hb. unfold selectReferenceImage. case_match; [|done].
  destruct Hb. by constructor.
Qed.

Lemma invariant_handleGenerateVisualConcept b :
  concept_disabled (visual b) = false -> invariant b ->
  invariant (handleGenerateVisualConcept b).
Proof.
  unfold concept_disabled, handleGenerateVisualConcept.
  intros [_ Hc]%orb_false_elim Hb. repeat case_match; try done.
  destruct Hb. rewrite Hc in *.
  constructor; unfold in_flight, concepts_in_flight in *; simpl; try done.
  - by rewrite filter_app, length_app, Nat.add_0_r.
  - rewrite filter_app, length_app. simpl. lia.
  - intros id due step Hid. destruct (inv_intervals0 _ _ _ Hid) as (? & r & ? & ?).
    split; [done|]. exists r. split; [apply elem_of_app|]; auto.
Qed.

(** What is left of the pending requests once the one at [i] is taken
    out. *)
Lemma settle_generate_left b i r :
  invariant b -> pending (loop b) !! i = Some r -> is_generate r = true ->
  isLoading (gen b) = true /\
  filter (fun r => is_generate r = true) (delete i (pending (loop b))) = [] /\
  length (filter (fun r => is_generate r = false) (delete i (pending (loop b))))
  = length (concepts_in_flight b).
Proof.
  intros Hb Hi Hr. pose proof (inv_flight b Hb) as Hf. unfold in_flight in Hf.
  unfold concepts_in_flight.
  rewrite (filter_delete_length _ _ i r Hi) in Hf.
  rewrite (filter_delete_length (fun r => is_generate r = false) _ i r Hi).
  rewrite decide_True in Hf by done. rewrite decide_False by congruence.
  destruct (isLoading (gen b)); [|lia]. split_and!; [done| |lia].
  apply length_zero_iff_nil. lia.
Qed.

Lemma settle_concept_left b i r :
  invariant b -> pending (loop b) !! i = Some r -> is_generate r = false ->
  isGeneratingConcept (visual b) = true /\
  filter (fun r => is_generate r = false) (delete i (pending (loop b))) = [] /\
  length (filter (fun r => is_generate r = true) (delete i (pending (loop b))))
  = length (in_flight b).
Proof.
  intros Hb Hi Hr. pose proof (inv_concept b Hb) as Hf. unfold concepts_in_flight in Hf.
  unfold in_flight.
  rewrite (filter_delete_length _ _ i r Hi) in Hf.
  rewrite (filter_delete_length (fun r => is_generate r = true) _ i r Hi).
  rewrite decide_True in Hf by done. rewrite decide_False by congruence.
  destruct (isGeneratingConcept (visual b)); [|lia]. split_and!; [done| |lia].
  apply length_zero_iff_nil. lia.
Qed.

(** An interval other than the one of the request taken out still has its
    request. *)
Lemma intervals_left b i r id due step :
  invariant b -> pending (loop b) !! i = Some r -> req_then r <> AfterGenerate id ->
  intervals (loop b) !! id = Some (due, step) ->
  (step <= length generationSteps)%nat /\
  exists r', r' ∈ delete i (pending (loop b)) /\ req_then r' = AfterGenerate id.
Proof.
  intros Hb Hi Hr Hid. destruct (inv_intervals b Hb _ _ _ Hid) as (? & r' & ? & ?).
  split; [done|]. exists r'. split; [|done].
  apply (elem_of_delete_ne _ _ r); congruence.
Qed.

Lemma invariant_settle i outcome b : invariant b -> invariant (settle i outcome b).
Proof.
  intros Hb. unfold settle. destruct (pending (loop b) !! i) as [r|] eqn:Hi; [|done].
  destruct (req_then r) as [id|] eqn:Hk.
  - destruct (settle_generate_left b i r Hb Hi) as (Hl & Hf & Hc);
      [by unfold is_generate; rewrite Hk|].
    destruct (inv_loading b Hb Hl) as [He Hr].
    assert (forall id' due step,
      delete id (intervals (loop b)) !! id' = Some (due, step) ->
      (step <= length generationSteps)%nat /\
      exists r', r' ∈ delete i (pending (loop b)) /\ req_then r' = AfterGenerate id')
      as Hint.
    { intros id' due step [Hne Hid]%lookup_delete_Some.
      eapply intervals_left; eauto. congruence. }
    destruct outcome as [data|err]; unfold generate_rejected;
      [|destruct (error_report err) as [[? ?]|?]];
      (constructor; unfold in_flight, concepts_in_flight; simpl; try done;
       [by rewrite Hf|by rewrite Hc, (inv_concept b Hb)|simpl; lia|auto]).
  - destruct (settle_concept_left b i r Hb Hi) as (Hl & Hf & Hc);
      [by unfold is_generate; rewrite Hk|].
    destruct outcome as [data|err];
      (constructor; unfold in_flight, concepts_in_flight; simpl;
       [by rewrite Hc, (inv_flight b Hb)|by rewrite Hf| |by destruct Hb..]);
      intros id due step Hid; eapply intervals_left; eauto; congruence.
Qed.

Lemma invariant_handle e b :
  enabled e b = true -> invariant b -> invariant (handle layout e b).
Proof.
  intros He Hb. destruct (quiet e) eqn:Hq.
  { by rewrite same_core_quiet. }
  destruct e; try done; simpl in *.
  - apply andb_true_iff in He as [_ He%negb_true_iff]. by apply invariant_handleGenerate.
  - by apply invariant_selectReferenceImage.
  - apply andb_true_iff in He as [_ He%negb_true_iff].
    by apply invariant_handleGenerateVisualConcept.
  - by apply invariant_tick.
  - by apply invariant_settle.
Qed.

Lemma invariant_reachable b : reachable layout b -> invariant b.
Proof.
  induction 1 as [supported storage|e b _ IH He];
    [apply invariant_start|by apply invariant_handle].
Qed.

(** ** Liveness of the loading flag *)

Lemma idle_intervals b :
  invariant b -> isLoading (gen b) = false -> intervals (loop b) = ∅.
Proof.
  intros Hb Hl. apply map_empty. intros id.
  destruct (intervals (loop b) !! id) as [[due step]|] eqn:Hid; [|done].
  destruct (inv_intervals b Hb _ _ _ Hid) as (_ & r & Hr & Hk).
  pose proof (inv_flight b Hb) as Hf. rewrite Hl in Hf.
  apply length_zero_iff_nil in Hf.
  assert (r ∈ in_flight b) as Hin; [|by rewrite Hf in Hin; apply elem_of_nil in Hin].
  apply list_elem_of_filter. split; [|done]. unfold is_generate. by rewrite Hk.
Qed.

Lemma loading_in_flight b :
  invariant b -> loading b ->
  exists i r, pending (loop b) !! i = Some r /\ is_generate r = true.
Proof.
  intros Hb Hl. pose proof (inv_flight b Hb) as Hf. rewrite Hl in Hf.
  destruct (in_flight b) as [|r l] eqn:Hin; [done|].
  assert (r ∈ in_flight b) as [Hg Hr]%list_elem_of_filter by (rewrite Hin; left).
  apply list_elem_of_lookup in Hr as [i Hi]. eauto.
Qed.

Lemma settle_idle b i r outcome :
  invariant b -> pending (loop b) !! i = Some r -> is_generate r = true ->
  idle (settle i outcome b).
Proof.
  intros Hb Hi Hr.
  assert (isLoading (gen (settle i outcome b)) = false) as Hl.
  { unfold settle, is_generate in *. rewrite Hi. destruct (req_then r); [|done].
    destruct outcome; unfold generate_rejected; [|destruct (error_report _) as [[? ?]|?]]; done. }
  split; [done|]. by apply idle_intervals; [apply invariant_settle|].
Qed.

Lemma settle_concept_loading b i r outcome :
  pending (loop b) !! i = Some r -> is_generate r = false ->
  isLoading (gen (settle i outcome b)) = isLoading (gen b).
Proof.
  intros Hi Hr. unfold settle, is_generate in *. rewrite Hi.
  destruct (req_then r); [done|]. by destruct outcome.
Qed.

Lemma loading_unless_idle e b :
  invariant b -> loading b -> enabled e b = true ->
  loading (handle layout e b) \/ idle (handle layout e b).
Proof.
  intros Hb Hl He. destruct (quiet e) eqn:Hq.
  { left. by rewrite same_core_quiet. }
  unfold loading in *. destruct e; try done; simpl in *.
  - unfold generate_disabled in He. rewrite Hl in He. by rewrite andb_false_r in He.
  - left. unfold selectReferenceImage. by case_match.
  - left. unfold handleGenerateVisualConcept. by repeat case_match.
  - left. unfold tick. by repeat case_match.
  - apply bool_decide_eq_true in He as [r Hi].
    destruct (is_generate r) eqn:Hr; [right; by eapply settle_idle|left].
    by rewrite (settle_concept_loading _ _ _ _ Hi Hr).
Qed.

Lemma arrives_spec e b : arrives e b = true <-> answer_arrives b e.
Proof.
  unfold answer_arrives. split.
  - destruct e; try done. simpl.
    destruct (pending (loop b) !! i) as [r|] eqn:Hi; [|done]. by exists i, outcome, r.
  - intros (i & outcome & r & -> & Hi & Hr). simpl. by rewrite Hi.
Qed.

(** An event that is not the arrival of the answer leaves the page loading,
    with the same request in flight. *)
Lemma loading_kept e b :
  invariant b -> loading b -> enabled e b = true -> arrives e b = false ->
  loading (handle layout e b) /\ in_flight (handle layout e b) = in_flight b.
Proof.
  intros Hb Hl He Ha. destruct (quiet e) eqn:Hq.
  { pose proof (core_quiet e b Hq) as [= Hg _ _ Hp].
    unfold loading, in_flight. by rewrite Hg, Hp. }
  unfold loading, in_flight in *. destruct e; try done; simpl in *.
  - unfold generate_disabled in He. rewrite Hl in He. by rewrite andb_false_r in He.
  - unfold selectReferenceImage. by case_match.
  - unfold handleGenerateVisualConcept. repeat case_match; try done.
    simpl. split; [done|]. rewrite filter_app. apply app_nil_r.
  - unfold tick. by repeat case_match.
  - apply bool_decide_eq_true in He as [r Hi]. rewrite Hi in Ha.
    rewrite (settle_concept_loading _ _ _ _ Hi Ha). split; [done|].
    unfold settle, is_generate in *. rewrite Hi.
    destruct (req_then r) eqn:Hk; [done|].
    destruct outcome; simpl; apply (filter_delete_other _ _ _ _ Hi);
      unfold is_generate; by rewrite Hk.
Qed.

Lemma loading_until_answered_invariant events : forall b b',
  reachable layout b -> loading b -> run layout events b = Some b' ->
  if unanswered layout events b
  then loading b' /\ in_flight b' = in_flight b
  else exists k b'', run layout (take k events) b = Some b'' /\ idle b''.
Proof.
  induction events as [|e rest IH]; intros b b' Hb Hl; simpl; [by intros [= <-]|].
  unfold run in *. simpl. destruct (enabled e b) eqn:He; [|done]. intros Hrun.
  destruct (arrives e b) eqn:Ha; simpl.
  - exists 1%nat, (handle layout e b). simpl. rewrite He. split; [by destruct rest|].
    apply arrives_spec in Ha as (i & outcome & r & -> & Hi & Hr).
    eapply settle_idle; eauto using invariant_reachable.
  - destruct (loading_kept e b (invariant_reachable _ Hb) Hl He Ha) as [Hl' Hf].
    specialize (IH _ _ (reachable_step _ _ _ Hb He) Hl' Hrun).
    destruct (unanswered layout rest (handle layout e b)).
    + destruct IH as [? Hf']. split; [done|]. by rewrite Hf'.
    + destruct IH as (k & b'' & Hk & Hi). exists (S k), b''. simpl. by rewrite He.
Qed.

(** ** The theme *)

Lemma theme_effect_sync b :
  (darkMode b = true -> stored_dark b = true) ->
  darkMode (theme_effect b) = stored_dark (theme_effect b).
Proof.
  unfold theme_effect, stored_dark. intros Hb. destruct (darkMode b) eqn:Hd.
  all: try specialize (Hb eq_refl).
  all: repeat case_bool_decide; simpl in *; try done.
  all: rewrite ?lookup_insert_ne in * by done; repeat case_bool_decide; try done.
Qed.

Lemma theme_sync_handle e b :
  darkMode b = stored_dark b ->
  darkMode (handle layout e b) = stored_dark (handle layout e b).
Proof.
  intros Hb. destruct e; simpl; try done;
    try (unfold stored_dark in *; run_handler; done).
  - unfold stored_dark. simpl. rewrite lookup_insert_eq. by destruct (darkMode b).
  - unfold handleScroll. case_match; [done|]. apply theme_effect_sync. unfold stored_dark in *. simpl. congruence.
Qed.

Lemma theme_sync_reachable b : reachable layout b -> darkMode b = stored_dark b.
Proof.
  induction 1 as [supported storage|e b _ IH He]; [|by apply theme_sync_handle].
  unfold start, mount. by apply theme_effect_sync.
Qed.

Lemma start_darkMode supported storage :
  darkMode (start supported storage)
  = bool_decide (storage !! "darkMode" = Some "true").
Proof. unfold start, mount, theme_effect. simpl. by repeat case_bool_decide. Qed.

(** ** The first visit *)

(** Unfold a handler down to the timers it sets. *)
Ltac frame :=
  simpl; rewrite ?downloadAssets_cases;
  unfold toggleTheme, startRecording, stopRecording, resetTranscript, retryAudio,
    or_unchanged, editTranscript;
  run_handler;
  unfold generate_finally, generate_resolved, concept_finally, concept_resolved,
    concept_rejected, clearInterval;
  unfold showSuccessNotification, showTooltipForElement; repeat (case_match; simpl).

Ltac count_welcomes :=
  unfold welcomes, setTimeout; simpl; rewrite ?filter_app, ?length_app; simpl; lia.

(** Once the visit is recorded, the effect leaves timers, storage and
    scroll state alone. *)
Lemma theme_effect_visited b :
  localStorage (page b) !! "firstVisit" = Some "false" ->
  timeouts (loop (theme_effect b)) = timeouts (loop b) /\
  localStorage (page (theme_effect b)) = localStorage (page b) /\
  scrolled (theme_effect b) = scrolled b /\
  scrollY (page (theme_effect b)) = scrollY (page b).
Proof.
  intros Hv. unfold theme_effect. rewrite (bool_decide_eq_true_2 _ Hv).
  by case_bool_decide.
Qed.

Lemma visit_invariant_start supported storage : visit_invariant (start supported storage).
Proof.
  unfold start, mount, theme_effect. simpl.
  constructor; repeat case_bool_decide; simpl; try done;
    rewrite ?lookup_insert_eq; try done; unfold welcomes; simpl; lia.
Qed.

Lemma welcomes_fire i b : (welcomes (fire layout i b) <= welcomes b)%nat.
Proof.
  unfold fire. destruct (timeouts (loop b) !! i) as [[due task]|] eqn:Hi; [|done].
  assert (Hd : (welcomes (on_loop (fun l => set_timeouts (delete i (timeouts l)) l) b)
                + (if decide (task = WelcomeTooltip) then 1 else 0) = welcomes b)%nat).
  { unfold welcomes. simpl. rewrite (filter_delete_length is_welcome _ i _ Hi).
    unfold is_welcome at 3. simpl. by destruct (decide (task = WelcomeTooltip)); case_decide. }
  destruct task; simpl in *; unfold showTooltipForElement, showSuccessNotification;
    repeat case_match; try (unfold welcomes, setTimeout in *; simpl in *;
      rewrite ?filter_app, ?length_app; simpl; lia).
Qed.

Lemma handle_visited e b :
  localStorage (page b) !! "firstVisit" = Some "false" ->
  localStorage (page (handle layout e b)) !! "firstVisit" = Some "false".
Proof.
  intros Hv. destruct e; frame; rewrite ?lookup_insert_ne by done; try done.
  by destruct (theme_effect_visited (set_scrolled (negb (Qle_bool y 10))
                 (on_page (set_scrollY y) b)) Hv) as (_ & -> & _).
Qed.

Lemma handle_scrolled e b :
  localStorage (page b) !! "firstVisit" = Some "false" ->
  scrolled b = negb (Qle_bool (scrollY (page b)) 10) ->
  scrolled (handle layout e b) = negb (Qle_bool (scrollY (page (handle layout e b))) 10).
Proof.
  intros Hv Hs. destruct e; frame; try done.
  { by apply bool_decide_eq_true_1 in H. }
  by destruct (theme_effect_visited (set_scrolled (negb (Qle_bool y 10))
                 (on_page (set_scrollY y) b)) Hv) as (_ & _ & -> & ->).
Qed.

Lemma handle_welcomes e b :
  localStorage (page b) !! "firstVisit" = Some "false" ->
  (welcomes (handle layout e b) <= welcomes b)%nat.
Proof.
  intros Hv. destruct e; try apply welcomes_fire; frame; try count_welcomes.
  destruct (theme_effect_visited (set_scrolled (negb (Qle_bool y 10))
              (on_page (set_scrollY y) b)) Hv) as (Ht & _).
  unfold welcomes. by rewrite Ht.
Qed.

Lemma visit_invariant_handle e b :
  visit_invariant b -> visit_invariant (handle layout e b).
Proof.
  intros [Hs Hv Hw]. constructor.
  - by apply handle_scrolled.
  - by apply handle_visited.
  - pose proof (handle_welcomes e b Hv). lia.
Qed.

(** C32.  The effect of lines 82-119 runs at the first render and again
    whenever [scrolled] changes.  In every state the page can reach the
    visit is recorded in the storage, so that no second welcome tooltip is
    scheduled however often the effect runs, and the [scrolled] flag says
    whether the window is more than ten pixels down. *)
Theorem visit_invariant_reachable b : reachable layout b -> visit_invariant b.
Proof.
  induction 1; [apply visit_invariant_start|by apply visit_invariant_handle].
Qed.

(** ** The theorems *)

(** C11.  In every state the page can reach, the loading flag tells whether
    a request of [handleGenerate] is in flight, and at most one is: the
    disabled generate button keeps a second one from leaving.  A progress
    interval that is registered belongs to the request in flight, so an idle
    page has none left.  While the page loads, neither an error nor results
    are held, and they are never held together. *)
Theorem one_request_in_flight b :
  reachable layout b ->
  length (in_flight b) = (if isLoading (gen b) then 1 else 0)%nat /\
  (forall id, is_Some (intervals (loop b) !! id) ->
     exists r, r ∈ in_flight b /\ req_then r = AfterGenerate id) /\
  (isLoading (gen b) = false -> intervals (loop b) = ∅) /\
  (isLoading (gen b) = true -> error (gen b) = None /\ results (gen b) = JNull) /\
  (error (gen b) = None \/ results (gen b) = JNull).
Proof.
  intros Hb%invariant_reachable. split_and!.
  - apply Hb.
  - intros id [[due step] Hid]. destruct (inv_intervals b Hb _ _ _ Hid) as (_ & r & ? & Hk).
    exists r. split; [|done]. apply list_elem_of_filter. split; [|done].
    unfold is_generate. by rewrite Hk.
  - by apply idle_intervals.
  - apply Hb.
  - apply Hb.
Qed.

(** C30.  In every state the page can reach, the progress bar is between 0
    and 100, the current step is one of the five steps, and no interval has
    counted past the number of steps. *)
Theorem progress_in_range b :
  reachable layout b ->
  (0 <= progress (gen b) <= 100)%Q /\
  is_Some (shown_step b) /\
  (forall id due step, intervals (loop b) !! id = Some (due, step) ->
     (step <= length generationSteps)%nat).
Proof.
  intros Hb%invariant_reachable. split; [apply Hb|split].
  - apply lookup_lt_is_Some, Hb.
  - intros id due step Hid. by destruct (inv_intervals b Hb _ _ _ Hid).
Qed.

(** C12.  While the page loads, every event leaves it loading or idle, the
    answer to its request can arrive, and every arrival of it, resolved or
    rejected, ends the loading and leaves no interval behind.  (That no
    other event ends the loading is [loading_until_answered].) *)
Theorem loading_ensures_idle :
  ensures enabled (handle layout) (reachable layout) loading idle answer_arrives.
Proof.
  split.
  - intros e b Hb%invariant_reachable. by apply loading_unless_idle.
  - intros b Hb%invariant_reachable Hl. split.
    + destruct (loading_in_flight b Hb Hl) as (i & r & Hi & Hr).
      exists (Settle i (Resolved JNull)). split; [by exists i, (Resolved JNull), r|].
      simpl. by rewrite Hi.
    + intros e (i & outcome & r & -> & Hi & Hr) _. by eapply settle_idle.
Qed.

(** C29.  The loading lasts exactly as long as the request is
    unanswered; nothing of the page ends it, and no amount of time does.
    Along a sequence of events from a loading page, as long as no event is
    the arrival of the answer to the request, the page still loads and the
    same request is still in flight, whatever the clicks, the timers and the
    time that passes; and a sequence in which the answer arrives passes an
    idle page. *)
Theorem loading_until_answered events b b' :
  reachable layout b -> loading b -> run layout events b = Some b' ->
  if unanswered layout events b
  then loading b' /\ in_flight b' = in_flight b
  else exists k b'', run layout (take k events) b = Some b'' /\ idle b''.
Proof. apply loading_until_answered_invariant. Qed.

(** C18.  The theme survives a reload: in every state the page can reach,
    [darkMode] is what the storage holds, and a page that starts again with
    the storage as it is has the same [darkMode]. *)
Theorem theme_survives_reload supported b :
  reachable layout b ->
  darkMode b = stored_dark b /\
  darkMode (start supported (localStorage (page b))) = darkMode b.
Proof. intros Hb%theme_sync_reachable. by rewrite start_darkMode, Hb. Qed.

End Facts.

(** ** Witnesses *)

Lemma one_request_in_flight_witness :
  length (in_flight loading_page) = (if isLoading (gen loading_page) then 1 else 0)%nat /\
  (forall id, is_Some (intervals (loop loading_page) !! id) ->
     exists r, r ∈ in_flight loading_page /\ req_then r = AfterGenerate id) /\
  (isLoading (gen loading_page) = false -> intervals (loop loading_page) = ∅) /\
  (isLoading (gen loading_page) = true ->
     error (gen loading_page) = None /\ results (gen loading_page) = JNull) /\
  (error (gen loading_page) = None \/ results (gen loading_page) = JNull).
Proof. apply (one_request_in_flight flat loading_page loading_page_reachable). Defined.

Lemma progress_in_range_witness :
  (0 <= progress (gen loading_page) <= 100)%Q /\
  is_Some (shown_step loading_page) /\
  (forall id due step, intervals (loop loading_page) !! id = Some (due, step) ->
     (step <= length generationSteps)%nat).
Proof. apply (progress_in_range flat loading_page loading_page_reachable). Defined.

Lemma loading_until_answered_witness :
  exists b', run flat an_hour loading_page = Some b' /\
    loading b' /\ in_flight b' = in_flight loading_page.
Proof.
  eexists. split; [by vm_compute|].
  apply (loading_until_answered flat an_hour loading_page);
    [apply loading_page_reachable|reflexivity|by vm_compute].
Defined.

Lemma visit_invariant_reachable_witness : visit_invariant loading_page.
Proof. apply (visit_invariant_reachable flat loading_page loading_page_reachable). Defined.

Lemma theme_survives_reload_witness :
  darkMode (handle flat ClickTheme (start true ∅))
  = stored_dark (handle flat ClickTheme (start true ∅)) /\
  darkMode (start true (localStorage (page (handle flat ClickTheme (start true ∅)))))
  = darkMode (handle flat ClickTheme (start true ∅)).
Proof.
  apply (theme_survives_reload flat true (handle flat ClickTheme (start true ∅))).
  apply reachable_step; [apply reachable_start|reflexivity].
Defined.
