(* ===== verification/Wire.v ===== *)
(** * Wire: the page and the server together

    The request of the page reaches the server as JSON and the answer comes
    back as JSON: [jsonify] is what a value is after [JSON.stringify] and
    [JSON.parse].  [axios_settle] is the end of the promise of [axios.post]
    for an answer: resolved with the body for a status in 2xx, rejected with
    an error that holds the response otherwise.  [exchange] runs the handler
    that [Routes.dispatch] finds for the path of the request, in a world of
    scripted services; [generate_session] is a click on the generate button
    followed by the answer, and [concept_session] a click on the concept
    button followed by the answer.

    Theorems: the transport is idempotent and commutes with reading a
    field; an answer under the contract of Contract.v is read by the results
    block of a page that holds no concept without a [TypeError], with two
    captioned images; the download button saves the text of lines 341-353
    for such an answer ([assets_file]), or nothing when a field does not
    print; a session with the pipeline alone ends idle with results or with
    one of the server's messages; a session with the routes server.js would
    register ([Routes.server_js_routes]) ends with "Missing required
    fields", and so does a session with server3.js; a session with the
    concept endpoint ends with the model's object or with one of the
    handler's three messages; the page renders the concept it was sent
    exactly when its [colorPalette] is an array ([concept_shape]), and an
    answer with status 200 of another shape takes the page down. *)

From Stdlib Require Import ZArith QArith Lia List Bool Ascii String.
From stdpp Require Import base tactics option list strings gmap pretty.
From S2P Require Import Prelude Progress JsString JsValue Effects Fence Voice Images.
From S2P Require Import Generate Legacy Endpoints Server3 Routes Contract.
From S2P Require Import Browser View Client Session.

Local Open Scope Z_scope.

(** ** What a value is at the other end *)

(** [JSON.parse(JSON.stringify(v))]: a field whose value is [undefined] is
    left out, and [undefined] in an array becomes [null].  The sources hand
    object literals to [axios.post] and to [res.json], so that the value at
    the top is an object; [JSON.stringify(undefined)] is not a text, and
    that case, which the function maps like an element of an array, does
    not arise. *)
Fixpoint jsonify (v : JsVal) : JsVal :=
  match v with
  | JUndefined => JNull
  | JArr l =>
    JArr ((fix items (l : list JsVal) : list JsVal :=
             match l with
             | [] => []
             | x :: r => jsonify x :: items r
             end) l)
  | JObj fs =>
    JObj ((fix fields (fs : list (string * JsVal)) : list (string * JsVal) :=
             match fs with
             | [] => []
             | (k, JUndefined) :: r => fields r
             | (k, x) :: r => (k, jsonify x) :: fields r
             end) fs)
  | _ => v
  end.

(** The fields of an object at the other end. *)
Fixpoint jsonify_fields (fs : list (string * JsVal)) : list (string * JsVal) :=
  match fs with
  | [] => []
  | (k, JUndefined) :: r => jsonify_fields r
  | (k, x) :: r => (k, jsonify x) :: jsonify_fields r
  end.

(** The value of a field at the other end. *)
Definition jsonify_field (v : JsVal) : JsVal :=
  match v with
  | JUndefined => JUndefined
  | _ => jsonify v
  end.

(** ** The HTTP client *)

(** [response.statusText] for the statuses the server sends. *)
Definition statusText (status : Z) : string :=
  match status with
  | 200 => "OK"
  | 400 => "Bad Request"
  | 404 => "Not Found"
  | 500 => "Internal Server Error"
  | _ => ""
  end.

(** The error of a request the server answered with a status outside 2xx. *)
Definition axios_error (r : Response) : AxiosErr :=
  {| err_code :=
       Some (if (400 <=? r_status r) && (r_status r <? 500)
             then "ERR_BAD_REQUEST" else "ERR_BAD_RESPONSE");
     err_text := "Request failed with status code " +:+ pretty (r_status r);
     err_response :=
       Some {| resp_status := r_status r; resp_statusText := statusText (r_status r);
               resp_data := jsonify (r_body r) |};
     err_request := true |}.

(** The error of a request that reached no server. *)
Definition unreachable : AxiosErr :=
  {| err_code := Some "ERR_NETWORK"; err_text := "Network Error";
     err_response := None; err_request := true |}.

(** How the promise of [axios.post] ends when the server answers [r]. *)
Definition axios_settle (r : Response) : Settled :=
  if (200 <=? r_status r) && (r_status r <? 300)
  then Resolved (jsonify (r_body r))
  else Rejected (axios_error r).

(** ** The page and the server together *)

(** server.js lines 873-877: where the server listens; [PORT] is
    [process.env.PORT]. *)
Definition server_origin (PORT : JsVal) : string :=
  "http://localhost:" +:+ to_string (js_or PORT (JNum 3001)).

(** The path of a URL of that origin: what follows the origin, from the
    slash on. *)
Definition request_path (origin url : string) : option string :=
  if starts_with (chars (origin +:+ "/")) (chars url)
  then Some (unchars (drop (String.length origin) (chars url)))
  else None.

(** The pipeline alone: the handlers of lines 520 and 797, without the
    registrations that come before them. *)
Definition pipeline_routes `{Platform} (scope : ModuleScope) : list Route :=
  [{| route_method := POST; route_path := "/api/generate";
      route_handler := generate scope |};
   {| route_method := POST; route_path := "/api/generate-visual-concept";
      route_handler := generate_visual_concept |}].

(** The server handles the request in the world [w]; the first answer it
    sends, if it sends one, ends the request.  A request to another origin
    reaches no server. *)
Definition exchange (origin : string) (routes : list Route) (request : Request)
    (w : World) : option Settled * World :=
  match request_path origin (req_url request) with
  | Some path =>
    let handler := dispatch routes POST path (jsonify (req_body request)) in
    (axios_settle <$> head (sent_of handler w), (handler w).2)
  | None => (Some (Rejected unreachable), w)
  end.

(** The request at position [i] is served and its answer handled. *)
Definition serve (origin : string) (routes : list Route) (i : nat)
    (b : Browser) (w : World) : Browser * World :=
  match pending (loop b) !! i with
  | Some request =>
    match exchange origin routes request w with
    | (Some outcome, w') => (settle i outcome b, w')
    | (None, w') => (b, w')
    end
  | None => (b, w)
  end.

(** A click on the generate button and the answer of the server. *)
Definition generate_session (origin : string) (routes : list Route)
    (b : Browser) (w : World) : Browser * World :=
  serve origin routes (length (pending (loop b))) (handleGenerate b) w.

(** A click on the concept button and the answer of the server. *)
Definition concept_session (origin : string) (routes : list Route)
    (b : Browser) (w : World) : Browser * World :=
  serve origin routes (length (pending (loop b))) (handleGenerateVisualConcept b) w.

(** The request of [handleGenerateVisualConcept] for a page that holds
    [results] and the reference [image]. *)
Definition concept_request_body (results : JsVal) (image : string) : JsVal :=
  JObj [("brandIdentity",
         JObj [("mascotDescription", get_opt results "mascotDescription");
               ("visualStyle", get_opt results "visualStyle");
               ("adSlogan", get_opt results "adSlogan")]);
        ("referenceImageUrl", JStr image)].

(** The shape of a concept the page can show: a value whose [colorPalette]
    is an array. *)
Definition concept_shape (concept : JsVal) : bool :=
  match get concept "colorPalette" with
  | Ok (JArr _) => true
  | _ => false
  end.

(** The file the download button saves, line by line as lines 341-353 of
    App.jsx lay it out: the three identity fields and the two URLs as the
    browser prints them, [null] among the URLs as nothing. *)
Definition assets_file (mascot style slogan first second : JsVal) (date : string)
    : string :=
  String.concat newline
    [""%string;
     "        # Marketing Assets Generated by Vocalize AI";
     "        ";
     "        ## Brand Identity";
     "        Mascot: " +:+ to_string mascot;
     "        Visual Style: " +:+ to_string style;
     "        Slogan: " +:+ to_string slogan;
     "        ";
     "        ## Image URLs";
     "        " +:+ (if bool_decide (first = JNull) then "" else to_string first);
     if bool_decide (second = JNull) then "" else to_string second;
     "        ";
     "        Generated on: " +:+ date;
     "        "].

(** The origin of the server when [PORT] is not set. *)
Definition local_origin : string := server_origin JUndefined.

(** ** Sample data for the examples *)

(** The page after the pipeline answered in a world where every service
    answers. *)
Definition served_page : Browser :=
  (generate_session local_origin
     (pipeline_routes (H := sample_platform) server_js_scope)
     recorded_page healthy_world).1.

(** The page after a reference image was chosen and the concept endpoint
    answered with the object the model gave, which is empty. *)
Definition concept_page : Browser :=
  (concept_session local_origin
     (pipeline_routes (H := concept_platform) server_js_scope)
     (handle flat (ClickImage 0) served_page) concept_world).1.

(** A model that gives the slogan as an object. *)
Definition object_slogan_platform : Platform :=
  {| json_parse := fun _ =>
       Some (JObj [("brandName", JStr "Fox");
                   ("adSlogan", JObj [("text", JStr "Fresh")]);
                   ("brandPersonality", JStr "friendly")]);
     base64 := fun b => b |}.

(** ** Values *)

(** Induction on values, with the hypothesis for the elements of an array
    and the values of an object. *)
Lemma JsVal_nested_ind (P : JsVal -> Prop) :
  P JUndefined -> P JNull -> (forall b, P (JBool b)) -> (forall n, P (JNum n)) ->
  (forall s, P (JStr s)) ->
  (forall l, Forall P l -> P (JArr l)) ->
  (forall fs, Forall (fun kv => P kv.2) fs -> P (JObj fs)) ->
  forall v, P v.
Proof.
  intros Hu Hn Hb Hz Hs Ha Ho.
  fix IH 1. intros [| |b|n|s|l|fs]; [done..| |].
  - apply Ha. induction l as [|x l IHl]; constructor; [apply IH|apply IHl].
  - apply Ho. induction fs as [|[k x] fs IHfs]; constructor; [apply IH|apply IHfs].
Qed.

Lemma jsonify_arr l : jsonify (JArr l) = JArr (map jsonify l).
Proof. reflexivity. Qed.

Lemma jsonify_obj fs : jsonify (JObj fs) = JObj (jsonify_fields fs).
Proof. reflexivity. Qed.

Lemma jsonify_field_defined v : v <> JUndefined -> jsonify_field v = jsonify v.
Proof. by destruct v. Qed.

Lemma jsonify_defined v : jsonify v <> JUndefined.
Proof. by destruct v. Qed.

(** Reading a field commutes with the transport, for an object whose keys
    are distinct. *)
Lemma lookup_jsonify_fields k fs :
  NoDup fs.*1 ->
  lookup_field k (jsonify_fields fs) = jsonify_field (lookup_field k fs).
Proof.
  induction fs as [|[k' x] fs IH]; [done|]. simpl. intros [Hk Hfs]%NoDup_cons.
  destruct (String.eqb k k') eqn:Hkk.
  - apply String.eqb_eq in Hkk as ->.
    destruct x; simpl; rewrite ?String.eqb_refl; try done.
    rewrite IH by done. rewrite lookup_field_absent; [done|].
    done.
  - destruct x; simpl; rewrite ?Hkk; auto.
Qed.

Lemma jsonify_fields_defined fs :
  Forall (fun kv => kv.2 <> JUndefined) (jsonify_fields fs).
Proof.
  induction fs as [|[k x] fs IH]; [done|]. destruct x; simpl; try done;
    by constructor.
Qed.

Lemma jsonify_idemp v : jsonify (jsonify v) = jsonify v.
Proof.
  induction v as [| | | | |l IH|fs IH] using JsVal_nested_ind; try done.
  - rewrite !jsonify_arr. f_equal. rewrite <- list_fmap_compose.
    apply list_fmap_ext. intros i x Hx. simpl.
    by apply (proj1 (Forall_lookup _ _) IH i).
  - rewrite !jsonify_obj. f_equal. induction IH as [|[k x] fs Hx _ IHfs]; [done|].
    destruct x; simpl in *; rewrite ?IHfs; try done; by rewrite <- Hx.
Qed.

Lemma valid_child_arr l : valid_child (JArr l) = forallb valid_child l.
Proof. reflexivity. Qed.

Lemma valid_child_jsonify v : valid_child (jsonify v) = valid_child v.
Proof.
  induction v as [| | | | |l IH|fs IH] using JsVal_nested_ind; try done.
  rewrite jsonify_arr, !valid_child_arr. induction IH as [|x l Hx _ IHl]; [done|].
  simpl. by rewrite Hx, IHl.
Qed.

Lemma valid_child_jsonify_field v : valid_child (jsonify_field v) = valid_child v.
Proof. destruct v; try done; apply valid_child_jsonify. Qed.

Lemma get_jsonify_obj fs k :
  NoDup fs.*1 -> get (jsonify (JObj fs)) k = Ok (jsonify_field (lookup_field k fs)).
Proof. intros Hfs. rewrite jsonify_obj. simpl. by rewrite lookup_jsonify_fields. Qed.

(** ** The answer with status 200 on the page *)

Lemma assets_body_keys urls bi audio k x :
  k = "useElevenLabs" \/ k = "elevenlabsError" ->
  exists fs, assets_body urls bi audio (k, x) = JObj fs /\ NoDup fs.*1.
Proof.
  intros Hk. eexists. split; [done|]. simpl.
  destruct Hk as [-> | ->]; apply (bool_decide_unpack _); by vm_compute.
Qed.

Lemma assets_view_fields urls bi audio k x c a b :
  k = "useElevenLabs" \/ k = "elevenlabsError" ->
  urls = JArr [a; b] ->
  forall au, audio_view (jsonify (assets_body urls bi audio (k, x))) = Ok au ->
  results_view (jsonify (assets_body urls bi audio (k, x))) c
  = concept ← concept_view (visualConcept c);
    Ok {| rv_mascot := jsonify_field (get_opt bi "mascotDescription");
          rv_style := jsonify_field (get_opt bi "visualStyle");
          rv_slogan := jsonify_field (get_opt bi "adSlogan");
          rv_images := [(jsonify a, "Instagram Post"); (jsonify b, "Website Banner")];
          rv_audio := au;
          rv_references := reference_images c;
          rv_concept_button := (concept_disabled c, concept_label c);
          rv_conceptError := visualConceptError c;
          rv_concept := concept |}.
Proof.
  intros Hk -> au Hau. unfold results_view. rewrite Hau. clear Hau.
  destruct (assets_body_keys (JArr [a; b]) bi audio k x Hk) as (fs & Hfs & Hnd).
  rewrite Hfs, !get_jsonify_obj by done. injection Hfs as <-.
  by destruct Hk as [-> | ->].
Qed.

Lemma audio_view_with urls bi audio :
  audio_view (jsonify (assets_body urls bi (JStr audio) ("useElevenLabs", JBool true)))
  = Ok (if String.eqb audio "" then Unavailable (JStr audio_fallback)
        else Player ("data:audio/mpeg;base64," +:+ audio)).
Proof.
  destruct (assets_body_keys urls bi (JStr audio) "useElevenLabs" (JBool true))
    as (fs & Hfs & Hnd); [by left|].
  unfold audio_view. rewrite Hfs, !get_jsonify_obj by done. injection Hfs as <-.
  simpl. by destruct (String.eqb audio "").
Qed.

Lemma audio_view_without urls bi message :
  audio_view (jsonify (assets_body urls bi JNull ("elevenlabsError", JStr message)))
  = Ok (Unavailable (JStr (if String.eqb message "" then audio_fallback else message))).
Proof.
  destruct (assets_body_keys urls bi JNull "elevenlabsError" (JStr message))
    as (fs & Hfs & Hnd); [by right|].
  unfold audio_view. rewrite Hfs, !get_jsonify_obj by done. injection Hfs as <-.
  simpl. unfold js_or. simpl. by destruct (String.eqb message "").
Qed.

(** The view of an answer with status 200. *)
Lemma assets_answer_view body c :
  assets_answer body ->
  exists a b au message,
    results_view (jsonify body) c
    = (concept ← concept_view (visualConcept c);
       Ok {| rv_mascot := jsonify_field (get_opt body "mascotDescription");
             rv_style := jsonify_field (get_opt body "visualStyle");
             rv_slogan := jsonify_field (get_opt body "adSlogan");
             rv_images := [(a, "Instagram Post"); (b, "Website Banner")];
             rv_audio := au;
             rv_references := reference_images c;
             rv_concept_button := (concept_disabled c, concept_label c);
             rv_conceptError := visualConceptError c;
             rv_concept := concept |}) /\
    (au = Player message \/ au = Unavailable (JStr message)).
Proof.
  intros [urls bi audio (a & b & ->)|urls bi message (a & b & ->)].
  - pose proof (audio_view_with (JArr [a; b]) bi audio) as Hau.
    destruct (String.eqb audio ""); eexists _, _, _, _;
      (split; [by erewrite assets_view_fields; [|by left|done|apply Hau]|eauto]).
  - eexists _, _, _, _. split.
    + by erewrite assets_view_fields; [|by right|done|apply audio_view_without].
    + eauto.
Qed.

Lemma concept_view_none visualConcept :
  truthy visualConcept = false -> concept_view visualConcept = Ok None.
Proof. unfold concept_view. by intros ->. Qed.

(** A concept that is held is shown, unless the block throws. *)
Lemma concept_view_some visualConcept shown :
  truthy visualConcept = true -> concept_view visualConcept = Ok shown -> is_Some shown.
Proof.
  unfold concept_view. intros ->. simpl.
  destruct (get visualConcept "referenceImageUrl"); simpl; [|done].
  destruct (get visualConcept "visualConcept") as [inner|]; simpl; [|done].
  destruct (get inner "conceptDescription"); simpl; [|done].
  destruct (get inner "colorPalette") as [palette|]; simpl; [|done].
  destruct (call_map _ palette); simpl; [|done].
  destruct (get inner "designElements"); simpl; [|done].
  destruct (get inner "visualInspiration"); simpl; [|done].
  intros [= <-]. eauto.
Qed.

(** The concept block reads [colorPalette.map]: it shows a concept exactly
    when that field is an array. *)
Lemma concept_view_shape inner reference :
  (exists cv, concept_view (JObj [("visualConcept", inner);
                                  ("referenceImageUrl", reference)]) = Ok (Some cv))
  <-> concept_shape inner = true.
Proof.
  unfold concept_view, concept_shape. simpl.
  destruct (get inner "colorPalette") as [palette|e] eqn:Ep.
  - destruct (get_ok inner "conceptDescription") as [d Hd]; [intros ->; done..|].
    destruct (get_ok inner "designElements") as [el Hel]; [intros ->; done..|].
    destruct (get_ok inner "visualInspiration") as [vi Hvi]; [intros ->; done..|].
    rewrite Hd, Hel, Hvi. simpl.
    destruct palette; simpl; split; try done; try (by intros [cv ?]); eauto.
  - split; [|done]. intros [cv Hcv]. destruct inner; simpl in *; try done.
Qed.

(** ** A click and its answer *)

Lemma lookup_snoc {A} (l : list A) x : (l ++ [x]) !! length l = Some x.
Proof. induction l; [done|]. done. Qed.

Lemma delete_snoc {A} (l : list A) x : delete (length l) (l ++ [x]) = l.
Proof. induction l as [|y l IH]; [done|]. simpl. by rewrite IH. Qed.

Lemma serve_answer origin routes i b w request path r rest :
  pending (loop b) !! i = Some request ->
  request_path origin (req_url request) = Some path ->
  sent_of (dispatch routes POST path (jsonify (req_body request))) w = r :: rest ->
  (serve origin routes i b w).1 = settle i (axios_settle r) b.
Proof.
  intros Hi Hp Hr. unfold serve, exchange. rewrite Hi, Hp. cbv zeta. by rewrite Hr.
Qed.

Section Sessions.
Context (b : Browser).
Hypothesis prompt : transcript (recognition b) <> "".

Let i := length (pending (loop b)).

Lemma prompt_truthy : truthy (JStr (transcript (recognition b))) = true.
Proof. simpl. apply negb_true_iff, String.eqb_neq, prompt. Qed.

Lemma handleGenerate_request :
  pending (loop (handleGenerate b)) !! i
  = Some {| req_url := generate_url;
            req_body := JObj [("userPrompt", JStr (transcript (recognition b)))];
            req_then := AfterGenerate (nextInterval (loop b)) |}.
Proof.
  unfold handleGenerate. rewrite prompt_truthy. simpl. apply lookup_snoc.
Qed.

Lemma settle_resolved data :
  let b' := settle i (Resolved data) (handleGenerate b) in
  gen b' = {| isLoading := false; error := None; results := data;
              progress := 100; currentStep := 4 |} /\
  note b' = {| showNotification := true;
               notificationMessage := "Marketing assets generated successfully!";
               notificationType := "success" |} /\
  pending (loop b') = pending (loop b).
Proof.
  unfold settle. rewrite handleGenerate_request. unfold handleGenerate.
  rewrite prompt_truthy. simpl. unfold i. by rewrite delete_snoc.
Qed.

Lemma settle_rejected err message notification :
  error_report err = Ok (message, notification) ->
  let b' := settle i (Rejected err) (handleGenerate b) in
  gen b' = {| isLoading := false; error := Some message;
              results := JNull; progress := 0; currentStep := 0 |} /\
  note b' = {| showNotification := true;
               notificationMessage := notification;
               notificationType := "error" |} /\
  pending (loop b') = pending (loop b).
Proof.
  intros Hr. unfold settle. rewrite handleGenerate_request. unfold handleGenerate.
  rewrite prompt_truthy. unfold generate_rejected. rewrite Hr.
  simpl. unfold i. by rewrite delete_snoc.
Qed.

(** When the banner cannot be printed (line 290), the page ends idle with
    neither banner nor notification: the error leaves the handler. *)
Lemma settle_rejected_silent err e :
  error_report err = Throw e ->
  let b' := settle i (Rejected err) (handleGenerate b) in
  gen b' = {| isLoading := false; error := None;
              results := JNull; progress := 0; currentStep := 0 |} /\
  note b' = note b /\
  pending (loop b') = pending (loop b).
Proof.
  intros Hr. unfold settle. rewrite handleGenerate_request. unfold handleGenerate.
  rewrite prompt_truthy. unfold generate_rejected. rewrite Hr.
  simpl. unfold i. by rewrite delete_snoc.
Qed.

(** Neither the click nor the end of the request touches the visual
    concept: the concept of an earlier generation stays on the page. *)
Lemma settle_keeps_concept outcome :
  visual (settle i outcome (handleGenerate b)) = visual b /\
  visual (handleGenerate b) = visual b.
Proof.
  unfold settle. rewrite handleGenerate_request. unfold handleGenerate.
  rewrite prompt_truthy. split; [|done].
  destruct outcome as [data|err]; [done|].
  unfold generate_rejected. by destruct (error_report err) as [[? ?]|?].
Qed.

Lemma generate_session_keeps_concept origin routes w :
  visual (generate_session origin routes b w).1 = visual b.
Proof.
  unfold generate_session, serve. fold i. rewrite handleGenerate_request.
  destruct (exchange _ _ _ _) as [[outcome|] w']; simpl;
    [apply settle_keeps_concept|apply (settle_keeps_concept (Resolved JNull))].
Qed.

(** The session is the end of the request with the first answer of the
    handler that serves POST /api/generate. *)
Lemma generate_session_answer routes w r rest :
  sent_of (dispatch routes POST "/api/generate"
             (JObj [("userPrompt", JStr (transcript (recognition b)))])) w
  = r :: rest ->
  (generate_session local_origin routes b w).1
  = settle i (axios_settle r) (handleGenerate b).
Proof.
  intros Hr. unfold generate_session.
  eapply serve_answer; [apply handleGenerate_request|by vm_compute|apply Hr].
Qed.

End Sessions.

Lemma reconcile_ok v : reconcile v = Ok v <-> forallb valid_child (children v) = true.
Proof. unfold reconcile. by destruct (forallb _ _). Qed.

(** C16.  An answer with status 200 has the type the page reads it at, on
    a page that holds no visual concept (the concept block is the subject
    of [concept_answer_shown]).  Every property the results block reads
    exists, [imageUrls] is an array, so that [map] does not throw, and it
    has two elements, which get the two captions; the building of the view
    does not throw.  What can still go wrong is the text: React accepts the
    view exactly when the three identity fields, as the model gave them, and
    the concept error are strings, numbers, booleans, [null], [undefined] or
    arrays of such. *)
Theorem assets_answer_renders body c :
  assets_answer body -> truthy (visualConcept c) = false ->
  exists v,
    results_view (jsonify body) c = Ok v /\
    (rv_images v).*2 = ["Instagram Post"; "Website Banner"] /\
    (reconcile v = Ok v <->
     valid_child (get_opt body "mascotDescription") = true /\
     valid_child (get_opt body "visualStyle") = true /\
     valid_child (get_opt body "adSlogan") = true /\
     valid_child (visualConceptError c) = true).
Proof.
  intros Hb Hc. destruct (assets_answer_view body c Hb) as (a & b & au & m & -> & Hau).
  rewrite (concept_view_none _ Hc). eexists. split; [done|]. split; [done|].
  rewrite reconcile_ok. unfold children. cbn [rv_mascot rv_style rv_slogan rv_audio
    rv_conceptError rv_concept].
  assert (forallb valid_child
            match au with Player _ => [] | Unavailable message => [message] end = true)
    as Hm by (by destruct Hau as [-> | ->]).
  rewrite !forallb_app, Hm. simpl.
  rewrite !valid_child_jsonify_field, !andb_true_iff. tauto.
Qed.

(** ** The download *)

Lemma jsonify_not_undefined v x : jsonify v = x -> x <> JUndefined.
Proof. intros <-. apply jsonify_defined. Qed.

(** An element of [join]. *)
Lemma join_item x :
  x <> JUndefined ->
  match x with JUndefined | JNull => ""%string | _ => to_string x end
  = if bool_decide (x = JNull) then ""%string else to_string x.
Proof. by destruct x. Qed.

(** The text of the download for results that hold two URLs. *)
Lemma download_content_two fs date first second :
  lookup_field "imageUrls" fs = JArr [first; second] ->
  first <> JUndefined -> second <> JUndefined ->
  let field k := lookup_field k fs in
  download_content (JObj fs) date
  = if forallb printable [field "mascotDescription"; field "visualStyle";
                          field "adSlogan"; first; second]
    then Ok (assets_file (field "mascotDescription") (field "visualStyle")
               (field "adSlogan") first second date)
    else Throw (TypeError "Cannot convert object to primitive value").
Proof.
  intros Hu Hf Hs. cbv zeta. unfold download_content, interpolate, call_join, template.
  cbn [get mbind outcome_bind forallb]. rewrite Hu. cbn [forallb]. rewrite !andb_true_r.
  destruct (printable (lookup_field "mascotDescription" fs)); [|done].
  destruct (printable (lookup_field "visualStyle" fs)); [|done].
  destruct (printable (lookup_field "adSlogan" fs)); [|done].
  destruct (printable first), (printable second); try done. cbn [andb mbind outcome_bind].
  f_equal. cbn [map]. rewrite (join_item first Hf), (join_item second Hs).
  unfold assets_file, template_lines. cbn [String.concat map].
  generalize (if bool_decide (first = JNull) then ""%string else to_string first).
  generalize (if bool_decide (second = JNull) then ""%string else to_string second).
  intros u2 u1. rewrite !app_assoc_s. reflexivity.
Qed.

(** C35.  The download of an answer with status 200.  The results hold two
    URLs.  When the three identity fields and the two URLs print, the
    button saves one file, under its name, whose text is the heading, the
    three fields, the two URLs on a line each and the date, laid out as in
    the source; when one of them does not print, which is the case of an
    object that has a [toString] field of its own, the handler throws and
    nothing is saved. *)
Theorem download_assets_saved layout body date b :
  assets_answer body -> results (gen b) = jsonify body ->
  let field k := get_opt (results (gen b)) k in
  exists first second,
    field "imageUrls" = JArr [first; second] /\
    downloads (page (handle layout (ClickDownload date) b))
    = if forallb printable [field "mascotDescription"; field "visualStyle";
                            field "adSlogan"; first; second]
      then downloads (page b) ++
           [("vocalize-ai-marketing-assets.txt",
             assets_file (field "mascotDescription") (field "visualStyle")
               (field "adSlogan") first second date)]
      else downloads (page b).
Proof.
  intros Hb Hr. simpl handle. rewrite downloadAssets_cases, Hr. cbv zeta.
  assert (exists fs x y, body = JObj fs /\ NoDup fs.*1 /\
            lookup_field "imageUrls" fs = JArr [x; y])
    as (fs & x & y & -> & Hnd & Hu).
  { destruct Hb as [urls bi audio (x & y & ->)|urls bi message (x & y & ->)];
      eexists _, x, y; (split_and!; [done| |done]);
      apply (bool_decide_unpack _); by vm_compute. }
  rewrite jsonify_obj. cbn [get_opt].
  assert (lookup_field "imageUrls" (jsonify_fields fs) = JArr [jsonify x; jsonify y])
    as Hu' by (by rewrite lookup_jsonify_fields, Hu).
  exists (jsonify x), (jsonify y). split; [done|].
  rewrite (download_content_two _ date _ _ Hu') by apply jsonify_defined.
  cbv zeta. by destruct (forallb _ _).
Qed.

(** ** What the page shows for an answer of the server *)

(** The page's reading of an answer outside 2xx: never the connection
    message, always the server's. *)
Lemma error_report_answer r :
  error_report (axios_error r)
  = (let reason := js_or (get_opt (jsonify (r_body r)) "error")
                     (JStr (statusText (r_status r))) in
     message ← template [reason] ("Server error: " +:+ to_string reason);
     Ok (message,
         "Error: " +:+ pretty (r_status r) +:+ " " +:+ statusText (r_status r))).
Proof.
  unfold error_report, axios_error. cbn [err_code err_text err_response].
  rewrite includes_number_false; [|done|by apply (bool_decide_unpack _)].
  by destruct (_ && _).
Qed.

Lemma error_report_failure status message :
  message <> "" ->
  error_report (axios_error (answer status message))
  = Ok ("Server error: " +:+ message,
        "Error: " +:+ pretty status +:+ " " +:+ statusText status).
Proof.
  intros Hm%String.eqb_neq. rewrite error_report_answer. unfold js_or. simpl.
  by rewrite Hm.
Qed.

Lemma failure_messages_nonempty message : message ∈ failure_messages -> message <> "".
Proof.
  unfold failure_messages. rewrite !elem_of_cons, elem_of_nil.
  by intros [->|[->|[->|[->|[]]]]].
Qed.

Section Outcome.
Context `{Platform} (scope : ModuleScope) (toISOString : Z -> string).
Context (b : Browser).
Hypothesis prompt : transcript (recognition b) <> "".

Lemma pipeline_session w :
  exists r,
    assets_contract r /\
    (generate_session local_origin (pipeline_routes scope) b w).1
    = settle (length (pending (loop b))) (axios_settle r) (handleGenerate b).
Proof.
  destruct (answers_run _ _ w
    (contract_prompted scope (JObj [("userPrompt", JStr (transcript (recognition b)))])
       _ eq_refl (prompt_truthy b prompt))) as ([] & r & _ & Hr & Hc).
  exists r. split; [done|]. by eapply generate_session_answer.
Qed.

(** C13.  The page and the pipeline together.  When a prompt is recorded and
    the request of [handleGenerate] is served by the handler of line 520,
    the page ends idle, with its request gone, in one of two states,
    whatever the services answer: it holds the body of an answer with status
    200 as its results, no error, and the success notification; or it holds
    no results, the error "Server error: " followed by one of the four
    messages of the handler's [catch] blocks, and the notification of
    status 500.  The answer 400 of line 528 cannot be shown: a recorded
    prompt is not empty. *)
Theorem pipeline_session_outcome w :
  let b' := (generate_session local_origin (pipeline_routes scope) b w).1 in
  isLoading (gen b') = false /\ pending (loop b') = pending (loop b) /\
  ((exists body,
      assets_answer body /\ results (gen b') = jsonify body /\
      error (gen b') = None /\
      notificationMessage (note b') = "Marketing assets generated successfully!") \/
   (exists message,
      message ∈ failure_messages /\ results (gen b') = JNull /\
      error (gen b') = Some ("Server error: " +:+ message) /\
      notificationMessage (note b') = "Error: 500 Internal Server Error")).
Proof.
  destruct (pipeline_session w) as (r & Hc & ->). cbv zeta.
  destruct Hc as [body Hb|message Hm].
  - change (axios_settle _) with (Resolved (jsonify body)).
    destruct (settle_resolved b prompt (jsonify body)) as (Hg & Hn & Hp).
    rewrite Hg, Hn, Hp. split_and!; [done..|]. left. by exists body.
  - change (axios_settle _) with (Rejected (axios_error (answer 500 message))).
    destruct (settle_rejected b prompt _ _ _
                (error_report_failure 500 message (failure_messages_nonempty _ Hm)))
      as (Hg & Hn & Hp).
    rewrite Hg, Hn, Hp. split_and!; [done..|]. right. by exists message.
Qed.

(** A request answered with the 400 of a handler that asks for other
    fields. *)
Lemma missing_fields_session routes w :
  sent_of (dispatch routes POST "/api/generate"
             (JObj [("userPrompt", JStr (transcript (recognition b)))])) w
  = [answer 400 "Missing required fields"] ->
  let b' := (generate_session local_origin routes b w).1 in
  isLoading (gen b') = false /\ results (gen b') = JNull /\
  error (gen b') = Some "Server error: Missing required fields" /\
  notificationMessage (note b') = "Error: 400 Bad Request".
Proof.
  intros Hr. rewrite (generate_session_answer b prompt _ w _ _ Hr).
  cbv zeta. change (axios_settle _)
    with (Rejected (axios_error (answer 400 "Missing required fields"))).
  destruct (settle_rejected b prompt _ _ _
              (error_report_failure 400 "Missing required fields" ltac:(done)))
    as (Hg & Hn & Hp).
  by rewrite Hg, Hn.
Qed.

Lemma registered_answer up w :
  sent_of (dispatch (server_js_routes scope toISOString) POST "/api/generate"
             (JObj [("userPrompt", up)])) w
  = [answer 400 "Missing required fields"].
Proof.
  unfold sent_of. rewrite generate_shadowed.
  rewrite (generate_legacy_missing _ JUndefined JUndefined JUndefined) by done.
  simpl. by rewrite drop_app_length.
Qed.

(** C15.  The page and server.js with the routes it would register (the
    file does not parse as it stands; the table is the one of its seven
    registrations in the order of the text).  The request of
    [handleGenerate] holds [userPrompt] and nothing else, and the handler
    registered first for POST /api/generate, at line 129, asks for three
    other fields: whatever was recorded and whatever the services would
    answer, the page ends with no results, the error "Server error: Missing
    required fields" and the notification "Error: 400 Bad Request". *)
Theorem registered_session_outcome w :
  let b' := (generate_session local_origin (server_js_routes scope toISOString) b w).1 in
  isLoading (gen b') = false /\ results (gen b') = JNull /\
  error (gen b') = Some "Server error: Missing required fields" /\
  notificationMessage (note b') = "Error: 400 Bad Request".
Proof. apply missing_fields_session, registered_answer. Qed.

(** The page and server3.js: the same end, for the same reason. *)
Theorem server3_session_outcome w :
  let b' := (generate_session local_origin (server3_js_routes toISOString) b w).1 in
  isLoading (gen b') = false /\ results (gen b') = JNull /\
  error (gen b') = Some "Server error: Missing required fields" /\
  notificationMessage (note b') = "Error: 400 Bad Request".
Proof.
  apply missing_fields_session. unfold sent_of.
  rewrite userPrompt_rejected3. simpl. by rewrite drop_app_length.
Qed.

End Outcome.

(** ** The concept session *)

Section ConceptSession.
Context `{Platform} (scope : ModuleScope).
Context (b : Browser) (image : string).
Hypothesis selected : selectedReferenceImage (visual b) = Some image.
Hypothesis image_url : image <> "".
Hypothesis has_results : truthy (results (gen b)) = true.

Let i := length (pending (loop b)).

Lemma selected_truthy : truthy (selected_image (visual b)) = true.
Proof.
  unfold selected_image. rewrite selected. simpl.
  by apply negb_true_iff, String.eqb_neq.
Qed.

Lemma concept_request_pending :
  pending (loop (handleGenerateVisualConcept b)) !! i
  = Some {| req_url := concept_url; req_body := concept_request_body (results (gen b)) image;
            req_then := AfterConcept |}.
Proof.
  unfold handleGenerateVisualConcept. rewrite selected_truthy, has_results. simpl.
  unfold selected_image. rewrite selected. apply lookup_snoc.
Qed.

Lemma settle_concept_resolved data :
  let b' := settle i (Resolved data) (handleGenerateVisualConcept b) in
  visual b' = {| selectedReferenceImage := Some image; visualConcept := data;
                 isGeneratingConcept := false; visualConceptError := JNull |} /\
  gen b' = gen b /\ pending (loop b') = pending (loop b).
Proof.
  unfold settle. rewrite concept_request_pending. unfold handleGenerateVisualConcept.
  rewrite selected_truthy, has_results. simpl. unfold i. rewrite delete_snoc.
  unfold set_isGeneratingConcept, set_visualConcept, set_visualConceptError. simpl.
  by rewrite selected.
Qed.

Lemma settle_concept_rejected err :
  let b' := settle i (Rejected err) (handleGenerateVisualConcept b) in
  visual b' = {| selectedReferenceImage := Some image;
                 visualConcept := visualConcept (visual b);
                 isGeneratingConcept := false;
                 visualConceptError := concept_error err |} /\
  gen b' = gen b /\ pending (loop b') = pending (loop b).
Proof.
  unfold settle. rewrite concept_request_pending. unfold handleGenerateVisualConcept.
  rewrite selected_truthy, has_results. simpl. unfold i. rewrite delete_snoc.
  unfold set_isGeneratingConcept, set_visualConcept, set_visualConceptError. simpl.
  by rewrite selected.
Qed.

Lemma concept_error_failure status message :
  message <> "" -> concept_error (axios_error (answer status message)) = JStr message.
Proof.
  intros Hm%String.eqb_neq. unfold concept_error, js_or. simpl. by rewrite Hm.
Qed.

Lemma concept_failure_messages_nonempty message :
  message ∈ concept_failure_messages -> message <> "".
Proof.
  unfold concept_failure_messages. rewrite !elem_of_cons, elem_of_nil.
  by intros [->|[->|[->|[]]]].
Qed.

Lemma concept_session_served w :
  exists r,
    concept_contract (JStr image) r /\
    (concept_session local_origin (pipeline_routes scope) b w).1
    = settle i (axios_settle r) (handleGenerateVisualConcept b).
Proof.
  pose (body := jsonify (concept_request_body (results (gen b)) image)).
  destruct (answers_run _ _ w
    (contract_concept_request body
       (get_opt body "brandIdentity") (JStr image) eq_refl eq_refl eq_refl
       ltac:(by simpl; apply negb_true_iff, String.eqb_neq)))
    as ([] & r & _ & Hr & Hc).
  exists r. split; [done|]. unfold concept_session.
  eapply serve_answer; [apply concept_request_pending|by vm_compute|apply Hr].
Qed.

(** C36.  The page and the concept endpoint together.  When a reference
    image is selected and results are held, a click on the concept button
    served by the handler of line 797 leaves the page with its request
    gone, [isGeneratingConcept] lowered and the generation state untouched,
    in one of two states, whatever the services answer: it holds the
    answer, the model's object with the reference, and no concept error; or
    it keeps the concept it had and holds one of the three messages of the
    handler as concept error.  The answer 400 of line 805 cannot occur. *)
Theorem concept_session_outcome w :
  let b' := (concept_session local_origin (pipeline_routes scope) b w).1 in
  isGeneratingConcept (visual b') = false /\ pending (loop b') = pending (loop b) /\
  gen b' = gen b /\
  ((exists concept,
      visualConcept (visual b')
      = jsonify (JObj [("visualConcept", concept); ("referenceImageUrl", JStr image)]) /\
      visualConceptError (visual b') = JNull) \/
   (exists message,
      message ∈ concept_failure_messages /\
      visualConceptError (visual b') = JStr message /\
      visualConcept (visual b') = visualConcept (visual b))).
Proof.
  destruct (concept_session_served w) as (r & Hc & ->). cbv zeta.
  destruct Hc as [concept|message Hm].
  - change (axios_settle _) with
      (Resolved (jsonify (JObj [("visualConcept", concept);
                                ("referenceImageUrl", JStr image)]))).
    destruct (settle_concept_resolved
                (jsonify (JObj [("visualConcept", concept);
                                ("referenceImageUrl", JStr image)]))) as (Hv & Hg & Hp).
    rewrite Hv, Hg, Hp. split_and!; [done..|]. left. by exists concept.
  - change (axios_settle _) with (Rejected (axios_error (answer 500 message))).
    destruct (settle_concept_rejected (axios_error (answer 500 message)))
      as (Hv & Hg & Hp).
    rewrite Hv, Hg, Hp. cbn [isGeneratingConcept visualConceptError visualConcept].
    rewrite concept_error_failure by auto using concept_failure_messages_nonempty.
    split_and!; [done..|]. right. by exists message.
Qed.

End ConceptSession.

(** ** The concept on the page *)

(** The same for the answer of the concept endpoint as it arrives. *)
Lemma concept_answer_view concept image :
  (exists cv, concept_view (jsonify (JObj [("visualConcept", concept);
                                           ("referenceImageUrl", JStr image)]))
              = Ok (Some cv))
  <-> concept_shape (jsonify concept) = true.
Proof.
  destruct concept; try apply concept_view_shape.
  split; [by intros [cv Hcv]|done].
Qed.

(** C33.  The page shows the answer of the concept endpoint exactly when
    the model gave a [colorPalette] that is an array.  For results that are
    an answer of the pipeline and a visual concept that is an answer with
    status 200 of the concept endpoint, the results block returns a view if
    and only if the concept the model gave, as JSON carries it, has an
    array as [colorPalette]; in every other case, an empty object, a
    string, [null], the block throws a [TypeError] and the page shows
    nothing. *)
Theorem concept_answer_shown body c concept image :
  assets_answer body ->
  visualConcept c = jsonify (JObj [("visualConcept", concept);
                                   ("referenceImageUrl", JStr image)]) ->
  (exists v, results_view (jsonify body) c = Ok v)
  <-> concept_shape (jsonify concept) = true.
Proof.
  intros Hb Hc. destruct (assets_answer_view body c Hb) as (a & b & au & m & -> & _).
  rewrite Hc, <- (concept_answer_view concept image).
  destruct (concept_view _) as [shown|e] eqn:Ecv; simpl.
  - destruct (concept_view_some _ shown (eq_refl : truthy (jsonify (JObj _)) = true) Ecv)
      as [cv ->].
    split; eauto.
  - split; [by intros [v ?]|by intros [cv ?]].
Qed.

(** ** Witnesses and runs *)

Lemma assets_answer_renders_witness :
  exists v,
    results_view (jsonify (results (gen served_page))) (visual served_page) = Ok v /\
    (rv_images v).*2 = ["Instagram Post"; "Website Banner"] /\
    (reconcile v = Ok v <->
     valid_child (get_opt (results (gen served_page)) "mascotDescription") = true /\
     valid_child (get_opt (results (gen served_page)) "visualStyle") = true /\
     valid_child (get_opt (results (gen served_page)) "adSlogan") = true /\
     valid_child (visualConceptError (visual served_page)) = true).
Proof.
  apply (assets_answer_renders (results (gen served_page)) (visual served_page));
    [|reflexivity].
  apply (with_audio (JArr [JStr "https://img/1.png"; JStr "https://img/2.png"])
           sample_identity "b64:mp3").
  by eexists _, _.
Defined.

Lemma download_assets_saved_witness :
  downloads (page (handle flat (ClickDownload "11/8/2026, 10:00:00 AM") served_page))
  = [("vocalize-ai-marketing-assets.txt",
      String.concat newline
        [""%string;
         "        # Marketing Assets Generated by Vocalize AI";
         "        ";
         "        ## Brand Identity";
         "        Mascot: A cheerful fox";
         "        Visual Style: Modern";
         "        Slogan: Fresh";
         "        ";
         "        ## Image URLs";
         "        https://img/1.png";
         "https://img/2.png";
         "        ";
         "        Generated on: 11/8/2026, 10:00:00 AM";
         "        "])].
Proof.
  destruct (download_assets_saved flat (results (gen served_page))
              "11/8/2026, 10:00:00 AM" served_page) as (first & second & Hu & ->);
    [|reflexivity|].
  - apply (with_audio (JArr [JStr "https://img/1.png"; JStr "https://img/2.png"])
             sample_identity "b64:mp3").
    by eexists _, _.
  - vm_compute in Hu. injection Hu as <- <-. by vm_compute.
Defined.

Lemma pipeline_session_outcome_witness :
  let b' := (generate_session local_origin
               (pipeline_routes (H := sample_platform) server_js_scope)
               recorded_page mute_world).1 in
  isLoading (gen b') = false /\ pending (loop b') = pending (loop recorded_page) /\
  ((exists body,
      assets_answer body /\ results (gen b') = jsonify body /\
      error (gen b') = None /\
      notificationMessage (note b') = "Marketing assets generated successfully!") \/
   (exists message,
      message ∈ failure_messages /\ results (gen b') = JNull /\
      error (gen b') = Some ("Server error: " +:+ message) /\
      notificationMessage (note b') = "Error: 500 Internal Server Error")).
Proof.
  apply (pipeline_session_outcome (H := sample_platform) server_js_scope recorded_page).
  by vm_compute.
Defined.

Lemma registered_session_outcome_witness :
  let b' := (generate_session local_origin
               (server_js_routes (H := sample_platform) server_js_scope pretty)
               recorded_page healthy_world).1 in
  isLoading (gen b') = false /\ results (gen b') = JNull /\
  error (gen b') = Some "Server error: Missing required fields" /\
  notificationMessage (note b') = "Error: 400 Bad Request".
Proof.
  apply (registered_session_outcome (H := sample_platform) server_js_scope pretty
           recorded_page).
  by vm_compute.
Defined.

Lemma concept_answer_shown_witness :
  (exists v, results_view (jsonify (results (gen served_page))) (visual concept_page) = Ok v)
  <-> concept_shape (jsonify (JObj [])) = true.
Proof.
  apply (concept_answer_shown (results (gen served_page)) (visual concept_page) (JObj [])
           "https://images.unsplash.com/photo-1559329007-40df8a9345d8?q=80&w=1080&h=1080&fit=crop");
    [|by vm_compute].
  apply (with_audio (JArr [JStr "https://img/1.png"; JStr "https://img/2.png"])
           sample_identity "b64:mp3").
  by eexists _, _.
Defined.

Lemma concept_session_outcome_witness :
  let b := handle flat (ClickImage 0) served_page in
  let b' := (concept_session local_origin
               (pipeline_routes (H := concept_platform) server_js_scope)
               b concept_world).1 in
  isGeneratingConcept (visual b') = false /\ pending (loop b') = pending (loop b) /\
  gen b' = gen b /\
  ((exists concept,
      visualConcept (visual b')
      = jsonify (JObj [("visualConcept", concept);
                       ("referenceImageUrl",
                        JStr "https://images.unsplash.com/photo-1559329007-40df8a9345d8?q=80&w=1080&h=1080&fit=crop")]) /\
      visualConceptError (visual b') = JNull) \/
   (exists message,
      message ∈ concept_failure_messages /\
      visualConceptError (visual b') = JStr message /\
      visualConcept (visual b') = visualConcept (visual b))).
Proof.
  apply (concept_session_outcome (H := concept_platform) server_js_scope
           (handle flat (ClickImage 0) served_page)
           "https://images.unsplash.com/photo-1559329007-40df8a9345d8?q=80&w=1080&h=1080&fit=crop");
    by vm_compute.
Defined.

(** A server started with another [PORT] is not reached: the page posts to
    port 3001 whatever the server listens on. *)
Example other_port_unreachable :
  let b := (generate_session (server_origin (JStr "8080"))
              (pipeline_routes (H := sample_platform) server_js_scope)
              recorded_page healthy_world).1 in
  error (gen b)
  = Some "Cannot connect to backend server. Please make sure the backend is running." /\
  isLoading (gen b) = false /\
  request_path (server_origin (JStr "300")) generate_url = None.
Proof. vm_compute. done. Qed.

(** The text of the download for the sample answer. *)
Example download_text_sample :
  download_content (results (gen served_page)) "11/8/2026, 10:00:00 AM"
  = Ok (newline +:+
        "        # Marketing Assets Generated by Vocalize AI" +:+ newline +:+
        "        " +:+ newline +:+
        "        ## Brand Identity" +:+ newline +:+
        "        Mascot: A cheerful fox" +:+ newline +:+
        "        Visual Style: Modern" +:+ newline +:+
        "        Slogan: Fresh" +:+ newline +:+
        "        " +:+ newline +:+
        "        ## Image URLs" +:+ newline +:+
        "        https://img/1.png" +:+ newline +:+
        "https://img/2.png" +:+ newline +:+
        "        " +:+ newline +:+
        "        Generated on: 11/8/2026, 10:00:00 AM" +:+ newline +:+
        "        ").
Proof. by vm_compute. Qed.

(** An answer with status 200 can take the page down.  The concept
    endpoint answers 200 with whatever object the model gave; here the
    object is empty, the page stores it, and the next render reads
    [colorPalette.map] of [undefined]: [App] throws and nothing is shown,
    while the page is otherwise idle. *)
Example concept_answer_crashes_page :
  visualConcept (visual concept_page)
  = JObj [("visualConcept", JObj []);
          ("referenceImageUrl",
           JStr "https://images.unsplash.com/photo-1559329007-40df8a9345d8?q=80&w=1080&h=1080&fit=crop")] /\
  isGeneratingConcept (visual concept_page) = false /\
  render concept_page
  = Throw (TypeError "Cannot read properties of undefined (reading 'map')") /\
  enabled ClickTheme concept_page = false.
Proof. by vm_compute. Qed.

(** The same for the pipeline: a slogan that the model gives as an object is
    passed on with status 200, and React throws on it. *)
Example object_slogan_crashes_page :
  let b := (generate_session local_origin
              (pipeline_routes (H := object_slogan_platform) server_js_scope)
              recorded_page healthy_world).1 in
  results (gen b)
  = JObj [("imageUrls", JArr [JStr "https://img/1.png"; JStr "https://img/2.png"]);
          ("audioBase64", JStr "mp3");
          ("adSlogan", JObj [("text", JStr "Fresh")]);
          ("useElevenLabs", JBool true)] /\
  render b = Throw (Error "Objects are not valid as a React child").
Proof. by vm_compute. Qed.
