(* ===== verification/Playback.v ===== *)
(** * Playback: the audio from the speech service to the audio element

    The page builds the [src] of its audio element from the field
    [audioBase64] of the answer (App.jsx line 569), which the server filled
    with the base64 of what the speech service sent (server.js lines 665 and
    723).  [played] is what the element has to play for a [src]: the decoded
    payload of a base64 [data:] URL of type audio/mpeg.

    Theorem: with the base64 of Node, whenever the page shows a player
    after an answer of the voice stage, the player plays, byte for byte,
    audio that the speech service sent during that request; the page shows
    no player when both attempts failed, and none when the audio is empty. *)

From Stdlib Require Import ZArith Lia List Bool Ascii String.
From stdpp Require Import base tactics option list strings.
From S2P Require Import Prelude JsString JsValue Effects Base64 Voice Retry Contract.
From S2P Require Import Browser View Wire.

(** ** The audio element *)

(** App.jsx line 569: the head of the [src]. *)
Definition audio_prefix : string := "data:audio/mpeg;base64,".

(** What the element plays for [src]. *)
Definition played (src : string) : option string :=
  if starts_with (chars audio_prefix) (chars src)
  then decode (unchars (drop (String.length audio_prefix) (chars src)))
  else None.

(** ** Sample data *)

(** A catalogue, then audio at the second attempt. *)
Definition retried_world : World :=
  set_voices [Ok sample_catalog]
    (set_speech [Throw network_error; Ok "ID3 audio"] empty_world).

(** The answer to a request in that world. *)
Definition retried_answer : Response :=
  {| r_status := 200;
     r_body := assets_body (JArr []) sample_identity (JStr "SUQzIGF1ZGlv")
                 ("useElevenLabs", JBool true) |}.

(** ** The round trip *)

Lemma played_encode audio : played (audio_prefix +:+ encode audio) = Some audio.
Proof.
  unfold played. rewrite chars_app, starts_with_app.
  rewrite <- chars_length, drop_app_length, string_of_list_ascii_of_string.
  apply decode_encode.
Qed.

Section Playback.
Context (parse : string -> option JsVal) (scope : ModuleScope).

(** What the page shows for the answer of a final phase. *)
Lemma audio_view_phase bi urls p r :
  answer_of (H := node_platform parse) bi urls p = Some r ->
  audio_view (jsonify (r_body r))
  = Ok match p with
       | Audio _ audio =>
         if String.eqb audio "" then Unavailable (JStr audio_fallback)
         else Player (audio_prefix +:+ encode audio)
       | Degraded e => Unavailable (JStr (error_message e))
       | Attempting _ => Unavailable JUndefined
       end.
Proof.
  destruct p as [a|a audio|e]; simpl; [done|intros [= <-]..].
  - etrans; [apply (audio_view_with urls bi (encode audio))|].
    destruct (String.eqb_spec audio "") as [->|Ha]; [done|].
    destruct (String.eqb_spec (encode audio) "") as [He|_]; [|done].
    by apply (proj1 (encode_empty audio)) in He.
  - etrans; [apply (audio_view_without urls bi (error_message e))|].
    by destruct (String.eqb_spec (error_message e) "") as [?%error_message_nonempty|_].
Qed.

(** C20.  The page plays what the speech service sent.  For an answer of the
    voice stage with status 200, on a server whose base64 is the one of
    Node, the audio block of the page does not throw, and what it shows is
    decided as follows: a player, and then the player plays, byte for byte,
    a non-empty audio that is one of the first two replies of the speech
    service to this request; or the message of a degraded answer; or, when
    the service sent an empty audio, the fall-back message of the page. *)
Theorem page_plays_what_was_sent bi urls w r :
  sent_of (voice_stage (H := node_platform parse) scope bi urls) w = [r] ->
  r_status r = 200%Z ->
  match audio_view (jsonify (r_body r)) with
  | Ok (Player src) =>
    exists audio,
      Ok audio ∈ take 2 (w_speech w) /\ audio <> "" /\ played src = Some audio
  | Ok (Unavailable message) =>
    (exists e, message = JStr (error_message e)) \/
    (Ok "" ∈ take 2 (w_speech w) /\ message = JStr audio_fallback)
  | Throw _ => False
  end.
Proof.
  intros Hs Hr.
  destruct (voice_stage_cases (H := node_platform parse) scope bi urls w)
    as [[Hf _]|(sv & Ha & _)].
  { rewrite Hs in Hf. injection Hf as ->. done. }
  cbv zeta in Ha. rewrite Hs in Ha. simpl in Ha. injection Ha as Ha.
  rewrite (audio_view_phase _ _ _ _ (eq_sym Ha)).
  destruct (feed _ _) as [a|a audio|e] eqn:Ef; [done| |by left; exists e].
  apply audio_was_sent in Ef.
  destruct (String.eqb_spec audio "") as [->|Hne]; [by right|].
  exists audio. split_and!; [done..|apply played_encode].
Qed.

End Playback.

Lemma page_plays_what_was_sent_witness :
  match audio_view (jsonify (r_body retried_answer)) with
  | Ok (Player src) =>
    exists audio,
      Ok audio ∈ take 2 (w_speech retried_world) /\ audio <> "" /\
      played src = Some audio
  | Ok (Unavailable message) =>
    (exists e, message = JStr (error_message e)) \/
    (Ok "" ∈ take 2 (w_speech retried_world) /\ message = JStr audio_fallback)
  | Throw _ => False
  end.
Proof.
  apply (page_plays_what_was_sent (fun _ => None) with_rachel sample_identity
           (JArr []) retried_world retried_answer); vm_compute; reflexivity.
Defined.

(** The run of the witness: the retry gave the audio, and the player plays
    it. *)
Example retried_audio_played :
  audio_view (jsonify (r_body retried_answer))
  = Ok (Player "data:audio/mpeg;base64,SUQzIGF1ZGlv") /\
  played "data:audio/mpeg;base64,SUQzIGF1ZGlv" = Some "ID3 audio".
Proof. split; vm_compute; reflexivity. Qed.

(** An empty audio is answered as a success and shown as a failure. *)
Example empty_audio_unavailable :
  let w := set_voices [Ok sample_catalog] (set_speech [Ok ""] empty_world) in
  exists r,
    sent_of (voice_stage (H := node_platform (fun _ => None)) server_js_scope
               sample_identity (JArr [])) w = [r] /\
    get (r_body r) "useElevenLabs" = Ok (JBool true) /\
    audio_view (jsonify (r_body r)) = Ok (Unavailable (JStr audio_fallback)).
Proof. eexists. split_and!; vm_compute; reflexivity. Qed.
